(** * AIgentOS kernel API: prompt composition, context compaction and
      baseline orchestration.

    A shallow embedding of [kernel/api/prompts.py], [kernel/api/storage.py],
    [kernel/api/models.py], [kernel/api/settings.py], [kernel/api/llm.py] and
    [kernel/api/main.py], followed by the properties of the token estimator,
    the prompt composer, the context compactor, the prompt-profile store and
    the baseline job.

    Conventions of the embedding.
    - A Python [str] is a [string]; every [ascii] stands for one code point
      (the Latin-1 range), so [len] is [String.length].
    - A Python [int] is a [Z].  A Python [float] is an IEEE-754 binary64
      value, represented by [spec_float] with [prec = 53], [emax = 1024].
    - A function that may raise returns a [Py.result]; a loop whose bound is
      not syntactic runs on fuel, and [Py.OutOfFuel] is the outcome of a run
      that exhausts it.
    - SQLite tables are lists of rows in rowid order, or a finite map under
      the primary key where a table is only read through it; values that
      the code draws from the environment (clock, uuid4, the model backend,
      the prompt files on disk) are arguments. *)

From Stdlib Require Import ZArith String Ascii List Lia Bool Sorting.Sorted
  Sorting.Permutation DecimalString.
From Corelib Require Import SpecFloat.
From stdpp Require Import gmap strings list.

Local Open Scope string_scope.
Local Open Scope list_scope.
Local Open Scope Z_scope.

(** ** The Python fragment used by the sources *)

Module Py.

(** Exceptions that the modelled code can raise. *)
Inductive exn : Type :=
| TypeError (msg : string)
| ValueError (msg : string)
| OverflowError (msg : string)
| IndexError (msg : string)
| KeyError (key : string)
| IntegrityError (msg : string)
| RuntimeError (msg : string)
| HTTPError (msg : string)
| HTTPStatusError (status_code : Z)
| HTTPException (status_code : Z) (detail : string)
| RequestValidationError (field : string).

Inductive result (A : Type) : Type :=
| Ok (a : A)
| Raise (e : exn)
| OutOfFuel.
Arguments Ok {A} a.
Arguments Raise {A} e.
Arguments OutOfFuel {A}.

Definition bind {A B : Type} (m : result A) (k : A -> result B) : result B :=
  match m with
  | Ok a => k a
  | Raise e => Raise e
  | OutOfFuel => OutOfFuel
  end.

(** [len(s)] *)
Definition len (s : string) : Z := Z.of_nat (String.length s).

(** [str.isspace] on one code point below 256. *)
Definition isspace (c : ascii) : bool :=
  let n := nat_of_ascii c in
  ((9 <=? n)%nat && (n <=? 13)%nat)
  || ((28 <=? n)%nat && (n <=? 32)%nat)
  || (n =? 133)%nat || (n =? 160)%nat.

Fixpoint lstrip (s : string) : string :=
  match s with
  | EmptyString => EmptyString
  | String c r => if isspace c then lstrip r else s
  end.

Fixpoint rstrip (s : string) : string :=
  match s with
  | EmptyString => EmptyString
  | String c r =>
      match rstrip r with
      | EmptyString => if isspace c then EmptyString else String c EmptyString
      | r' => String c r'
      end
  end.

(** [s.strip()] *)
Definition strip (s : string) : string := rstrip (lstrip s).

(** Truthiness of a [str]: [bool(s)]. *)
Definition truthy (s : string) : bool :=
  match s with EmptyString => false | String _ _ => true end.

(** [sep.join(parts)] *)
Fixpoint join (sep : string) (parts : list string) : string :=
  match parts with
  | [] => EmptyString
  | [p] => p
  | p :: ps => p +:+ sep +:+ join sep ps
  end.

(** [sorted(xs, key=key)]: Python's sort is stable; so is this insertion
    sort, which puts an element before the first one of a strictly
    greater key among those that followed it. *)
Section Sorted.
Context {A : Type} (key : A -> Z).

Fixpoint insert_sorted (x : A) (l : list A) : list A :=
  match l with
  | [] => [x]
  | y :: ys => if key x <=? key y then x :: y :: ys
               else y :: insert_sorted x ys
  end.

Definition sorted (l : list A) : list A := foldr insert_sorted [] l.
End Sorted.

(** [xs.insert(i, x)] for [0 <= i]: an index past the end appends. *)
Definition list_insert {A : Type} (i : nat) (x : A) (xs : list A) : list A :=
  take i xs ++ x :: drop i xs.

(** [xs.pop(i)] for [0 <= i]: the list without position [i]. *)
Definition list_pop {A : Type} (i : nat) (xs : list A) : result (A * list A) :=
  match xs !! i with
  | Some x => Ok (x, take i xs ++ drop (S i) xs)
  | None => Raise (IndexError "pop index out of range")
  end.

(** [while cond(s): s = body(s)] *)
Fixpoint while {S : Type} (cond : S -> bool) (body : S -> result S)
    (fuel : nat) (s : S) : result S :=
  if cond s then
    match fuel with
    | O => OutOfFuel
    | Datatypes.S fuel' => bind (body s) (while cond body fuel')
    end
  else Ok s.

(** [range(n)] as integers. *)
Definition range (n : nat) : list Z := map Z.of_nat (seq 0 n).

(** [enumerate(xs)] *)
Definition enumerate {A : Type} (xs : list A) : list (Z * A) :=
  zip (range (length xs)) xs.

(** [str(n)] for an [int]. *)
Definition str_of_int (n : Z) : string :=
  NilZero.string_of_int (Z.to_int n).

(** [a % b] for [b > 0] is [Z.modulo]; [math.ceil(a / b)] on integers
    whose quotient a binary64 holds exactly. *)
Definition ceil_div (a b : Z) : Z := - ((- a) / b).

(** *** binary64 *)
Definition float : Type := spec_float.
Definition prec : Z := 53.
Definition emax : Z := 1024.

(** Conversion of an [int] operand in [int * float]; an [int] too large
    for a binary64 raises. *)
Definition float_of_int (z : Z) : result float :=
  match binary_normalize prec emax z 0 false with
  | S754_infinity _ => Raise (OverflowError "int too large to convert to float")
  | f => Ok f
  end.

Definition fmul (x y : float) : float := SFmul prec emax x y.
Definition fle (x y : float) : bool := SFleb x y.

(** The binary64 nearest to the decimal literal [n / d], for integers
    that a binary64 holds exactly: correctly rounded division. *)
Definition float_lit (n d : Z) : float :=
  SFdiv prec emax (binary_normalize prec emax n 0 false)
                  (binary_normalize prec emax d 0 false).

(** [int(x)] for a [float]: truncation toward zero. *)
Definition int_of_float (x : float) : result Z :=
  match x with
  | S754_zero _ => Ok 0
  | S754_infinity _ => Raise (OverflowError "cannot convert float infinity to integer")
  | S754_nan => Raise (ValueError "cannot convert float NaN to integer")
  | S754_finite s m e =>
      let mag := if 0 <=? e then Z.shiftl (Zpos m) e
                 else Z.shiftr (Zpos m) (- e) in
      Ok (if s then - mag else mag)
  end.

(** [math.floor(x)] for a [float]. *)
Definition floor_of_float (x : float) : result Z :=
  match x with
  | S754_zero _ => Ok 0
  | S754_infinity _ => Raise (OverflowError "cannot convert float infinity to integer")
  | S754_nan => Raise (ValueError "cannot convert float NaN to integer")
  | S754_finite s m e =>
      let n := if s then Zneg m else Zpos m in
      Ok (if 0 <=? e then Z.shiftl n e else Z.shiftr n (- e))
  end.

(** [s[:n]] for [0 <= n] *)
Definition slice_to (n : nat) (s : string) : string := String.substring 0 n s.

(** [s.replace(old, new)] for two strings of one character each. *)
Fixpoint replace_char (old new : ascii) (s : string) : string :=
  match s with
  | EmptyString => EmptyString
  | String c r =>
      String (if Ascii.eqb c old then new else c) (replace_char old new r)
  end.

(** [x or default] for a [str]. *)
Definition or_else (x default : string) : string :=
  if truthy x then x else default.

End Py.

(** Code that changes a state [W] and may raise: the state at the time of
    the exception is kept, as a committed transaction or a mutated dict is. *)
Definition M (W A : Type) : Type := W -> Py.result A * W.

Definition M_ret {W A : Type} (a : A) : M W A := fun w => (Py.Ok a, w).

Definition M_bind {W A B : Type} (k : A -> M W B) (m : M W A) : M W B :=
  fun w =>
    match m w with
    | (Py.Ok a, w') => k a w'
    | (Py.Raise e, w') => (Py.Raise e, w')
    | (Py.OutOfFuel, w') => (Py.OutOfFuel, w')
    end.

Definition M_raise {W A : Type} (e : Py.exn) : M W A := fun w => (Py.Raise e, w).
Definition M_get {W : Type} : M W W := fun w => (Py.Ok w, w).
Definition M_put {W : Type} (w : W) : M W unit := fun _ => (Py.Ok tt, w).
Definition M_modify {W : Type} (f : W -> W) : M W unit := fun w => (Py.Ok tt, f w).

(** A pure computation that may raise, run inside stateful code. *)
Definition M_lift {W A : Type} (r : Py.result A) : M W A := fun w => (r, w).

(** [for x in xs: body(x)] *)
Fixpoint M_for {W A : Type} (xs : list A) (body : A -> M W unit) : M W unit :=
  match xs with
  | [] => M_ret tt
  | x :: xs' => M_bind (fun _ => M_for xs' body) (body x)
  end.

#[global] Instance M_mret (W : Type) : MRet (M W) := fun A => @M_ret W A.
#[global] Instance M_mbind (W : Type) : MBind (M W) := fun A B => @M_bind W A B.

#[global] Instance result_ret : MRet Py.result := fun A => @Py.Ok A.
#[global] Instance result_bind : MBind Py.result := fun A B k m => Py.bind m k.

(** ** kernel/api/llm.py *)

Module Llm.

Record ChatMessageIn : Type := {
  role : string;
  content : string;
}.

Record ChatCompletionResult : Type := {
  completion_content : string;
  latency_ms : Z;
  prompt_tokens : option Z;
  completion_tokens : option Z;
  total_tokens : option Z;
}.

(** The model backend, [OllamaClient.chat], is outside the program.  A
    backend answers the [n]-th call of a run (counted from 0) for the
    given messages and token cap with a completion or an exception; the
    wall-clock time that the caller measures around the call comes with
    the answer. *)
Definition backend : Type :=
  nat -> list ChatMessageIn -> option Z -> Py.result (ChatCompletionResult * Z).

End Llm.

(** ** kernel/api/prompts.py *)

Module Prompts.

Record PromptComponent : Type := {
  id : string;
  name : string;
  file_path : string;
  content : string;
  order : Z;
  enabled : bool;
  is_system : bool;
}.

(** The keyword arguments of a call to the dataclass constructor: the
    dataclass declares no default, so every field is required. *)
Record PromptComponent_kwargs : Type := {
  kw_id : option string;
  kw_name : option string;
  kw_file_path : option string;
  kw_content : option string;
  kw_order : option Z;
  kw_enabled : option bool;
  kw_is_system : option bool;
}.

(** A call [PromptComponent(id=..., name=..., ...)] with these keywords. *)
Definition PromptComponent__init__ (kw : PromptComponent_kwargs)
    : Py.result PromptComponent :=
  match kw_id kw, kw_name kw, kw_file_path kw, kw_content kw,
        kw_order kw, kw_enabled kw, kw_is_system kw with
  | Some i, Some n, Some f, Some c, Some o, Some e, Some s =>
      Py.Ok {| id := i; name := n; file_path := f; content := c;
               order := o; enabled := e; is_system := s |}
  | _, _, _, _, _, _, _ =>
      Py.Raise (Py.TypeError "__init__() missing required argument")
  end.

Definition fallback_prompt : string := "You are a helpful local AI assistant.".

(** The separator of [compose_system_prompt]: two line feeds. *)
Definition blank_line : string :=
  String (ascii_of_nat 10) (String (ascii_of_nat 10) EmptyString).

(** The condition of the comprehension in [compose_system_prompt]. *)
Definition kept (c : PromptComponent) : bool :=
  enabled c && Py.truthy (Py.strip (content c)).

Definition compose_system_prompt (components : list PromptComponent) : string :=
  let enabled :=
    map (fun c => Py.strip (content c))
        (List.filter kept (Py.sorted order components)) in
  match enabled with
  | [] => fallback_prompt
  | _ => Py.join blank_line enabled
  end.

End Prompts.

(** ** kernel/api/settings.py *)

Module Settings.

Record Settings : Type := {
  aigent_tenant_id : string;
  ollama_base_url : string;
  ollama_model : string;
  ollama_context_window : Z;
  ollama_max_response_tokens : Z;
  chat_db_path : string;
  default_agent_id : string;
}.

(** [_int_env(name, default, min_value)] on the value of the variable:
    [None] when it is unset or does not parse as an [int]. *)
Definition _int_env (raw : option Z) (default min_value : Z) : Z :=
  match raw with
  | None => default
  | Some value => if value <? min_value then default else value
  end.

(** [get_settings()]: [getenv] is the process environment and [int] is
    Python's [int] on a [str], [None] where it raises [ValueError]. *)
Definition get_settings (getenv : string -> option string)
    (int : string -> option Z) : Settings :=
  {| aigent_tenant_id := default "default" (getenv "AIGENT_TENANT_ID");
     ollama_base_url :=
       default "http://host.docker.internal:11434" (getenv "OLLAMA_BASE_URL");
     ollama_model := default "llama3.2:3b" (getenv "OLLAMA_MODEL");
     ollama_context_window :=
       _int_env (getenv "OLLAMA_CONTEXT_WINDOW" ≫= int) 4096 256;
     ollama_max_response_tokens :=
       _int_env (getenv "OLLAMA_MAX_RESPONSE_TOKENS" ≫= int) 512 16;
     chat_db_path := default "/app/models-local/chat.db" (getenv "CHAT_DB_PATH");
     default_agent_id := default "basic" (getenv "AIGENT_AGENT_ID") |}.

End Settings.

(** ** kernel/api/storage.py *)

Module Storage.

Definition default_compaction_instructions : string :=
  "If the conversation is approaching context limits, prioritize preserving the user's latest objective, "
  +:+ "decisions, constraints, and unresolved questions. Summarize older turns into concise bullet points and "
  +:+ "drop low-value details, while keeping critical facts and commitments intact.".

Record StoredMessage : Type := {
  msg_id : string;
  msg_role : string;
  msg_content : string;
  msg_created_at : string;
}.

Record StoredPromptProfile : Type := {
  id : string;
  tenant_id : string;
  name : string;
  is_default : bool;
  is_active : bool;
  updated_at : string;
}.

Record StoredContextSettings : Type := {
  cs_tenant_id : string;
  max_context_tokens : Z;
  max_response_tokens : Z;
  compact_trigger_pct : Py.float;
  compact_instructions : string;
  cs_updated_at : string;
}.

(** A row of [prompt_profiles]; the two flags are the INTEGER columns
    that only ever hold 0 or 1. *)
Record profile_row : Type := {
  pr_id : string;
  pr_tenant_id : string;
  pr_name : string;
  pr_is_default : bool;
  pr_is_active : bool;
  pr_created_at : string;
  pr_updated_at : string;
}.

(** A row of [prompt_component_overrides]; [content] and [enabled] are
    nullable. *)
Record override_row : Type := {
  ov_id : string;
  ov_profile_id : string;
  ov_component_id : string;
  ov_content : option string;
  ov_enabled : option bool;
  ov_updated_at : string;
}.

(** The value of one key of the dict that [get_prompt_overrides] returns. *)
Record override : Type := {
  o_content : option string;
  o_enabled : option bool;
}.

(** The database, as far as prompt profiles, overrides and context
    settings go.  [prompt_profiles] and [prompt_component_overrides] are
    in rowid order, which is the order of a scan without [ORDER BY];
    [prompt_context_settings] is only ever reached through its primary
    key [tenant_id].  A REAL column holds any binary64 here; SQLite itself
    stores a NaN as NULL, which the NOT NULL columns refuse. *)
Record ChatStore : Type := {
  prompt_profiles : list profile_row;
  prompt_component_overrides : list override_row;
  prompt_context_settings : gmap string StoredContextSettings;
}.

Definition empty_store : ChatStore :=
  {| prompt_profiles := [];
     prompt_component_overrides := [];
     prompt_context_settings := ∅ |}.

Definition with_profiles (rows : list profile_row) (db : ChatStore) : ChatStore :=
  {| prompt_profiles := rows;
     prompt_component_overrides := prompt_component_overrides db;
     prompt_context_settings := prompt_context_settings db |}.

Definition with_overrides (rows : list override_row) (db : ChatStore) : ChatStore :=
  {| prompt_profiles := prompt_profiles db;
     prompt_component_overrides := rows;
     prompt_context_settings := prompt_context_settings db |}.

Definition with_context_settings (t : gmap string StoredContextSettings)
    (db : ChatStore) : ChatStore :=
  {| prompt_profiles := prompt_profiles db;
     prompt_component_overrides := prompt_component_overrides db;
     prompt_context_settings := t |}.

Definition to_profile (r : profile_row) : StoredPromptProfile :=
  {| id := pr_id r; tenant_id := pr_tenant_id r; name := pr_name r;
     is_default := pr_is_default r; is_active := pr_is_active r;
     updated_at := pr_updated_at r |}.

(** [UPDATE prompt_profiles SET is_active = 0 WHERE tenant_id = ?] *)
Definition deactivate_tenant (tenant : string) (rows : list profile_row)
    : list profile_row :=
  map (fun r =>
         if String.eqb (pr_tenant_id r) tenant then
           {| pr_id := pr_id r; pr_tenant_id := pr_tenant_id r;
              pr_name := pr_name r; pr_is_default := pr_is_default r;
              pr_is_active := false;
              pr_created_at := pr_created_at r;
              pr_updated_at := pr_updated_at r |}
         else r) rows.

(** [UPDATE prompt_profiles SET is_active = 1 WHERE id = ?], and with
    [Some now] also [updated_at = ?]. *)
Definition activate_id (profile_id : string) (now : option string)
    (rows : list profile_row) : list profile_row :=
  map (fun r =>
         if String.eqb (pr_id r) profile_id then
           {| pr_id := pr_id r; pr_tenant_id := pr_tenant_id r;
              pr_name := pr_name r; pr_is_default := pr_is_default r;
              pr_is_active := true;
              pr_created_at := pr_created_at r;
              pr_updated_at := default (pr_updated_at r) now |}
         else r) rows.

(** [UPDATE prompt_profiles SET updated_at = ? WHERE id = ?] *)
Definition touch_profile (profile_id now : string) (rows : list profile_row)
    : list profile_row :=
  map (fun r =>
         if String.eqb (pr_id r) profile_id then
           {| pr_id := pr_id r; pr_tenant_id := pr_tenant_id r;
              pr_name := pr_name r; pr_is_default := pr_is_default r;
              pr_is_active := pr_is_active r;
              pr_created_at := pr_created_at r;
              pr_updated_at := now |}
         else r) rows.

(** [INSERT INTO prompt_profiles]: [id] is the primary key. *)
Definition insert_profile (r : profile_row) (rows : list profile_row)
    : Py.result (list profile_row) :=
  if existsb (fun r' => String.eqb (pr_id r') (pr_id r)) rows
  then Py.Raise (Py.IntegrityError "UNIQUE constraint failed: prompt_profiles.id")
  else Py.Ok (rows ++ [r]).

(** Every method runs in one connection and commits at its end, so a
    method that raises leaves the database as it found it, unless it had
    called another method before. *)

Definition ensure_default_prompt_profile (tenant uuid now : string)
    : M ChatStore StoredPromptProfile := fun db =>
  let rows := prompt_profiles db in
  match List.find (fun r => String.eqb (pr_tenant_id r) tenant && pr_is_default r) rows with
  | Some existing =>
      let db' :=
        if negb (pr_is_active existing)
        then with_profiles
               (activate_id (pr_id existing) None (deactivate_tenant tenant rows)) db
        else db in
      (Py.Ok {| id := pr_id existing; tenant_id := pr_tenant_id existing;
                name := pr_name existing;
                is_default := pr_is_default existing;
                is_active := true;
                updated_at := pr_updated_at existing |}, db')
  | None =>
      match insert_profile
              {| pr_id := uuid; pr_tenant_id := tenant; pr_name := "Default";
                 pr_is_default := true; pr_is_active := true;
                 pr_created_at := now; pr_updated_at := now |} rows with
      | Py.Ok rows' =>
          (Py.Ok {| id := uuid; tenant_id := tenant; name := "Default";
                    is_default := true; is_active := true;
                    updated_at := now |},
           with_profiles rows' db)
      | Py.Raise e => (Py.Raise e, db)
      | Py.OutOfFuel => (Py.OutOfFuel, db)
      end
  end.

Definition get_active_prompt_profile (tenant uuid now : string)
    : M ChatStore StoredPromptProfile :=
  _ ← ensure_default_prompt_profile tenant uuid now;
  db ← M_get;
  match List.find (fun r => String.eqb (pr_tenant_id r) tenant && pr_is_active r)
                  (prompt_profiles db) with
  | Some row => mret (to_profile row)
  | None => M_raise (Py.TypeError "'NoneType' object is not subscriptable")
  end.

Definition create_prompt_profile (tenant name uuid now : string)
    : M ChatStore StoredPromptProfile := fun db =>
  match insert_profile
          {| pr_id := uuid; pr_tenant_id := tenant; pr_name := Py.strip name;
             pr_is_default := false; pr_is_active := false;
             pr_created_at := now; pr_updated_at := now |}
          (prompt_profiles db) with
  | Py.Ok rows' =>
      (Py.Ok {| id := uuid; tenant_id := tenant; name := Py.strip name;
                is_default := false; is_active := false; updated_at := now |},
       with_profiles rows' db)
  | Py.Raise e => (Py.Raise e, db)
  | Py.OutOfFuel => (Py.OutOfFuel, db)
  end.

Definition activate_prompt_profile (tenant profile_id now : string)
    : M ChatStore bool := fun db =>
  let rows := prompt_profiles db in
  match List.find (fun r => String.eqb (pr_id r) profile_id
                            && String.eqb (pr_tenant_id r) tenant) rows with
  | None => (Py.Ok false, db)
  | Some _ =>
      (Py.Ok true,
       with_profiles
         (activate_id profile_id (Some now) (deactivate_tenant tenant rows)) db)
  end.

(** The rows of a profile, turned into the dict keyed by component id. *)
Definition get_prompt_overrides (profile_id : string) (db : ChatStore)
    : gmap string override :=
  foldl (fun overrides row =>
           <[ ov_component_id row :=
                {| o_content := ov_content row; o_enabled := ov_enabled row |} ]>
             overrides)
        ∅
        (List.filter (fun row => String.eqb (ov_profile_id row) profile_id)
                     (prompt_component_overrides db)).

(** [COALESCE(?, column)] *)
Definition coalesce {A : Type} (new old : option A) : option A :=
  match new with Some _ => new | None => old end.

Definition upsert_prompt_override (profile_id component_id : string)
    (content : option string) (enabled : option bool) (uuid now : string)
    : M ChatStore unit := fun db =>
  let rows := prompt_component_overrides db in
  let same row := String.eqb (ov_profile_id row) profile_id
                  && String.eqb (ov_component_id row) component_id in
  let rows' :=
    match List.find same rows with
    | None =>
        if existsb (fun row => String.eqb (ov_id row) uuid) rows
        then Py.Raise (Py.IntegrityError
               "UNIQUE constraint failed: prompt_component_overrides.id")
        else Py.Ok (rows ++ [ {| ov_id := uuid; ov_profile_id := profile_id;
                                 ov_component_id := component_id;
                                 ov_content := content; ov_enabled := enabled;
                                 ov_updated_at := now |} ])
    | Some _ =>
        Py.Ok (map (fun row =>
                      if same row then
                        {| ov_id := ov_id row;
                           ov_profile_id := ov_profile_id row;
                           ov_component_id := ov_component_id row;
                           ov_content := coalesce content (ov_content row);
                           ov_enabled := coalesce enabled (ov_enabled row);
                           ov_updated_at := now |}
                      else row) rows)
    end in
  match rows' with
  | Py.Ok rows' =>
      (Py.Ok tt,
       with_profiles (touch_profile profile_id now (prompt_profiles db))
                     (with_overrides rows' db))
  | Py.Raise e => (Py.Raise e, db)
  | Py.OutOfFuel => (Py.OutOfFuel, db)
  end.

Definition reset_prompt_profile (profile_id now : string)
    : M ChatStore unit := fun db =>
  (Py.Ok tt,
   with_profiles (touch_profile profile_id now (prompt_profiles db))
     (with_overrides
        (List.filter (fun row => negb (String.eqb (ov_profile_id row) profile_id))
                     (prompt_component_overrides db))
        db)).

Definition ensure_context_settings (tenant : string)
    (max_context_tokens_ max_response_tokens_ : Z)
    (compact_trigger_pct_ : Py.float) (now : string)
    : M ChatStore StoredContextSettings := fun db =>
  match prompt_context_settings db !! tenant with
  | None =>
      let row := {| cs_tenant_id := tenant;
                    max_context_tokens := max_context_tokens_;
                    max_response_tokens := max_response_tokens_;
                    compact_trigger_pct := compact_trigger_pct_;
                    compact_instructions := default_compaction_instructions;
                    cs_updated_at := now |} in
      (Py.Ok row,
       with_context_settings (<[tenant := row]> (prompt_context_settings db)) db)
  | Some row =>
      if String.eqb (Py.strip (compact_instructions row)) "" then
        let row' := {| cs_tenant_id := cs_tenant_id row;
                       max_context_tokens := max_context_tokens row;
                       max_response_tokens := max_response_tokens row;
                       compact_trigger_pct := compact_trigger_pct row;
                       compact_instructions := default_compaction_instructions;
                       cs_updated_at := now |} in
        (Py.Ok row',
         with_context_settings (<[tenant := row']> (prompt_context_settings db)) db)
      else (Py.Ok row, db)
  end.

Definition update_context_settings (tenant : string)
    (max_context_tokens_ max_response_tokens_ : option Z)
    (compact_trigger_pct_ : option Py.float)
    (compact_instructions_ : option string) (now : string)
    : M ChatStore StoredContextSettings :=
  current ← ensure_context_settings tenant 4096 512 (Py.float_lit 9 10) now;
  _ ← M_modify (fun db =>
        with_context_settings
          (alter (fun row =>
             {| cs_tenant_id := cs_tenant_id row;
                max_context_tokens :=
                  default (max_context_tokens current) max_context_tokens_;
                max_response_tokens :=
                  default (max_response_tokens current) max_response_tokens_;
                compact_trigger_pct :=
                  default (compact_trigger_pct current) compact_trigger_pct_;
                compact_instructions :=
                  default (compact_instructions current) compact_instructions_;
                cs_updated_at := now |}) tenant (prompt_context_settings db))
          db);
  ensure_context_settings tenant 4096 512 (Py.float_lit 9 10) now.

(** *** Conversations, messages and performance exchanges

    The tables of the chat history.  The methods on them touch no other
    table and the methods above touch none of these, so they run on a
    state of their own; the tables are in rowid order.  No connection
    turns on [PRAGMA foreign_keys], so the foreign keys of the schema are
    not enforced. *)

Record conversation_row : Type := {
  cv_id : string;
  cv_title : string;
  cv_created_at : string;
  cv_updated_at : string;
}.

Record message_row : Type := {
  mr_id : string;
  mr_conversation_id : string;
  mr_role : string;
  mr_content : string;
  mr_created_at : string;
}.

(** The dataclass, and a row of [performance_exchanges], which has the
    same columns. *)
Record StoredPerformanceExchange : Type := {
  pe_id : string;
  pe_conversation_id : string;
  pe_created_at : string;
  user_preview : string;
  assistant_preview : string;
  total_latency_ms : Z;
  llm_latency_ms : Z;
  prompt_tokens : option Z;
  completion_tokens : option Z;
  total_tokens : option Z;
  system_chars : Z;
  user_chars : Z;
  assistant_chars : Z;
  system_tokens_est : option Z;
  user_tokens_est : option Z;
  assistant_tokens_est : option Z;
}.

Record ConversationTables : Type := {
  conversations : list conversation_row;
  messages : list message_row;
  performance_exchanges : list StoredPerformanceExchange;
}.

Definition with_conversations (rows : list conversation_row)
    (db : ConversationTables) : ConversationTables :=
  {| conversations := rows; messages := messages db;
     performance_exchanges := performance_exchanges db |}.

Definition with_messages (rows : list message_row)
    (db : ConversationTables) : ConversationTables :=
  {| conversations := conversations db; messages := rows;
     performance_exchanges := performance_exchanges db |}.

Definition with_performance_exchanges (rows : list StoredPerformanceExchange)
    (db : ConversationTables) : ConversationTables :=
  {| conversations := conversations db; messages := messages db;
     performance_exchanges := rows |}.

(** [ORDER BY] on rows that come in rowid order: [le a b] says that [a]
    may come before [b]; rows that the order does not tell apart stay in
    rowid order, as they do in SQLite's sorter. *)
Section OrderBy.
Context {A : Type} (le : A -> A -> bool).

Fixpoint insert_by (x : A) (l : list A) : list A :=
  match l with
  | [] => [x]
  | y :: ys => if le x y then x :: y :: ys else y :: insert_by x ys
  end.

Definition order_by (l : list A) : list A := foldr insert_by [] l.
End OrderBy.

(** [UPDATE conversations SET title = ? WHERE id = ?], and with
    [Some now] also [updated_at = ?]; [None] for the title keeps it. *)
Definition update_conversation (conversation_id : string)
    (title : option string) (now : option string)
    (rows : list conversation_row) : list conversation_row :=
  map (fun r =>
         if String.eqb (cv_id r) conversation_id then
           {| cv_id := cv_id r;
              cv_title := default (cv_title r) title;
              cv_created_at := cv_created_at r;
              cv_updated_at := default (cv_updated_at r) now |}
         else r) rows.

Definition create_conversation (title : option string) (uuid now : string)
    : M ConversationTables (string * string) := fun db =>
  if existsb (fun r => String.eqb (cv_id r) uuid) (conversations db)
  then (Py.Raise (Py.IntegrityError "UNIQUE constraint failed: conversations.id"), db)
  else
    (Py.Ok (uuid, now),
     with_conversations
       (conversations db
        ++ [ {| cv_id := uuid;
                cv_title := Py.or_else (default "" title) "New Conversation";
                cv_created_at := now; cv_updated_at := now |} ])
       db).

Definition ensure_conversation (conversation_id : string)
    (db : ConversationTables) : bool :=
  existsb (fun r => String.eqb (cv_id r) conversation_id) (conversations db).

(** [SELECT COUNT] of the messages of the conversation. *)
Definition message_count (conversation_id : string) (db : ConversationTables) : Z :=
  Z.of_nat (length (List.filter
                      (fun m => String.eqb (mr_conversation_id m) conversation_id)
                      (messages db))).

Definition maybe_set_title_from_message (conversation_id user_message : string)
    : M ConversationTables unit := fun db =>
  if 1 <? message_count conversation_id db then (Py.Ok tt, db)
  else
    let title :=
      Py.or_else
        (Py.slice_to 48
           (Py.replace_char (ascii_of_nat 10) " " (Py.strip user_message)))
        "New Conversation" in
    (Py.Ok tt,
     with_conversations
       (update_conversation conversation_id (Some title) None (conversations db))
       db).

Definition update_conversation_title (conversation_id title now : string)
    : M ConversationTables unit := fun db =>
  let cleaned := Py.strip title in
  if negb (Py.truthy cleaned) then (Py.Ok tt, db)
  else
    (Py.Ok tt,
     with_conversations
       (update_conversation conversation_id (Some (Py.slice_to 96 cleaned))
                            (Some now) (conversations db))
       db).

Definition add_message (conversation_id role content uuid now : string)
    : M ConversationTables StoredMessage := fun db =>
  if existsb (fun m => String.eqb (mr_id m) uuid) (messages db)
  then (Py.Raise (Py.IntegrityError "UNIQUE constraint failed: messages.id"), db)
  else
    (Py.Ok {| msg_id := uuid; msg_role := role; msg_content := content;
              msg_created_at := now |},
     with_conversations
       (update_conversation conversation_id None (Some now) (conversations db))
       (with_messages
          (messages db
           ++ [ {| mr_id := uuid; mr_conversation_id := conversation_id;
                   mr_role := role; mr_content := content;
                   mr_created_at := now |} ])
          db)).

Definition to_message (m : message_row) : StoredMessage :=
  {| msg_id := mr_id m; msg_role := mr_role m; msg_content := mr_content m;
     msg_created_at := mr_created_at m |}.

(** Timestamps are compared as [TEXT], byte by byte. *)
Definition get_messages (conversation_id : string) (db : ConversationTables)
    : list StoredMessage :=
  map to_message
      (order_by (fun a b => String.leb (mr_created_at a) (mr_created_at b))
         (List.filter (fun m => String.eqb (mr_conversation_id m) conversation_id)
                      (messages db))).

Definition get_conversation_detail (conversation_id : string)
    (db : ConversationTables) : option (string * string * list StoredMessage) :=
  match List.find (fun r => String.eqb (cv_id r) conversation_id)
                  (conversations db) with
  | None => None
  | Some convo =>
      Some (cv_title convo, cv_updated_at convo, get_messages conversation_id db)
  end.

Definition delete_conversation (conversation_id : string)
    : M ConversationTables bool := fun db =>
  if negb (existsb (fun r => String.eqb (cv_id r) conversation_id)
                   (conversations db))
  then (Py.Ok false, db)
  else
    (Py.Ok true,
     {| conversations :=
          List.filter (fun r => negb (String.eqb (cv_id r) conversation_id))
                      (conversations db);
        messages :=
          List.filter (fun m => negb (String.eqb (mr_conversation_id m) conversation_id))
                      (messages db);
        performance_exchanges :=
          List.filter (fun e => negb (String.eqb (pe_conversation_id e) conversation_id))
                      (performance_exchanges db) |}).

(** [exchange] carries the fourteen arguments of the method; its [pe_id]
    and [pe_created_at] are replaced by the uuid and the clock reading. *)
Definition add_performance_exchange (exchange : StoredPerformanceExchange)
    (uuid now : string) : M ConversationTables unit := fun db =>
  if existsb (fun e => String.eqb (pe_id e) uuid) (performance_exchanges db)
  then (Py.Raise (Py.IntegrityError
          "UNIQUE constraint failed: performance_exchanges.id"), db)
  else
    (Py.Ok tt,
     with_performance_exchanges
       (performance_exchanges db
        ++ [ {| pe_id := uuid;
                pe_conversation_id := pe_conversation_id exchange;
                pe_created_at := now;
                user_preview := user_preview exchange;
                assistant_preview := assistant_preview exchange;
                total_latency_ms := total_latency_ms exchange;
                llm_latency_ms := llm_latency_ms exchange;
                prompt_tokens := prompt_tokens exchange;
                completion_tokens := completion_tokens exchange;
                total_tokens := total_tokens exchange;
                system_chars := system_chars exchange;
                user_chars := user_chars exchange;
                assistant_chars := assistant_chars exchange;
                system_tokens_est := system_tokens_est exchange;
                user_tokens_est := user_tokens_est exchange;
                assistant_tokens_est := assistant_tokens_est exchange |} ])
       db).

(** [ORDER BY created_at DESC LIMIT ?]: a negative limit is no limit, and
    an [int] outside 64 bits cannot be bound to the statement. *)
Definition list_recent_performance_exchanges (limit : Z)
    (db : ConversationTables) : Py.result (list StoredPerformanceExchange) :=
  if (limit <? - 2 ^ 63) || (2 ^ 63 <=? limit) then
    Py.Raise (Py.OverflowError "Python int too large to convert to SQLite INTEGER")
  else
    let rows :=
      order_by (fun a b => String.leb (pe_created_at b) (pe_created_at a))
               (performance_exchanges db) in
    Py.Ok (if limit <? 0 then rows else take (Z.to_nat limit) rows).

End Storage.
(** ** kernel/api/models.py *)

Module Models.

Record ContextCompactionMetrics : Type := {
  applied : bool;
  trigger_tokens : Z;
  estimated_prompt_tokens_before : Z;
  estimated_prompt_tokens_after : Z;
  dropped_history_messages : Z;
}.

Record PromptComponentResponse : Type := {
  pc_id : string;
  pc_name : string;
  pc_file_path : string;
  pc_content : string;
  pc_order : Z;
  pc_enabled : bool;
  pc_is_system : bool;
  pc_is_custom : bool;
}.

Record PromptProfileResponse : Type := {
  pp_id : string;
  pp_name : string;
  pp_is_active : bool;
  pp_is_default : bool;
}.

Record PromptComponentUpdateRequest : Type := {
  upd_content : option string;
  upd_enabled : option bool;
}.

Record PromptResetResponse : Type := {
  reset_ok : bool;
  reset_profile_id : string;
  reset_profile_name : string;
}.

Record ContextSettingsResponse : Type := {
  csr_max_context_tokens : Z;
  csr_max_response_tokens : Z;
  csr_compact_trigger_pct : Py.float;
  csr_compact_instructions : string;
  csr_updated_at : string;
}.

Record ContextSettingsUpdateRequest : Type := {
  max_context_tokens : option Z;
  max_response_tokens : option Z;
  compact_trigger_pct : option Py.float;
  compact_instructions : option string;
}.

(** [Field(default=None, ge=lo, le=hi)] on an [int]. *)
Definition int_field_ok (lo hi : Z) (v : option Z) : bool :=
  match v with
  | None => true
  | Some n => (lo <=? n) && (n <=? hi)
  end.

(** [Field(default=None, ge=lo, le=hi)] on a [float]. *)
Definition float_field_ok (lo hi : Py.float) (v : option Py.float) : bool :=
  match v with
  | None => true
  | Some x => Py.fle lo x && Py.fle x hi
  end.

(** The constraints that the request model declares, checked in the
    order of the fields when a body is parsed into it. *)
Definition ContextSettingsUpdateRequest_validate
    (payload : ContextSettingsUpdateRequest)
    : Py.result ContextSettingsUpdateRequest :=
  if negb (int_field_ok 256 262144 (max_context_tokens payload)) then
    Py.Raise (Py.RequestValidationError "max_context_tokens")
  else if negb (int_field_ok 16 262144 (max_response_tokens payload)) then
    Py.Raise (Py.RequestValidationError "max_response_tokens")
  else if negb (float_field_ok (Py.float_lit 1 10) (Py.float_lit 1 1)
                               (compact_trigger_pct payload)) then
    Py.Raise (Py.RequestValidationError "compact_trigger_pct")
  else Py.Ok payload.

Record BaselineCaseResult : Type := {
  case_id : string;
  case_label : string;
  calls : Z;
  input_tokens_est : Z;
  prompt_tokens : Z;
  completion_tokens : Z;
  total_tokens : Z;
  total_latency_ms : Z;
  avg_latency_ms : Py.float;
  min_latency_ms : option Z;
  max_latency_ms : option Z;
  per_turn_latency_ms : option (list Z);
  per_turn_prompt_tokens : option (list Z);
  per_turn_completion_tokens : option (list Z);
}.

Record BaselineCategoryResult : Type := {
  category_id : string;
  category_label : string;
  cases : list BaselineCaseResult;
}.

Record BaselineRunResponse : Type := {
  run_model : string;
  run_started_at : string;
  run_completed_at : string;
  run_duration_ms : Z;
  run_total_calls : Z;
  categories : list BaselineCategoryResult;
}.

Record BaselineStartRequest : Type := {
  enforce_max_response_tokens : bool;
}.

Record BaselineJobStartResponse : Type := {
  start_job_id : string;
  start_status : string;
}.

Record BaselineJobStatusResponse : Type := {
  st_job_id : string;
  st_status : string;
  st_model : string;
  st_total_calls : Z;
  st_completed_calls : Z;
  st_current_step : option string;
  st_started_at : string;
  st_updated_at : string;
  st_completed_at : option string;
  st_duration_ms : option Z;
  st_events : list string;
  st_error : option string;
  st_result : option BaselineRunResponse;
}.

Record PromptBreakdown : Type := {
  pb_system_chars : Z;
  pb_user_chars : Z;
  pb_assistant_chars : Z;
  pb_system_tokens_est : option Z;
  pb_user_tokens_est : option Z;
  pb_assistant_tokens_est : option Z;
}.

Record PerformanceMetrics : Type := {
  pm_total_latency_ms : Z;
  pm_llm_latency_ms : Z;
  pm_prompt_tokens : option Z;
  pm_completion_tokens : option Z;
  pm_total_tokens : option Z;
  prompt_breakdown : PromptBreakdown;
  context_compaction : option ContextCompactionMetrics;
}.

Record PerformanceExchange : Type := {
  px_id : string;
  px_conversation_id : string;
  px_created_at : string;
  px_user_preview : string;
  px_assistant_preview : string;
  metrics : PerformanceMetrics;
}.

(** [PromptProfileCreateRequest]: [name] with [min_length=1] and
    [max_length=64], counted in characters of the name as sent. *)
Definition PromptProfileCreateRequest_validate (name : string) : Py.result string :=
  if (Py.len name <? 1) || (64 <? Py.len name)
  then Py.Raise (Py.RequestValidationError "name")
  else Py.Ok name.

End Models.

(** ** kernel/api/main.py *)

Module Main.

(** What the process reads from outside: its settings, the prompt
    components on disk, the pruning threshold of [agent.yaml], the model
    backend, and the streams of uuids, clock readings and stopwatch
    measurements. *)
Record Env : Type := {
  settings : Settings.Settings;
  load_prompt_components : list Prompts.PromptComponent;
  _default_compact_trigger : Py.float;
  llm_client : Llm.backend;
  uuid4 : nat -> string;
  utc_now : nat -> string;
  perf_elapsed_ms : nat -> Z;
}.

(** A value of the dict [_baseline_jobs]. *)
Record Job : Type := {
  status : string;
  model : string;
  total_calls : Z;
  completed_calls : Z;
  current_step : option string;
  started_at : string;
  updated_at : string;
  completed_at : option string;
  duration_ms : option Z;
  events : list string;
  error : option string;
  result : option Models.BaselineRunResponse;
  enforce_max_response_tokens : bool;
}.

(** The mutable state of the process: the database, the job table, and
    how many backend calls and other outside readings were made. *)
Record App : Type := {
  store : Storage.ChatStore;
  _baseline_jobs : gmap string Job;
  llm_calls : nat;
  tick : nat;
}.

Definition with_store (db : Storage.ChatStore) (a : App) : App :=
  {| store := db; _baseline_jobs := _baseline_jobs a;
     llm_calls := llm_calls a; tick := tick a |}.

Definition with_jobs (jobs : gmap string Job) (a : App) : App :=
  {| store := store a; _baseline_jobs := jobs;
     llm_calls := llm_calls a; tick := tick a |}.

(** A method of [store] run on the database of the process. *)
Definition on_store {A : Type} (m : M Storage.ChatStore A) : M App A :=
  fun a => let '(r, db) := m (store a) in (r, with_store db a).

Section WithEnv.
Variable env : Env.

(** The next reading of one of the outside streams. *)
Definition next {A : Type} (stream : nat -> A) : M App A :=
  fun a => (Py.Ok (stream (tick a)),
            {| store := store a; _baseline_jobs := _baseline_jobs a;
               llm_calls := llm_calls a; tick := S (tick a) |}).

(** A method of [store] that draws a uuid and reads the clock. *)
Definition store_call {A : Type}
    (method : string -> string -> M Storage.ChatStore A) : M App A :=
  uuid ← next (uuid4 env);
  now ← next (utc_now env);
  on_store (method uuid now).

Definition _tenant_id : string := Settings.aigent_tenant_id (settings env).

Definition _get_context_settings : M App Storage.StoredContextSettings :=
  let compact_pct := _default_compact_trigger env in
  current ← store_call (fun _ now =>
    Storage.ensure_context_settings _tenant_id
      (Settings.ollama_context_window (settings env))
      (Settings.ollama_max_response_tokens (settings env))
      compact_pct now);
  if negb (Storage.max_context_tokens current
             =? Settings.ollama_context_window (settings env))
     || negb (Storage.max_response_tokens current
                =? Settings.ollama_max_response_tokens (settings env))
  then
    store_call (fun _ now =>
      Storage.update_context_settings _tenant_id
        (Some (Settings.ollama_context_window (settings env)))
        (Some (Settings.ollama_max_response_tokens (settings env)))
        None None now)
  else mret current.

(** The body of the loop of [_effective_prompt_components]: the
    component that is appended to [merged].  The constructor call of the
    source passes [id], [name], [content], [order], [enabled] and
    [is_system]. *)
Definition merge_component (overrides : gmap string Storage.override)
    (item : Prompts.PromptComponent) : Py.result Prompts.PromptComponent :=
  match overrides !! Prompts.id item with
  | None => Py.Ok item
  | Some override =>
      Prompts.PromptComponent__init__
        {| Prompts.kw_id := Some (Prompts.id item);
           Prompts.kw_name := Some (Prompts.name item);
           Prompts.kw_file_path := None;
           Prompts.kw_content :=
             Some (default (Prompts.content item) (Storage.o_content override));
           Prompts.kw_order := Some (Prompts.order item);
           Prompts.kw_enabled :=
             Some (default (Prompts.enabled item) (Storage.o_enabled override));
           Prompts.kw_is_system := Some (Prompts.is_system item) |}
  end.

Definition _effective_prompt_components
    : M App (Storage.StoredPromptProfile * list Prompts.PromptComponent) :=
  let defaults := load_prompt_components env in
  profile ← store_call (Storage.get_active_prompt_profile _tenant_id);
  a ← M_get;
  let overrides := Storage.get_prompt_overrides (Storage.id profile) (store a) in
  merged ← M_lift (mapM (merge_component overrides) defaults);
  mret (profile, merged).

(** *** Token estimation *)

Definition char_count (messages : list Llm.ChatMessageIn) : Z :=
  foldr (fun m acc => Py.len (Llm.content m) + acc) 0 messages.

Definition _estimate_tokens_for_messages (messages : list Llm.ChatMessageIn) : Z :=
  Z.max 1 (Py.ceil_div (char_count messages) 4).

Definition _estimate_tokens_for_text (text : string) : Z :=
  Z.max 1 (Py.ceil_div (Py.len text) 4).

(** *** Prompt settings endpoints *)

Definition update_context_settings
    (payload : Models.ContextSettingsUpdateRequest)
    : M App Models.ContextSettingsResponse :=
  payload ← M_lift (Models.ContextSettingsUpdateRequest_validate payload);
  current ← store_call (fun _ now =>
    Storage.update_context_settings _tenant_id
      (Some (Settings.ollama_context_window (settings env)))
      (Models.max_response_tokens payload)
      (Models.compact_trigger_pct payload)
      (Models.compact_instructions payload) now);
  mret {| Models.csr_max_context_tokens := Storage.max_context_tokens current;
          Models.csr_max_response_tokens := Storage.max_response_tokens current;
          Models.csr_compact_trigger_pct := Storage.compact_trigger_pct current;
          Models.csr_compact_instructions := Storage.compact_instructions current;
          Models.csr_updated_at := Storage.cs_updated_at current |}.

Definition activate_prompt_profile (profile_id : string)
    : M App Models.PromptProfileResponse :=
  ok ← store_call (fun _ now =>
    Storage.activate_prompt_profile _tenant_id profile_id now);
  if negb ok then
    M_raise (Py.HTTPException 404 "Prompt profile not found")
  else
    active ← store_call (Storage.get_active_prompt_profile _tenant_id);
    mret {| Models.pp_id := Storage.id active;
            Models.pp_name := Storage.name active;
            Models.pp_is_active := Storage.is_active active;
            Models.pp_is_default := Storage.is_default active |}.

Definition update_prompt_component (component_id : string)
    (payload : Models.PromptComponentUpdateRequest)
    : M App Models.PromptComponentResponse :=
  let default_ids := map Prompts.id (load_prompt_components env) in
  if negb (existsb (String.eqb component_id) default_ids) then
    M_raise (Py.HTTPException 404 "Prompt component not found")
  else
    profile ← store_call (Storage.get_active_prompt_profile _tenant_id);
    _ ← store_call (Storage.upsert_prompt_override (Storage.id profile)
           component_id (Models.upd_content payload) (Models.upd_enabled payload));
    '(_, components) ← _effective_prompt_components;
    match List.find (fun item => String.eqb (Prompts.id item) component_id)
                    components with
    | None => M_raise (Py.HTTPException 404 "Prompt component not found")
    | Some component =>
        mret {| Models.pc_id := Prompts.id component;
                Models.pc_name := Prompts.name component;
                Models.pc_file_path := Prompts.file_path component;
                Models.pc_content := Prompts.content component;
                Models.pc_order := Prompts.order component;
                Models.pc_enabled := Prompts.enabled component;
                Models.pc_is_system := Prompts.is_system component;
                Models.pc_is_custom := true |}
    end.

Definition reset_prompts : M App Models.PromptResetResponse :=
  profile ← store_call (Storage.get_active_prompt_profile _tenant_id);
  _ ← store_call (fun _ now =>
         Storage.reset_prompt_profile (Storage.id profile) now);
  mret {| Models.reset_ok := true;
          Models.reset_profile_id := Storage.id profile;
          Models.reset_profile_name := Storage.name profile |}.

(** The two lines that [chat] and [_execute_baseline] share:
    [_, effective_components = _effective_prompt_components()] and
    [effective_prompt = compose_system_prompt(effective_components)]. *)
Definition effective_prompt : M App string :=
  '(_, effective_components) ← _effective_prompt_components;
  mret (Prompts.compose_system_prompt effective_components).

(** *** The context compaction of [chat] *)

Definition system_message (text : string) : Llm.ChatMessageIn :=
  {| Llm.role := "system"; Llm.content := text |}.

(** [history_messages] of [chat]: the stored messages of the two
    conversational roles. *)
Definition history_messages (history : list Storage.StoredMessage)
    : list Llm.ChatMessageIn :=
  map (fun m => {| Llm.role := Storage.msg_role m;
                   Llm.content := Storage.msg_content m |})
      (List.filter (fun m => String.eqb (Storage.msg_role m) "user"
                             || String.eqb (Storage.msg_role m) "assistant")
                   history).

(** [int(context_settings.max_context_tokens
         * context_settings.compact_trigger_pct)] *)
Definition compact_threshold (context_settings : Storage.StoredContextSettings)
    : Py.result Z :=
  window ← Py.float_of_int (Storage.max_context_tokens context_settings);
  Py.int_of_float
    (Py.fmul window (Storage.compact_trigger_pct context_settings)).

(** The variables that the [while] loop of [chat] changes. *)
Record compaction_state : Type := {
  llm_messages : list Llm.ChatMessageIn;
  dropped_history_messages : Z;
}.

Definition compaction_cond (max_context_tokens : Z) (st : compaction_state)
    : bool :=
  (2 <? Z.of_nat (length (llm_messages st)))
  && (max_context_tokens <? _estimate_tokens_for_messages (llm_messages st)).

Definition compaction_body (st : compaction_state) : Py.result compaction_state :=
  '(_, rest) ← Py.list_pop 2 (llm_messages st);
  mret {| llm_messages := rest;
          dropped_history_messages := dropped_history_messages st + 1 |}.

(** What [chat] has computed when it reaches the backend call. *)
Record chat_context : Type := {
  ctx_llm_messages : list Llm.ChatMessageIn;
  est_prompt_tokens_before : Z;
  ctx_compact_threshold : Z;
  compaction_applied : bool;
  ctx_dropped_history_messages : Z;
  est_prompt_tokens_after : Z;
}.

(** The list [llm_messages] as it enters the [while] loop, and whether
    the instruction message was inserted. *)
Definition assemble (effective_prompt : string)
    (history : list Storage.StoredMessage)
    (context_settings : Storage.StoredContextSettings)
    (compact_threshold : Z) : list Llm.ChatMessageIn * bool :=
  let llm_messages := system_message effective_prompt :: history_messages history in
  let est_prompt_tokens_before := _estimate_tokens_for_messages llm_messages in
  if Py.truthy (Py.strip (Storage.compact_instructions context_settings))
     && (compact_threshold <=? est_prompt_tokens_before)
  then (Py.list_insert 1
          (system_message (Py.strip (Storage.compact_instructions context_settings)))
          llm_messages, true)
  else (llm_messages, false).

(** [chat], from the assembly of [llm_messages] to
    [est_prompt_tokens_after]. *)
Definition compact_context (effective_prompt : string)
    (history : list Storage.StoredMessage)
    (context_settings : Storage.StoredContextSettings)
    : Py.result chat_context :=
  let est_prompt_tokens_before :=
    _estimate_tokens_for_messages
      (system_message effective_prompt :: history_messages history) in
  compact_threshold ← compact_threshold context_settings;
  let '(llm_messages0, compaction_applied) :=
    assemble effective_prompt history context_settings compact_threshold in
  st ← Py.while
         (compaction_cond (Storage.max_context_tokens context_settings))
         compaction_body
         (length llm_messages0)
         {| llm_messages := llm_messages0; dropped_history_messages := 0 |};
  mret {| ctx_llm_messages := llm_messages st;
          est_prompt_tokens_before := est_prompt_tokens_before;
          ctx_compact_threshold := compact_threshold;
          compaction_applied := compaction_applied;
          ctx_dropped_history_messages := dropped_history_messages st;
          est_prompt_tokens_after :=
            _estimate_tokens_for_messages (llm_messages st) |}.

(** [chat], from the composition of the prompt to
    [est_prompt_tokens_after], for the stored history of the
    conversation. *)
Definition chat_prepare (history : list Storage.StoredMessage)
    : M App chat_context :=
  effective_prompt ← effective_prompt;
  context_settings ← _get_context_settings;
  M_lift (compact_context effective_prompt history context_settings).

(** The [context_compaction] entry of the response of [chat]. *)
Definition context_compaction (c : chat_context) : Models.ContextCompactionMetrics :=
  {| Models.applied := compaction_applied c
                       || (0 <? ctx_dropped_history_messages c);
     Models.trigger_tokens := ctx_compact_threshold c;
     Models.estimated_prompt_tokens_before := est_prompt_tokens_before c;
     Models.estimated_prompt_tokens_after := est_prompt_tokens_after c;
     Models.dropped_history_messages := ctx_dropped_history_messages c |}.


(** *** The baseline benchmark *)

(** [await llm_client.chat(messages, max_tokens=...)] between two
    readings of the stopwatch: the completion and the measured
    [latency_ms]. *)
Definition llm_chat (messages : list Llm.ChatMessageIn) (max_tokens : option Z)
    : M App (Llm.ChatCompletionResult * Z) :=
  fun a => (llm_client env (llm_calls a) messages max_tokens,
            {| store := store a; _baseline_jobs := _baseline_jobs a;
               llm_calls := S (llm_calls a); tick := tick a |}).

(** The loop shared by the two payload builders; every round adds at
    least four characters, hence a token, so [target_tokens] rounds are
    enough. *)
Definition build_payload (target_tokens : Z) (fragment : string)
    : Py.result string :=
  Py.while (fun text => _estimate_tokens_for_text text <? target_tokens)
           (fun text => Py.Ok (text +:+ fragment))
           (Z.to_nat target_tokens)
           "".

Definition _build_user_payload (target_tokens : Z) (seed : string)
    : Py.result string :=
  let fragment :=
    seed +:+ ". Keep this coherent, factual, and concise. "
         +:+ "Include clear constraints, concrete details, and specific wording. " in
  build_payload target_tokens fragment.

Definition _build_system_payload (target_tokens : Z) (seed : string)
    : Py.result string :=
  let fragment :=
    seed +:+ ". Preserve instruction fidelity, avoid hallucination, and remain concise. "
         +:+ "Use explicit constraints and deterministic formatting cues. " in
  build_payload target_tokens fragment.

(** [on_progress(step, inc)] for an optional callback. *)
Definition progress (on_progress : option (string -> Z -> M App unit))
    (step : string) (inc : Z) : M App unit :=
  match on_progress with
  | Some callback => callback step inc
  | None => mret tt
  end.

(** The three token counts of one call: the backend's when it reports
    them, estimates otherwise. *)
Definition token_counts (completion : Llm.ChatCompletionResult)
    (messages : list Llm.ChatMessageIn) : Z * Z * Z :=
  let prompt_tokens :=
    default (_estimate_tokens_for_messages messages) (Llm.prompt_tokens completion) in
  let completion_tokens :=
    default (_estimate_tokens_for_text (Llm.completion_content completion))
            (Llm.completion_tokens completion) in
  let total_tokens :=
    default (prompt_tokens + completion_tokens) (Llm.total_tokens completion) in
  (prompt_tokens, completion_tokens, total_tokens).

(** The body that [_run_single_turn_case] and
    [_run_system_prompt_pressure_case] have in common, from the list of
    messages on. *)
Definition single_call_case (case_id label : string)
    (messages : list Llm.ChatMessageIn) (user_payload : string)
    (max_response_tokens : option Z)
    (on_progress : option (string -> Z -> M App unit))
    : M App Models.BaselineCaseResult :=
  '(completion, latency_ms) ← llm_chat messages max_response_tokens;
  let '(prompt_tokens, completion_tokens, total_tokens) :=
    token_counts completion messages in
  _ ← progress on_progress label 1;
  avg ← M_lift (Py.float_of_int latency_ms);
  mret {| Models.case_id := case_id;
          Models.case_label := label;
          Models.calls := 1;
          Models.input_tokens_est := _estimate_tokens_for_text user_payload;
          Models.prompt_tokens := prompt_tokens;
          Models.completion_tokens := completion_tokens;
          Models.total_tokens := total_tokens;
          Models.total_latency_ms := latency_ms;
          Models.avg_latency_ms := avg;
          Models.min_latency_ms := Some latency_ms;
          Models.max_latency_ms := Some latency_ms;
          Models.per_turn_latency_ms := None;
          Models.per_turn_prompt_tokens := None;
          Models.per_turn_completion_tokens := None |}.

Definition _run_single_turn_case (effective_prompt case_id label
    task_instruction : string) (input_tokens : Z)
    (max_response_tokens : option Z)
    (on_progress : option (string -> Z -> M App unit))
    : M App Models.BaselineCaseResult :=
  _ ← progress on_progress label 0;
  user_payload ← M_lift (_build_user_payload input_tokens (label +:+ " input"));
  let messages :=
    [ system_message effective_prompt;
      system_message task_instruction;
      {| Llm.role := "user"; Llm.content := user_payload |} ] in
  single_call_case case_id label messages user_payload
                   max_response_tokens on_progress.

Definition _run_system_prompt_pressure_case (effective_prompt case_id
    label : string) (system_tokens user_tokens : Z)
    (max_response_tokens : option Z)
    (on_progress : option (string -> Z -> M App unit))
    : M App Models.BaselineCaseResult :=
  _ ← progress on_progress label 0;
  system_pressure ←
    M_lift (_build_system_payload system_tokens (label +:+ " system context"));
  user_payload ←
    M_lift (_build_user_payload user_tokens (label +:+ " user input"));
  let messages :=
    [ system_message effective_prompt;
      system_message system_pressure;
      {| Llm.role := "user"; Llm.content := user_payload |} ] in
  single_call_case case_id label messages user_payload
                   max_response_tokens on_progress.

(** The variables that the loop of [_run_multi_turn_case] changes. *)
Record multi_turn_state : Type := {
  mt_messages : list Llm.ChatMessageIn;
  prompt_total : Z;
  completion_total : Z;
  token_total : Z;
  latency_total : Z;
  mt_per_turn_latency_ms : list Z;
  mt_per_turn_prompt_tokens : list Z;
  mt_per_turn_completion_tokens : list Z;
  input_total : Z;
}.

Definition turn_step_label (label : string) (idx : Z) (turns : nat) : string :=
  label +:+ " (turn " +:+ Py.str_of_int (idx + 1) +:+ "/"
        +:+ Py.str_of_int (Z.of_nat turns) +:+ ")".

(** One round of the loop over [enumerate(turn_targets)]. *)
Definition multi_turn_round (label : string) (turns : nat)
    (max_response_tokens : option Z)
    (on_progress : option (string -> Z -> M App unit))
    (st : multi_turn_state) (turn : Z * Z) : M App multi_turn_state :=
  let '(idx, target) := turn in
  _ ← progress on_progress (turn_step_label label idx turns) 0;
  user_payload ←
    M_lift (_build_user_payload target
              (label +:+ " turn " +:+ Py.str_of_int (idx + 1)));
  let messages :=
    mt_messages st ++ [ {| Llm.role := "user"; Llm.content := user_payload |} ] in
  '(completion, latency_ms) ← llm_chat messages max_response_tokens;
  let '(prompt_tokens, completion_tokens, total_tokens) :=
    token_counts completion messages in
  _ ← progress on_progress (turn_step_label label idx turns) 1;
  mret {| mt_messages :=
            messages ++ [ {| Llm.role := "assistant";
                             Llm.content := Llm.completion_content completion |} ];
          prompt_total := prompt_total st + prompt_tokens;
          completion_total := completion_total st + completion_tokens;
          token_total := token_total st + total_tokens;
          latency_total := latency_total st + latency_ms;
          mt_per_turn_latency_ms := mt_per_turn_latency_ms st ++ [latency_ms];
          mt_per_turn_prompt_tokens :=
            mt_per_turn_prompt_tokens st ++ [prompt_tokens];
          mt_per_turn_completion_tokens :=
            mt_per_turn_completion_tokens st ++ [completion_tokens];
          input_total := input_total st + _estimate_tokens_for_text user_payload |}.

(** [for x in xs: st = round(st, x)] *)
Fixpoint for_each {S A : Type} (round : S -> A -> M App S) (xs : list A) (st : S)
    : M App S :=
  match xs with
  | [] => mret st
  | x :: xs' => st' ← round st x; for_each round xs' st'
  end.

(** [min(xs) if xs else None], and the same for [max]. *)
Definition min_or_none (xs : list Z) : option Z :=
  match xs with [] => None | x :: xs' => Some (foldl Z.min x xs') end.
Definition max_or_none (xs : list Z) : option Z :=
  match xs with [] => None | x :: xs' => Some (foldl Z.max x xs') end.

Definition _run_multi_turn_case (effective_prompt case_id label
    task_instruction : string) (turn_targets : list Z)
    (max_response_tokens : option Z)
    (on_progress : option (string -> Z -> M App unit))
    : M App Models.BaselineCaseResult :=
  st ← for_each
         (multi_turn_round label (length turn_targets) max_response_tokens
                           on_progress)
         (Py.enumerate turn_targets)
         {| mt_messages := [ system_message effective_prompt;
                             system_message task_instruction ];
            prompt_total := 0; completion_total := 0; token_total := 0;
            latency_total := 0;
            mt_per_turn_latency_ms := [];
            mt_per_turn_prompt_tokens := [];
            mt_per_turn_completion_tokens := [];
            input_total := 0 |};
  let calls := Z.of_nat (length turn_targets) in
  avg ← (if 0 <? calls then
           total ← M_lift (Py.float_of_int (latency_total st));
           count ← M_lift (Py.float_of_int calls);
           mret (SFdiv Py.prec Py.emax total count)
         else mret (S754_zero false));
  mret {| Models.case_id := case_id;
          Models.case_label := label;
          Models.calls := calls;
          Models.input_tokens_est := input_total st;
          Models.prompt_tokens := prompt_total st;
          Models.completion_tokens := completion_total st;
          Models.total_tokens := token_total st;
          Models.total_latency_ms := latency_total st;
          Models.avg_latency_ms := avg;
          Models.min_latency_ms := min_or_none (mt_per_turn_latency_ms st);
          Models.max_latency_ms := max_or_none (mt_per_turn_latency_ms st);
          Models.per_turn_latency_ms := Some (mt_per_turn_latency_ms st);
          Models.per_turn_prompt_tokens := Some (mt_per_turn_prompt_tokens st);
          Models.per_turn_completion_tokens :=
            Some (mt_per_turn_completion_tokens st) |}.

(** [job = _baseline_jobs[job_id]] *)
Definition get_job (job_id : string) : M App Job :=
  fun a => match _baseline_jobs a !! job_id with
           | Some job => (Py.Ok job, a)
           | None => (Py.Raise (Py.KeyError job_id), a)
           end.

(** A store into the dict [job], which [_baseline_jobs] shares. *)
Definition set_job (job_id : string) (job : Job) : M App unit :=
  M_modify (fun a => with_jobs (<[job_id := job]> (_baseline_jobs a)) a).

Definition with_events (events_ : list string) (updated_at_ : string)
    (job : Job) : Job :=
  {| status := status job; model := model job;
     total_calls := total_calls job; completed_calls := completed_calls job;
     current_step := current_step job; started_at := started_at job;
     updated_at := updated_at_; completed_at := completed_at job;
     duration_ms := duration_ms job; events := events_;
     error := error job; result := result job;
     enforce_max_response_tokens := enforce_max_response_tokens job |}.

Definition with_progress (current_step_ : string) (completed_calls_ : Z)
    (job : Job) : Job :=
  {| status := status job; model := model job;
     total_calls := total_calls job; completed_calls := completed_calls_;
     current_step := Some current_step_; started_at := started_at job;
     updated_at := updated_at job; completed_at := completed_at job;
     duration_ms := duration_ms job; events := events job;
     error := error job; result := result job;
     enforce_max_response_tokens := enforce_max_response_tokens job |}.

(** [events.append(message)] and [del events[:-100]] past 100 entries. *)
Definition append_bounded (events_ : list string) (message : string) : list string :=
  let events' := events_ ++ [message] in
  if (100 <? length events')%nat then drop (length events' - 100)%nat events'
  else events'.

Definition _append_baseline_event (job_id message : string) : M App unit :=
  job ← get_job job_id;
  now ← next (utc_now env);
  set_job job_id (with_events (append_bounded (events job) message) now job).

Definition _baseline_progress (job_id step : string) (completed_inc : Z)
    : M App unit :=
  job ← get_job job_id;
  _ ← set_job job_id (with_progress step (completed_calls job) job);
  _ ← (if 0 <? completed_inc then
         _ ← set_job job_id
               (with_progress step
                  (Z.min (total_calls job) (completed_calls job + completed_inc))
                  job);
         _append_baseline_event job_id ("Completed: " +:+ step)
       else _append_baseline_event job_id ("Running: " +:+ step));
  job ← get_job job_id;
  now ← next (utc_now env);
  set_job job_id (with_events (events job) now job).

Definition _baseline_total_calls : Z := 34.

Definition multi_turn_targets : list Z :=
  map (fun i => 50 + (i * 17) mod 151) (Py.range 20).

Definition system_prompt_targets : list Z := [200; 500; 1000; 2000; 5000; 10000].

(** One round of the loop over [enumerate(system_prompt_targets)]. *)
Definition system_prompt_round (effective_prompt : string)
    (baseline_max_tokens : option Z)
    (on_progress : option (string -> Z -> M App unit))
    (system_prompt_cases : list Models.BaselineCaseResult) (item : Z * Z)
    : M App (list Models.BaselineCaseResult) :=
  let '(idx, target) := item in
  let user_tokens := 100 + (idx * 37) mod 201 in
  case ← _run_system_prompt_pressure_case effective_prompt
           ("sys_" +:+ Py.str_of_int target)
           ("System Prompt Pressure (" +:+ Py.str_of_int target +:+ " system tokens)")
           target user_tokens baseline_max_tokens on_progress;
  mret (system_prompt_cases ++ [case]).

Definition _execute_baseline (job_id : string)
    (enforce_max_response_tokens_ : bool) : M App Models.BaselineRunResponse :=
  started_at_ ← next (utc_now env);
  effective_prompt ← effective_prompt;
  context_settings ← _get_context_settings;
  let baseline_max_tokens :=
    if enforce_max_response_tokens_
    then Some (Storage.max_response_tokens context_settings) else None in
  let on_progress := Some (fun step inc => _baseline_progress job_id step inc) in
  let qa := "Answer directly in 6-10 concise sentences." in
  qa_100 ← _run_single_turn_case effective_prompt "qa_100"
             "Simple Q/A (100 user tokens)" qa 100 baseline_max_tokens on_progress;
  qa_250 ← _run_single_turn_case effective_prompt "qa_250"
             "Simple Q/A (250 user tokens)" qa 250 baseline_max_tokens on_progress;
  qa_500 ← _run_single_turn_case effective_prompt "qa_500"
             "Simple Q/A (500 user tokens)" qa 500 baseline_max_tokens on_progress;
  let simple_qa_cases := [qa_100; qa_250; qa_500] in
  sum_200 ← _run_single_turn_case effective_prompt "sum_200"
              "Summarization (200 user tokens)"
              "Summarize the content in 5 bullet points."
              200 baseline_max_tokens on_progress;
  sum_500 ← _run_single_turn_case effective_prompt "sum_500"
              "Summarization (500 user tokens)"
              "Summarize the content in 5 bullet points."
              500 baseline_max_tokens on_progress;
  sum_1000 ← _run_single_turn_case effective_prompt "sum_1000"
               "Summarization (1000 user tokens)"
               "Summarize the content in 8 bullet points."
               1000 baseline_max_tokens on_progress;
  sum_2000 ← _run_single_turn_case effective_prompt "sum_2000"
               "Summarization (2000 user tokens)"
               "Summarize the content in 10 bullet points."
               2000 baseline_max_tokens on_progress;
  let summarization_cases := [sum_200; sum_500; sum_1000; sum_2000] in
  mt ← _run_multi_turn_case effective_prompt "mt_20x_50_200"
         "20-turn conversation (50-200 user tokens/turn)"
         "Maintain consistency across turns and preserve key decisions while answering each turn concisely."
         multi_turn_targets baseline_max_tokens on_progress;
  let multi_turn_cases := [mt] in
  extract_400 ← _run_single_turn_case effective_prompt "extract_400"
                  "Structured Extraction (400 user tokens)"
                  "Extract entities into JSON with keys: people, organizations, dates, locations, and actions."
                  400 baseline_max_tokens on_progress;
  let extraction_cases := [extract_400] in
  system_prompt_cases ←
    for_each (system_prompt_round effective_prompt baseline_max_tokens on_progress)
             (Py.enumerate system_prompt_targets) [];
  let categories_ :=
    [ {| Models.category_id := "simple_qa";
         Models.category_label := "Simple Q/A";
         Models.cases := simple_qa_cases |};
      {| Models.category_id := "summarization";
         Models.category_label := "Summarization Tasks";
         Models.cases := summarization_cases |};
      {| Models.category_id := "multi_turn";
         Models.category_label := "20-Turn Conversation";
         Models.cases := multi_turn_cases |};
      {| Models.category_id := "structured_extraction";
         Models.category_label := "Structured Extraction (Extra)";
         Models.cases := extraction_cases |};
      {| Models.category_id := "system_prompt_pressure";
         Models.category_label := "System Prompt Pressure";
         Models.cases := system_prompt_cases |} ] in
  completed_at_ ← next (utc_now env);
  duration_ms_ ← next (perf_elapsed_ms env);
  let total_calls_ :=
    foldr Z.add 0
      (map Models.calls (concat (map Models.cases categories_))) in
  mret {| Models.run_model := Settings.ollama_model (settings env);
          Models.run_started_at := started_at_;
          Models.run_completed_at := completed_at_;
          Models.run_duration_ms := duration_ms_;
          Models.run_total_calls := total_calls_;
          Models.categories := categories_ |}.

(** The job that [start_baseline] and [run_baseline] put in the table. *)
Definition new_job (now first_event : string)
    (payload : Models.BaselineStartRequest) : Job :=
  {| status := "running";
     model := Settings.ollama_model (settings env);
     total_calls := _baseline_total_calls;
     completed_calls := 0;
     current_step := Some "Initializing";
     started_at := now; updated_at := now;
     completed_at := None; duration_ms := None;
     events := [first_event];
     error := None; result := None;
     enforce_max_response_tokens := Models.enforce_max_response_tokens payload |}.

(** [start_baseline] up to the scheduling of the background task, which
    then runs [_run_baseline_background job_id]. *)
Definition start_baseline (payload : Models.BaselineStartRequest)
    : M App Models.BaselineJobStartResponse :=
  uuid ← next (uuid4 env);
  let job_id := uuid in
  now ← next (utc_now env);
  _ ← set_job job_id (new_job now "Baseline run started" payload);
  _ ← (if Models.enforce_max_response_tokens payload
       then _append_baseline_event job_id "Mode: enforcing max response tokens"
       else _append_baseline_event job_id "Mode: no max response token cap");
  mret {| Models.start_job_id := job_id; Models.start_status := "running" |}.

(** [try: body except Exception as exc: handler(exc)] *)
Definition try_except {A : Type} (body : M App A) (handler : Py.exn -> M App A)
    : M App A :=
  fun a => match body a with
           | (Py.Raise e, a') => handler e a'
           | other => other
           end.

(** [exc.__class__.__name__] and [str(exc)]. *)
Definition exn_class_name (e : Py.exn) : string :=
  match e with
  | Py.TypeError _ => "TypeError"
  | Py.ValueError _ => "ValueError"
  | Py.OverflowError _ => "OverflowError"
  | Py.IndexError _ => "IndexError"
  | Py.KeyError _ => "KeyError"
  | Py.IntegrityError _ => "IntegrityError"
  | Py.RuntimeError _ => "RuntimeError"
  | Py.HTTPError _ => "HTTPError"
  | Py.HTTPStatusError _ => "HTTPStatusError"
  | Py.HTTPException _ _ => "HTTPException"
  | Py.RequestValidationError _ => "RequestValidationError"
  end.

Definition exn_str (e : Py.exn) : string :=
  match e with
  | Py.TypeError msg | Py.ValueError msg | Py.OverflowError msg
  | Py.IndexError msg | Py.IntegrityError msg | Py.RuntimeError msg
  | Py.HTTPError msg => msg
  | Py.KeyError key => "'" +:+ key +:+ "'"
  | Py.HTTPStatusError code => Py.str_of_int code
  | Py.HTTPException code detail => Py.str_of_int code +:+ ": " +:+ detail
  | Py.RequestValidationError field => field
  end.

Definition job_completed (result_ : Models.BaselineRunResponse)
    (completed_at_ updated_at_ : string) (job : Job) : Job :=
  {| status := "completed"; model := model job;
     total_calls := total_calls job; completed_calls := completed_calls job;
     current_step := Some "Completed"; started_at := started_at job;
     updated_at := updated_at_; completed_at := Some completed_at_;
     duration_ms := Some (Models.run_duration_ms result_);
     events := events job; error := error job; result := Some result_;
     enforce_max_response_tokens := enforce_max_response_tokens job |}.

Definition job_failed (error_ completed_at_ updated_at_ : string) (job : Job) : Job :=
  {| status := "failed"; model := model job;
     total_calls := total_calls job; completed_calls := completed_calls job;
     current_step := current_step job; started_at := started_at job;
     updated_at := updated_at_; completed_at := Some completed_at_;
     duration_ms := duration_ms job;
     events := events job; error := Some error_; result := result job;
     enforce_max_response_tokens := enforce_max_response_tokens job |}.

Definition _run_baseline_background (job_id : string) : M App unit :=
  try_except
    (job ← get_job job_id;
     result_ ← _execute_baseline job_id (enforce_max_response_tokens job);
     job ← get_job job_id;
     completed_at_ ← next (utc_now env);
     updated_at_ ← next (utc_now env);
     _ ← set_job job_id (job_completed result_ completed_at_ updated_at_ job);
     _append_baseline_event job_id "Baseline run completed")
    (fun exc =>
       job ← get_job job_id;
       let msg := Py.strip (exn_str exc) in
       let error_ := if Py.truthy msg
                     then exn_class_name exc +:+ ": " +:+ msg
                     else exn_class_name exc in
       completed_at_ ← next (utc_now env);
       updated_at_ ← next (utc_now env);
       _ ← set_job job_id (job_failed error_ completed_at_ updated_at_ job);
       _append_baseline_event job_id ("Baseline failed: " +:+ error_)).

(** [run_baseline]: the same run, awaited by the caller. *)
Definition run_baseline (payload : Models.BaselineStartRequest)
    : M App Models.BaselineRunResponse :=
  uuid ← next (uuid4 env);
  let job_id := "direct-" +:+ uuid in
  now ← next (utc_now env);
  _ ← set_job job_id (new_job now "Baseline run started (direct)" payload);
  _ ← (if Models.enforce_max_response_tokens payload
       then _append_baseline_event job_id "Mode: enforcing max response tokens"
       else _append_baseline_event job_id "Mode: no max response token cap");
  result_ ← _execute_baseline job_id (Models.enforce_max_response_tokens payload);
  job ← get_job job_id;
  completed_at_ ← next (utc_now env);
  updated_at_ ← next (utc_now env);
  _ ← set_job job_id
        {| status := "completed"; model := model job;
           total_calls := total_calls job;
           completed_calls := completed_calls job;
           current_step := current_step job; started_at := started_at job;
           updated_at := updated_at_; completed_at := Some completed_at_;
           duration_ms := Some (Models.run_duration_ms result_);
           events := events job; error := error job;
           result := Some result_;
           enforce_max_response_tokens := enforce_max_response_tokens job |};
  mret result_.


(** *** Endpoints that read or extend the prompt tables *)

Definition get_context_settings : M App Models.ContextSettingsResponse :=
  current ← _get_context_settings;
  mret {| Models.csr_max_context_tokens := Storage.max_context_tokens current;
          Models.csr_max_response_tokens := Storage.max_response_tokens current;
          Models.csr_compact_trigger_pct := Storage.compact_trigger_pct current;
          Models.csr_compact_instructions := Storage.compact_instructions current;
          Models.csr_updated_at := Storage.cs_updated_at current |}.

Definition get_prompt_components : M App (list Models.PromptComponentResponse) :=
  '(profile, components) ← _effective_prompt_components;
  a ← M_get;
  let overrides := Storage.get_prompt_overrides (Storage.id profile) (store a) in
  mret (map (fun item =>
               {| Models.pc_id := Prompts.id item;
                  Models.pc_name := Prompts.name item;
                  Models.pc_file_path := Prompts.file_path item;
                  Models.pc_content := Prompts.content item;
                  Models.pc_order := Prompts.order item;
                  Models.pc_enabled := Prompts.enabled item;
                  Models.pc_is_system := Prompts.is_system item;
                  Models.pc_is_custom :=
                    match overrides !! Prompts.id item with
                    | Some _ => true
                    | None => false
                    end |})
            components).

Definition create_prompt_profile (name : string)
    : M App Models.PromptProfileResponse :=
  name ← M_lift (Models.PromptProfileCreateRequest_validate name);
  created ← store_call (Storage.create_prompt_profile _tenant_id name);
  mret {| Models.pp_id := Storage.id created;
          Models.pp_name := Storage.name created;
          Models.pp_is_active := Storage.is_active created;
          Models.pp_is_default := Storage.is_default created |}.

(** *** Endpoints on the chat history; they use no other part of the
    process state than these tables. *)

Definition delete_conversation (conversation_id : string)
    : M Storage.ConversationTables unit :=
  deleted ← Storage.delete_conversation conversation_id;
  if negb deleted then M_raise (Py.HTTPException 404 "Conversation not found")
  else mret tt.

(** The opening of [chat]: the conversation of the turn, the stored user
    message and the title.  The four last arguments are what the two
    store methods draw from [uuid4] and the clock. *)
Definition chat_open (conversation_id : option string) (message : string)
    (conversation_uuid conversation_now message_uuid message_now : string)
    : M Storage.ConversationTables (string * Storage.StoredMessage) :=
  conversation_id ←
    (if Py.truthy (default "" conversation_id) then
       db ← M_get;
       if negb (Storage.ensure_conversation (default "" conversation_id) db)
       then M_raise (Py.HTTPException 404 "Conversation not found")
       else mret (default "" conversation_id)
     else
       created ← Storage.create_conversation None conversation_uuid
                                             conversation_now;
       mret (fst created));
  user_message ← Storage.add_message conversation_id "user" message
                                     message_uuid message_now;
  _ ← Storage.maybe_set_title_from_message conversation_id message;
  mret (conversation_id, user_message).

Definition to_performance_exchange (row : Storage.StoredPerformanceExchange)
    : Models.PerformanceExchange :=
  {| Models.px_id := Storage.pe_id row;
     Models.px_conversation_id := Storage.pe_conversation_id row;
     Models.px_created_at := Storage.pe_created_at row;
     Models.px_user_preview := Storage.user_preview row;
     Models.px_assistant_preview := Storage.assistant_preview row;
     Models.metrics :=
       {| Models.pm_total_latency_ms := Storage.total_latency_ms row;
          Models.pm_llm_latency_ms := Storage.llm_latency_ms row;
          Models.pm_prompt_tokens := Storage.prompt_tokens row;
          Models.pm_completion_tokens := Storage.completion_tokens row;
          Models.pm_total_tokens := Storage.total_tokens row;
          Models.prompt_breakdown :=
            {| Models.pb_system_chars := Storage.system_chars row;
               Models.pb_user_chars := Storage.user_chars row;
               Models.pb_assistant_chars := Storage.assistant_chars row;
               Models.pb_system_tokens_est := Storage.system_tokens_est row;
               Models.pb_user_tokens_est := Storage.user_tokens_est row;
               Models.pb_assistant_tokens_est := Storage.assistant_tokens_est row |};
          Models.context_compaction := None |} |}.

Definition recent_performance (limit : Z) (db : Storage.ConversationTables)
    : Py.result (list Models.PerformanceExchange) :=
  let safe_limit := Z.max 1 (Z.min limit 50) in
  rows ← Storage.list_recent_performance_exchanges safe_limit db;
  mret (map to_performance_exchange rows).

(** *** The status of a baseline job *)

Definition _make_baseline_status (job_id : string)
    : M App Models.BaselineJobStatusResponse :=
  job ← get_job job_id;
  mret {| Models.st_job_id := job_id;
          Models.st_status := status job;
          Models.st_model := model job;
          Models.st_total_calls := total_calls job;
          Models.st_completed_calls := completed_calls job;
          Models.st_current_step := current_step job;
          Models.st_started_at := started_at job;
          Models.st_updated_at := updated_at job;
          Models.st_completed_at := completed_at job;
          Models.st_duration_ms := duration_ms job;
          Models.st_events := events job;
          Models.st_error := error job;
          Models.st_result := result job |}.

Definition baseline_status (job_id : string)
    : M App Models.BaselineJobStatusResponse :=
  a ← M_get;
  match _baseline_jobs a !! job_id with
  | None => M_raise (Py.HTTPException 404 "Baseline job not found")
  | Some _ => _make_baseline_status job_id
  end.

End WithEnv.

End Main.

(** ** Notions that the properties are stated with *)

Module Spec.

(** A component takes part in the composed prompt. *)
Definition survives (c : Prompts.PromptComponent) : Prop :=
  Prompts.enabled c = true /\ Py.strip (Prompts.content c) <> "".

#[global] Instance survives_dec (c : Prompts.PromptComponent) : Decision (survives c).
Proof. unfold survives. apply _. Defined.

(** [c] is the ceiling of [n / 4]. *)
Definition is_ceil_quarter (n c : Z) : Prop := 4 * (c - 1) < n <= 4 * c.

(** [floor(maxContextTokens * compactTriggerPct)], the product being the
    binary64 one. *)
Definition floor_threshold (context_settings : Storage.StoredContextSettings)
    : Py.result Z :=
  window ← Py.float_of_int (Storage.max_context_tokens context_settings);
  Py.floor_of_float
    (Py.fmul window (Storage.compact_trigger_pct context_settings)).

(** The states that the [while] loop of the compactor goes through from
    [s0]: each round is entered with the condition true and runs the
    body. *)
Inductive loop_reaches (max_context_tokens : Z) (s0 : Main.compaction_state)
    : Main.compaction_state -> Prop :=
| loop_start : loop_reaches max_context_tokens s0 s0
| loop_round (st st' : Main.compaction_state) :
    loop_reaches max_context_tokens s0 st ->
    Main.compaction_cond max_context_tokens st = true ->
    Main.compaction_body st = Py.Ok st' ->
    loop_reaches max_context_tokens s0 st'.

(** The state in which the loop is entered. *)
Definition loop_entry (effective_prompt : string)
    (history : list Storage.StoredMessage)
    (context_settings : Storage.StoredContextSettings) (threshold : Z)
    : Main.compaction_state :=
  {| Main.llm_messages :=
       fst (Main.assemble effective_prompt history context_settings threshold);
     Main.dropped_history_messages := 0 |}.

(** [x] lies in the interval (0, 1]. *)
Definition in_unit_interval (x : Py.float) : Prop :=
  SFltb (Py.float_lit 0 1) x = true /\ Py.fle x (Py.float_lit 1 1) = true.

(** Every field of the update that is present is within the bounds that
    the request model declares. *)
Definition within_declared_bounds (payload : Models.ContextSettingsUpdateRequest)
    : Prop :=
  (forall n, Models.max_context_tokens payload = Some n -> 256 <= n <= 262144)
  /\ (forall n, Models.max_response_tokens payload = Some n -> 16 <= n <= 262144)
  /\ (forall x, Models.compact_trigger_pct payload = Some x ->
        Py.fle (Py.float_lit 1 10) x = true /\ Py.fle x (Py.float_lit 1 1) = true).

(** The update is accepted: the endpoint answers with the settings. *)
Definition accepted (env : Main.Env) (payload : Models.ContextSettingsUpdateRequest)
    (a : Main.App) : Prop :=
  exists response a', Main.update_context_settings env payload a = (Py.Ok response, a').

(** A sequence of progress callbacks on one job, with whatever steps and
    increments the callers report. *)
Definition callbacks (env : Main.Env) (job_id : string)
    (updates : list (string * Z)) : M Main.App unit :=
  M_for updates (fun update =>
    Main._baseline_progress env job_id (fst update) (snd update)).

(** The job is in the table. *)
Definition has_job (job_id : string) (a : Main.App) : Prop :=
  is_Some (Main._baseline_jobs a !! job_id).

(** The backend answers every call, and the time measured around a call
    is a number of milliseconds below [2 ** 32]. *)
Definition backend_answers (env : Main.Env) : Prop :=
  forall n messages cap,
    exists completion latency_ms,
      Main.llm_client env n messages cap = Py.Ok (completion, latency_ms)
      /\ 0 <= latency_ms < 2 ^ 32.

(** The default profile of the tenant exists and is active, and no
    component is overridden: the state of the prompt tables after a first
    read, or after a reset of the default profile. *)
Definition prompt_ready (env : Main.Env) (db : Storage.ChatStore) : Prop :=
  (exists row,
      List.find (fun r => String.eqb (Storage.pr_tenant_id r) (Main._tenant_id env)
                          && Storage.pr_is_default r)
                (Storage.prompt_profiles db) = Some row
      /\ Storage.pr_is_active row = true)
  /\ Storage.prompt_component_overrides db = [].

(** From [a] to [a'] the job has kept its total and has not lost
    progress: a counter within the total stays within it and does not go
    down. *)
Definition progress_kept (job_id : string) (a a' : Main.App) : Prop :=
  forall job,
    Main._baseline_jobs a !! job_id = Some job ->
    0 <= Main.completed_calls job <= Main.total_calls job ->
    exists job',
      Main._baseline_jobs a' !! job_id = Some job'
      /\ Main.total_calls job' = Main.total_calls job
      /\ Main.completed_calls job <= Main.completed_calls job'
         <= Main.total_calls job.

(** A computation keeps the progress of the job, however it ends. *)
Definition keeps {A : Type} (job_id : string) (m : M Main.App A) : Prop :=
  forall a r a', m a = (r, a') -> progress_kept job_id a a'.

(** The value that a row of [prompt_component_overrides] gives to its
    key in the dict of [get_prompt_overrides]. *)
Definition to_override (row : Storage.override_row) : Storage.override :=
  {| Storage.o_content := Storage.ov_content row;
     Storage.o_enabled := Storage.ov_enabled row |}.

(** The row is the one of component [component_id] in profile
    [profile_id]. *)
Definition override_of (profile_id component_id : string)
    (row : Storage.override_row) : bool :=
  String.eqb (Storage.ov_profile_id row) profile_id
  && String.eqb (Storage.ov_component_id row) component_id.

(** What the schema and the methods intend for [prompt_profiles]: [id]
    is a key, and a tenant has at most one default profile. *)
Definition profiles_wf (rows : list Storage.profile_row) : Prop :=
  NoDup (map Storage.pr_id rows)
  /\ forall r1 r2,
       r1 ∈ rows -> r2 ∈ rows ->
       Storage.pr_tenant_id r1 = Storage.pr_tenant_id r2 ->
       Storage.pr_is_default r1 = true -> Storage.pr_is_default r2 = true ->
       Storage.pr_id r1 = Storage.pr_id r2.

(** A method keeps [profiles_wf], however it ends. *)
Definition keeps_profiles_wf {A : Type} (method : M Storage.ChatStore A) : Prop :=
  forall db r db',
    method db = (r, db') ->
    profiles_wf (Storage.prompt_profiles db) ->
    profiles_wf (Storage.prompt_profiles db').

(** What the schema intends for the chat history, and a title to show:
    the ids are keys, every message belongs to a stored conversation (the
    foreign key, which SQLite does not enforce here), and no conversation
    has an empty title. *)
Definition tables_wf (db : Storage.ConversationTables) : Prop :=
  NoDup (map Storage.cv_id (Storage.conversations db))
  /\ NoDup (map Storage.mr_id (Storage.messages db))
  /\ (forall m, m ∈ Storage.messages db ->
        Storage.ensure_conversation (Storage.mr_conversation_id m) db = true)
  /\ forall r, r ∈ Storage.conversations db -> Storage.cv_title r <> "".

(** A method keeps [tables_wf], however it ends. *)
Definition keeps_tables_wf {A : Type} (method : M Storage.ConversationTables A)
    : Prop :=
  forall db r db', method db = (r, db') -> tables_wf db -> tables_wf db'.

(** The title that the first message of a conversation gives it. *)
Definition title_of_message (user_message : string) : string :=
  Py.or_else
    (Py.slice_to 48 (Py.replace_char (ascii_of_nat 10) " " (Py.strip user_message)))
    "New Conversation".

(** The title of a stored conversation. *)
Definition title_of (conversation_id : string) (db : Storage.ConversationTables)
    : option string :=
  Storage.cv_title
    <$> List.find (fun r => String.eqb (Storage.cv_id r) conversation_id)
                  (Storage.conversations db).

(** Every stored message is stamped earlier than [now]. *)
Definition clock_after (now : string) (db : Storage.ConversationTables) : Prop :=
  Forall (fun m => String.ltb (Storage.mr_created_at m) now = true)
         (Storage.messages db).

(** [k] copies of [fragment], each appended to the ones before. *)
Fixpoint repeated (fragment : string) (k : nat) : string :=
  match k with
  | O => EmptyString
  | S k' => repeated fragment k' +:+ fragment
  end.

(** One store into the dict of a job by [_append_baseline_event] or
    [_baseline_progress]. *)
Inductive job_update : Main.Job -> Main.Job -> Prop :=
| update_event (job : Main.Job) (message now : string) :
    job_update job
      (Main.with_events (Main.append_bounded (Main.events job) message) now job)
| update_clock (job : Main.Job) (now : string) :
    job_update job (Main.with_events (Main.events job) now job)
| update_step (job : Main.Job) (step : string) :
    job_update job (Main.with_progress step (Main.completed_calls job) job)
| update_count (job : Main.Job) (step : string) (inc : Z) :
    0 < inc ->
    job_update job
      (Main.with_progress step
         (Z.min (Main.total_calls job) (Main.completed_calls job + inc)) job).

(** From [a] to [a'] the job table has changed in the entry of [job_id]
    only, and there by stores of the kind above: a job that was there is
    still there, and one that was not has not appeared. *)
Definition job_evolves (job_id : string) (a a' : Main.App) : Prop :=
  (forall other, other <> job_id ->
     Main._baseline_jobs a' !! other = Main._baseline_jobs a !! other)
  /\ match Main._baseline_jobs a !! job_id with
     | Some job =>
         exists job', Main._baseline_jobs a' !! job_id = Some job'
                      /\ rtc job_update job job'
     | None => Main._baseline_jobs a' !! job_id = None
     end.

(** A computation changes the job table in this way only, however it
    ends. *)
Definition evolves {A : Type} (job_id : string) (m : M Main.App A) : Prop :=
  forall a r a', m a = (r, a') -> job_evolves job_id a a'.

(** The counter of a job after [k] reported completions past [c]. *)
Definition advance (total c k : Z) : Z :=
  if k =? 0 then c else Z.min total (c + k).

(** From [a] to [a'] the job has kept its total and has counted [k]
    completed calls. *)
Definition advanced (job_id : string) (k : Z) (a a' : Main.App) : Prop :=
  forall job,
    Main._baseline_jobs a !! job_id = Some job ->
    exists job',
      Main._baseline_jobs a' !! job_id = Some job'
      /\ Main.total_calls job' = Main.total_calls job
      /\ Main.completed_calls job'
         = advance (Main.total_calls job) (Main.completed_calls job) k.

End Spec.

(** ** Inputs for the examples *)

Module Examples.

(** A text of [n] characters. *)
Fixpoint text_of_length (n : nat) : string :=
  match n with
  | O => EmptyString
  | S n' => String "x" (text_of_length n')
  end.

Definition stored (role content : string) : Storage.StoredMessage :=
  {| Storage.msg_id := "m"; Storage.msg_role := role;
     Storage.msg_content := content; Storage.msg_created_at := "t" |}.

Definition context_settings (max_context_tokens : Z) (pct : Py.float)
    (instructions : string) : Storage.StoredContextSettings :=
  {| Storage.cs_tenant_id := "default";
     Storage.max_context_tokens := max_context_tokens;
     Storage.max_response_tokens := 512;
     Storage.compact_trigger_pct := pct;
     Storage.compact_instructions := instructions;
     Storage.cs_updated_at := "t" |}.

(** The settings that a first chat turn reads under [env 100]. *)
Definition read_settings : Storage.StoredContextSettings :=
  {| Storage.cs_tenant_id := "default";
     Storage.max_context_tokens := 100;
     Storage.max_response_tokens := 512;
     Storage.compact_trigger_pct := Py.float_lit 9 10;
     Storage.compact_instructions := Storage.default_compaction_instructions;
     Storage.cs_updated_at := "t1" |}.

Definition settings (window : Z) : Settings.Settings :=
  {| Settings.aigent_tenant_id := "default";
     Settings.ollama_base_url := "http://host.docker.internal:11434";
     Settings.ollama_model := "llama3.2:3b";
     Settings.ollama_context_window := window;
     Settings.ollama_max_response_tokens := 512;
     Settings.chat_db_path := "/app/models-local/chat.db";
     Settings.default_agent_id := "basic" |}.

(** A backend that answers every call with the same short reply and
    reports no token counts. *)
Definition echo_backend : Llm.backend :=
  fun n _ _ =>
    Py.Ok ({| Llm.completion_content := "ok";
              Llm.latency_ms := 7;
              Llm.prompt_tokens := None;
              Llm.completion_tokens := None;
              Llm.total_tokens := None |}, 9).

Definition component (id content : string) (order : Z) (enabled : bool)
    : Prompts.PromptComponent :=
  {| Prompts.id := id; Prompts.name := id +:+ ".md";
     Prompts.file_path := "/agent-prompts/basic/components/" +:+ id +:+ ".md";
     Prompts.content := content; Prompts.order := order;
     Prompts.enabled := enabled; Prompts.is_system := true |}.

Definition env (window : Z) (components : list Prompts.PromptComponent)
    (backend : Llm.backend) : Main.Env :=
  {| Main.settings := settings window;
     Main.load_prompt_components := components;
     Main._default_compact_trigger := Py.float_lit 9 10;
     Main.llm_client := backend;
     Main.uuid4 := fun n => "uuid-" +:+ Py.str_of_int (Z.of_nat n);
     Main.utc_now := fun n => "t" +:+ Py.str_of_int (Z.of_nat n);
     Main.perf_elapsed_ms := fun n => Z.of_nat n |}.

Definition profile_row (id name : string) (is_default is_active : bool)
    : Storage.profile_row :=
  {| Storage.pr_id := id; Storage.pr_tenant_id := "default";
     Storage.pr_name := name; Storage.pr_is_default := is_default;
     Storage.pr_is_active := is_active;
     Storage.pr_created_at := "t"; Storage.pr_updated_at := "t" |}.

(** A tenant with its default profile, active, and one more profile. *)
Definition two_profiles : Storage.ChatStore :=
  Storage.with_profiles
    [ profile_row "p-default" "Default" true true;
      profile_row "p-custom" "Custom" false false ]
    Storage.empty_store.

(** Which profiles are active, in the order of the table. *)
Definition activity (db : Storage.ChatStore) : list (string * bool) :=
  map (fun r => (Storage.pr_id r, Storage.pr_is_active r))
      (Storage.prompt_profiles db).

Definition two_components : list Prompts.PromptComponent :=
  [ component "00_identity" "Be brief." 0 true;
    component "01_style" "Be kind." 1 true ].

Definition app (db : Storage.ChatStore) : Main.App :=
  {| Main.store := db; Main._baseline_jobs := ∅;
     Main.llm_calls := O; Main.tick := O |}.

(** A backend that answers like [echo_backend], except that its call
    number [n] (counted from 0) fails. *)
Definition failing_backend (n : nat) : Llm.backend :=
  fun k messages cap =>
    if Nat.eqb k n then Py.Raise (Py.RuntimeError "Invalid Ollama response format")
    else echo_backend k messages cap.

(** A history of one conversation with one exchange, and one measured
    exchange. *)
Definition chat_tables : Storage.ConversationTables :=
  {| Storage.conversations :=
       [ {| Storage.cv_id := "c1"; Storage.cv_title := "Hello";
            Storage.cv_created_at := "2024-01-01T00:00:00";
            Storage.cv_updated_at := "2024-01-01T00:00:02" |} ];
     Storage.messages :=
       [ {| Storage.mr_id := "m1"; Storage.mr_conversation_id := "c1";
            Storage.mr_role := "user"; Storage.mr_content := "Hello";
            Storage.mr_created_at := "2024-01-01T00:00:01" |};
         {| Storage.mr_id := "m2"; Storage.mr_conversation_id := "c1";
            Storage.mr_role := "assistant"; Storage.mr_content := "Hi";
            Storage.mr_created_at := "2024-01-01T00:00:02" |} ];
     Storage.performance_exchanges := [] |}.

(** A measured exchange of conversation ["c1"], stamped [created_at]. *)
Definition exchange (id created_at : string) : Storage.StoredPerformanceExchange :=
  {| Storage.pe_id := id; Storage.pe_conversation_id := "c1";
     Storage.pe_created_at := created_at;
     Storage.user_preview := "Hello"; Storage.assistant_preview := "Hi";
     Storage.total_latency_ms := 120; Storage.llm_latency_ms := 100;
     Storage.prompt_tokens := Some 12; Storage.completion_tokens := Some 3;
     Storage.total_tokens := Some 15;
     Storage.system_chars := 40; Storage.user_chars := 5;
     Storage.assistant_chars := 2;
     Storage.system_tokens_est := Some 10; Storage.user_tokens_est := Some 2;
     Storage.assistant_tokens_est := None |}.

End Examples.


(** * Properties *)

(** ** The Python fragment *)

Section PyFacts.

Lemma bind_Ok {A B : Type} (m : Py.result A) (k : A -> Py.result B) (b : B) :
  m ≫= k = Py.Ok b -> exists a, m = Py.Ok a /\ k a = Py.Ok b.
Proof.
  destruct m as [a| |]; cbn; intros H; try discriminate.
  exists a. split; [reflexivity | exact H].
Qed.

Lemma M_bind_Ok {W A B : Type} (m : M W A) (k : A -> M W B) (w w' : W) (b : B) :
  (m ≫= k) w = (Py.Ok b, w') ->
  exists a w1, m w = (Py.Ok a, w1) /\ k a w1 = (Py.Ok b, w').
Proof.
  unfold mbind, M_mbind, M_bind.
  destruct (m w) as [[a| |] w1]; intros H; try discriminate.
  exists a, w1. split; [reflexivity | exact H].
Qed.

Lemma M_bind_run {W A B : Type} (m : M W A) (k : A -> M W B) (w w1 : W) (a : A) :
  m w = (Py.Ok a, w1) -> (m ≫= k) w = k a w1.
Proof. unfold mbind, M_mbind, M_bind. intros ->. reflexivity. Qed.

Lemma M_lift_Ok {W A : Type} (r : Py.result A) (w w' : W) (x : A) :
  M_lift r w = (Py.Ok x, w') -> r = Py.Ok x /\ w' = w.
Proof. unfold M_lift. intros [= -> ->]. auto. Qed.

Lemma M_ret_Ok {W A : Type} (x y : A) (w w' : W) :
  (mret x : M W A) w = (Py.Ok y, w') -> y = x /\ w' = w.
Proof. unfold mret, M_mret, M_ret. intros [= -> ->]. auto. Qed.

(** A loop whose body lowers a measure ends within that many rounds, in
    a state that fails the condition and keeps every invariant of the
    body. *)
Lemma while_terminates {S : Type} (cond : S -> bool) (body : S -> Py.result S)
    (mu : S -> nat) (Inv : S -> Prop) :
  (forall s, Inv s -> cond s = true ->
     exists s', body s = Py.Ok s' /\ Inv s' /\ (mu s' < mu s)%nat) ->
  forall fuel s, Inv s -> (mu s <= fuel)%nat ->
  exists s', Py.while cond body fuel s = Py.Ok s' /\ Inv s' /\ cond s' = false.
Proof.
  intros Hstep fuel. induction fuel as [|fuel IH]; intros s Hinv Hmu.
  - destruct (cond s) eqn:Hc.
    + destruct (Hstep s Hinv Hc) as (s' & _ & _ & Hlt). lia.
    + exists s. cbn. rewrite Hc. auto.
  - destruct (cond s) eqn:Hc.
    + destruct (Hstep s Hinv Hc) as (s' & Hb & Hinv' & Hlt).
      destruct (IH s' Hinv') as (s'' & Hw & Hinv'' & Hc''); [lia|].
      exists s''. cbn. rewrite Hc, Hb. cbn. auto.
    + exists s. cbn. rewrite Hc. auto.
Qed.

Lemma while_Ok_inv {S : Type} (cond : S -> bool) (body : S -> Py.result S)
    (Inv : S -> Prop) :
  (forall s s', Inv s -> cond s = true -> body s = Py.Ok s' -> Inv s') ->
  forall fuel s s', Inv s -> Py.while cond body fuel s = Py.Ok s' ->
  Inv s' /\ cond s' = false.
Proof.
  intros Hstep fuel. induction fuel as [|fuel IH]; intros s s' Hinv; cbn;
    destruct (cond s) eqn:Hc; intros H; try discriminate.
  - injection H as <-. auto.
  - destruct (body s) as [s1| |] eqn:Hb; cbn in H; try discriminate.
    eapply IH; [|exact H]. eauto.
  - injection H as <-. auto.
Qed.

(** *** Strings *)

Lemma len_nonneg (s : string) : 0 <= Py.len s.
Proof. unfold Py.len. lia. Qed.

Lemma len_app (s t : string) : Py.len (s +:+ t) = Py.len s + Py.len t.
Proof.
  unfold Py.len. induction s as [|c s IH]; [reflexivity|].
  change (String c s +:+ t) with (String c (s +:+ t)).
  change (String.length (String c (s +:+ t))) with (S (String.length (s +:+ t))).
  change (String.length (String c s)) with (S (String.length s)). lia.
Qed.

Lemma truthy_true (s : string) : Py.truthy s = true <-> s <> "".
Proof. destruct s; cbn; split; intros; congruence. Qed.

Lemma app_empty_inv (s t : string) : s +:+ t = "" -> s = "".
Proof. destruct s; cbn; [reflexivity | discriminate]. Qed.

Lemma join_nonempty (sep p : string) (ps : list string) :
  p <> "" -> Py.join sep (p :: ps) <> "".
Proof.
  intros Hp. destruct ps as [|q ps]; cbn; [exact Hp|].
  intros H. apply Hp. eapply app_empty_inv. exact H.
Qed.

(** *** Sorting *)

Context {A : Type} (key : A -> Z).

Lemma insert_sorted_perm (x : A) (l : list A) :
  Permutation (Py.insert_sorted key x l) (x :: l).
Proof.
  induction l as [|y ys IH]; cbn; [reflexivity|].
  destruct (key x <=? key y); [reflexivity|].
  rewrite IH. apply perm_swap.
Qed.

Lemma sorted_perm (l : list A) : Permutation (Py.sorted key l) l.
Proof.
  induction l as [|x l IH]; cbn; [reflexivity|].
  fold (Py.sorted key l). rewrite insert_sorted_perm. by constructor.
Qed.

Lemma insert_sorted_sorted (x : A) (l : list A) :
  StronglySorted (fun a b => key a <= key b) l ->
  StronglySorted (fun a b => key a <= key b) (Py.insert_sorted key x l).
Proof.
  induction 1 as [|y ys Hs IH Hall]; cbn.
  - repeat constructor.
  - destruct (key x <=? key y) eqn:Hle.
    + apply Z.leb_le in Hle. constructor.
      * by constructor.
      * constructor; [exact Hle|].
        eapply List.Forall_impl; [|exact Hall]. cbn. intros; lia.
    + apply Z.leb_gt in Hle. constructor; [exact IH|].
      rewrite (insert_sorted_perm x ys). constructor; [lia | exact Hall].
Qed.

Lemma sorted_sorted (l : list A) :
  StronglySorted (fun a b => key a <= key b) (Py.sorted key l).
Proof.
  induction l as [|x l IH]; cbn; [constructor|].
  by apply insert_sorted_sorted.
Qed.

(** Stability: components of one key keep their relative order. *)
Lemma insert_sorted_stable (k : Z) (x : A) (l : list A) :
  StronglySorted (fun a b => key a <= key b) l ->
  List.filter (fun a => key a =? k) (Py.insert_sorted key x l)
  = List.filter (fun a => key a =? k) (x :: l).
Proof.
  induction 1 as [|y ys Hs IH Hall]; [reflexivity|].
  cbn [Py.insert_sorted]. destruct (key x <=? key y) eqn:Hle; [reflexivity|].
  apply Z.leb_gt in Hle.
  cbn [List.filter] in *. rewrite IH.
  destruct (key x =? k) eqn:Hx; [|reflexivity].
  destruct (key y =? k) eqn:Hy; [|reflexivity].
  apply Z.eqb_eq in Hx, Hy. lia.
Qed.

Lemma sorted_stable (k : Z) (l : list A) :
  List.filter (fun a => key a =? k) (Py.sorted key l)
  = List.filter (fun a => key a =? k) l.
Proof.
  induction l as [|x l IH]; [reflexivity|].
  cbn [Py.sorted foldr]. fold (Py.sorted key l).
  rewrite insert_sorted_stable by apply sorted_sorted.
  cbn [List.filter]. by rewrite IH.
Qed.

End PyFacts.

(** ** Token estimator *)

Section Estimator.

Lemma ceil_div_4_spec (n : Z) : Spec.is_ceil_quarter n (Py.ceil_div n 4).
Proof. unfold Spec.is_ceil_quarter, Py.ceil_div. Z.div_mod_to_equations. lia. Qed.

Lemma ceil_div_4_mono (n m : Z) : n <= m -> Py.ceil_div n 4 <= Py.ceil_div m 4.
Proof. unfold Py.ceil_div. intros H. Z.div_mod_to_equations. lia. Qed.

Lemma estimate_messages_ge_1 (messages : list Llm.ChatMessageIn) :
  1 <= Main._estimate_tokens_for_messages messages.
Proof. unfold Main._estimate_tokens_for_messages. lia. Qed.

Lemma char_count_cons (m : Llm.ChatMessageIn) (ms : list Llm.ChatMessageIn) :
  Main.char_count (m :: ms) = Py.len (Llm.content m) + Main.char_count ms.
Proof. reflexivity. Qed.

Lemma char_count_nonneg (messages : list Llm.ChatMessageIn) :
  0 <= Main.char_count messages.
Proof.
  induction messages as [|m ms IH]; [done|].
  rewrite char_count_cons. pose proof (len_nonneg (Llm.content m)). lia.
Qed.

Lemma char_count_app (l1 l2 : list Llm.ChatMessageIn) :
  Main.char_count (l1 ++ l2) = Main.char_count l1 + Main.char_count l2.
Proof.
  induction l1 as [|m ms IH]; [done|].
  rewrite <- app_comm_cons, !char_count_cons. lia.
Qed.

Lemma estimate_messages_mono (l1 l2 : list Llm.ChatMessageIn) :
  Main.char_count l1 <= Main.char_count l2 ->
  Main._estimate_tokens_for_messages l1 <= Main._estimate_tokens_for_messages l2.
Proof.
  intros H. unfold Main._estimate_tokens_for_messages.
  pose proof (ceil_div_4_mono _ _ H). lia.
Qed.

(** C4.  The token estimate of a text, and of a list of messages, is
    [max(1, ceil(characters / 4))]: the estimate is a function of the
    number of characters alone, it is at least 1 (also for the empty text
    and the empty list, which cost exactly 1), and it does not decrease
    when the number of characters grows. *)
Theorem estimate_tokens_is_max_1_ceil_quarter
    (text : string) (messages : list Llm.ChatMessageIn) :
  (exists c, Spec.is_ceil_quarter (Py.len text) c
             /\ Main._estimate_tokens_for_text text = Z.max 1 c)
  /\ (exists c, Spec.is_ceil_quarter
                  (foldr Z.add 0 (map (fun m => Py.len (Llm.content m)) messages)) c
                /\ Main._estimate_tokens_for_messages messages = Z.max 1 c)
  /\ 1 <= Main._estimate_tokens_for_text text
  /\ 1 <= Main._estimate_tokens_for_messages messages
  /\ Main._estimate_tokens_for_text "" = 1
  /\ Main._estimate_tokens_for_messages [] = 1
  /\ (forall text', Py.len text <= Py.len text' ->
        Main._estimate_tokens_for_text text <= Main._estimate_tokens_for_text text')
  /\ (forall messages',
        Main.char_count messages <= Main.char_count messages' ->
        Main._estimate_tokens_for_messages messages
        <= Main._estimate_tokens_for_messages messages')
  /\ (forall text', Py.len text = Py.len text' ->
        Main._estimate_tokens_for_text text = Main._estimate_tokens_for_text text').
Proof.
  assert (Hsum : foldr Z.add 0 (map (fun m => Py.len (Llm.content m)) messages)
                 = Main.char_count messages).
  { induction messages as [|m ms IH]; [reflexivity|].
    rewrite char_count_cons, <- IH. reflexivity. }
  repeat split.
  - exists (Py.ceil_div (Py.len text) 4). split; [apply ceil_div_4_spec | reflexivity].
  - exists (Py.ceil_div (Main.char_count messages) 4). rewrite Hsum.
    split; [apply ceil_div_4_spec | reflexivity].
  - unfold Main._estimate_tokens_for_text. lia.
  - apply estimate_messages_ge_1.
  - intros text' H. unfold Main._estimate_tokens_for_text.
    pose proof (ceil_div_4_mono _ _ H). lia.
  - apply estimate_messages_mono.
  - intros text' H. unfold Main._estimate_tokens_for_text. by rewrite H.
Qed.

Lemma estimate_tokens_witness :
  Main._estimate_tokens_for_text "abc" <= Main._estimate_tokens_for_text "abcdefghi"
  /\ Main._estimate_tokens_for_text "abcdefghi" = 3.
Proof.
  split; [|reflexivity].
  apply (estimate_tokens_is_max_1_ceil_quarter "abc" []).
  vm_compute. discriminate.
Defined.

End Estimator.

(** ** Prompt composer *)

Section Composer.

Lemma filter_kept_survives (l : list Prompts.PromptComponent) :
  List.filter Prompts.kept l = filter Spec.survives l.
Proof.
  induction l as [|c l IH]; [reflexivity|].
  cbn [List.filter]. rewrite filter_cons, IH.
  unfold Prompts.kept. destruct (decide (Spec.survives c)) as [[He Hs]|Hn].
  - rewrite He. apply truthy_true in Hs. by rewrite Hs.
  - destruct (Prompts.enabled c) eqn:He; [|reflexivity].
    destruct (Py.truthy (Py.strip (Prompts.content c))) eqn:Ht; [|reflexivity].
    exfalso. apply Hn. split; [exact He | by apply truthy_true].
Qed.

Lemma filter_survives_disabled (l : list Prompts.PromptComponent) :
  Forall (fun c => Prompts.enabled c = false) l -> filter Spec.survives l = [].
Proof.
  induction 1 as [|c l Hc _ IH]; [reflexivity|].
  rewrite filter_cons, IH. destruct (decide (Spec.survives c)) as [[He _]|]; [|reflexivity].
  congruence.
Qed.

(** C5.  The composed system prompt is obtained from the components in
    ascending [order] (a stable rearrangement of the argument), keeping
    the enabled ones whose trimmed content is not empty and joining the
    trimmed contents with a blank line; when none is kept, as for the
    empty list or for disabled components only, it is the fallback
    sentence.  It is never empty. *)
Theorem compose_system_prompt_sorted_filtered_joined
    (components : list Prompts.PromptComponent) :
  (exists ordered : list Prompts.PromptComponent,
      Permutation ordered components
      /\ StronglySorted (fun a b => Prompts.order a <= Prompts.order b) ordered
      /\ (forall k, List.filter (fun c => Prompts.order c =? k) ordered
                    = List.filter (fun c => Prompts.order c =? k) components)
      /\ Prompts.compose_system_prompt components
         = match map (fun c => Py.strip (Prompts.content c))
                     (filter Spec.survives ordered) with
           | [] => "You are a helpful local AI assistant."
           | parts => Py.join (String "010" (String "010" "")) parts
           end)
  /\ Prompts.compose_system_prompt [] = "You are a helpful local AI assistant."
  /\ (Forall (fun c => Prompts.enabled c = false) components ->
      Prompts.compose_system_prompt components
      = "You are a helpful local AI assistant.")
  /\ Prompts.compose_system_prompt components <> "".
Proof.
  assert (Hc : Prompts.compose_system_prompt components
               = match map (fun c => Py.strip (Prompts.content c))
                           (filter Spec.survives
                              (Py.sorted Prompts.order components)) with
                 | [] => "You are a helpful local AI assistant."
                 | parts => Py.join (String "010" (String "010" "")) parts
                 end).
  { unfold Prompts.compose_system_prompt. rewrite filter_kept_survives.
    by destruct (map _ (filter Spec.survives _)). }
  split; [|split; [reflexivity|split]].
  - exists (Py.sorted Prompts.order components).
    split; [apply sorted_perm|].
    split; [apply sorted_sorted|].
    split; [intros k; apply sorted_stable | exact Hc].
  - intros Hdis. rewrite Hc, filter_survives_disabled; [reflexivity|].
    apply Forall_forall. intros c Hin.
    rewrite Forall_forall in Hdis. apply Hdis.
    by rewrite <- (sorted_perm Prompts.order components).
  - rewrite Hc.
    destruct (filter Spec.survives (Py.sorted Prompts.order components))
      as [|c l] eqn:Hf; [discriminate|].
    cbn [map]. apply join_nonempty.
    assert (Hin : c ∈ filter Spec.survives (Py.sorted Prompts.order components))
      by (rewrite Hf; left).
    apply list_elem_of_filter in Hin as [[_ Hs] _]. exact Hs.
Qed.

Lemma compose_system_prompt_witness :
  Prompts.compose_system_prompt
    [ {| Prompts.id := "a"; Prompts.name := "a.md"; Prompts.file_path := "/a.md";
         Prompts.content := "Be brief."; Prompts.order := 0;
         Prompts.enabled := false; Prompts.is_system := true |} ]
  = "You are a helpful local AI assistant.".
Proof.
  apply compose_system_prompt_sorted_filtered_joined.
  repeat constructor.
Defined.

End Composer.

(** ** Context settings *)

Section ContextSettings.

Lemma default_compaction_instructions_not_blank :
  Py.strip Storage.default_compaction_instructions <> "".
Proof. vm_compute. discriminate. Qed.

Lemma lookup_with_context_settings t db :
  Storage.prompt_context_settings (Storage.with_context_settings t db) = t.
Proof. reflexivity. Qed.

(** [ensure_context_settings] never raises; what it returns is the row of
    the tenant afterwards, with instructions that are not blank, and with
    the numbers of the row that was there, or else of the arguments. *)
Lemma ensure_context_settings_spec tenant m r p now db :
  exists cs db',
    Storage.ensure_context_settings tenant m r p now db = (Py.Ok cs, db')
    /\ Py.strip (Storage.compact_instructions cs) <> ""
    /\ Storage.prompt_context_settings db' !! tenant = Some cs
    /\ Storage.prompt_profiles db' = Storage.prompt_profiles db
    /\ Storage.prompt_component_overrides db' = Storage.prompt_component_overrides db
    /\ match Storage.prompt_context_settings db !! tenant with
       | Some row => Storage.max_context_tokens cs = Storage.max_context_tokens row
                     /\ Storage.max_response_tokens cs = Storage.max_response_tokens row
                     /\ Storage.compact_trigger_pct cs = Storage.compact_trigger_pct row
       | None => Storage.max_context_tokens cs = m
                 /\ Storage.max_response_tokens cs = r
                 /\ Storage.compact_trigger_pct cs = p
       end.
Proof.
  unfold Storage.ensure_context_settings.
  destruct (Storage.prompt_context_settings db !! tenant) as [row|] eqn:Hrow.
  - destruct (String.eqb (Py.strip (Storage.compact_instructions row)) "") eqn:Hb.
    + eexists _, _. split; [reflexivity|]. cbn.
      split; [apply default_compaction_instructions_not_blank|].
      split; [apply lookup_insert_eq|]. auto.
    + apply String.eqb_neq in Hb. eexists _, _. split; [reflexivity|]. auto 10.
  - eexists _, _. split; [reflexivity|]. cbn.
    split; [apply default_compaction_instructions_not_blank|].
    split; [apply lookup_insert_eq|]. auto.
Qed.

Lemma update_context_settings_spec tenant m r p i now db :
  exists cs db',
    Storage.update_context_settings tenant m r p i now db = (Py.Ok cs, db')
    /\ Py.strip (Storage.compact_instructions cs) <> ""
    /\ Storage.prompt_context_settings db' !! tenant = Some cs
    /\ (forall w, m = Some w -> Storage.max_context_tokens cs = w)
    /\ (forall w, r = Some w -> Storage.max_response_tokens cs = w)
    /\ (forall w, p = Some w -> Storage.compact_trigger_pct cs = w).
Proof.
  unfold Storage.update_context_settings.
  destruct (ensure_context_settings_spec tenant 4096 512 (Py.float_lit 9 10) now db)
    as (cur & db1 & He1 & _ & Hl1 & _ & _ & _).
  rewrite (M_bind_run _ _ _ _ _ He1). cbv beta.
  unfold mbind, M_mbind, M_bind, M_modify. cbv beta iota.
  match goal with
  | |- context [Storage.ensure_context_settings _ _ _ _ _ ?d] => set (db2 := d)
  end.
  destruct (ensure_context_settings_spec tenant 4096 512 (Py.float_lit 9 10) now db2)
    as (cs & db3 & He2 & Hnb & Hl3 & _ & _ & Hrow).
  exists cs, db3. split; [exact He2|]. split; [exact Hnb|]. split; [exact Hl3|].
  subst db2. rewrite lookup_with_context_settings, lookup_alter_eq, Hl1 in Hrow.
  cbn in Hrow. destruct Hrow as (Hm & Hr & Hp).
  repeat split; intros w ->; cbn in *; assumption.
Qed.

Lemma store_call_run {A : Type} env
    (method : string -> string -> M Storage.ChatStore A) (a : Main.App) :
  Main.store_call env method a
  = let '(res, db) := method (Main.uuid4 env (Main.tick a))
                             (Main.utc_now env (S (Main.tick a)))
                             (Main.store a) in
    (res, {| Main.store := db; Main._baseline_jobs := Main._baseline_jobs a;
             Main.llm_calls := Main.llm_calls a;
             Main.tick := S (S (Main.tick a)) |}).
Proof. reflexivity. Qed.

(** The settings that a chat turn reads: the call never raises, the
    instructions are not blank and the context window is the configured
    one. *)
Lemma get_context_settings_spec env a :
  exists cs a',
    Main._get_context_settings env a = (Py.Ok cs, a')
    /\ Py.strip (Storage.compact_instructions cs) <> ""
    /\ Storage.max_context_tokens cs
       = Settings.ollama_context_window (Main.settings env)
    /\ Storage.max_response_tokens cs
       = Settings.ollama_max_response_tokens (Main.settings env)
    /\ Main._baseline_jobs a' = Main._baseline_jobs a
    /\ Main.llm_calls a' = Main.llm_calls a.
Proof.
  unfold Main._get_context_settings.
  match goal with
  | |- context [Main.store_call env ?f ≫= _] =>
      pose proof (store_call_run env f a) as Hrun
  end.
  cbv beta in Hrun.
  match type of Hrun with
  | _ = let '(_, _) := ?call in _ =>
      destruct (ensure_context_settings_spec (Main._tenant_id env)
                  (Settings.ollama_context_window (Main.settings env))
                  (Settings.ollama_max_response_tokens (Main.settings env))
                  (Main._default_compact_trigger env)
                  (Main.utc_now env (S (Main.tick a))) (Main.store a))
        as (cur & db1 & He & Hnb & _)
  end.
  rewrite He in Hrun. rewrite (M_bind_run _ _ _ _ _ Hrun).
  destruct (negb (Storage.max_context_tokens cur =? _) || _) eqn:Hd.
  - rewrite store_call_run. cbn [Main.tick Main.store].
    match goal with
    | |- context [Storage.update_context_settings ?t ?m ?r ?p ?i ?n ?d] =>
        destruct (update_context_settings_spec t m r p i n d)
          as (cs & db2 & Hu & Hnb2 & _ & Hm & Hr & _)
    end.
    rewrite Hu. eexists _, _. split; [reflexivity|]. cbn. auto 10.
  - apply orb_false_elim in Hd as [Hd1 Hd2].
    apply negb_false_iff, Z.eqb_eq in Hd1, Hd2.
    eexists _, _. split; [reflexivity|]. cbn. auto 10.
Qed.

End ContextSettings.

(** ** Conversion of integers to binary64 *)

Section FloatOfInt.

Lemma digits2_pos_log2 (p : positive) :
  Zpos (digits2_pos p) = Z.log2 (Zpos p) + 1.
Proof.
  assert (Hsize : forall q, digits2_pos q = Pos.size q).
  { induction q as [q IH|q IH|]; cbn; congruence. }
  destruct p as [p|p|]; cbn [digits2_pos Z.log2]; rewrite ?Hsize; lia.
Qed.

Lemma Zdigits2_nonneg_log2 (m : Z) :
  0 < m -> Zdigits2 m = Z.log2 m + 1.
Proof. destruct m as [|p|p]; try lia. intros _. apply digits2_pos_log2. Qed.

Lemma Zdigits2_mono (a b : Z) : 0 <= a <= b -> Zdigits2 a <= Zdigits2 b.
Proof.
  intros [Ha Hab]. destruct (Z.eq_dec a 0) as [->|Hne].
  - destruct b as [|p|p]; cbn; lia.
  - rewrite !Zdigits2_nonneg_log2 by lia.
    pose proof (Z.log2_le_mono a b Hab). lia.
Qed.

Lemma Zdigits2_succ (a : Z) : 0 <= a -> Zdigits2 (a + 1) <= Zdigits2 a + 1.
Proof.
  intros Ha. destruct (Z.eq_dec a 0) as [->|Hne]; [vm_compute; discriminate|].
  rewrite !Zdigits2_nonneg_log2 by lia.
  pose proof (Z.log2_succ_le a). unfold Z.succ in *. lia.
Qed.

Lemma digits2_pos_iter_xO (m k : positive) :
  Zpos (digits2_pos (Pos.iter xO m k)) = Zpos (digits2_pos m) + Zpos k.
Proof.
  induction k as [|k IH] using Pos.peano_ind.
  - cbn. lia.
  - rewrite Pos.iter_succ. cbn [digits2_pos]. lia.
Qed.

Lemma shr_1_bounds (mrs : shr_record) :
  0 <= shr_m mrs -> 0 <= shr_m (shr_1 mrs) <= shr_m mrs.
Proof.
  destruct mrs as [m r s]. cbn [shr_m].
  destruct m as [|[p|p|]|[p|p|]]; cbn; lia.
Qed.

Lemma iter_shr_1_bounds (p : positive) : forall mrs,
  0 <= shr_m mrs -> 0 <= shr_m (SpecFloat.iter_pos shr_1 p mrs) <= shr_m mrs.
Proof.
  induction p as [p IH|p IH|]; intros mrs H; cbn [SpecFloat.iter_pos].
  - pose proof (shr_1_bounds mrs H) as H1.
    pose proof (IH _ (proj1 H1)) as H2.
    pose proof (IH _ (proj1 H2)). lia.
  - pose proof (IH _ H) as H1. pose proof (IH _ (proj1 H1)). lia.
  - by apply shr_1_bounds.
Qed.

Lemma shr_bounds (mrs : shr_record) (e n : Z) :
  0 <= shr_m mrs ->
  0 <= shr_m (fst (shr mrs e n)) <= shr_m mrs
  /\ snd (shr mrs e n) = e + Z.max 0 n.
Proof.
  intros H. destruct n as [|p|p]; cbn [shr fst snd]; try (split; lia).
  split; [by apply iter_shr_1_bounds | lia].
Qed.

Lemma round_nearest_even_bounds (m : Z) (l : location) :
  m <= round_nearest_even m l <= m + 1.
Proof.
  destruct l as [|[| |]]; cbn; try lia. destruct (Z.even m); lia.
Qed.

(** Rounding a mantissa of at most 64 bits at an exponent that is not
    positive does not overflow. *)
Lemma binary_round_aux_finite (s : bool) (mz : positive) (ez : Z) :
  Zpos (digits2_pos mz) <= 64 -> ez <= 0 ->
  forall s', binary_round_aux Py.prec Py.emax s (Zpos mz) ez loc_Exact
             <> S754_infinity s'.
Proof.
  intros Hd He s'. unfold binary_round_aux, shr_fexp.
  set (r0 := shr_record_of_loc (Zpos mz) loc_Exact).
  set (n1 := fexp Py.prec Py.emax (Zdigits2 (Zpos mz) + ez) - ez).
  destruct (shr_bounds r0 ez n1) as [Hm1 He1]; [cbn; lia|].
  destruct (shr r0 ez n1) as [mrs1 e1]. cbn [fst snd] in Hm1, He1.
  set (m1 := round_nearest_even (shr_m mrs1) (loc_of_shr_record mrs1)).
  pose proof (round_nearest_even_bounds (shr_m mrs1) (loc_of_shr_record mrs1)) as Hr.
  fold m1 in Hr.
  set (r1 := shr_record_of_loc m1 loc_Exact).
  set (n2 := fexp Py.prec Py.emax (Zdigits2 m1 + e1) - e1).
  destruct (shr_bounds r1 e1 n2) as [Hm2 He2]; [cbn; lia|].
  destruct (shr r1 e1 n2) as [mrs2 e2]. cbn [fst snd] in Hm2, He2.
  assert (Hdm1 : Zdigits2 m1 <= 65).
  { assert (Zdigits2 m1 <= Zdigits2 (Zpos mz + 1)) by (apply Zdigits2_mono; cbn in *; lia).
    pose proof (Zdigits2_succ (Zpos mz) ltac:(lia)). cbn [Zdigits2] in *. lia. }
  assert (He2' : e2 <= 971).
  { subst n1 n2. unfold fexp, emin, Py.prec, Py.emax in *. cbn [Zdigits2] in *. lia. }
  assert (Hle : (e2 <=? Py.emax - Py.prec) = true)
    by (apply Z.leb_le; unfold Py.emax, Py.prec; lia).
  destruct (shr_m mrs2); try discriminate.
  rewrite Hle. discriminate.
Qed.

Lemma binary_round_finite (s : bool) (m : positive) :
  Zpos m < 2 ^ 64 ->
  forall s', binary_round Py.prec Py.emax s m 0 <> S754_infinity s'.
Proof.
  intros Hm s'. unfold binary_round, shl_align.
  assert (Hd : 1 <= Zpos (digits2_pos m) <= 64).
  { rewrite digits2_pos_log2.
    pose proof (Z.log2_nonneg (Zpos m)).
    pose proof (proj1 (Z.log2_lt_pow2 (Zpos m) 64 ltac:(lia)) Hm). lia. }
  destruct (fexp Py.prec Py.emax (Zpos (digits2_pos m) + 0) - 0) as [|k|k] eqn:Hk.
  - cbv beta iota. apply binary_round_aux_finite; lia.
  - cbv beta iota. apply binary_round_aux_finite; lia.
  - cbv beta iota. apply binary_round_aux_finite.
    + rewrite digits2_pos_iter_xO.
      unfold fexp, emin, Py.prec, Py.emax in Hk. lia.
    + unfold fexp, emin, Py.prec, Py.emax in *. lia.
Qed.

(** [float(n)] does not raise for an integer below [2 ** 64] in size. *)
Lemma float_of_int_total (z : Z) :
  - 2 ^ 64 < z < 2 ^ 64 -> exists f, Py.float_of_int z = Py.Ok f.
Proof.
  intros Hz. unfold Py.float_of_int, binary_normalize.
  destruct z as [|m|m].
  - eauto.
  - pose proof (binary_round_finite false m ltac:(lia)) as H.
    destruct (binary_round Py.prec Py.emax false m 0) eqn:Hb; eauto.
    by edestruct H.
  - pose proof (binary_round_finite true m ltac:(lia)) as H.
    destruct (binary_round Py.prec Py.emax true m 0) eqn:Hb; eauto.
    by edestruct H.
Qed.

End FloatOfInt.

(** ** Context compactor *)

Section Compactor.

Implicit Types (st : Main.compaction_state) (l : list Llm.ChatMessageIn).

Lemma compaction_cond_true max st :
  Main.compaction_cond max st = true
  <-> 2 < Z.of_nat (length (Main.llm_messages st))
      /\ max < Main._estimate_tokens_for_messages (Main.llm_messages st).
Proof.
  unfold Main.compaction_cond. rewrite andb_true_iff, !Z.ltb_lt. reflexivity.
Qed.

Lemma compaction_cond_false max st :
  Main.compaction_cond max st = false
  <-> Z.of_nat (length (Main.llm_messages st)) <= 2
      \/ Main._estimate_tokens_for_messages (Main.llm_messages st) <= max.
Proof.
  unfold Main.compaction_cond. rewrite andb_false_iff, !Z.ltb_ge. reflexivity.
Qed.

(** One round of the loop: position 2 goes, the counter grows by one. *)
Lemma compaction_body_spec max st :
  Main.compaction_cond max st = true ->
  exists a b m rest,
    Main.llm_messages st = a :: b :: m :: rest
    /\ Main.compaction_body st
       = Py.Ok {| Main.llm_messages := a :: b :: rest;
                  Main.dropped_history_messages :=
                    Main.dropped_history_messages st + 1 |}.
Proof.
  intros [Hlen _]%compaction_cond_true. destruct st as [l d]. cbn in *.
  destruct l as [|a [|b [|m rest]]]; cbn in Hlen; try lia.
  exists a, b, m, rest. split; reflexivity.
Qed.

Lemma char_count_drop k l : Main.char_count (drop k l) <= Main.char_count l.
Proof.
  rewrite <- (take_drop k l) at 2. rewrite char_count_app.
  pose proof (char_count_nonneg (take k l)). lia.
Qed.

(** From an entry list of at most two messages the loop goes nowhere. *)
Lemma reaches_short max s0 st :
  (length (Main.llm_messages s0) <= 2)%nat ->
  Spec.loop_reaches max s0 st -> st = s0.
Proof.
  intros Hlen. induction 1 as [|st st' _ IH Hc _]; [reflexivity|].
  subst st. apply compaction_cond_true in Hc as [Hc _]. lia.
Qed.

(** From a longer entry list, the loop goes through the lists that keep
    the first two messages and lack the next [k], with [k] on the
    counter. *)
Lemma reaches_shape max a b rest0 d0 st :
  Spec.loop_reaches max {| Main.llm_messages := a :: b :: rest0;
                           Main.dropped_history_messages := d0 |} st ->
  exists k : nat,
    (k <= length rest0)%nat
    /\ Main.llm_messages st = a :: b :: drop k rest0
    /\ Main.dropped_history_messages st = d0 + Z.of_nat k.
Proof.
  induction 1 as [|st st' _ IH Hc Hb].
  - exists 0%nat. cbn. split; [lia|]. split; [reflexivity | lia].
  - destruct IH as (k & Hk & Hl & Hd).
    destruct (compaction_body_spec _ _ Hc) as (a' & b' & m & rest & Hl' & Hb').
    rewrite Hb' in Hb. injection Hb as <-.
    rewrite Hl in Hl'. injection Hl' as <- <- Hdrop.
    assert (Hrest : rest = drop (S k) rest0).
    { replace (S k) with (k + 1)%nat by lia.
      rewrite <- drop_drop, Hdrop. reflexivity. }
    exists (S k). cbn. split; [|split].
    + assert (Hn : length (drop k rest0) = S (length rest)) by (by rewrite Hdrop).
      rewrite length_drop in Hn. lia.
    + by rewrite Hrest.
    + lia.
Qed.

Lemma while_reaches max fuel s s' :
  Py.while (Main.compaction_cond max) Main.compaction_body fuel s = Py.Ok s' ->
  Spec.loop_reaches max s s' /\ Main.compaction_cond max s' = false.
Proof.
  apply (while_Ok_inv _ _ (Spec.loop_reaches max s)).
  - intros st st' Hr Hc Hb. eapply Spec.loop_round; eauto.
  - constructor.
Qed.

(** The loop ends within as many rounds as the list has messages. *)
Lemma compaction_while_total max s :
  exists s',
    Py.while (Main.compaction_cond max) Main.compaction_body
             (length (Main.llm_messages s)) s = Py.Ok s'.
Proof.
  destruct (while_terminates (Main.compaction_cond max) Main.compaction_body
              (fun st => length (Main.llm_messages st)) (fun _ => True))
    with (fuel := length (Main.llm_messages s)) (s := s)
    as (s' & Hw & _); [|exact I|lia|eauto].
  intros st _ Hc.
  destruct (compaction_body_spec _ _ Hc) as (a & b & m & rest & Hl & Hb).
  eexists. split; [exact Hb|]. split; [exact I|]. rewrite Hl. cbn. lia.
Qed.

Lemma assemble_cases ep history cs thr :
  let before := Main._estimate_tokens_for_messages
                  (Main.system_message ep :: Main.history_messages history) in
  (Main.assemble ep history cs thr
   = (Main.system_message ep
        :: Main.system_message (Py.strip (Storage.compact_instructions cs))
        :: Main.history_messages history, true)
   /\ Py.strip (Storage.compact_instructions cs) <> "" /\ thr <= before)
  \/ (Main.assemble ep history cs thr
      = (Main.system_message ep :: Main.history_messages history, false)
      /\ (Py.strip (Storage.compact_instructions cs) = "" \/ before < thr)).
Proof.
  cbn zeta. unfold Main.assemble.
  destruct (Py.truthy (Py.strip (Storage.compact_instructions cs))) eqn:Ht.
  - apply truthy_true in Ht.
    destruct (thr <=? _) eqn:Hle; cbn [andb].
    + left. apply Z.leb_le in Hle. split; [reflexivity | auto].
    + right. apply Z.leb_gt in Hle. auto.
  - right. cbn [andb]. split; [reflexivity|]. left.
    destruct (Py.strip (Storage.compact_instructions cs)); [reflexivity | discriminate].
Qed.

Lemma compact_threshold_not_out_of_fuel cs :
  Main.compact_threshold cs <> Py.OutOfFuel.
Proof.
  unfold Main.compact_threshold, Py.float_of_int.
  destruct (binary_normalize _ _ _ _ _) as [s|s| |s m e];
    cbn [mbind result_bind Py.bind]; try discriminate;
    unfold Py.int_of_float;
    match goal with |- context [Py.fmul ?x ?y] => destruct (Py.fmul x y) end;
    discriminate.
Qed.

(** [compact_context] is the threshold, the assembly and the loop. *)
Lemma compact_context_unfold ep history cs thr :
  Main.compact_threshold cs = Py.Ok thr ->
  exists st,
    Py.while (Main.compaction_cond (Storage.max_context_tokens cs))
             Main.compaction_body
             (length (Main.llm_messages (Spec.loop_entry ep history cs thr)))
             (Spec.loop_entry ep history cs thr) = Py.Ok st
    /\ Main.compact_context ep history cs
       = Py.Ok {| Main.ctx_llm_messages := Main.llm_messages st;
                  Main.est_prompt_tokens_before :=
                    Main._estimate_tokens_for_messages
                      (Main.system_message ep :: Main.history_messages history);
                  Main.ctx_compact_threshold := thr;
                  Main.compaction_applied :=
                    snd (Main.assemble ep history cs thr);
                  Main.ctx_dropped_history_messages :=
                    Main.dropped_history_messages st;
                  Main.est_prompt_tokens_after :=
                    Main._estimate_tokens_for_messages (Main.llm_messages st) |}.
Proof.
  intros Hthr.
  destruct (compaction_while_total (Storage.max_context_tokens cs)
              (Spec.loop_entry ep history cs thr)) as (st & Hw).
  exists st. split; [exact Hw|].
  unfold Main.compact_context. rewrite Hthr. cbn [mbind result_bind Py.bind].
  unfold Spec.loop_entry in Hw. cbn [Main.llm_messages] in Hw.
  destruct (Main.assemble ep history cs thr) as [l0 app]. cbn [fst snd] in *.
  rewrite Hw. reflexivity.
Qed.

Lemma compact_context_Raise ep history cs e :
  Main.compact_threshold cs = Py.Raise e ->
  Main.compact_context ep history cs = Py.Raise e.
Proof. intros H. unfold Main.compact_context. rewrite H. reflexivity. Qed.

(** The truncated and the floored product differ only below 1, which no
    estimate reaches. *)
Lemma int_of_float_floor x t :
  Py.int_of_float x = Py.Ok t ->
  exists fl, Py.floor_of_float x = Py.Ok fl
             /\ forall e, 1 <= e -> (t <= e <-> fl <= e).
Proof.
  destruct x as [s|s| |s m e]; cbn; intros H; try discriminate.
  - injection H as <-. eexists. split; [reflexivity | tauto].
  - injection H as <-. eexists. split; [reflexivity|]. intros est Hest.
    destruct s; [|tauto].
    destruct (0 <=? e).
    + pose proof (proj2 (Z.shiftl_nonneg (Zpos m) e) ltac:(lia)).
      assert (Z.shiftl (Zneg m) e < 0) by (apply Z.shiftl_neg; lia). lia.
    + pose proof (proj2 (Z.shiftr_nonneg (Zpos m) (- e)) ltac:(lia)).
      assert (Z.shiftr (Zneg m) (- e) < 0) by (apply Z.shiftr_neg; lia). lia.
Qed.

Lemma compact_threshold_floor cs thr :
  Main.compact_threshold cs = Py.Ok thr ->
  exists fl, Spec.floor_threshold cs = Py.Ok fl
             /\ forall e, 1 <= e -> (thr <= e <-> fl <= e).
Proof.
  unfold Main.compact_threshold, Spec.floor_threshold.
  intros (w & Hw & Hi)%bind_Ok. rewrite Hw. cbn [mbind result_bind Py.bind].
  by apply int_of_float_floor.
Qed.

End Compactor.

Section CompactorProperties.

Implicit Types (st : Main.compaction_state).

(** The list that the loop ends with: the prompt, the instruction message
    when it was inserted, and messages of the history in their order. *)
Lemma final_shape ep history cs thr st :
  Spec.loop_reaches (Storage.max_context_tokens cs)
                    (Spec.loop_entry ep history cs thr) st ->
  let entry := fst (Main.assemble ep history cs thr) in
  let inserted :=
    if snd (Main.assemble ep history cs thr)
    then [Main.system_message (Py.strip (Storage.compact_instructions cs))]
    else [] in
  exists kept,
    Main.llm_messages st = Main.system_message ep :: inserted ++ kept
    /\ kept `sublist_of` Main.history_messages history
    /\ 0 <= Main.dropped_history_messages st
    /\ Z.of_nat (length (Main.llm_messages st)) + Main.dropped_history_messages st
       = Z.of_nat (length entry).
Proof.
  cbn zeta. unfold Spec.loop_entry.
  destruct (assemble_cases ep history cs thr) as [(-> & _ & _)|(-> & _)];
    cbn [fst snd]; intros Hr.
  - apply reaches_shape in Hr as (k & Hk & Hl & Hd).
    exists (drop k (Main.history_messages history)).
    rewrite Hl, Hd. split; [reflexivity|]. split; [apply sublist_drop|].
    split; [lia|]. cbn [length]. rewrite length_drop. lia.
  - destruct (Main.history_messages history) as [|b rest0] eqn:Hh.
    + apply reaches_short in Hr; [|cbn; lia]. subst st. cbn.
      exists []. repeat split; [reflexivity | lia].
    + apply reaches_shape in Hr as (k & Hk & Hl & Hd).
      exists (b :: drop k rest0). rewrite Hl, Hd.
      split; [reflexivity|]. split; [apply sublist_skip, sublist_drop|].
      split; [lia|]. cbn [length app]. rewrite length_drop. lia.
Qed.

(** C3.  Whatever the composed prompt, the history and the settings are,
    the compactor returns a list whose first message is the composed
    system prompt, followed by at most one instruction message and then
    by messages of the history in their order; every round of its loop
    shortens the list by exactly one message and leaves position 0
    alone, and the loop ends, with at most two messages left or with an
    estimate within [max_context_tokens].  It fails only where the
    threshold cannot be computed, and never runs out of rounds. *)
Theorem compactor_keeps_prompt_and_terminates
    (effective_prompt : string) (history : list Storage.StoredMessage)
    (context_settings : Storage.StoredContextSettings) :
  match Main.compact_context effective_prompt history context_settings with
  | Py.Ok c =>
      Main.ctx_llm_messages c !! 0%nat = Some (Main.system_message effective_prompt)
      /\ (exists inserted kept,
            Main.ctx_llm_messages c
            = Main.system_message effective_prompt :: inserted ++ kept
            /\ (inserted = []
                \/ inserted = [Main.system_message
                                 (Py.strip (Storage.compact_instructions
                                              context_settings))])
            /\ kept `sublist_of` Main.history_messages history)
      /\ 0 <= Main.ctx_dropped_history_messages c
      /\ Z.of_nat (length (Main.ctx_llm_messages c))
         + Main.ctx_dropped_history_messages c
         = 1 + (if Main.compaction_applied c then 1 else 0)
           + Z.of_nat (length (Main.history_messages history))
      /\ (Z.of_nat (length (Main.ctx_llm_messages c)) <= 2
          \/ Main._estimate_tokens_for_messages (Main.ctx_llm_messages c)
             <= Storage.max_context_tokens context_settings)
  | Py.Raise e => Main.compact_threshold context_settings = Py.Raise e
  | Py.OutOfFuel => False
  end
  /\ (forall max st,
        Main.compaction_cond max st = true ->
        exists st',
          Main.compaction_body st = Py.Ok st'
          /\ S (length (Main.llm_messages st')) = length (Main.llm_messages st)
          /\ Main.llm_messages st' !! 0%nat = Main.llm_messages st !! 0%nat
          /\ Main.dropped_history_messages st'
             = Main.dropped_history_messages st + 1).
Proof.
  split.
  - destruct (Main.compact_threshold context_settings) as [thr|e|] eqn:Hthr.
    + destruct (compact_context_unfold effective_prompt history _ _ Hthr)
        as (st & Hw & ->).
      apply while_reaches in Hw as [Hr Hc].
      destruct (final_shape _ _ _ _ _ Hr) as (kept & Hl & Hsub & Hd & Hlen).
      cbn [Main.ctx_llm_messages Main.ctx_dropped_history_messages
           Main.compaction_applied].
      split; [by rewrite Hl|]. split.
      { eexists _, kept. split; [exact Hl|]. split; [|exact Hsub].
        destruct (snd _); auto. }
      split; [exact Hd|]. split.
      { rewrite Hlen.
        destruct (assemble_cases effective_prompt history context_settings thr)
          as [(-> & _)|(-> & _)]; cbn [fst snd length]; lia. }
      by apply compaction_cond_false in Hc.
    + by rewrite (compact_context_Raise _ _ _ _ Hthr).
    + by apply compact_threshold_not_out_of_fuel in Hthr.
  - intros max st Hc.
    destruct (compaction_body_spec _ _ Hc) as (a & b & m & rest & Hl & Hb).
    eexists. split; [exact Hb|]. rewrite Hl. cbn. auto.
Qed.

Lemma compactor_keeps_prompt_witness :
  exists st',
    Main.compaction_body
      {| Main.llm_messages :=
           [ Main.system_message "You are a helpful local AI assistant.";
             Main.system_message "Summarize older turns.";
             {| Llm.role := "user"; Llm.content := "What is a monad?" |};
             {| Llm.role := "assistant"; Llm.content := "A monoid." |} ];
         Main.dropped_history_messages := 0 |} = Py.Ok st'
    /\ length (Main.llm_messages st') = 3%nat.
Proof.
  destruct (proj2 (compactor_keeps_prompt_and_terminates "" []
                     (Examples.context_settings 5 (Py.float_lit 9 10) "x"))
                  5
                  {| Main.llm_messages :=
                       [ Main.system_message "You are a helpful local AI assistant.";
                         Main.system_message "Summarize older turns.";
                         {| Llm.role := "user"; Llm.content := "What is a monad?" |};
                         {| Llm.role := "assistant"; Llm.content := "A monoid." |} ];
                     Main.dropped_history_messages := 0 |}
                  eq_refl)
    as (st' & Hb & Hlen & _).
  exists st'. split; [exact Hb|]. cbn in Hlen. congruence.
Defined.

Lemma threshold_100_09 cs :
  Storage.max_context_tokens cs = 100 ->
  Storage.compact_trigger_pct cs = Py.float_lit 9 10 ->
  Main.compact_threshold cs = Py.Ok 90 /\ Spec.floor_threshold cs = Py.Ok 90.
Proof.
  intros Hm Hp. unfold Main.compact_threshold, Spec.floor_threshold.
  rewrite Hm, Hp. split; vm_compute; reflexivity.
Qed.

(** C2.  In a chat turn, with the settings as the turn reads them, the
    message list gets a system message with the trimmed compaction
    instructions if and only if the instructions are not empty and the
    estimate of the prompt with the history reaches
    [floor(max_context_tokens * compact_trigger_pct)]; the message is then
    at position 1, right after the composed prompt and before the whole
    history, and otherwise the list is the prompt and the history.  With
    [max_context_tokens = 100] and [compact_trigger_pct = 0.9] an
    estimate of 95 leads to the insertion and an estimate of 50 does
    not. *)
Theorem compaction_instructions_inserted_iff
    (env : Main.Env) (a a' : Main.App)
    (context_settings : Storage.StoredContextSettings)
    (effective_prompt : string) (history : list Storage.StoredMessage)
    (c : Main.chat_context) :
  Main._get_context_settings env a = (Py.Ok context_settings, a') ->
  Main.compact_context effective_prompt history context_settings = Py.Ok c ->
  let instructions := Storage.compact_instructions context_settings in
  let before :=
    Main._estimate_tokens_for_messages
      (Main.system_message effective_prompt :: Main.history_messages history) in
  (exists threshold floor,
      Main.compact_threshold context_settings = Py.Ok threshold
      /\ Spec.floor_threshold context_settings = Py.Ok floor
      /\ (Main.compaction_applied c = true
          <-> instructions <> "" /\ floor <= before)
      /\ Main.llm_messages
           (Spec.loop_entry effective_prompt history context_settings threshold)
         = (if Main.compaction_applied c
            then Py.list_insert 1 (Main.system_message (Py.strip instructions))
            else fun l => l)
             (Main.system_message effective_prompt :: Main.history_messages history)
      /\ (Main.compaction_applied c = true ->
          Main.ctx_llm_messages c !! 0%nat
          = Some (Main.system_message effective_prompt)
          /\ Main.ctx_llm_messages c !! 1%nat
             = Some (Main.system_message (Py.strip instructions))
          /\ exists k, drop 2 (Main.ctx_llm_messages c)
                       = drop k (Main.history_messages history))
      /\ (Main.compaction_applied c = false ->
          exists kept,
            Main.ctx_llm_messages c = Main.system_message effective_prompt :: kept
            /\ kept `sublist_of` Main.history_messages history))
  /\ (Storage.max_context_tokens context_settings = 100 ->
      Storage.compact_trigger_pct context_settings = Py.float_lit 9 10 ->
      (before = 95 -> Main.compaction_applied c = true)
      /\ (before = 50 -> Main.compaction_applied c = false)).
Proof.
  intros Hget Hctx. cbn zeta.
  destruct (get_context_settings_spec env a) as (cs' & a1 & Hget' & Hnb & _).
  rewrite Hget in Hget'. injection Hget' as <- <-.
  assert (Hne : Storage.compact_instructions context_settings <> "").
  { intros Heq. apply Hnb. rewrite Heq. reflexivity. }
  destruct (Main.compact_threshold context_settings) as [thr|e|] eqn:Hthr.
  2: { rewrite (compact_context_Raise _ _ _ _ Hthr) in Hctx. discriminate. }
  2: { by apply compact_threshold_not_out_of_fuel in Hthr. }
  destruct (compact_context_unfold effective_prompt history _ _ Hthr)
    as (st & Hw & Heq).
  rewrite Heq in Hctx. injection Hctx as <-.
  cbn [Main.ctx_llm_messages Main.compaction_applied].
  apply while_reaches in Hw as [Hr _].
  destruct (compact_threshold_floor _ _ Hthr) as (fl & Hfl & Hcmp).
  pose proof (estimate_messages_ge_1
                (Main.system_message effective_prompt
                   :: Main.history_messages history)) as Hge.
  assert (Happ : snd (Main.assemble effective_prompt history context_settings thr)
                 = true
                 <-> thr <= Main._estimate_tokens_for_messages
                              (Main.system_message effective_prompt
                                 :: Main.history_messages history)).
  { destruct (assemble_cases effective_prompt history context_settings thr)
      as [(-> & _ & Hle)|(-> & [Hb|Hlt])]; cbn [snd].
    - tauto.
    - contradiction.
    - split; [discriminate | lia]. }
  split.
  - exists thr, fl. split; [reflexivity|]. split; [exact Hfl|]. split.
    { rewrite Happ, (Hcmp _ Hge). tauto. }
    unfold Spec.loop_entry in *. cbn [Main.llm_messages].
    destruct (assemble_cases effective_prompt history context_settings thr)
      as [(Has & _)|(Has & _)]; rewrite Has in *; cbn [fst snd] in *.
    + split; [reflexivity|]. split; [|discriminate]. intros _.
      apply reaches_shape in Hr as (k & _ & Hl & _). rewrite Hl.
      split; [reflexivity|]. split; [reflexivity|]. by exists k.
    + split; [reflexivity|]. split; [discriminate|]. intros _.
      destruct (Main.history_messages history) as [|b rest0].
      * apply reaches_short in Hr; [|cbn; lia]. subst st.
        exists []. split; [reflexivity | constructor].
      * apply reaches_shape in Hr as (k & _ & Hl & _). rewrite Hl.
        eexists. split; [reflexivity|]. apply sublist_skip, sublist_drop.
  - intros Hm Hp.
    destruct (threshold_100_09 _ Hm Hp) as [H90 _].
    rewrite Hthr in H90. injection H90 as ->.
    split; intros H95.
    + apply Happ. lia.
    + destruct (snd _); [|reflexivity].
      pose proof (proj1 Happ eq_refl). lia.
Qed.

Lemma compaction_instructions_inserted_witness :
  exists c,
    Main.compact_context "You are a helpful local AI assistant."
      [Examples.stored "user" (Examples.text_of_length 343)]
      Examples.read_settings = Py.Ok c
    /\ Main.compaction_applied c = true.
Proof.
  eassert (Hget : Main._get_context_settings
                    (Examples.env 100 [] Examples.echo_backend)
                    (Examples.app Storage.empty_store)
                  = (Py.Ok Examples.read_settings, _))
    by (vm_compute; reflexivity).
  eassert (Hctx : Main.compact_context "You are a helpful local AI assistant."
                    [Examples.stored "user" (Examples.text_of_length 343)]
                    Examples.read_settings = Py.Ok _)
    by (vm_compute; reflexivity).
  eexists. split; [exact Hctx|].
  apply (proj2 (compaction_instructions_inserted_iff _ _ _ _ _ _ _ Hget Hctx));
    [reflexivity | reflexivity | vm_compute; reflexivity].
Defined.

(** What is left of a list without its position 2. *)
Lemma pop_2_spec {A : Type} (l : list A) (x : A) (l' : list A) :
  Py.list_pop 2 l = Py.Ok (x, l') ->
  l !! 2%nat = Some x
  /\ l' = take 2 l ++ drop 3 l
  /\ S (length l') = length l
  /\ (forall i, (i < 2)%nat -> l' !! i = l !! i)
  /\ (forall i, (2 <= i)%nat -> l' !! i = l !! S i).
Proof.
  unfold Py.list_pop. destruct (l !! 2%nat) as [y|] eqn:Hy; [|discriminate].
  intros [= <- <-]. split; [reflexivity|]. split; [reflexivity|].
  destruct l as [|a0 [|a1 [|a2 rest]]]; try discriminate.
  cbn. split; [reflexivity|]. split.
  - intros [|[|i]] Hi; try reflexivity. lia.
  - intros [|[|i]] Hi; try lia. reflexivity.
Qed.



(** Beyond the documented range of the trigger percentage: with 1.5 the
    threshold, 150, exceeds the 100 tokens of the window, a prompt of 120
    estimated tokens gets no instruction message and still enters the loop,
    and position 2 is then the second message of the history: the oldest
    one stays. *)
Lemma compaction_with_threshold_above_window :
  exists c,
    Main.compact_context "You are a helpful local AI assistant."
      [ Examples.stored "user" (Examples.text_of_length 200);
        Examples.stored "assistant" (Examples.text_of_length 200);
        Examples.stored "user" (Examples.text_of_length 40) ]
      (Examples.context_settings 100 (Py.float_lit 3 2)
                                 Storage.default_compaction_instructions)
    = Py.Ok c
    /\ Main.est_prompt_tokens_before c = 120
    /\ Main.ctx_compact_threshold c = 150
    /\ Main.compaction_applied c = false
    /\ Main.ctx_dropped_history_messages c = 1
    /\ Main.ctx_llm_messages c
       = [ Main.system_message "You are a helpful local AI assistant.";
           {| Llm.role := "user"; Llm.content := Examples.text_of_length 200 |};
           {| Llm.role := "user"; Llm.content := Examples.text_of_length 40 |} ].
Proof.
  eexists. split; [vm_compute; reflexivity|].
  repeat split; vm_compute; reflexivity.
Qed.

End CompactorProperties.

(** ** Context-settings update *)

Section SettingsUpdate.

Lemma int_field_ok_spec lo hi v :
  Models.int_field_ok lo hi v = true <-> (forall n, v = Some n -> lo <= n <= hi).
Proof.
  destruct v as [n|]; cbn.
  - rewrite andb_true_iff, !Z.leb_le. split.
    + intros H m [= <-]. exact H.
    + intros H. by apply H.
  - split; [intros _ n; discriminate | reflexivity].
Qed.

Lemma float_field_ok_spec lo hi v :
  Models.float_field_ok lo hi v = true
  <-> (forall x, v = Some x -> Py.fle lo x = true /\ Py.fle x hi = true).
Proof.
  destruct v as [x|]; cbn.
  - rewrite andb_true_iff. split.
    + intros H y [= <-]. exact H.
    + intros H. by apply H.
  - split; [intros _ x; discriminate | reflexivity].
Qed.

Lemma validate_spec payload :
  (Spec.within_declared_bounds payload
   /\ Models.ContextSettingsUpdateRequest_validate payload = Py.Ok payload)
  \/ (~ Spec.within_declared_bounds payload
      /\ exists field,
           Models.ContextSettingsUpdateRequest_validate payload
           = Py.Raise (Py.RequestValidationError field)).
Proof.
  unfold Models.ContextSettingsUpdateRequest_validate, Spec.within_declared_bounds.
  destruct (Models.int_field_ok 256 262144 _) eqn:H1; cbn [negb].
  2: { right. split; [|eauto]. intros (H & _ & _).
       pose proof (proj2 (int_field_ok_spec _ _ _) H). congruence. }
  destruct (Models.int_field_ok 16 262144 _) eqn:H2; cbn [negb].
  2: { right. split; [|eauto]. intros (_ & H & _).
       pose proof (proj2 (int_field_ok_spec _ _ _) H). congruence. }
  destruct (Models.float_field_ok _ _ _) eqn:H3; cbn [negb].
  2: { right. split; [|eauto]. intros (_ & _ & H).
       pose proof (proj2 (float_field_ok_spec _ _ _) H). congruence. }
  left. split; [|reflexivity].
  pose proof (proj1 (int_field_ok_spec _ _ _) H1).
  pose proof (proj1 (int_field_ok_spec _ _ _) H2).
  pose proof (proj1 (float_field_ok_spec _ _ _) H3). auto.
Qed.




End SettingsUpdate.

(** ** Prompt profiles *)

Section Profiles.

Lemma find_some_iff {A : Type} (f : A -> bool) (l : list A) :
  (exists x, List.find f l = Some x) <-> exists x, x ∈ l /\ f x = true.
Proof.
  induction l as [|y l IH]; cbn.
  - split; [intros [x [=]] | intros (x & Hin & _); by apply elem_of_nil in Hin].
  - destruct (f y) eqn:Hy.
    + split; [|eauto]. intros _. exists y. split; [left | exact Hy].
    + rewrite IH. split; intros (x & Hin & Hx).
      * exists x. split; [by right | exact Hx].
      * apply elem_of_cons in Hin as [->|Hin]; [congruence | eauto].
Qed.

(** The method of the store does what activation asks for: when the
    profile belongs to the tenant, afterwards a profile of the tenant is
    active exactly when it is that one; otherwise nothing changes. *)
Lemma store_activate_spec tenant profile_id now db :
  match Storage.activate_prompt_profile tenant profile_id now db with
  | (Py.Ok true, db') =>
      (exists row, row ∈ Storage.prompt_profiles db
                   /\ Storage.pr_id row = profile_id
                   /\ Storage.pr_tenant_id row = tenant)
      /\ map Storage.pr_id (Storage.prompt_profiles db')
         = map Storage.pr_id (Storage.prompt_profiles db)
      /\ (forall row, row ∈ Storage.prompt_profiles db' ->
            Storage.pr_tenant_id row = tenant ->
            (Storage.pr_is_active row = true <-> Storage.pr_id row = profile_id))
  | (Py.Ok false, db') =>
      db' = db
      /\ ~ exists row, row ∈ Storage.prompt_profiles db
                       /\ Storage.pr_id row = profile_id
                       /\ Storage.pr_tenant_id row = tenant
  | _ => False
  end.
Proof.
  unfold Storage.activate_prompt_profile.
  destruct (List.find _ (Storage.prompt_profiles db)) as [found|] eqn:Hf.
  - split; [|split].
    + destruct (proj1 (find_some_iff _ _) (ex_intro _ found Hf))
        as (row & Hin & [H1 H2]%andb_true_iff).
      apply String.eqb_eq in H1, H2. eauto.
    + cbn. unfold Storage.activate_id, Storage.deactivate_tenant.
      rewrite !map_map. apply map_ext. intros r.
      destruct (String.eqb (Storage.pr_tenant_id r) tenant); cbn;
        destruct (String.eqb (Storage.pr_id r) profile_id); reflexivity.
    + cbn. intros row Hin Ht.
      unfold Storage.activate_id, Storage.deactivate_tenant in Hin.
      rewrite map_map in Hin. apply list_elem_of_fmap in Hin as (r & -> & _).
      destruct (String.eqb (Storage.pr_tenant_id r) tenant) eqn:Hrt; cbn in *.
      * destruct (String.eqb (Storage.pr_id r) profile_id) eqn:Hri; cbn.
        -- apply String.eqb_eq in Hri. tauto.
        -- apply String.eqb_neq in Hri. split; [discriminate | contradiction].
      * destruct (String.eqb (Storage.pr_id r) profile_id) eqn:Hri; cbn in *;
          apply String.eqb_neq in Hrt; contradiction.
  - split; [reflexivity|]. intros (row & Hin & Hi & Ht).
    assert (exists x, List.find
              (fun r => String.eqb (Storage.pr_id r) profile_id
                        && String.eqb (Storage.pr_tenant_id r) tenant)
              (Storage.prompt_profiles db) = Some x) as [x Hx].
    { apply find_some_iff. exists row. split; [exact Hin|].
      apply andb_true_iff. split; by apply String.eqb_eq. }
    congruence.
Qed.

(** An unknown profile: the endpoint answers 404 and the database is the
    one before the call. *)
Lemma activate_unknown_profile env profile_id a :
  (~ exists row, row ∈ Storage.prompt_profiles (Main.store a)
                 /\ Storage.pr_id row = profile_id
                 /\ Storage.pr_tenant_id row = Main._tenant_id env) ->
  exists a',
    Main.activate_prompt_profile env profile_id a
    = (Py.Raise (Py.HTTPException 404 "Prompt profile not found"), a')
    /\ Main.store a' = Main.store a.
Proof.
  intros Hno. unfold Main.activate_prompt_profile, mbind, M_mbind, M_bind.
  rewrite store_call_run.
  pose proof (store_activate_spec (Main._tenant_id env) profile_id
                (Main.utc_now env (S (Main.tick a))) (Main.store a)) as Hs.
  destruct (Storage.activate_prompt_profile _ _ _ _) as [[[|]| |] db'];
    try contradiction.
  - destruct Hs as (Hex & _). contradiction.
  - destruct Hs as [-> _]. cbn. eexists. split; reflexivity.
Qed.

Lemma find_map {A B : Type} (f : B -> bool) (g : A -> B) (l : list A) :
  List.find f (map g l) = g <$> List.find (fun x => f (g x)) l.
Proof.
  induction l as [|x l IH]; [reflexivity|].
  cbn. destruct (f (g x)); [reflexivity | exact IH].
Qed.

Lemma find_ext {A : Type} (f g : A -> bool) (l : list A) :
  (forall x, f x = g x) -> List.find f l = List.find g l.
Proof.
  intros H. induction l as [|x l IH]; [reflexivity|].
  cbn. rewrite H, IH. reflexivity.
Qed.

(** The defect that C7 meets, for every database: when the tenant has a
    default profile, the activation of any other profile of the tenant
    through the endpoint answers with the default profile and leaves the
    requested profile inactive. *)
Lemma activate_endpoint_returns_default env profile_id a default_row :
  List.find (fun r => String.eqb (Storage.pr_tenant_id r) (Main._tenant_id env)
                      && Storage.pr_is_default r)
            (Storage.prompt_profiles (Main.store a)) = Some default_row ->
  Storage.pr_id default_row <> profile_id ->
  (exists row, row ∈ Storage.prompt_profiles (Main.store a)
               /\ Storage.pr_id row = profile_id
               /\ Storage.pr_tenant_id row = Main._tenant_id env) ->
  exists response a',
    Main.activate_prompt_profile env profile_id a = (Py.Ok response, a')
    /\ Models.pp_id response = Storage.pr_id default_row
    /\ forall row, row ∈ Storage.prompt_profiles (Main.store a') ->
         Storage.pr_id row = profile_id ->
         Storage.pr_tenant_id row = Main._tenant_id env ->
         Storage.pr_is_active row = false.
Proof.
  intros Hd Hne Hex. set (tenant := Main._tenant_id env) in *.
  unfold Main.activate_prompt_profile, mbind, M_mbind, M_bind.
  rewrite store_call_run.
  unfold Storage.activate_prompt_profile.
  assert (exists found,
             List.find (fun r => String.eqb (Storage.pr_id r) profile_id
                                 && String.eqb (Storage.pr_tenant_id r) tenant)
                       (Storage.prompt_profiles (Main.store a)) = Some found)
    as [found Hf].
  { apply find_some_iff. destruct Hex as (row & Hin & Hi & Ht).
    exists row. split; [exact Hin|].
    apply andb_true_iff. split; by apply String.eqb_eq. }
  cbv beta. fold tenant. rewrite Hf.
  cbn [negb]. cbv beta iota. rewrite store_call_run. cbn [Main.store Main.tick].
  set (rows := Storage.prompt_profiles (Main.store a)) in *.
  set (now1 := Main.utc_now env (S (Main.tick a))).
  set (rows1 := Storage.activate_id profile_id (Some now1)
                  (Storage.deactivate_tenant tenant rows)).
  (* the default profile has become inactive *)
  assert (Hd1 : exists d1,
             List.find (fun r => String.eqb (Storage.pr_tenant_id r) tenant
                                 && Storage.pr_is_default r) rows1 = Some d1
             /\ Storage.pr_id d1 = Storage.pr_id default_row
             /\ Storage.pr_is_active d1 = false).
  { subst rows1. unfold Storage.activate_id, Storage.deactivate_tenant.
    rewrite map_map, find_map.
    erewrite find_ext; [rewrite Hd|].
    - eexists. split; [reflexivity|].
      apply List.find_some in Hd as [_ [Ht _]%andb_true_iff].
      rewrite Ht. cbn.
      apply String.eqb_neq in Hne. rewrite Hne. cbn. auto.
    - intros r. destruct (String.eqb (Storage.pr_tenant_id r) tenant) eqn:Ht; cbn;
        destruct (String.eqb (Storage.pr_id r) profile_id); cbn; by rewrite ?Ht. }
  destruct Hd1 as (d1 & Hfind1 & Hid1 & Hact1).
  unfold Storage.get_active_prompt_profile, Storage.ensure_default_prompt_profile,
    mbind, M_mbind, M_bind, M_get.
  cbn [Storage.prompt_profiles Storage.with_profiles].
  fold rows1. rewrite Hfind1, Hact1. cbn [negb].
  cbn [Storage.prompt_profiles Storage.with_profiles].
  set (rows2 := Storage.activate_id (Storage.pr_id d1) None
                  (Storage.deactivate_tenant tenant rows1)).
  (* in the table that results, a tenant profile is active only under the
     id of the default one *)
  assert (Hact2 : forall r, r ∈ rows2 -> Storage.pr_tenant_id r = tenant ->
                    Storage.pr_is_active r = true ->
                    Storage.pr_id r = Storage.pr_id d1).
  { intros r Hin Ht Ha. subst rows2.
    unfold Storage.activate_id, Storage.deactivate_tenant in Hin.
    rewrite map_map in Hin. apply list_elem_of_fmap in Hin as (r0 & -> & _).
    destruct (String.eqb (Storage.pr_tenant_id r0) tenant) eqn:Ht0; cbn in *;
      destruct (String.eqb (Storage.pr_id r0) (Storage.pr_id d1)) eqn:Hi0; cbn in *.
    - by apply String.eqb_eq.
    - discriminate.
    - by apply String.eqb_eq.
    - apply String.eqb_neq in Ht0. contradiction. }
  assert (Hex2 : exists active,
             List.find (fun r => String.eqb (Storage.pr_tenant_id r) tenant
                                 && Storage.pr_is_active r) rows2 = Some active).
  { apply find_some_iff.
    apply List.find_some in Hfind1 as [Hin1 [Ht1 _]%andb_true_iff].
    eexists. split.
    - subst rows2. unfold Storage.activate_id, Storage.deactivate_tenant.
      rewrite map_map. apply list_elem_of_fmap. exists d1.
      split; [reflexivity | by apply list_elem_of_In].
    - rewrite Ht1. cbn. rewrite String.eqb_refl. cbn. by rewrite Ht1. }
  destruct Hex2 as (active & Hfind2). rewrite Hfind2.
  eexists _, _. split; [reflexivity|]. cbn.
  apply List.find_some in Hfind2 as [Hin2 [Ht2 Ha2]%andb_true_iff].
  apply String.eqb_eq in Ht2. apply list_elem_of_In in Hin2.
  split; [rewrite <- Hid1; by apply Hact2|].
  intros row Hin Hi Ht.
  destruct (Storage.pr_is_active row) eqn:Ha; [|reflexivity].
  pose proof (Hact2 row Hin Ht Ha). congruence.
Qed.

(** C7, on the code.  The method of the store makes the custom profile
    the one active profile, but the endpoint then reads the active
    profile through [get_active_prompt_profile], whose
    [ensure_default_prompt_profile] finds the default profile inactive,
    deactivates every profile of the tenant and activates the default
    one again: the endpoint answers with the default profile, and the
    profile whose activation succeeded is inactive. *)
Theorem activate_endpoint_reactivates_default :
  let env := Examples.env 4096 [] Examples.echo_backend in
  (exists db',
      Storage.activate_prompt_profile "default" "p-custom" "t1"
        Examples.two_profiles = (Py.Ok true, db')
      /\ Examples.activity db' = [("p-default", false); ("p-custom", true)])
  /\ exists a',
       Main.activate_prompt_profile env "p-custom"
         (Examples.app Examples.two_profiles)
       = (Py.Ok {| Models.pp_id := "p-default"; Models.pp_name := "Default";
                   Models.pp_is_active := true; Models.pp_is_default := true |}, a')
       /\ Examples.activity (Main.store a')
          = [("p-default", true); ("p-custom", false)].
Proof.
  cbn zeta. split.
  - eexists. split; vm_compute; reflexivity.
  - eexists. split; vm_compute; reflexivity.
Qed.

End Profiles.

(** ** Component overrides *)

Section Overrides.

(** A component that has an override is rebuilt by a constructor call
    without [file_path], which raises. *)
Lemma merge_overridden_raises overrides item :
  is_Some (overrides !! Prompts.id item) ->
  Main.merge_component overrides item
  = Py.Raise (Py.TypeError "__init__() missing required argument").
Proof.
  intros [o Ho]. unfold Main.merge_component. rewrite Ho. reflexivity.
Qed.

Lemma merge_not_overridden overrides item :
  overrides !! Prompts.id item = None ->
  Main.merge_component overrides item = Py.Ok item.
Proof. intros Ho. unfold Main.merge_component. by rewrite Ho. Qed.

Lemma mapM_result_cons {A B : Type} (f : A -> Py.result B) (x : A) (l : list A) :
  mapM f (x :: l) = Py.bind (f x) (fun y => Py.bind (mapM f l) (fun k => Py.Ok (y :: k))).
Proof. reflexivity. Qed.

Lemma merge_all_raises overrides defaults :
  (exists item, item ∈ defaults /\ is_Some (overrides !! Prompts.id item)) ->
  mapM (Main.merge_component overrides) defaults
  = Py.Raise (Py.TypeError "__init__() missing required argument").
Proof.
  induction defaults as [|x l IH]; intros (item & Hin & Hov).
  - by apply elem_of_nil in Hin.
  - rewrite mapM_result_cons.
    destruct (overrides !! Prompts.id x) as [o|] eqn:Hx.
    + rewrite merge_overridden_raises by eauto. reflexivity.
    + rewrite merge_not_overridden by exact Hx. cbn [Py.bind].
      apply elem_of_cons in Hin as [->|Hin].
      * rewrite Hx in Hov. by destruct Hov.
      * rewrite IH by eauto. reflexivity.
Qed.

Lemma merge_all_without_overrides defaults :
  mapM (Main.merge_component ∅) defaults = Py.Ok defaults.
Proof.
  induction defaults as [|x l IH]; [reflexivity|].
  rewrite mapM_result_cons, merge_not_overridden by apply lookup_empty.
  cbn [Py.bind]. by rewrite IH.
Qed.

(** C8, on the code.  With two enabled default components the composed
    prompt is their two contents.  Disabling the first one through the
    endpoint stores the override and then raises [TypeError], because the
    overridden component is rebuilt without its [file_path]; from then on
    the composition of the prompt raises as well, instead of giving the
    content of the second component alone.  A reset deletes the override,
    and the composed prompt is again the one before the override. *)
Theorem override_breaks_composition_until_reset :
  let env := Examples.env 4096 Examples.two_components Examples.echo_backend in
  let before := "Be brief." +:+ Prompts.blank_line +:+ "Be kind." in
  exists a1 a2 a3 a4 a5 reset,
    Main.effective_prompt env (Examples.app Storage.empty_store)
    = (Py.Ok before, a1)
    /\ Main.update_prompt_component env "00_identity"
         {| Models.upd_content := None; Models.upd_enabled := Some false |} a1
       = (Py.Raise (Py.TypeError "__init__() missing required argument"), a2)
    /\ Storage.get_prompt_overrides "uuid-0" (Main.store a2)
       = {[ "00_identity" := {| Storage.o_content := None;
                                Storage.o_enabled := Some false |} ]}
    /\ Main.effective_prompt env a2
       = (Py.Raise (Py.TypeError "__init__() missing required argument"), a3)
    /\ Prompts.compose_system_prompt
         [ Examples.component "00_identity" "Be brief." 0 false;
           Examples.component "01_style" "Be kind." 1 true ] = "Be kind."
    /\ Main.reset_prompts env a3 = (Py.Ok reset, a4)
    /\ Storage.get_prompt_overrides "uuid-0" (Main.store a4) = ∅
    /\ Main.effective_prompt env a4 = (Py.Ok before, a5).
Proof.
  cbn zeta. eexists _, _, _, _, _, _.
  split; [vm_compute; reflexivity|].
  split; [vm_compute; reflexivity|].
  split; [vm_compute; reflexivity|].
  split; [vm_compute; reflexivity|].
  split; [vm_compute; reflexivity|].
  split; [vm_compute; reflexivity|].
  split; vm_compute; reflexivity.
Qed.

End Overrides.

(** ** The baseline job *)

Section Jobs.

Variable env : Main.Env.

Lemma get_job_run job_id job a :
  Main._baseline_jobs a !! job_id = Some job ->
  Main.get_job job_id a = (Py.Ok job, a).
Proof. intros H. unfold Main.get_job. by rewrite H. Qed.

Lemma append_event_run job_id message job a :
  Main._baseline_jobs a !! job_id = Some job ->
  Main._append_baseline_event env job_id message a
  = (Py.Ok tt,
     {| Main.store := Main.store a;
        Main._baseline_jobs :=
          <[job_id := Main.with_events
                        (Main.append_bounded (Main.events job) message)
                        (Main.utc_now env (Main.tick a)) job]>
            (Main._baseline_jobs a);
        Main.llm_calls := Main.llm_calls a;
        Main.tick := S (Main.tick a) |}).
Proof.
  intros H. unfold Main._append_baseline_event.
  rewrite (M_bind_run _ _ _ _ _ (get_job_run _ _ _ H)). reflexivity.
Qed.

(** What one progress callback does to the job: the step is recorded,
    the counter moves by a positive increment up to the total and stays
    for any other increment, and nothing but the job and the clock
    changes. *)
Lemma baseline_progress_run job_id step inc job a :
  Main._baseline_jobs a !! job_id = Some job ->
  exists a' job',
    Main._baseline_progress env job_id step inc a = (Py.Ok tt, a')
    /\ Main._baseline_jobs a' !! job_id = Some job'
    /\ Main.total_calls job' = Main.total_calls job
    /\ Main.completed_calls job'
       = (if 0 <? inc
          then Z.min (Main.total_calls job) (Main.completed_calls job + inc)
          else Main.completed_calls job)
    /\ Main.current_step job' = Some step
    /\ Main.status job' = Main.status job
    /\ Main.llm_calls a' = Main.llm_calls a
    /\ Main.store a' = Main.store a
    /\ (forall other, other <> job_id ->
          Main._baseline_jobs a' !! other = Main._baseline_jobs a !! other).
Proof.
  intros H. unfold Main._baseline_progress.
  rewrite (M_bind_run _ _ _ _ _ (get_job_run _ _ _ H)).
  unfold Main.set_job at 1, M_modify.
  erewrite M_bind_run by reflexivity.
  destruct (0 <? inc) eqn:Hinc.
  - unfold Main.set_job at 1, M_modify.
    erewrite (M_bind_run (_ ≫= _)).
    2: { erewrite M_bind_run by reflexivity.
         apply append_event_run. cbn. apply lookup_insert_eq. }
    erewrite M_bind_run.
    2: { apply get_job_run. cbn. apply lookup_insert_eq. }
    cbn. eexists _, _. split; [reflexivity|]. cbn.
    split; [apply lookup_insert_eq|].
    repeat split; try reflexivity.
    intros other Hne. by rewrite !lookup_insert_ne.
  - erewrite M_bind_run.
    2: { apply append_event_run. cbn. apply lookup_insert_eq. }
    erewrite M_bind_run.
    2: { apply get_job_run. cbn. apply lookup_insert_eq. }
    cbn. eexists _, _. split; [reflexivity|]. cbn.
    split; [apply lookup_insert_eq|].
    repeat split; try reflexivity.
    intros other Hne. by rewrite !lookup_insert_ne.
Qed.

Lemma callbacks_run job_id updates : forall a job,
  Main._baseline_jobs a !! job_id = Some job ->
  0 <= Main.completed_calls job <= Main.total_calls job ->
  exists a' job',
    Spec.callbacks env job_id updates a = (Py.Ok tt, a')
    /\ Main._baseline_jobs a' !! job_id = Some job'
    /\ Main.total_calls job' = Main.total_calls job
    /\ Main.completed_calls job <= Main.completed_calls job'
       <= Main.total_calls job.
Proof.
  induction updates as [|[step inc] updates IH]; intros a job Hjob Hc.
  - exists a, job. split; [reflexivity|]. split; [exact Hjob|]. lia.
  - destruct (baseline_progress_run job_id step inc job a Hjob)
      as (a1 & job1 & Hrun & Hjob1 & Ht & Hcc & _).
    destruct (IH a1 job1 Hjob1) as (a2 & job2 & Hrun2 & Hjob2 & Ht2 & Hc2).
    { rewrite Hcc, Ht. destruct (0 <? inc) eqn:Hi; [apply Z.ltb_lt in Hi|]; lia. }
    exists a2, job2. split.
    { unfold Spec.callbacks. cbn [M_for]. unfold M_bind. cbn [fst snd].
      rewrite Hrun. exact Hrun2. }
    split; [exact Hjob2|]. split; [congruence|].
    rewrite Hcc, Ht in Hc2.
    destruct (0 <? inc) eqn:Hi; [apply Z.ltb_lt in Hi|]; lia.
Qed.

Lemma start_baseline_run payload a :
  exists a0 job0,
    Main.start_baseline env payload a
    = (Py.Ok {| Models.start_job_id := Main.uuid4 env (Main.tick a);
                Models.start_status := "running" |}, a0)
    /\ Main._baseline_jobs a0 !! Main.uuid4 env (Main.tick a) = Some job0
    /\ Main.status job0 = "running"
    /\ Main.total_calls job0 = 34
    /\ Main.completed_calls job0 = 0
    /\ Main.store a0 = Main.store a
    /\ Main.llm_calls a0 = Main.llm_calls a.
Proof.
  unfold Main.start_baseline.
  erewrite M_bind_run by reflexivity. cbv beta.
  erewrite M_bind_run by reflexivity.
  unfold Main.set_job at 1, M_modify.
  erewrite M_bind_run by reflexivity.
  destruct (Models.enforce_max_response_tokens payload) eqn:Hmode.
  all: erewrite M_bind_run;
    [|apply append_event_run; cbn; apply lookup_insert_eq].
  all: eexists _, _; (split; [reflexivity|]); cbn.
  all: split; [apply lookup_insert_eq|]; repeat split; reflexivity.
Qed.

End Jobs.

(** ** Reading the active profile *)

Section PromptReady.

Variable env : Main.Env.

(** With the default profile active, [ensure_default_prompt_profile]
    changes nothing. *)
Lemma ensure_default_stable tenant uuid now db row :
  List.find (fun r => String.eqb (Storage.pr_tenant_id r) tenant
                      && Storage.pr_is_default r)
            (Storage.prompt_profiles db) = Some row ->
  Storage.pr_is_active row = true ->
  exists profile,
    Storage.ensure_default_prompt_profile tenant uuid now db = (Py.Ok profile, db).
Proof.
  intros Hf Ha. unfold Storage.ensure_default_prompt_profile.
  rewrite Hf, Ha. cbn [negb]. eauto.
Qed.

Lemma get_active_stable tenant uuid now db row :
  List.find (fun r => String.eqb (Storage.pr_tenant_id r) tenant
                      && Storage.pr_is_default r)
            (Storage.prompt_profiles db) = Some row ->
  Storage.pr_is_active row = true ->
  exists active,
    List.find (fun r => String.eqb (Storage.pr_tenant_id r) tenant
                        && Storage.pr_is_active r)
              (Storage.prompt_profiles db) = Some active
    /\ Storage.get_active_prompt_profile tenant uuid now db
       = (Py.Ok (Storage.to_profile active), db).
Proof.
  intros Hf Ha.
  destruct (ensure_default_stable tenant uuid now db row Hf Ha) as [p Hp].
  assert (exists active,
             List.find (fun r => String.eqb (Storage.pr_tenant_id r) tenant
                                 && Storage.pr_is_active r)
                       (Storage.prompt_profiles db) = Some active)
    as [active Hactive].
  { apply find_some_iff.
    apply List.find_some in Hf as [Hin [Ht _]%andb_true_iff].
    exists row. split; [by apply list_elem_of_In|].
    by rewrite Ht, Ha. }
  exists active. split; [exact Hactive|].
  unfold Storage.get_active_prompt_profile.
  rewrite (M_bind_run _ _ _ _ _ Hp).
  rewrite (M_bind_run _ _ db db db) by reflexivity.
  rewrite Hactive. reflexivity.
Qed.

(** When the default profile is active and nothing is overridden, the
    effective components are the default ones, and reading them changes
    neither the database nor the job table. *)
Lemma effective_prompt_ready a :
  Spec.prompt_ready env (Main.store a) ->
  exists a',
    Main.effective_prompt env a
    = (Py.Ok (Prompts.compose_system_prompt (Main.load_prompt_components env)), a')
    /\ Main.store a' = Main.store a
    /\ Main._baseline_jobs a' = Main._baseline_jobs a.
Proof.
  intros [(row & Hf & Ha) Hov].
  unfold Main.effective_prompt, Main._effective_prompt_components.
  destruct (get_active_stable (Main._tenant_id env)
              (Main.uuid4 env (Main.tick a)) (Main.utc_now env (S (Main.tick a)))
              (Main.store a) row Hf Ha) as (active & _ & Hget).
  unfold mbind, M_mbind, M_bind. rewrite store_call_run, Hget.
  unfold M_get, M_lift. cbn [Main.store].
  unfold Storage.get_prompt_overrides. rewrite Hov. cbn [List.filter foldl].
  rewrite merge_all_without_overrides.
  eexists. split; [reflexivity|]. split; reflexivity.
Qed.

End PromptReady.

(** ** Overrides and reset, for every database *)

Section Reset.

Variable env : Main.Env.

Lemma find_app {A : Type} (f : A -> bool) (l l' : list A) :
  List.find f (l ++ l')
  = match List.find f l with Some x => Some x | None => List.find f l' end.
Proof.
  induction l as [|x l IH]; [reflexivity|].
  cbn. destruct (f x); [reflexivity | exact IH].
Qed.

(** After [ensure_default_prompt_profile] the default profile of the
    tenant exists and is active. *)
Lemma ensure_default_post tenant uuid now db profile db' :
  Storage.ensure_default_prompt_profile tenant uuid now db = (Py.Ok profile, db') ->
  exists row,
    List.find (fun r => String.eqb (Storage.pr_tenant_id r) tenant
                        && Storage.pr_is_default r)
              (Storage.prompt_profiles db') = Some row
    /\ Storage.pr_is_active row = true
    /\ Storage.prompt_component_overrides db' = Storage.prompt_component_overrides db.
Proof.
  unfold Storage.ensure_default_prompt_profile.
  destruct (List.find _ (Storage.prompt_profiles db)) as [d|] eqn:Hd.
  - destruct (Storage.pr_is_active d) eqn:Ha; cbn [negb]; intros [= _ <-].
    + exists d. auto.
    + cbn [Storage.prompt_profiles Storage.with_profiles].
      unfold Storage.activate_id, Storage.deactivate_tenant.
      rewrite map_map, find_map.
      erewrite find_ext; [rewrite Hd|].
      * eexists. split; [reflexivity|].
        apply List.find_some in Hd as [_ [Ht _]%andb_true_iff].
        rewrite Ht. cbn. rewrite String.eqb_refl. cbn. auto.
      * intros r. destruct (String.eqb (Storage.pr_tenant_id r) tenant) eqn:Ht; cbn;
          destruct (String.eqb (Storage.pr_id r) (Storage.pr_id d)); cbn;
          by rewrite ?Ht.
  - unfold Storage.insert_profile.
    destruct (existsb _ _); [discriminate|]. intros [= _ <-].
    cbn [Storage.prompt_profiles Storage.with_profiles].
    rewrite find_app, Hd. cbn. rewrite String.eqb_refl. cbn.
    eexists. split; [reflexivity|]. auto.
Qed.

(** What [get_active_prompt_profile] returns is the first active profile
    of the tenant in the table that it leaves, in which the default
    profile is active. *)
Lemma get_active_post tenant uuid now db profile db' :
  Storage.get_active_prompt_profile tenant uuid now db = (Py.Ok profile, db') ->
  (exists row,
      List.find (fun r => String.eqb (Storage.pr_tenant_id r) tenant
                          && Storage.pr_is_default r)
                (Storage.prompt_profiles db') = Some row
      /\ Storage.pr_is_active row = true)
  /\ (exists active,
        List.find (fun r => String.eqb (Storage.pr_tenant_id r) tenant
                            && Storage.pr_is_active r)
                  (Storage.prompt_profiles db') = Some active
        /\ profile = Storage.to_profile active)
  /\ Storage.prompt_component_overrides db' = Storage.prompt_component_overrides db.
Proof.
  unfold Storage.get_active_prompt_profile. intros H.
  apply M_bind_Ok in H as (p & db1 & He & H).
  apply ensure_default_post in He as (row & Hf & Ha & Hov).
  apply M_bind_Ok in H as (db2 & db3 & Hg & H).
  unfold M_get in Hg. injection Hg as <- <-.
  destruct (List.find (fun r => String.eqb (Storage.pr_tenant_id r) tenant
                                  && Storage.pr_is_active r)
                      (Storage.prompt_profiles db1)) as [active|] eqn:Hact;
    [|discriminate].
  apply M_ret_Ok in H as [-> ->]. eauto 10.
Qed.

(** An override for a default component makes the reading of the
    effective components raise. *)
Lemma overridden_component_raises a profile db' :
  Storage.get_active_prompt_profile (Main._tenant_id env)
    (Main.uuid4 env (Main.tick a)) (Main.utc_now env (S (Main.tick a)))
    (Main.store a) = (Py.Ok profile, db') ->
  (exists item,
      item ∈ Main.load_prompt_components env
      /\ is_Some (Storage.get_prompt_overrides (Storage.id profile) db'
                    !! Prompts.id item)) ->
  exists a',
    Main.effective_prompt env a
    = (Py.Raise (Py.TypeError "__init__() missing required argument"), a').
Proof.
  intros Hget Hov.
  unfold Main.effective_prompt, Main._effective_prompt_components,
    mbind, M_mbind, M_bind.
  rewrite store_call_run, Hget. unfold M_get, M_lift. cbn [Main.store].
  rewrite (merge_all_raises _ _ Hov). eauto.
Qed.

Lemma no_rows_after_delete profile_id (rows : list Storage.override_row) :
  List.filter (fun row => String.eqb (Storage.ov_profile_id row) profile_id)
    (List.filter (fun row => negb (String.eqb (Storage.ov_profile_id row) profile_id))
                 rows) = [].
Proof.
  induction rows as [|o l IH]; [reflexivity|].
  cbn [List.filter].
  destruct (String.eqb (Storage.ov_profile_id o) profile_id) eqn:Ho;
    cbn [negb List.filter]; [exact IH|].
  rewrite Ho. exact IH.
Qed.

(** After a reset through the endpoint the effective components are the
    default ones again, and the composed prompt is the one of the
    defaults. *)
Lemma reset_restores_default_prompt a response a1 :
  Main.reset_prompts env a = (Py.Ok response, a1) ->
  exists a2,
    Main.effective_prompt env a1
    = (Py.Ok (Prompts.compose_system_prompt (Main.load_prompt_components env)), a2).
Proof.
  unfold Main.reset_prompts. intros H.
  apply M_bind_Ok in H as (profile & a0 & Hget & H).
  rewrite store_call_run in Hget.
  destruct (Storage.get_active_prompt_profile _ _ _ _) as [res db0] eqn:Hga.
  injection Hget as -> <-.
  apply get_active_post in Hga as ((row & Hd & Hda) & (active & Hact & ->) & _).
  apply M_bind_Ok in H as (u & a1' & Hreset & H).
  apply M_ret_Ok in H as [_ ->].
  rewrite store_call_run in Hreset. cbn in Hreset. injection Hreset as _ <-.
  unfold Main.effective_prompt, Main._effective_prompt_components,
    mbind, M_mbind, M_bind.
  rewrite store_call_run. cbn [Main.store Main.tick].
  set (tenant := Main._tenant_id env) in *.
  match goal with
  | |- context [Storage.get_active_prompt_profile tenant ?u ?n ?db] =>
      set (db2 := db);
      assert (Hd2 : exists row2,
                 List.find (fun r => String.eqb (Storage.pr_tenant_id r) tenant
                                     && Storage.pr_is_default r)
                           (Storage.prompt_profiles db2) = Some row2
                 /\ Storage.pr_is_active row2 = true);
      [|destruct Hd2 as (row2 & Hd2 & Hda2);
        destruct (get_active_stable tenant u n db2 row2 Hd2 Hda2)
          as (active2 & Hact2 & Hget2)]
  end.
  { subst db2. cbn [Storage.prompt_profiles Storage.with_profiles].
    unfold Storage.touch_profile. rewrite find_map.
    erewrite find_ext; [rewrite Hd|].
    - eexists. split; [reflexivity|].
      destruct (String.eqb (Storage.pr_id row) _); exact Hda.
    - intros r. by destruct (String.eqb (Storage.pr_id r) _). }
  rewrite Hget2. unfold M_get, M_lift. cbn [Main.store].
  assert (Hid : Storage.id (Storage.to_profile active2) = Storage.pr_id active).
  { subst db2. cbn [Storage.prompt_profiles Storage.with_profiles] in Hact2.
    unfold Storage.touch_profile in Hact2. rewrite find_map in Hact2.
    erewrite find_ext in Hact2; [rewrite Hact in Hact2|].
    - cbn in Hact2. injection Hact2 as <-.
      by destruct (String.eqb (Storage.pr_id active) _).
    - intros r. by destruct (String.eqb (Storage.pr_id r) _). }
  assert (Hnone : Storage.get_prompt_overrides
                    (Storage.id (Storage.to_profile active2)) db2 = ∅).
  { rewrite Hid. subst db2. unfold Storage.get_prompt_overrides.
    cbn [Storage.prompt_component_overrides Storage.with_profiles
         Storage.with_overrides Storage.id Storage.to_profile].
    by rewrite no_rows_after_delete. }
  rewrite Hnone, merge_all_without_overrides. eauto.
Qed.

End Reset.

(** ** The baseline run *)

Tactic Notation "inv_bind" hyp(H) "as" simple_intropattern(x) ident(w) ident(Hx) :=
  apply M_bind_Ok in H as (x & w & Hx & H).

Section Baseline.

Variable env : Main.Env.
Variable job_id : string.

Local Abbreviation on_progress :=
  (Some (fun step inc => Main._baseline_progress env job_id step inc)).

Lemma progress_Ok step inc a a' u :
  Main.progress on_progress step inc a = (Py.Ok u, a') ->
  Main.llm_calls a' = Main.llm_calls a.
Proof.
  unfold Main.progress. intros H.
  destruct (Main._baseline_jobs a !! job_id) as [job|] eqn:Hjob.
  - destruct (baseline_progress_run env job_id step inc job a Hjob)
      as (a1 & job1 & Hrun & _ & _ & _ & _ & _ & Hl & _).
    congruence.
  - unfold Main._baseline_progress, mbind, M_mbind, M_bind, Main.get_job in H.
    rewrite Hjob in H. discriminate.
Qed.

Lemma llm_chat_Ok messages cap a a' r :
  Main.llm_chat env messages cap a = (Py.Ok r, a') ->
  Main.llm_calls a' = S (Main.llm_calls a).
Proof. unfold Main.llm_chat. intros [= _ <-]. reflexivity. Qed.

(** A case of one call counts one call, and makes one. *)
Lemma single_call_case_Ok case_id label messages user_payload cap a a' c :
  Main.single_call_case env case_id label messages user_payload cap on_progress a
  = (Py.Ok c, a') ->
  Models.calls c = 1
  /\ Models.case_id c = case_id
  /\ Main.llm_calls a' = S (Main.llm_calls a).
Proof.
  unfold Main.single_call_case. intros H.
  inv_bind H as [completion latency_ms] a1 H1.
  apply llm_chat_Ok in H1.
  destruct (Main.token_counts completion messages) as [[pt ct] tt_].
  inv_bind H as ? a2 H2. apply progress_Ok in H2.
  inv_bind H as avg a3 H3. apply M_lift_Ok in H3 as [_ ->].
  apply M_ret_Ok in H as [-> ->]. cbn. repeat split; congruence.
Qed.

Lemma run_single_turn_case_Ok ep case_id label task input cap a a' c :
  Main._run_single_turn_case env ep case_id label task input cap on_progress a
  = (Py.Ok c, a') ->
  Models.calls c = 1
  /\ Models.case_id c = case_id
  /\ Main.llm_calls a' = S (Main.llm_calls a).
Proof.
  unfold Main._run_single_turn_case. intros H.
  inv_bind H as ? a1 H1. apply progress_Ok in H1.
  inv_bind H as payload a2 H2. apply M_lift_Ok in H2 as [_ ->].
  apply single_call_case_Ok in H as (? & ? & ?). repeat split; congruence.
Qed.

Lemma run_system_prompt_pressure_case_Ok ep case_id label st ut cap a a' c :
  Main._run_system_prompt_pressure_case env ep case_id label st ut cap
    on_progress a = (Py.Ok c, a') ->
  Models.calls c = 1
  /\ Models.case_id c = case_id
  /\ Main.llm_calls a' = S (Main.llm_calls a).
Proof.
  unfold Main._run_system_prompt_pressure_case. intros H.
  inv_bind H as ? a1 H1. apply progress_Ok in H1.
  inv_bind H as sp a2 H2. apply M_lift_Ok in H2 as [_ ->].
  inv_bind H as up a3 H3. apply M_lift_Ok in H3 as [_ ->].
  apply single_call_case_Ok in H as (? & ? & ?). repeat split; congruence.
Qed.

(** The payload that is built for a target is estimated at no less. *)
Lemma build_payload_Ok target fragment text :
  Main.build_payload target fragment = Py.Ok text ->
  target <= Main._estimate_tokens_for_text text.
Proof.
  unfold Main.build_payload. intros H.
  apply (while_Ok_inv _ _ (fun _ => True)) in H as [_ H]; [|auto|exact I].
  by apply Z.ltb_ge in H.
Qed.

(** One turn adds one entry to each per-turn list, makes one call, and
    adds the estimate of a payload that reaches the target. *)
Lemma multi_turn_round_Ok label turns cap st idx target a a' st' :
  Main.multi_turn_round env label turns cap on_progress st (idx, target) a
  = (Py.Ok st', a') ->
  length (Main.mt_per_turn_latency_ms st')
  = S (length (Main.mt_per_turn_latency_ms st))
  /\ Main.input_total st + target <= Main.input_total st'
  /\ Main.llm_calls a' = S (Main.llm_calls a).
Proof.
  unfold Main.multi_turn_round. intros H.
  inv_bind H as ? a1 H1. apply progress_Ok in H1.
  inv_bind H as payload a2 H2. apply M_lift_Ok in H2 as [Hp ->].
  apply build_payload_Ok in Hp.
  inv_bind H as [completion latency_ms] a3 H3.
  apply llm_chat_Ok in H3.
  destruct (Main.token_counts completion _) as [[pt ct] tt_].
  inv_bind H as ? a4 H4. apply progress_Ok in H4.
  apply M_ret_Ok in H as [-> ->]. cbn.
  rewrite length_app. cbn. repeat split; [lia | lia | congruence].
Qed.

Lemma multi_turn_rounds_Ok label turns cap items : forall st a a' st',
  Main.for_each
    (Main.multi_turn_round env label turns cap on_progress) items st a
  = (Py.Ok st', a') ->
  length (Main.mt_per_turn_latency_ms st')
  = (length (Main.mt_per_turn_latency_ms st) + length items)%nat
  /\ Main.input_total st + foldr Z.add 0 (map snd items) <= Main.input_total st'
  /\ Main.llm_calls a' = (Main.llm_calls a + length items)%nat.
Proof.
  induction items as [|[idx target] items IH]; intros st a a' st' H.
  - apply M_ret_Ok in H as [-> ->]. cbn. repeat split; lia.
  - cbn [Main.for_each] in H. inv_bind H as st1 a1 Hx.
    apply multi_turn_round_Ok in Hx as (Hl & Hi & Hc).
    apply IH in H as (Hl' & Hi' & Hc'). cbn [length map foldr snd].
    repeat split; lia.
Qed.

Lemma enumerate_length {A : Type} (xs : list A) :
  length (Py.enumerate xs) = length xs.
Proof.
  unfold Py.enumerate, Py.range.
  rewrite length_zip_with, length_map, length_seq. lia.
Qed.

Lemma enumerate_snd {A : Type} (xs : list A) : map snd (Py.enumerate xs) = xs.
Proof.
  unfold Py.enumerate, Py.range. apply snd_zip.
  rewrite length_map, length_seq. lia.
Qed.

Lemma run_multi_turn_case_Ok ep case_id label task targets cap a a' c :
  Main._run_multi_turn_case env ep case_id label task targets cap on_progress a
  = (Py.Ok c, a') ->
  Models.calls c = Z.of_nat (length targets)
  /\ Models.case_id c = case_id
  /\ (exists latencies,
        Models.per_turn_latency_ms c = Some latencies
        /\ length latencies = length targets)
  /\ foldr Z.add 0 targets <= Models.input_tokens_est c
  /\ Main.llm_calls a' = (Main.llm_calls a + length targets)%nat.
Proof.
  unfold Main._run_multi_turn_case. intros H.
  inv_bind H as st a1 Hx. apply multi_turn_rounds_Ok in Hx as (Hl & Hi & Hc).
  rewrite enumerate_length in Hl, Hc. rewrite enumerate_snd in Hi.
  cbn in Hl, Hi.
  inv_bind H as avg a2 Havg.
  assert (a2 = a1) as ->.
  { destruct (0 <? Z.of_nat (length targets)).
    - inv_bind Havg as total a3 H3. apply M_lift_Ok in H3 as [_ ->].
      inv_bind Havg as count a4 H4. apply M_lift_Ok in H4 as [_ ->].
      by apply M_ret_Ok in Havg as [_ ->].
    - by apply M_ret_Ok in Havg as [_ ->]. }
  apply M_ret_Ok in H as [-> ->]. cbn.
  split; [reflexivity|]. split; [reflexivity|].
  split; [eauto|]. split; [lia | exact Hc].
Qed.

Lemma system_prompt_rounds_Ok ep cap items : forall acc a a' cases,
  Main.for_each (Main.system_prompt_round env ep cap on_progress) items acc a
  = (Py.Ok cases, a') ->
  Forall (fun c => Models.calls c = 1) acc ->
  Forall (fun c => Models.calls c = 1) cases
  /\ length cases = (length acc + length items)%nat
  /\ Main.llm_calls a' = (Main.llm_calls a + length items)%nat.
Proof.
  induction items as [|[idx target] items IH]; intros acc a a' cases H Hacc.
  - apply M_ret_Ok in H as [-> ->]. cbn. repeat split; [exact Hacc | lia | lia].
  - cbn [Main.for_each] in H. inv_bind H as acc1 a1 Hx.
    unfold Main.system_prompt_round in Hx. inv_bind Hx as c a2 Hcase.
    apply run_system_prompt_pressure_case_Ok in Hcase as (Hc1 & _ & Hl).
    apply M_ret_Ok in Hx as [-> ->].
    apply IH in H as (Hall & Hlen & Hcalls).
    + rewrite length_app in Hlen. cbn [length] in *.
      repeat split; [exact Hall | lia | lia].
    + apply Forall_app. split; [exact Hacc | by constructor].
Qed.

Lemma sum_calls_ones (cases : list Models.BaselineCaseResult) :
  Forall (fun c => Models.calls c = 1) cases ->
  foldr Z.add 0 (map Models.calls cases) = Z.of_nat (length cases).
Proof.
  induction 1 as [|c l Hc _ IH]; [reflexivity|].
  cbn [map foldr length]. rewrite IH, Hc. lia.
Qed.

Lemma effective_prompt_calls a a' r :
  Main.effective_prompt env a = (r, a') ->
  Main.llm_calls a' = Main.llm_calls a.
Proof.
  unfold Main.effective_prompt, Main._effective_prompt_components,
    mbind, M_mbind, M_bind.
  rewrite store_call_run.
  destruct (Storage.get_active_prompt_profile _ _ _ _) as [[p| |] db];
    try (intros [= _ <-]; reflexivity).
  unfold M_get, M_lift. cbn [Main.store].
  destruct (mapM _ _) as [merged| |]; intros [= _ <-]; reflexivity.
Qed.

Lemma get_context_settings_calls a a' r :
  Main._get_context_settings env a = (r, a') ->
  Main.llm_calls a' = Main.llm_calls a.
Proof.
  destruct (get_context_settings_spec env a) as (cs & a1 & Hrun & _ & _ & _ & _ & Hl).
  rewrite Hrun. intros [= _ <-]. exact Hl.
Qed.

Lemma next_Ok {A : Type} (stream : nat -> A) a a' x :
  Main.next stream a = (Py.Ok x, a') -> Main.llm_calls a' = Main.llm_calls a.
Proof. unfold Main.next. intros [= _ <-]. reflexivity. Qed.

(** What a run that returns has returned. *)
Lemma execute_baseline_Ok
    (enforce : bool) (a a' : Main.App) (r : Models.BaselineRunResponse) :
  Main._execute_baseline env job_id enforce a = (Py.Ok r, a') ->
  Main._baseline_total_calls = 34
  /\ Models.run_total_calls r = 34
  /\ Main.llm_calls a' = (Main.llm_calls a + 34)%nat
  /\ map Models.category_id (Models.categories r)
     = ["simple_qa"; "summarization"; "multi_turn"; "structured_extraction";
        "system_prompt_pressure"]
  /\ map Models.category_label (Models.categories r)
     = ["Simple Q/A"; "Summarization Tasks"; "20-Turn Conversation";
        "Structured Extraction (Extra)"; "System Prompt Pressure"]
  /\ map (fun category => length (Models.cases category)) (Models.categories r)
     = [3; 4; 1; 1; 6]%nat
  /\ Main.multi_turn_targets
     = map (fun i => 50 + (Z.of_nat i * 17) mod 151) (seq 0 20)
  /\ exists category mt latencies,
       Models.categories r !! 2%nat = Some category
       /\ Models.cases category = [mt]
       /\ Models.calls mt = 20
       /\ Models.per_turn_latency_ms mt = Some latencies
       /\ length latencies = 20%nat
       /\ foldr Z.add 0 Main.multi_turn_targets <= Models.input_tokens_est mt.
Proof.
  unfold Main._execute_baseline. intros H.
  inv_bind H as started_at a1 H1. apply next_Ok in H1.
  inv_bind H as ep a2 H2. apply effective_prompt_calls in H2.
  inv_bind H as cs a3 H3. apply get_context_settings_calls in H3.
  cbv zeta in H.
  inv_bind H as qa_100 a4 H4.
  apply run_single_turn_case_Ok in H4 as (C4 & _ & L4).
  inv_bind H as qa_250 a5 H5.
  apply run_single_turn_case_Ok in H5 as (C5 & _ & L5).
  inv_bind H as qa_500 a6 H6.
  apply run_single_turn_case_Ok in H6 as (C6 & _ & L6).
  inv_bind H as sum_200 a7 H7.
  apply run_single_turn_case_Ok in H7 as (C7 & _ & L7).
  inv_bind H as sum_500 a8 H8.
  apply run_single_turn_case_Ok in H8 as (C8 & _ & L8).
  inv_bind H as sum_1000 a9 H9.
  apply run_single_turn_case_Ok in H9 as (C9 & _ & L9).
  inv_bind H as sum_2000 a10 H10.
  apply run_single_turn_case_Ok in H10 as (C10 & _ & L10).
  inv_bind H as mt a11 H11.
  apply run_multi_turn_case_Ok in H11 as (C11 & _ & (lat & Hlat & Hlen) & Hin & L11).
  inv_bind H as extract_400 a12 H12.
  apply run_single_turn_case_Ok in H12 as (C12 & _ & L12).
  inv_bind H as sys_cases a13 H13.
  apply system_prompt_rounds_Ok in H13 as (Hall & Hsl & L13); [|constructor].
  rewrite enumerate_length in Hsl, L13. cbn in Hsl, L13.
  inv_bind H as completed_at a14 H14. apply next_Ok in H14.
  inv_bind H as duration a15 H15. apply next_Ok in H15.
  apply M_ret_Ok in H as [-> ->].
  cbn [Models.run_total_calls Models.categories map Models.category_id
       Models.category_label Models.cases length].
  assert (Hmt : length Main.multi_turn_targets = 20%nat) by reflexivity.
  rewrite Hmt in *.
  split; [reflexivity|]. split.
  { cbn [concat map foldr app].
    rewrite map_app, foldr_app. cbn [map foldr].
    rewrite C4, C5, C6, C7, C8, C9, C10, C11, C12.
    rewrite (sum_calls_ones _ Hall), Hsl. reflexivity. }
  split; [lia|]. split; [reflexivity|]. split; [reflexivity|].
  split; [by rewrite Hsl|]. split; [reflexivity|].
  eexists _, mt, lat. split; [reflexivity|]. cbn [Models.cases].
  repeat split; assumption.
Qed.

Lemma build_payload_total target fragment :
  4 <= Py.len fragment ->
  exists text, Main.build_payload target fragment = Py.Ok text.
Proof.
  intros Hfrag. unfold Main.build_payload.
  destruct (while_terminates
              (fun text => Main._estimate_tokens_for_text text <? target)
              (fun text => Py.Ok (text +:+ fragment))
              (fun text => Z.to_nat (target - Py.ceil_div (Py.len text) 4))
              (fun _ => True))
    with (fuel := Z.to_nat target) (s := "") as (text & Hw & _);
    [|exact I| |eauto].
  - intros text _ Hc. apply Z.ltb_lt in Hc.
    eexists. split; [reflexivity|]. split; [exact I|].
    unfold Main._estimate_tokens_for_text in Hc.
    assert (Py.ceil_div (Py.len text) 4 + 1
            <= Py.ceil_div (Py.len (text +:+ fragment)) 4).
    { unfold Py.ceil_div. rewrite len_app. Z.div_mod_to_equations. lia. }
    lia.
  - assert (Py.ceil_div (Py.len "") 4 = 0) by reflexivity. lia.
Qed.

End Baseline.

(** ** A baseline run returns *)

Section BaselineReturns.

Variable env : Main.Env.
Variable job_id : string.
Hypothesis backend : Spec.backend_answers env.

Local Abbreviation on_progress :=
  (Some (fun step inc => Main._baseline_progress env job_id step inc)).

Lemma progress_run step inc a :
  Spec.has_job job_id a ->
  exists a', Main.progress on_progress step inc a = (Py.Ok tt, a')
             /\ Spec.has_job job_id a'.
Proof.
  intros [job Hjob]. unfold Main.progress.
  destruct (baseline_progress_run env job_id step inc job a Hjob)
    as (a' & job' & Hrun & Hjob' & _).
  exists a'. split; [exact Hrun | by exists job'].
Qed.

Lemma llm_chat_run messages cap a :
  exists completion latency_ms a',
    Main.llm_chat env messages cap a = (Py.Ok (completion, latency_ms), a')
    /\ Main._baseline_jobs a' = Main._baseline_jobs a
    /\ 0 <= latency_ms < 2 ^ 32.
Proof.
  destruct (backend (Main.llm_calls a) messages cap) as (c & l & Hb & Hl).
  exists c, l. eexists. unfold Main.llm_chat. rewrite Hb.
  split; [reflexivity|]. split; [reflexivity | exact Hl].
Qed.

Lemma build_user_payload_run target seed :
  exists text, Main._build_user_payload target seed = Py.Ok text.
Proof.
  apply build_payload_total. rewrite !len_app.
  pose proof (len_nonneg seed).
  assert (4 <= Py.len ". Keep this coherent, factual, and concise. ")
    by (vm_compute; discriminate).
  pose proof (len_nonneg
    "Include clear constraints, concrete details, and specific wording. ").
  lia.
Qed.

Lemma build_system_payload_run target seed :
  exists text, Main._build_system_payload target seed = Py.Ok text.
Proof.
  apply build_payload_total. rewrite !len_app.
  pose proof (len_nonneg seed).
  assert (4 <= Py.len ". Preserve instruction fidelity, avoid hallucination, and remain concise. ")
    by (vm_compute; discriminate).
  pose proof (len_nonneg
    "Use explicit constraints and deterministic formatting cues. ").
  lia.
Qed.

Lemma single_call_case_run case_id label messages user_payload cap a :
  Spec.has_job job_id a ->
  exists c a',
    Main.single_call_case env case_id label messages user_payload cap on_progress a
    = (Py.Ok c, a')
    /\ Spec.has_job job_id a'.
Proof.
  intros Hjob. unfold Main.single_call_case.
  destruct (llm_chat_run messages cap a) as (completion & l & a1 & Hc & Hj & Hl).
  rewrite (M_bind_run _ _ _ _ _ Hc). cbv beta iota.
  destruct (Main.token_counts completion messages) as [[pt ct] tt_].
  destruct (progress_run label 1 a1) as (a2 & Hp & Hjob2).
  { unfold Spec.has_job. by rewrite Hj. }
  rewrite (M_bind_run _ _ _ _ _ Hp).
  destruct (float_of_int_total l) as [avg Havg]; [lia|].
  rewrite (M_bind_run _ _ a2 a2 avg) by (unfold M_lift; by rewrite Havg).
  eexists _, _. split; [reflexivity | exact Hjob2].
Qed.

Lemma run_single_turn_case_run ep case_id label task input cap a :
  Spec.has_job job_id a ->
  exists c a',
    Main._run_single_turn_case env ep case_id label task input cap on_progress a
    = (Py.Ok c, a')
    /\ Spec.has_job job_id a'.
Proof.
  intros Hjob. unfold Main._run_single_turn_case.
  destruct (progress_run label 0 a Hjob) as (a1 & Hp & Hjob1).
  rewrite (M_bind_run _ _ _ _ _ Hp).
  destruct (build_user_payload_run input (label +:+ " input")) as [text Ht].
  rewrite (M_bind_run _ _ a1 a1 text) by (unfold M_lift; by rewrite Ht).
  by apply single_call_case_run.
Qed.

Lemma run_system_prompt_pressure_case_run ep case_id label st ut cap a :
  Spec.has_job job_id a ->
  exists c a',
    Main._run_system_prompt_pressure_case env ep case_id label st ut cap
      on_progress a = (Py.Ok c, a')
    /\ Spec.has_job job_id a'.
Proof.
  intros Hjob. unfold Main._run_system_prompt_pressure_case.
  destruct (progress_run label 0 a Hjob) as (a1 & Hp & Hjob1).
  rewrite (M_bind_run _ _ _ _ _ Hp).
  destruct (build_system_payload_run st (label +:+ " system context")) as [sp Hs].
  rewrite (M_bind_run _ _ a1 a1 sp) by (unfold M_lift; by rewrite Hs).
  destruct (build_user_payload_run ut (label +:+ " user input")) as [up Hu].
  rewrite (M_bind_run _ _ a1 a1 up) by (unfold M_lift; by rewrite Hu).
  by apply single_call_case_run.
Qed.

Lemma multi_turn_round_run label turns cap st idx target a :
  Spec.has_job job_id a ->
  exists st' a',
    Main.multi_turn_round env label turns cap on_progress st (idx, target) a
    = (Py.Ok st', a')
    /\ Spec.has_job job_id a'
    /\ Main.latency_total st <= Main.latency_total st'
       < Main.latency_total st + 2 ^ 32.
Proof.
  intros Hjob. unfold Main.multi_turn_round.
  destruct (progress_run (Main.turn_step_label label idx turns) 0 a Hjob)
    as (a1 & Hp & Hjob1).
  rewrite (M_bind_run _ _ _ _ _ Hp).
  destruct (build_user_payload_run target
              (label +:+ " turn " +:+ Py.str_of_int (idx + 1))) as [text Ht].
  rewrite (M_bind_run _ _ a1 a1 text) by (unfold M_lift; by rewrite Ht).
  cbv zeta.
  match goal with
  | |- context [Main.llm_chat env ?msgs cap] =>
      destruct (llm_chat_run msgs cap a1) as (completion & l & a2 & Hc & Hj & Hl)
  end.
  rewrite (M_bind_run _ _ _ _ _ Hc). cbv beta iota.
  destruct (Main.token_counts completion _) as [[pt ct] tt_].
  destruct (progress_run (Main.turn_step_label label idx turns) 1 a2)
    as (a3 & Hp3 & Hjob3).
  { unfold Spec.has_job. by rewrite Hj. }
  rewrite (M_bind_run _ _ _ _ _ Hp3).
  eexists _, _. split; [reflexivity|]. split; [exact Hjob3|]. cbn. lia.
Qed.

Lemma multi_turn_rounds_run label turns cap items : forall st a,
  Spec.has_job job_id a ->
  exists st' a',
    Main.for_each (Main.multi_turn_round env label turns cap on_progress)
                  items st a = (Py.Ok st', a')
    /\ Spec.has_job job_id a'
    /\ Main.latency_total st <= Main.latency_total st'
       <= Main.latency_total st + Z.of_nat (length items) * 2 ^ 32.
Proof.
  induction items as [|[idx target] items IH]; intros st a Hjob.
  - exists st, a. split; [reflexivity|]. split; [exact Hjob|]. cbn. lia.
  - destruct (multi_turn_round_run label turns cap st idx target a Hjob)
      as (st1 & a1 & Hr & Hjob1 & Hl1).
    destruct (IH st1 a1 Hjob1) as (st2 & a2 & Hr2 & Hjob2 & Hl2).
    exists st2, a2. cbn [Main.for_each].
    rewrite (M_bind_run _ _ _ _ _ Hr). split; [exact Hr2|].
    split; [exact Hjob2|]. cbn [length]. lia.
Qed.

Lemma run_multi_turn_case_run ep case_id label task targets cap a :
  Spec.has_job job_id a ->
  (length targets <= 1000)%nat ->
  exists c a',
    Main._run_multi_turn_case env ep case_id label task targets cap on_progress a
    = (Py.Ok c, a')
    /\ Spec.has_job job_id a'.
Proof.
  intros Hjob Hlen. unfold Main._run_multi_turn_case.
  match goal with
  | |- context [Main.for_each ?round ?items ?st0] =>
      destruct (multi_turn_rounds_run label (length targets) cap items st0 a Hjob)
        as (st & a1 & Hr & Hjob1 & Hl)
  end.
  rewrite (M_bind_run _ _ _ _ _ Hr). cbv zeta.
  rewrite enumerate_length in Hl. cbn [Main.latency_total] in Hl.
  destruct (float_of_int_total (Main.latency_total st)) as [total Htotal]; [lia|].
  destruct (float_of_int_total (Z.of_nat (length targets))) as [count Hcount]; [lia|].
  destruct (0 <? Z.of_nat (length targets)).
  - erewrite M_bind_run.
    2: { rewrite (M_bind_run _ _ a1 a1 total) by (unfold M_lift; by rewrite Htotal).
         rewrite (M_bind_run _ _ a1 a1 count) by (unfold M_lift; by rewrite Hcount).
         reflexivity. }
    eexists _, _. split; [reflexivity | exact Hjob1].
  - erewrite M_bind_run by reflexivity.
    eexists _, _. split; [reflexivity | exact Hjob1].
Qed.

Lemma system_prompt_round_run ep cap acc idx target a :
  Spec.has_job job_id a ->
  exists cases a',
    Main.system_prompt_round env ep cap on_progress acc (idx, target) a
    = (Py.Ok cases, a')
    /\ Spec.has_job job_id a'.
Proof.
  intros Hjob. unfold Main.system_prompt_round.
  match goal with
  | |- context [Main._run_system_prompt_pressure_case env ep ?cid ?l ?s ?u cap _] =>
      destruct (run_system_prompt_pressure_case_run ep cid l s u cap a Hjob)
        as (c & a1 & Hr & Hjob1)
  end.
  rewrite (M_bind_run _ _ _ _ _ Hr).
  eexists _, _. split; [reflexivity | exact Hjob1].
Qed.

Lemma system_prompt_rounds_run ep cap items : forall acc a,
  Spec.has_job job_id a ->
  exists cases a',
    Main.for_each (Main.system_prompt_round env ep cap on_progress) items acc a
    = (Py.Ok cases, a')
    /\ Spec.has_job job_id a'.
Proof.
  induction items as [|[idx target] items IH]; intros acc a Hjob.
  - exists acc, a. split; [reflexivity | exact Hjob].
  - destruct (system_prompt_round_run ep cap acc idx target a Hjob)
      as (acc1 & a1 & Hr & Hjob1).
    cbn [Main.for_each]. rewrite (M_bind_run _ _ _ _ _ Hr).
    by apply IH.
Qed.

(** With the job in the table, the prompt tables ready and a backend that
    answers, the run returns. *)
Lemma execute_baseline_returns enforce a :
  Spec.has_job job_id a ->
  Spec.prompt_ready env (Main.store a) ->
  exists r a', Main._execute_baseline env job_id enforce a = (Py.Ok r, a').
Proof.
  intros Hjob Hready. unfold Main._execute_baseline.
  erewrite M_bind_run by reflexivity.
  match goal with
  | |- context [Main.effective_prompt env ≫= _] => idtac
  end.
  set (a1 := {| Main.store := Main.store a;
                Main._baseline_jobs := Main._baseline_jobs a;
                Main.llm_calls := Main.llm_calls a;
                Main.tick := S (Main.tick a) |}).
  destruct (effective_prompt_ready env a1 Hready) as (a2 & Hep & _ & Hj2).
  rewrite (M_bind_run _ _ _ _ _ Hep).
  destruct (get_context_settings_spec env a2) as (cs & a3 & Hcs & _ & _ & _ & Hj3 & _).
  rewrite (M_bind_run _ _ _ _ _ Hcs). cbv zeta.
  assert (Hjob3 : Spec.has_job job_id a3).
  { unfold Spec.has_job in *. by rewrite Hj3, Hj2. }
  repeat match goal with
  | |- context [Main._run_single_turn_case env ?ep ?cid ?l ?t ?i ?cap _ ≫= _] =>
      match goal with
      | Hj : Spec.has_job job_id ?s |- context [(_ ≫= _) ?s] =>
          let c := fresh "c" in
          let s' := fresh "s" in
          let Hr := fresh "Hr" in
          let Hj' := fresh "Hjob" in
          destruct (run_single_turn_case_run ep cid l t i cap s Hj)
            as (c & s' & Hr & Hj');
          rewrite (M_bind_run _ _ _ _ _ Hr); clear Hr Hj
      end
  | |- context [Main._run_multi_turn_case env ?ep ?cid ?l ?t ?ts ?cap _ ≫= _] =>
      match goal with
      | Hj : Spec.has_job job_id ?s |- context [(_ ≫= _) ?s] =>
          let c := fresh "c" in
          let s' := fresh "s" in
          let Hr := fresh "Hr" in
          let Hj' := fresh "Hjob" in
          destruct (run_multi_turn_case_run ep cid l t ts cap s Hj)
            as (c & s' & Hr & Hj'); [cbn; lia|];
          rewrite (M_bind_run _ _ _ _ _ Hr); clear Hr Hj
      end
  end.
  match goal with
  | Hj : Spec.has_job job_id ?s |- context [Main.for_each ?f ?items ?acc] =>
      destruct (system_prompt_rounds_run
                  (Prompts.compose_system_prompt (Main.load_prompt_components env))
                  (if enforce then Some (Storage.max_response_tokens cs) else None)
                  items acc s Hj)
        as (cases & s' & Hr & Hj');
      rewrite (M_bind_run _ _ _ _ _ Hr)
  end.
  erewrite M_bind_run by reflexivity.
  erewrite M_bind_run by reflexivity.
  eexists _, _. reflexivity.
Qed.

End BaselineReturns.



(** ** The progress of a job over a whole run *)

Section JobLifetime.

Variable env : Main.Env.
Variable job_id : string.

Local Abbreviation on_progress :=
  (Some (fun step inc => Main._baseline_progress env job_id step inc)).

Lemma progress_kept_refl a : Spec.progress_kept job_id a a.
Proof. intros job Hjob Hc. exists job. split; [exact Hjob|]. lia. Qed.

Lemma progress_kept_same_jobs a a' :
  Main._baseline_jobs a' = Main._baseline_jobs a -> Spec.progress_kept job_id a a'.
Proof. intros He job Hjob Hc. exists job. rewrite He. split; [exact Hjob|]. lia. Qed.

Lemma progress_kept_trans a1 a2 a3 :
  Spec.progress_kept job_id a1 a2 -> Spec.progress_kept job_id a2 a3 ->
  Spec.progress_kept job_id a1 a3.
Proof.
  intros H12 H23 job Hjob Hc.
  destruct (H12 job Hjob Hc) as (job2 & Hjob2 & Ht2 & Hc2).
  destruct (H23 job2 Hjob2) as (job3 & Hjob3 & Ht3 & Hc3); [lia|].
  exists job3. split; [exact Hjob3|]. split; [congruence | lia].
Qed.

Lemma keeps_ret {A : Type} (x : A) : Spec.keeps job_id (mret x : M Main.App A).
Proof. intros a r a' [= _ <-]. apply progress_kept_refl. Qed.

Lemma keeps_lift {A : Type} (r : Py.result A) : Spec.keeps job_id (M_lift r).
Proof. intros a r' a' [= _ <-]. apply progress_kept_refl. Qed.

Lemma keeps_raise {A : Type} (e : Py.exn) :
  Spec.keeps job_id (M_raise e : M Main.App A).
Proof. intros a r' a' [= _ <-]. apply progress_kept_refl. Qed.

Lemma keeps_next {A : Type} (stream : nat -> A) : Spec.keeps job_id (Main.next stream).
Proof. intros a r a' [= _ <-]. by apply progress_kept_same_jobs. Qed.

Lemma keeps_get_job : Spec.keeps job_id (Main.get_job job_id).
Proof.
  intros a r a'. unfold Main.get_job.
  destruct (Main._baseline_jobs a !! job_id); intros [= _ <-];
    apply progress_kept_refl.
Qed.

Lemma keeps_llm_chat messages cap : Spec.keeps job_id (Main.llm_chat env messages cap).
Proof. intros a r a' [= _ <-]. by apply progress_kept_same_jobs. Qed.

Lemma keeps_bind {A B : Type} (m : M Main.App A) (k : A -> M Main.App B) :
  Spec.keeps job_id m -> (forall x, Spec.keeps job_id (k x)) ->
  Spec.keeps job_id (m ≫= k).
Proof.
  intros Hm Hk a r a'. unfold mbind, M_mbind, M_bind.
  destruct (m a) as [[x| |] a1] eqn:Hma.
  - intros Hka. eapply progress_kept_trans; [eapply Hm | eapply Hk]; eauto.
  - intros [= _ <-]. eapply Hm; eauto.
  - intros [= _ <-]. eapply Hm; eauto.
Qed.

Lemma keeps_for_each {S A : Type} (round : S -> A -> M Main.App S) (xs : list A) :
  (forall st x, Spec.keeps job_id (round st x)) ->
  forall st, Spec.keeps job_id (Main.for_each round xs st).
Proof.
  intros Hround. induction xs as [|x xs IH]; intros st; cbn [Main.for_each].
  - apply keeps_ret.
  - apply keeps_bind; [apply Hround | exact IH].
Qed.

Lemma keeps_try_except {A : Type} (body : M Main.App A)
    (handler : Py.exn -> M Main.App A) :
  Spec.keeps job_id body -> (forall e, Spec.keeps job_id (handler e)) ->
  Spec.keeps job_id (Main.try_except body handler).
Proof.
  intros Hb Hh a r a'. unfold Main.try_except.
  destruct (body a) as [[x|e|] a1] eqn:Hba.
  - intros [= _ <-]. eapply Hb; eauto.
  - intros Hha. eapply progress_kept_trans; [eapply Hb | eapply Hh]; eauto.
  - intros [= _ <-]. eapply Hb; eauto.
Qed.

Lemma keeps_store_call {A : Type}
    (method : string -> string -> M Storage.ChatStore A) :
  Spec.keeps job_id (Main.store_call env method).
Proof.
  intros a r a'. rewrite store_call_run.
  destruct (method _ _ _) as [res db]. intros [= _ <-].
  by apply progress_kept_same_jobs.
Qed.

Lemma keeps_append_event message :
  Spec.keeps job_id (Main._append_baseline_event env job_id message).
Proof.
  intros a r a'.
  destruct (Main._baseline_jobs a !! job_id) as [job|] eqn:Hjob.
  - rewrite (append_event_run env job_id message job a Hjob). intros [= _ <-].
    intros job0 Hjob0 Hc. rewrite Hjob in Hjob0. injection Hjob0 as <-.
    eexists. cbn. rewrite lookup_insert_eq. split; [reflexivity|]. cbn. lia.
  - unfold Main._append_baseline_event, mbind, M_mbind, M_bind, Main.get_job.
    rewrite Hjob. intros [= _ <-]. apply progress_kept_refl.
Qed.

Lemma keeps_baseline_progress step inc :
  Spec.keeps job_id (Main._baseline_progress env job_id step inc).
Proof.
  intros a r a'.
  destruct (Main._baseline_jobs a !! job_id) as [job|] eqn:Hjob.
  - destruct (baseline_progress_run env job_id step inc job a Hjob)
      as (a1 & job1 & Hrun & Hjob1 & Ht & Hcc & _).
    rewrite Hrun. intros [= _ <-].
    intros job0 Hjob0 Hc. rewrite Hjob in Hjob0. injection Hjob0 as <-.
    exists job1. split; [exact Hjob1|]. split; [exact Ht|].
    rewrite Hcc. destruct (0 <? inc) eqn:Hi; [apply Z.ltb_lt in Hi|]; lia.
  - unfold Main._baseline_progress, mbind, M_mbind, M_bind, Main.get_job.
    rewrite Hjob. intros [= _ <-]. apply progress_kept_refl.
Qed.

Lemma keeps_progress step inc : Spec.keeps job_id (Main.progress on_progress step inc).
Proof. apply keeps_baseline_progress. Qed.

Lemma keeps_get : Spec.keeps job_id (M_get : M Main.App Main.App).
Proof. intros a r a' [= _ <-]. apply progress_kept_refl. Qed.

Lemma keeps_get_context_settings : Spec.keeps job_id (Main._get_context_settings env).
Proof.
  intros a r a' Hrun.
  destruct (get_context_settings_spec env a) as (cs & a1 & Hrun' & _ & _ & _ & Hj & _).
  rewrite Hrun in Hrun'. injection Hrun' as _ ->.
  by apply progress_kept_same_jobs.
Qed.

(** The job that was just read is stored back with the same counter and
    total. *)
Lemma keeps_update_block {A : Type} (f : string -> string -> Main.Job -> Main.Job)
    (s1 s2 : nat -> string) (rest : M Main.App A) :
  (forall x y job, Main.total_calls (f x y job) = Main.total_calls job
                   /\ Main.completed_calls (f x y job) = Main.completed_calls job) ->
  Spec.keeps job_id rest ->
  Spec.keeps job_id
    (job ← Main.get_job job_id;
     x ← Main.next s1;
     y ← Main.next s2;
     _ ← Main.set_job job_id (f x y job);
     rest).
Proof.
  intros Hf Hrest a r a'.
  unfold mbind, M_mbind, M_bind, Main.get_job, Main.next, Main.set_job, M_modify.
  destruct (Main._baseline_jobs a !! job_id) as [job|] eqn:Hjob.
  - cbn. intros Hr. eapply progress_kept_trans; [|eapply Hrest; exact Hr].
    intros job0 Hjob0 Hc. rewrite Hjob in Hjob0. injection Hjob0 as <-.
    eexists. cbn. rewrite lookup_insert_eq. split; [reflexivity|].
    match goal with
    | |- context [f ?x ?y job] => destruct (Hf x y job) as [-> ->]
    end.
    split; [reflexivity | lia].
  - intros [= _ <-]. apply progress_kept_refl.
Qed.

Ltac keeps_step :=
  lazymatch goal with
  | |- Spec.keeps _ (mret _) => apply keeps_ret
  | |- Spec.keeps _ (M_lift _) => apply keeps_lift
  | |- Spec.keeps _ (M_raise _) => apply keeps_raise
  | |- Spec.keeps _ M_get => apply keeps_get
  | |- Spec.keeps _ (Main.next _) => apply keeps_next
  | |- Spec.keeps _ (Main.get_job _) => apply keeps_get_job
  | |- Spec.keeps _ (Main.llm_chat _ _ _) => apply keeps_llm_chat
  | |- Spec.keeps _ (Main.store_call _ _) => apply keeps_store_call
  | |- Spec.keeps _ (Main._append_baseline_event _ _ _) => apply keeps_append_event
  | |- Spec.keeps _ (Main._baseline_progress _ _ _ _) => apply keeps_baseline_progress
  | |- Spec.keeps _ (Main.progress _ _ _) => apply keeps_progress
  | |- Spec.keeps _ (Main._get_context_settings _) => apply keeps_get_context_settings
  | |- Spec.keeps _ (Main.for_each _ _ _) => apply keeps_for_each; intros ? ?
  | |- Spec.keeps _ (_ ≫= _) => apply keeps_bind; [|intros ?]
  | |- Spec.keeps _ (match ?x with _ => _ end) => destruct x
  end.

Lemma keeps_effective_prompt : Spec.keeps job_id (Main.effective_prompt env).
Proof.
  unfold Main.effective_prompt, Main._effective_prompt_components.
  repeat keeps_step.
Qed.

Lemma keeps_single_call_case case_id label messages user_payload cap :
  Spec.keeps job_id
    (Main.single_call_case env case_id label messages user_payload cap on_progress).
Proof. unfold Main.single_call_case. repeat keeps_step. Qed.

Lemma keeps_run_single_turn_case ep case_id label task input cap :
  Spec.keeps job_id
    (Main._run_single_turn_case env ep case_id label task input cap on_progress).
Proof.
  unfold Main._run_single_turn_case. repeat keeps_step.
  apply keeps_single_call_case.
Qed.

Lemma keeps_run_system_prompt_pressure_case ep case_id label st ut cap :
  Spec.keeps job_id
    (Main._run_system_prompt_pressure_case env ep case_id label st ut cap on_progress).
Proof.
  unfold Main._run_system_prompt_pressure_case. repeat keeps_step.
  apply keeps_single_call_case.
Qed.

Lemma keeps_run_multi_turn_case ep case_id label task targets cap :
  Spec.keeps job_id
    (Main._run_multi_turn_case env ep case_id label task targets cap on_progress).
Proof.
  unfold Main._run_multi_turn_case. repeat keeps_step.
  unfold Main.multi_turn_round. repeat keeps_step.
Qed.

Lemma keeps_execute_baseline enforce :
  Spec.keeps job_id (Main._execute_baseline env job_id enforce).
Proof.
  unfold Main._execute_baseline.
  repeat first
    [ apply keeps_effective_prompt
    | apply keeps_run_single_turn_case
    | apply keeps_run_multi_turn_case
    | keeps_step ].
  unfold Main.system_prompt_round.
  repeat first [ apply keeps_run_system_prompt_pressure_case | keeps_step ].
Qed.

Lemma keeps_run_baseline_background :
  Spec.keeps job_id (Main._run_baseline_background env job_id).
Proof.
  unfold Main._run_baseline_background. apply keeps_try_except.
  - apply keeps_bind; [apply keeps_get_job | intros job].
    apply keeps_bind; [apply keeps_execute_baseline | intros result_].
    apply (keeps_update_block (Main.job_completed result_)).
    + intros x y j. split; reflexivity.
    + apply keeps_append_event.
  - intros exc. cbv zeta.
    apply (keeps_update_block (Main.job_failed _)).
    + intros x y j. split; reflexivity.
    + apply keeps_append_event.
Qed.

End JobLifetime.

(** C10.  A job starts with no completed call and a total of 34.  After
    any sequence of progress callbacks, whatever increments they report,
    the number of completed calls is between 0 and 34, and one more
    callback does not lower it: for an increment that is not negative it
    becomes [min(total_calls, completed_calls + increment)], and an
    increment that is not positive leaves it as it is.  The run of the job
    in the background, however it ends, leaves the job with its total of
    34 and a number of completed calls between 0 and 34. *)
Theorem baseline_progress_monotone_and_bounded
    (env : Main.Env) (payload : Models.BaselineStartRequest) (a : Main.App) :
  exists response a0 job0,
    Main.start_baseline env payload a = (Py.Ok response, a0)
    /\ Main._baseline_jobs a0 !! Models.start_job_id response = Some job0
    /\ Main.total_calls job0 = 34
    /\ Main.completed_calls job0 = 0
    /\ (forall r a1,
          Main._run_baseline_background env (Models.start_job_id response) a0
          = (r, a1) ->
          exists job1,
            Main._baseline_jobs a1 !! Models.start_job_id response = Some job1
            /\ Main.total_calls job1 = 34
            /\ 0 <= Main.completed_calls job1 <= 34)
    /\ forall updates : list (string * Z),
         exists a1 job1,
           Spec.callbacks env (Models.start_job_id response) updates a0
           = (Py.Ok tt, a1)
           /\ Main._baseline_jobs a1 !! Models.start_job_id response = Some job1
           /\ Main.total_calls job1 = 34
           /\ 0 <= Main.completed_calls job1 <= 34
           /\ forall (step : string) (inc : Z),
                exists a2 job2,
                  Main._baseline_progress env (Models.start_job_id response)
                                          step inc a1 = (Py.Ok tt, a2)
                  /\ Main._baseline_jobs a2 !! Models.start_job_id response
                     = Some job2
                  /\ Main.total_calls job2 = 34
                  /\ Main.completed_calls job1 <= Main.completed_calls job2 <= 34
                  /\ (0 <= inc ->
                      Main.completed_calls job2
                      = Z.min (Main.total_calls job1)
                              (Main.completed_calls job1 + inc))
                  /\ (inc <= 0 ->
                      Main.completed_calls job2 = Main.completed_calls job1).
Proof.
  destruct (start_baseline_run env payload a)
    as (a0 & job0 & Hstart & Hjob0 & _ & Ht0 & Hc0 & _).
  eexists _, a0, job0. split; [exact Hstart|]. cbn [Models.start_job_id].
  split; [exact Hjob0|]. split; [exact Ht0|]. split; [exact Hc0|].
  split.
  { intros r a1 Hrun.
    destruct (keeps_run_baseline_background env _ _ _ _ Hrun job0 Hjob0)
      as (job1 & Hjob1 & Ht1 & Hc1); [lia|].
    exists job1. split; [exact Hjob1|]. split; [congruence | lia]. }
  intros updates.
  destruct (callbacks_run env (Main.uuid4 env (Main.tick a)) updates a0 job0 Hjob0)
    as (a1 & job1 & Hrun & Hjob1 & Ht1 & Hc1); [lia|].
  exists a1, job1. split; [exact Hrun|]. split; [exact Hjob1|].
  split; [congruence|]. split; [lia|].
  intros step inc.
  destruct (baseline_progress_run env (Main.uuid4 env (Main.tick a)) step inc
              job1 a1 Hjob1)
    as (a2 & job2 & Hrun2 & Hjob2 & Ht2 & Hcc & _).
  exists a2, job2. split; [exact Hrun2|]. split; [exact Hjob2|].
  split; [congruence|].
  rewrite Hcc.
  destruct (0 <? inc) eqn:Hi; [apply Z.ltb_lt in Hi | apply Z.ltb_ge in Hi];
    repeat split; intros; lia.
Qed.

Lemma baseline_progress_witness :
  exists a2 job2,
    Main._baseline_progress (Examples.env 4096 [] Examples.echo_backend)
      "uuid-0" "Simple Q/A (100 user tokens)" 50
      (snd (Spec.callbacks (Examples.env 4096 [] Examples.echo_backend) "uuid-0"
              [("Simple Q/A (100 user tokens)", 0);
               ("Simple Q/A (100 user tokens)", 1)]
              (snd (Main.start_baseline (Examples.env 4096 [] Examples.echo_backend)
                      {| Models.enforce_max_response_tokens := true |}
                      (Examples.app Storage.empty_store)))))
    = (Py.Ok tt, a2)
    /\ Main._baseline_jobs a2 !! "uuid-0" = Some job2
    /\ Main.completed_calls job2 = 34.
Proof.
  destruct (baseline_progress_monotone_and_bounded
              (Examples.env 4096 [] Examples.echo_backend)
              {| Models.enforce_max_response_tokens := true |}
              (Examples.app Storage.empty_store))
    as (response & a0 & job0 & Hstart & _ & _ & _ & _ & Hall).
  assert (Hresp : response = {| Models.start_job_id := "uuid-0";
                                Models.start_status := "running" |}).
  { vm_compute in Hstart. by injection Hstart as <- _. }
  assert (Ha0 : a0 = snd (Main.start_baseline
                            (Examples.env 4096 [] Examples.echo_backend)
                            {| Models.enforce_max_response_tokens := true |}
                            (Examples.app Storage.empty_store)))
    by (by rewrite Hstart).
  subst response. cbn [Models.start_job_id] in Hall.
  destruct (Hall [("Simple Q/A (100 user tokens)", 0);
                  ("Simple Q/A (100 user tokens)", 1)])
    as (a1 & job1 & Hrun & Hjob1 & Ht1 & _ & Hnext).
  destruct (Hnext "Simple Q/A (100 user tokens)" 50)
    as (a2 & job2 & Hrun2 & Hjob2 & _ & _ & Hmin & _).
  exists a2, job2.
  split; [by rewrite <- Ha0, Hrun|]. split; [exact Hjob2|].
  rewrite Hmin by lia. rewrite Ht1.
  assert (Hc1 : Main.completed_calls job1 = 1).
  { rewrite Ha0 in Hrun. vm_compute in Hrun, Hjob1.
    injection Hrun as <-. vm_compute in Hjob1. by injection Hjob1 as <-. }
  rewrite Hc1. reflexivity.
Defined.


(** ** More on the prompt composer *)

Section ComposerOrder.
Context {A : Type} (key : A -> Z).

Lemma insert_sorted_least (x : A) (l : list A) :
  Forall (fun z => key x <= key z) l -> Py.insert_sorted key x l = x :: l.
Proof.
  destruct 1 as [|y ys Hy _]; [reflexivity|].
  cbn. by rewrite (proj2 (Z.leb_le _ _) Hy).
Qed.

Lemma insert_sorted_filter (p : A -> bool) (x : A) (l : list A) :
  StronglySorted (fun a b => key a <= key b) l ->
  List.filter p (Py.insert_sorted key x l)
  = if p x then Py.insert_sorted key x (List.filter p l) else List.filter p l.
Proof.
  induction 1 as [|y ys Hs IH Hall].
  - cbn. by destruct (p x).
  - cbn [Py.insert_sorted]. destruct (key x <=? key y) eqn:Hle.
    + apply Z.leb_le in Hle. cbn [List.filter].
      destruct (p x); [|reflexivity].
      rewrite insert_sorted_least; [reflexivity|].
      assert (Htail : Forall (fun z => key x <= key z) ys).
      { eapply List.Forall_impl; [|exact Hall]. cbn. intros; lia. }
      destruct (p y).
      * constructor; [exact Hle|].
        apply Forall_forall. intros z Hz.
        apply list_elem_of_In, filter_In in Hz as [Hz _].
        rewrite Forall_forall in Htail. apply Htail. by apply list_elem_of_In.
      * apply Forall_forall. intros z Hz.
        apply list_elem_of_In, filter_In in Hz as [Hz _].
        rewrite Forall_forall in Htail. apply Htail. by apply list_elem_of_In.
    + cbn [List.filter]. rewrite IH.
      destruct (p y), (p x); try reflexivity.
      cbn [Py.insert_sorted]. by rewrite Hle.
Qed.

(** Sorting and selecting commute. *)
Lemma sorted_filter (p : A -> bool) (l : list A) :
  List.filter p (Py.sorted key l) = Py.sorted key (List.filter p l).
Proof.
  induction l as [|x l IH]; [reflexivity|].
  cbn [Py.sorted foldr List.filter]. fold (Py.sorted key l).
  rewrite insert_sorted_filter by apply sorted_sorted.
  rewrite IH. by destruct (p x).
Qed.

(** Two sorted arrangements of the same elements are equal when no two
    elements share a key. *)
Lemma sorted_unique (l1 : list A) : forall l2,
  StronglySorted (fun a b => key a <= key b) l1 ->
  StronglySorted (fun a b => key a <= key b) l2 ->
  Permutation l1 l2 ->
  NoDup (map key l1) ->
  l1 = l2.
Proof.
  induction l1 as [|x l1 IH]; intros l2 Hs1 Hs2 Hp Hnd.
  - by apply Permutation_nil in Hp.
  - destruct l2 as [|y l2]; [by apply Permutation_sym, Permutation_nil in Hp|].
    apply StronglySorted_inv in Hs1 as [Hs1 Hx].
    apply StronglySorted_inv in Hs2 as [Hs2 Hy].
    apply NoDup_cons in Hnd as [Hnx Hnd].
    assert (Hxy : x = y).
    { assert (Hin1 : x ∈ y :: l2) by (rewrite <- Hp; left).
      assert (Hin2 : y ∈ x :: l1) by (rewrite Hp; left).
      apply elem_of_cons in Hin1 as [?|Hin1]; [done|].
      apply elem_of_cons in Hin2 as [?|Hin2]; [done|].
      rewrite Forall_forall in Hx, Hy.
      pose proof (Hx _ Hin2) as H1. pose proof (Hy _ Hin1) as H2.
      exfalso. apply Hnx. replace (key x) with (key y) by lia.
      apply list_elem_of_fmap. by exists y. }
    subst y. f_equal. apply IH; try done.
    by apply Permutation_cons_inv in Hp.
Qed.

Lemma sorted_permutation (l l' : list A) :
  Permutation l l' -> NoDup (map key l) -> Py.sorted key l = Py.sorted key l'.
Proof.
  intros Hp Hnd. apply sorted_unique.
  - apply sorted_sorted.
  - apply sorted_sorted.
  - by rewrite !sorted_perm.
  - by rewrite (sorted_perm key l).
Qed.

End ComposerOrder.

(** X1.  Components that are disabled, or whose content is blank, have no
    influence on the composed system prompt: the prompt of a list is the
    prompt of the list without them, and adding such a component at any
    place changes nothing. *)
Theorem compose_system_prompt_ignores_dropped_components
    (components more : list Prompts.PromptComponent)
    (c : Prompts.PromptComponent) :
  Prompts.compose_system_prompt components
  = Prompts.compose_system_prompt (List.filter Prompts.kept components)
  /\ (Prompts.kept c = false ->
      Prompts.compose_system_prompt (components ++ c :: more)
      = Prompts.compose_system_prompt (components ++ more)).
Proof.
  assert (Hfilter : forall l,
    Prompts.compose_system_prompt l
    = Prompts.compose_system_prompt (List.filter Prompts.kept l)).
  { intros l. unfold Prompts.compose_system_prompt.
    rewrite !(sorted_filter Prompts.order Prompts.kept).
    assert (Hidem : forall k : list Prompts.PromptComponent,
      List.filter Prompts.kept (List.filter Prompts.kept k) = List.filter Prompts.kept k).
    { induction k as [|x k IHk]; [reflexivity|].
      cbn [List.filter]. destruct (Prompts.kept x) eqn:Hx; [|exact IHk].
      cbn [List.filter]. by rewrite Hx, IHk. }
    by rewrite Hidem. }
  split; [apply Hfilter|].
  intros Hc. rewrite (Hfilter (components ++ c :: more)), (Hfilter (components ++ more)).
  rewrite !List.filter_app. cbn [List.filter]. by rewrite Hc.
Qed.

(** X2.  When no two components share an [order], the composed prompt
    does not depend on the order in which the components are listed. *)
Theorem compose_system_prompt_permutation
    (components components' : list Prompts.PromptComponent) :
  Permutation components components' ->
  NoDup (map Prompts.order components) ->
  Prompts.compose_system_prompt components
  = Prompts.compose_system_prompt components'.
Proof.
  intros Hp Hnd. unfold Prompts.compose_system_prompt.
  by rewrite (sorted_permutation Prompts.order components components').
Qed.

Lemma compose_system_prompt_permutation_witness :
  Prompts.compose_system_prompt
    [ Examples.component "01_style" "Be kind." 1 true;
      Examples.component "00_identity" "Be brief." 0 true ]
  = Prompts.compose_system_prompt Examples.two_components.
Proof.
  apply compose_system_prompt_permutation.
  - apply perm_swap.
  - apply NoDup_cons. split; [|apply NoDup_singleton].
    intros Hin. apply list_elem_of_singleton in Hin. discriminate.
Defined.

(** ** The override table, for every database *)

Section OverrideTable.

Lemma filter_filter_andb {A : Type} (f g : A -> bool) (l : list A) :
  List.filter f (List.filter g l) = List.filter (fun x => g x && f x) l.
Proof.
  induction l as [|x l IH]; [reflexivity|].
  cbn [List.filter]. destruct (g x); cbn [andb List.filter]; by rewrite IH.
Qed.

Lemma filter_map_stable {A : Type} (f : A -> bool) (g : A -> A) (l : list A) :
  (forall x, f (g x) = f x) ->
  List.filter f (map g l) = map g (List.filter f l).
Proof.
  intros Hfg. induction l as [|x l IH]; [reflexivity|].
  cbn [map List.filter]. rewrite Hfg. destruct (f x); cbn [map]; by rewrite IH.
Qed.

Lemma map_filter_fixed {A : Type} (f : A -> bool) (g : A -> A) (l : list A) :
  (forall x, f x = true -> g x = x) ->
  map g (List.filter f l) = List.filter f l.
Proof.
  intros Hfg. induction l as [|x l IH]; [reflexivity|].
  cbn [List.filter]. destruct (f x) eqn:Hx; [|exact IH].
  cbn [map]. by rewrite Hfg, IH.
Qed.

Lemma find_none_filter {A : Type} (f : A -> bool) (l : list A) :
  List.find f l = None -> List.filter f l = [].
Proof.
  induction l as [|x l IH]; [reflexivity|].
  cbn. destruct (f x); [discriminate | exact IH].
Qed.

Lemma find_some_last {A : Type} (f : A -> bool) (l : list A) (x : A) :
  List.find f l = Some x ->
  exists y, last (List.filter f l) = Some y /\ f y = true.
Proof.
  intros Hf.
  assert (Hin : x ∈ List.filter f l).
  { apply List.find_some in Hf as [Hin Hx].
    apply list_elem_of_In, filter_In. by split. }
  destruct (last (List.filter f l)) as [y|] eqn:Hl.
  - exists y. split; [reflexivity|].
    apply last_Some_elem_of, list_elem_of_In, filter_In in Hl. tauto.
  - apply last_None in Hl. rewrite Hl in Hin. by apply elem_of_nil in Hin.
Qed.

(** The dict that [get_prompt_overrides] builds holds, for a component,
    the last row of the profile for it. *)
Lemma foldl_insert_lookup (rows : list Storage.override_row) :
  forall (m : gmap string Storage.override) (c : string),
    foldl (fun overrides row =>
             <[ Storage.ov_component_id row :=
                  {| Storage.o_content := Storage.ov_content row;
                     Storage.o_enabled := Storage.ov_enabled row |} ]> overrides)
          m rows !! c
    = match last (List.filter
                    (fun row => String.eqb (Storage.ov_component_id row) c) rows) with
      | Some row => Some (Spec.to_override row)
      | None => m !! c
      end.
Proof.
  induction rows as [|x rows IH]; intros m c; [reflexivity|].
  cbn [foldl List.filter]. rewrite IH.
  destruct (String.eqb (Storage.ov_component_id x) c) eqn:Hx.
  - apply String.eqb_eq in Hx. subst c. rewrite last_cons.
    destruct (last _); [reflexivity|]. by rewrite lookup_insert_eq.
  - apply String.eqb_neq in Hx.
    destruct (last _); [reflexivity|]. by rewrite lookup_insert_ne.
Qed.

Lemma get_prompt_overrides_lookup profile_id component_id db :
  Storage.get_prompt_overrides profile_id db !! component_id
  = Spec.to_override
      <$> last (List.filter (Spec.override_of profile_id component_id)
                            (Storage.prompt_component_overrides db)).
Proof.
  unfold Storage.get_prompt_overrides. rewrite foldl_insert_lookup.
  rewrite filter_filter_andb. fold (Spec.override_of profile_id component_id).
  destruct (last _); reflexivity.
Qed.

Lemma override_of_other p c p' c' row :
  (p', c') <> (p, c) ->
  Spec.override_of p' c' row = true -> Spec.override_of p c row = false.
Proof.
  unfold Spec.override_of. intros Hne [H1 H2]%andb_true_iff.
  apply String.eqb_eq in H1, H2.
  destruct (String.eqb (Storage.ov_profile_id row) p) eqn:Hp; [|reflexivity].
  destruct (String.eqb (Storage.ov_component_id row) c) eqn:Hc; [|reflexivity].
  apply String.eqb_eq in Hp, Hc. exfalso. apply Hne. congruence.
Qed.

(** A successful upsert leaves a row for the key; a failed one raised
    on the insert. *)
Lemma upsert_outcome profile_id component_id content enabled uuid now db :
  match Storage.upsert_prompt_override profile_id component_id content enabled
          uuid now db with
  | (Py.Ok _, db') =>
      exists row, row ∈ Storage.prompt_component_overrides db'
                  /\ Spec.override_of profile_id component_id row = true
  | (Py.Raise e, _) => exists msg, e = Py.IntegrityError msg
  | (Py.OutOfFuel, _) => False
  end.
Proof.
  unfold Storage.upsert_prompt_override.
  fold (Spec.override_of profile_id component_id).
  destruct (List.find _ _) as [hit|] eqn:Hfind.
  - apply List.find_some in Hfind as [Hin Hkey].
    cbn [Storage.prompt_component_overrides Storage.with_profiles
         Storage.with_overrides].
    eexists. split.
    + apply list_elem_of_fmap. exists hit. split; [reflexivity|].
      by apply list_elem_of_In.
    + cbv beta. unfold Spec.override_of in Hkey |- *. rewrite Hkey. exact Hkey.
  - destruct (existsb _ _); [eauto|].
    cbn [Storage.prompt_component_overrides Storage.with_profiles
         Storage.with_overrides].
    eexists. split; [apply elem_of_app; right; apply list_elem_of_singleton; reflexivity|].
    unfold Spec.override_of. cbn. by rewrite !String.eqb_refl.
Qed.

Lemma override_row_lookup profile_id component_id db row :
  row ∈ Storage.prompt_component_overrides db ->
  Spec.override_of profile_id component_id row = true ->
  is_Some (Storage.get_prompt_overrides profile_id db !! component_id).
Proof.
  intros Hin Hkey. rewrite get_prompt_overrides_lookup.
  assert (Hf : row ∈ List.filter (Spec.override_of profile_id component_id)
                       (Storage.prompt_component_overrides db)).
  { apply list_elem_of_In, filter_In. split; [by apply list_elem_of_In | exact Hkey]. }
  destruct (last _) as [y|] eqn:Hl; [by eexists|].
  apply last_None in Hl. rewrite Hl in Hf. by apply elem_of_nil in Hf.
Qed.

End OverrideTable.

(** X3.  Round trip of an override.  When [upsert_prompt_override]
    succeeds, [get_prompt_overrides] of the profile gives for the
    component the new content and the new flag, each falling back to the
    value it had before when the argument is [None], so that a field once
    set cannot be cleared by an upsert; every other component of every
    profile reads as before.  It fails only when the key has no row yet
    and the fresh uuid is already the id of a row, and then the database
    is unchanged. *)
Theorem upsert_prompt_override_round_trip
    (profile_id component_id : string) (content : option string)
    (enabled : option bool) (uuid now : string) (db : Storage.ChatStore) :
  let old := Storage.get_prompt_overrides profile_id db !! component_id in
  match Storage.upsert_prompt_override profile_id component_id content enabled
          uuid now db with
  | (Py.Ok _, db') =>
      Storage.get_prompt_overrides profile_id db' !! component_id
      = Some {| Storage.o_content :=
                  Storage.coalesce content (old ≫= Storage.o_content);
                Storage.o_enabled :=
                  Storage.coalesce enabled (old ≫= Storage.o_enabled) |}
      /\ (forall p c, (p, c) <> (profile_id, component_id) ->
            Storage.get_prompt_overrides p db' !! c
            = Storage.get_prompt_overrides p db !! c)
      /\ Storage.prompt_context_settings db' = Storage.prompt_context_settings db
      /\ (is_Some old
          \/ forall row, row ∈ Storage.prompt_component_overrides db ->
                         Storage.ov_id row <> uuid)
  | (Py.Raise e, db') =>
      db' = db /\ old = None
      /\ e = Py.IntegrityError "UNIQUE constraint failed: prompt_component_overrides.id"
      /\ exists row, row ∈ Storage.prompt_component_overrides db
                     /\ Storage.ov_id row = uuid
  | (Py.OutOfFuel, _) => False
  end.
Proof.
  intros old. subst old. rewrite get_prompt_overrides_lookup.
  unfold Storage.upsert_prompt_override.
  fold (Spec.override_of profile_id component_id).
  set (rows := Storage.prompt_component_overrides db).
  destruct (List.find (Spec.override_of profile_id component_id) rows) as [hit|] eqn:Hfind.
  - (* the key has a row: UPDATE *)
    destruct (find_some_last _ _ _ Hfind) as (y & Hlast & Hy).
    set (upd := fun row : Storage.override_row =>
                  if Spec.override_of profile_id component_id row
                  then {| Storage.ov_id := Storage.ov_id row;
                          Storage.ov_profile_id := Storage.ov_profile_id row;
                          Storage.ov_component_id := Storage.ov_component_id row;
                          Storage.ov_content :=
                            Storage.coalesce content (Storage.ov_content row);
                          Storage.ov_enabled :=
                            Storage.coalesce enabled (Storage.ov_enabled row);
                          Storage.ov_updated_at := now |}
                  else row).
    assert (Hkey : forall p c row,
               Spec.override_of p c (upd row) = Spec.override_of p c row).
    { intros p c row. unfold upd.
      by destruct (Spec.override_of profile_id component_id row). }
    split; [|split; [|split]].
    + rewrite get_prompt_overrides_lookup.
      cbn [Storage.prompt_component_overrides Storage.with_profiles
           Storage.with_overrides].
      rewrite filter_map_stable by apply Hkey.
      change (map upd ?l) with (upd <$> l). rewrite fmap_last.
      fold rows. rewrite Hlast. unfold Spec.override_of in Hy.
      cbn. rewrite Hy. reflexivity.
    + intros p c Hne. rewrite !get_prompt_overrides_lookup.
      cbn [Storage.prompt_component_overrides Storage.with_profiles
           Storage.with_overrides].
      rewrite filter_map_stable by apply Hkey.
      rewrite map_filter_fixed; [reflexivity|].
      intros row Hrow. change (upd row = row). unfold upd. cbv beta.
      by rewrite (override_of_other _ _ _ _ _ Hne Hrow).
    + reflexivity.
    + left. fold rows. rewrite Hlast. by eexists.
  - (* no row yet: INSERT *)
    rewrite (find_none_filter _ _ Hfind). cbn [last fmap option_fmap option_map].
    destruct (existsb (fun row => String.eqb (Storage.ov_id row) uuid) rows) eqn:Hex.
    + split; [reflexivity|]. split; [reflexivity|]. split; [reflexivity|].
      apply existsb_exists in Hex as (row & Hin & Heq).
      exists row. split; [by apply list_elem_of_In | by apply String.eqb_eq].
    + split; [|split; [|split]].
      * rewrite get_prompt_overrides_lookup.
        cbn [Storage.prompt_component_overrides Storage.with_profiles
             Storage.with_overrides].
        rewrite List.filter_app, (find_none_filter _ _ Hfind).
        cbn [List.filter app]. unfold Spec.override_of at 1.
        cbn [Storage.ov_profile_id Storage.ov_component_id].
        rewrite !String.eqb_refl. cbn.
        unfold Spec.to_override. cbn. by destruct content, enabled.
      * intros p c Hne. rewrite !get_prompt_overrides_lookup.
        cbn [Storage.prompt_component_overrides Storage.with_profiles
             Storage.with_overrides].
        rewrite List.filter_app. cbn [List.filter].
        destruct (Spec.override_of p c _) eqn:Hnew; [|by rewrite app_nil_r].
        exfalso. apply Hne.
        unfold Spec.override_of in Hnew. cbn in Hnew.
        apply andb_true_iff in Hnew as [H1 H2].
        apply String.eqb_eq in H1, H2. congruence.
      * reflexivity.
      * right. intros row Hin Heq.
        assert (existsb (fun row => String.eqb (Storage.ov_id row) uuid) rows = true)
          as Hyes; [|congruence].
        apply existsb_exists. exists row.
        split; [by apply list_elem_of_In | by apply String.eqb_eq].
Qed.

(** X4.  [reset_prompt_profile] always succeeds; afterwards the profile
    has no override, every other profile has the overrides it had, and of
    the profile rows only [updated_at] may have changed. *)
Theorem reset_prompt_profile_clears_one_profile
    (profile_id now : string) (db : Storage.ChatStore) :
  exists db',
    Storage.reset_prompt_profile profile_id now db = (Py.Ok tt, db')
    /\ Storage.get_prompt_overrides profile_id db' = ∅
    /\ (forall p, p <> profile_id ->
          Storage.get_prompt_overrides p db' = Storage.get_prompt_overrides p db)
    /\ map (fun r => (Storage.pr_id r, Storage.pr_tenant_id r, Storage.pr_name r,
                      Storage.pr_is_default r, Storage.pr_is_active r))
           (Storage.prompt_profiles db')
       = map (fun r => (Storage.pr_id r, Storage.pr_tenant_id r, Storage.pr_name r,
                        Storage.pr_is_default r, Storage.pr_is_active r))
             (Storage.prompt_profiles db)
    /\ Storage.prompt_context_settings db' = Storage.prompt_context_settings db.
Proof.
  eexists. split; [reflexivity|].
  cbn [Storage.prompt_component_overrides Storage.with_profiles
       Storage.with_overrides Storage.prompt_profiles
       Storage.prompt_context_settings].
  split; [|split; [|split; [|reflexivity]]].
  - unfold Storage.get_prompt_overrides.
    cbn [Storage.prompt_component_overrides Storage.with_profiles
         Storage.with_overrides].
    by rewrite no_rows_after_delete.
  - intros p Hp. unfold Storage.get_prompt_overrides.
    cbn [Storage.prompt_component_overrides Storage.with_profiles
         Storage.with_overrides].
    f_equal. rewrite filter_filter_andb. apply List.filter_ext.
    intros row. destruct (String.eqb (Storage.ov_profile_id row) p) eqn:Hrow.
    + apply String.eqb_eq in Hrow.
      destruct (String.eqb (Storage.ov_profile_id row) profile_id) eqn:Hq;
        [|reflexivity].
      apply String.eqb_eq in Hq. congruence.
    + by rewrite andb_false_r.
  - unfold Storage.touch_profile. rewrite map_map. apply map_ext.
    intros r. by destruct (String.eqb (Storage.pr_id r) profile_id).
Qed.

(** ** The profile table, for every database *)

Section ProfileTable.

Lemma profiles_wf_same_keys (rows rows' : list Storage.profile_row) :
  map (fun r => (Storage.pr_id r, Storage.pr_tenant_id r, Storage.pr_is_default r)) rows'
  = map (fun r => (Storage.pr_id r, Storage.pr_tenant_id r, Storage.pr_is_default r)) rows ->
  Spec.profiles_wf rows -> Spec.profiles_wf rows'.
Proof.
  set (key := fun r => (Storage.pr_id r, Storage.pr_tenant_id r, Storage.pr_is_default r)).
  intros Hkeys [Hnd Hdef].
  assert (Hback : forall r', r' ∈ rows' -> exists r, r ∈ rows /\ key r = key r').
  { intros r' Hin.
    assert (Hk : key r' ∈ map key rows) by (rewrite <- Hkeys; by apply list_elem_of_fmap_2).
    apply list_elem_of_fmap in Hk as (r & Hr & Hin'). eauto. }
  split.
  - replace (map Storage.pr_id rows') with (map (fun k => fst (fst k)) (map key rows'))
      by (rewrite map_map; reflexivity).
    rewrite Hkeys, map_map. exact Hnd.
  - intros r1 r2 H1 H2 Ht Hd1 Hd2.
    destruct (Hback _ H1) as (o1 & Ho1 & Hk1).
    destruct (Hback _ H2) as (o2 & Ho2 & Hk2).
    unfold key in Hk1, Hk2. injection Hk1 as Hi1 Ht1 Hf1. injection Hk2 as Hi2 Ht2 Hf2.
    rewrite <- Hi1, <- Hi2. apply Hdef; congruence.
Qed.

Lemma profiles_wf_insert (rows : list Storage.profile_row) (new : Storage.profile_row) :
  Spec.profiles_wf rows ->
  existsb (fun r => String.eqb (Storage.pr_id r) (Storage.pr_id new)) rows = false ->
  (Storage.pr_is_default new = true ->
   forall r, r ∈ rows -> Storage.pr_tenant_id r = Storage.pr_tenant_id new ->
             Storage.pr_is_default r = false) ->
  Spec.profiles_wf (rows ++ [new]).
Proof.
  intros [Hnd Hdef] Hfresh Hnew.
  assert (Hnot : forall r, r ∈ rows -> Storage.pr_id r <> Storage.pr_id new).
  { intros r Hin Heq.
    assert (existsb (fun r => String.eqb (Storage.pr_id r) (Storage.pr_id new)) rows
            = true) as Hyes; [|congruence].
    apply existsb_exists. exists r.
    split; [by apply list_elem_of_In | by apply String.eqb_eq]. }
  split.
  - rewrite map_app. apply NoDup_app. split; [exact Hnd|].
    split; [|apply NoDup_singleton].
    intros i Hi Hi'. apply list_elem_of_singleton in Hi'. subst i.
    apply list_elem_of_fmap in Hi as (r & Hr & Hin). by apply (Hnot r).
  - intros r1 r2 H1 H2 Ht Hd1 Hd2.
    apply elem_of_app in H1 as [H1|H1], H2 as [H2|H2].
    + by apply Hdef.
    + apply list_elem_of_singleton in H2. subst r2.
      rewrite (Hnew Hd2 r1 H1 Ht) in Hd1. discriminate.
    + apply list_elem_of_singleton in H1. subst r1.
      rewrite (Hnew Hd1 r2 H2 (eq_sym Ht)) in Hd2. discriminate.
    + apply list_elem_of_singleton in H1, H2. congruence.
Qed.

Lemma deactivate_tenant_keys tenant rows :
  map (fun r => (Storage.pr_id r, Storage.pr_tenant_id r, Storage.pr_is_default r))
      (Storage.deactivate_tenant tenant rows)
  = map (fun r => (Storage.pr_id r, Storage.pr_tenant_id r, Storage.pr_is_default r)) rows.
Proof.
  unfold Storage.deactivate_tenant. rewrite map_map. apply map_ext.
  intros r. by destruct (String.eqb (Storage.pr_tenant_id r) tenant).
Qed.

Lemma activate_id_keys profile_id now rows :
  map (fun r => (Storage.pr_id r, Storage.pr_tenant_id r, Storage.pr_is_default r))
      (Storage.activate_id profile_id now rows)
  = map (fun r => (Storage.pr_id r, Storage.pr_tenant_id r, Storage.pr_is_default r)) rows.
Proof.
  unfold Storage.activate_id. rewrite map_map. apply map_ext.
  intros r. by destruct (String.eqb (Storage.pr_id r) profile_id).
Qed.

Lemma touch_profile_keys profile_id now rows :
  map (fun r => (Storage.pr_id r, Storage.pr_tenant_id r, Storage.pr_is_default r))
      (Storage.touch_profile profile_id now rows)
  = map (fun r => (Storage.pr_id r, Storage.pr_tenant_id r, Storage.pr_is_default r)) rows.
Proof.
  unfold Storage.touch_profile. rewrite map_map. apply map_ext.
  intros r. by destruct (String.eqb (Storage.pr_id r) profile_id).
Qed.

Lemma keeps_wf_ensure_default tenant uuid now :
  Spec.keeps_profiles_wf (Storage.ensure_default_prompt_profile tenant uuid now).
Proof.
  intros db r db'. unfold Storage.ensure_default_prompt_profile.
  destruct (List.find _ (Storage.prompt_profiles db)) as [d|] eqn:Hd.
  - destruct (Storage.pr_is_active d); cbn [negb]; intros [= _ <-] Hwf; [exact Hwf|].
    cbn [Storage.prompt_profiles Storage.with_profiles].
    eapply profiles_wf_same_keys; [|exact Hwf].
    by rewrite activate_id_keys, deactivate_tenant_keys.
  - unfold Storage.insert_profile.
    destruct (existsb _ _) eqn:Hex; intros [= _ <-] Hwf; [exact Hwf|].
    cbn [Storage.prompt_profiles Storage.with_profiles].
    apply profiles_wf_insert; [exact Hwf | exact Hex |].
    cbn [Storage.pr_is_default Storage.pr_tenant_id]. intros _ row Hin Ht.
    apply list_elem_of_In in Hin.
    pose proof (List.find_none _ _ Hd row Hin) as Hno. cbn beta in Hno.
    rewrite Ht, String.eqb_refl in Hno. exact Hno.
Qed.

Lemma keeps_wf_get_active tenant uuid now :
  Spec.keeps_profiles_wf (Storage.get_active_prompt_profile tenant uuid now).
Proof.
  intros db r db'. unfold Storage.get_active_prompt_profile, mbind, M_mbind, M_bind.
  destruct (Storage.ensure_default_prompt_profile tenant uuid now db) as [res db1] eqn:He.
  pose proof (keeps_wf_ensure_default tenant uuid now db res db1 He) as Hk.
  destruct res as [p| |]; try (intros [= _ <-]; exact Hk).
  unfold M_get. destruct (List.find _ _); intros [= _ <-]; exact Hk.
Qed.

Lemma keeps_wf_create tenant name uuid now :
  Spec.keeps_profiles_wf (Storage.create_prompt_profile tenant name uuid now).
Proof.
  intros db r db'. unfold Storage.create_prompt_profile, Storage.insert_profile.
  destruct (existsb _ _) eqn:Hex; intros [= _ <-] Hwf; [exact Hwf|].
  cbn [Storage.prompt_profiles Storage.with_profiles].
  apply profiles_wf_insert; [exact Hwf | exact Hex |].
  cbn [Storage.pr_is_default]. discriminate.
Qed.

Lemma keeps_wf_activate tenant profile_id now :
  Spec.keeps_profiles_wf (Storage.activate_prompt_profile tenant profile_id now).
Proof.
  intros db r db'. unfold Storage.activate_prompt_profile.
  destruct (List.find _ _); intros [= _ <-] Hwf; [|exact Hwf].
  cbn [Storage.prompt_profiles Storage.with_profiles].
  eapply profiles_wf_same_keys; [|exact Hwf].
  by rewrite activate_id_keys, deactivate_tenant_keys.
Qed.

Lemma keeps_wf_upsert profile_id component_id content enabled uuid now :
  Spec.keeps_profiles_wf
    (Storage.upsert_prompt_override profile_id component_id content enabled uuid now).
Proof.
  intros db r db'. unfold Storage.upsert_prompt_override.
  destruct (List.find _ _); [|destruct (existsb _ _)];
    intros [= _ <-] Hwf; try exact Hwf;
    cbn [Storage.prompt_profiles Storage.with_profiles Storage.with_overrides];
    (eapply profiles_wf_same_keys; [|exact Hwf]); by rewrite touch_profile_keys.
Qed.

Lemma keeps_wf_reset profile_id now :
  Spec.keeps_profiles_wf (Storage.reset_prompt_profile profile_id now).
Proof.
  intros db r db'. unfold Storage.reset_prompt_profile. intros [= _ <-] Hwf.
  cbn [Storage.prompt_profiles Storage.with_profiles Storage.with_overrides].
  eapply profiles_wf_same_keys; [|exact Hwf]. by rewrite touch_profile_keys.
Qed.

End ProfileTable.

(** X5.  The profile table stays well formed under the methods of the
    store that write to it: ids stay unique and a tenant never gets a
    second default profile, whether the method succeeds or raises. *)
Theorem store_methods_keep_profiles_wf
    (tenant profile_id component_id name uuid now : string)
    (content : option string) (enabled : option bool) :
  Spec.keeps_profiles_wf (Storage.ensure_default_prompt_profile tenant uuid now)
  /\ Spec.keeps_profiles_wf (Storage.get_active_prompt_profile tenant uuid now)
  /\ Spec.keeps_profiles_wf (Storage.create_prompt_profile tenant name uuid now)
  /\ Spec.keeps_profiles_wf (Storage.activate_prompt_profile tenant profile_id now)
  /\ Spec.keeps_profiles_wf
       (Storage.upsert_prompt_override profile_id component_id content enabled uuid now)
  /\ Spec.keeps_profiles_wf (Storage.reset_prompt_profile profile_id now).
Proof.
  split; [apply keeps_wf_ensure_default|].
  split; [apply keeps_wf_get_active|].
  split; [apply keeps_wf_create|].
  split; [apply keeps_wf_activate|].
  split; [apply keeps_wf_upsert | apply keeps_wf_reset].
Qed.

Lemma store_methods_keep_profiles_wf_witness :
  Spec.profiles_wf
    (Storage.prompt_profiles
       (snd (Storage.activate_prompt_profile "default" "p-custom" "t1"
               Examples.two_profiles))).
Proof.
  refine (proj1 (proj2 (proj2 (proj2
            (store_methods_keep_profiles_wf "default" "p-custom" "c" "n" "u" "t1"
               None None))))
          Examples.two_profiles (Py.Ok true) _ _ _); [reflexivity|].
  split.
  - apply NoDup_cons. split; [|apply NoDup_singleton].
    intros Hin. apply list_elem_of_singleton in Hin. discriminate.
  - intros r1 r2 H1 H2 _ Hd1 Hd2.
    apply elem_of_cons in H1 as [->|H1]; [|apply list_elem_of_singleton in H1; subst r1; discriminate].
    apply elem_of_cons in H2 as [->|H2]; [reflexivity|].
    apply list_elem_of_singleton in H2. subst r2. discriminate.
Defined.

(** ** Reading and overriding components, for every database *)

Section EffectiveComponents.

Variable env : Main.Env.

Lemma find_map_stable {A : Type} (f : A -> bool) (g : A -> A) (l : list A) :
  (forall x, f (g x) = f x) ->
  List.find f (map g l) = g <$> List.find f l.
Proof.
  intros Hfg. rewrite find_map. by erewrite find_ext.
Qed.

(** [get_active_prompt_profile] returns, or raises because the uuid drawn
    for a new default profile is taken; then it changes nothing. *)
Lemma get_active_outcome tenant uuid now db :
  match Storage.get_active_prompt_profile tenant uuid now db with
  | (Py.Ok _, _) => True
  | (Py.Raise e, db') => db' = db /\ exists msg, e = Py.IntegrityError msg
  | (Py.OutOfFuel, _) => False
  end.
Proof.
  unfold Storage.get_active_prompt_profile, mbind, M_mbind, M_bind.
  destruct (Storage.ensure_default_prompt_profile tenant uuid now db)
    as [res db1] eqn:He.
  destruct res as [p|e|].
  - apply ensure_default_post in He as (row & Hf & Ha & _).
    assert (exists active,
               List.find (fun r => String.eqb (Storage.pr_tenant_id r) tenant
                                   && Storage.pr_is_active r)
                         (Storage.prompt_profiles db1) = Some active)
      as [active Hactive].
    { apply find_some_iff.
      apply List.find_some in Hf as [Hin [Ht _]%andb_true_iff].
      exists row. split; [by apply list_elem_of_In|].
      by rewrite Ht, Ha. }
    unfold M_get. rewrite Hactive. exact I.
  - unfold Storage.ensure_default_prompt_profile, Storage.insert_profile in He.
    destruct (List.find _ _); [by destruct (negb _)|].
    destruct (existsb _ _); [|discriminate].
    injection He as <- <-. eauto.
  - unfold Storage.ensure_default_prompt_profile, Storage.insert_profile in He.
    destruct (List.find _ _); [by destruct (negb _)|].
    by destruct (existsb _ _).
Qed.

(** A second reading of the active profile gives the profile of the
    first, also after [updated_at] of a profile was set and the override
    table was changed. *)
Lemma get_active_after_touch tenant uuid now db profile db1
    profile_id now1 rows uuid2 now2 :
  Storage.get_active_prompt_profile tenant uuid now db = (Py.Ok profile, db1) ->
  let db2 :=
    Storage.with_profiles
      (Storage.touch_profile profile_id now1 (Storage.prompt_profiles db1))
      (Storage.with_overrides rows db1) in
  exists profile2,
    Storage.get_active_prompt_profile tenant uuid2 now2 db2 = (Py.Ok profile2, db2)
    /\ Storage.id profile2 = Storage.id profile.
Proof.
  intros Hget db2.
  apply get_active_post in Hget as ((row & Hd & Hda) & (active & Hact & ->) & _).
  assert (Hflags : forall (f : Storage.profile_row -> bool),
    (forall r now', f {| Storage.pr_id := Storage.pr_id r;
                         Storage.pr_tenant_id := Storage.pr_tenant_id r;
                         Storage.pr_name := Storage.pr_name r;
                         Storage.pr_is_default := Storage.pr_is_default r;
                         Storage.pr_is_active := Storage.pr_is_active r;
                         Storage.pr_created_at := Storage.pr_created_at r;
                         Storage.pr_updated_at := now' |} = f r) ->
    forall found,
      List.find f (Storage.prompt_profiles db1) = Some found ->
      exists found2,
        List.find f (Storage.prompt_profiles db2) = Some found2
        /\ Storage.pr_id found2 = Storage.pr_id found
        /\ Storage.pr_is_active found2 = Storage.pr_is_active found).
  { intros f Hf found Hfound. subst db2.
    cbn [Storage.prompt_profiles Storage.with_profiles].
    unfold Storage.touch_profile. rewrite find_map_stable.
    - rewrite Hfound. cbn. eexists. split; [reflexivity|].
      by destruct (String.eqb (Storage.pr_id found) profile_id).
    - intros r. destruct (String.eqb (Storage.pr_id r) profile_id); [apply Hf | reflexivity]. }
  destruct (Hflags (fun r => String.eqb (Storage.pr_tenant_id r) tenant
                             && Storage.pr_is_default r)
                   (fun r now' => eq_refl) row Hd) as (row2 & Hd2 & _ & Hda2).
  destruct (Hflags (fun r => String.eqb (Storage.pr_tenant_id r) tenant
                             && Storage.pr_is_active r)
                   (fun r now' => eq_refl) active Hact) as (active2 & Hact2 & Hid & _).
  rewrite Hda in Hda2.
  destruct (get_active_stable tenant uuid2 now2 db2 row2 Hd2 Hda2)
    as (active3 & Hact3 & Hget3).
  rewrite Hact2 in Hact3. injection Hact3 as <-.
  exists (Storage.to_profile active2). split; [exact Hget3 | exact Hid].
Qed.

Lemma merge_all_Ok overrides defaults merged :
  mapM (Main.merge_component overrides) defaults = Py.Ok merged ->
  merged = defaults
  /\ forall item, item ∈ defaults -> overrides !! Prompts.id item = None.
Proof.
  revert merged. induction defaults as [|x l IH]; intros merged H.
  - injection H as <-. split; [reflexivity|]. intros item Hin.
    by apply elem_of_nil in Hin.
  - rewrite mapM_result_cons in H.
    destruct (overrides !! Prompts.id x) as [o|] eqn:Hx.
    + rewrite merge_overridden_raises in H by eauto. discriminate.
    + rewrite merge_not_overridden in H by exact Hx. cbn [Py.bind] in H.
      destruct (mapM (Main.merge_component overrides) l) as [k| |] eqn:Hk;
        try discriminate.
      cbn [Py.bind] in H. injection H as <-.
      destruct (IH k eq_refl) as [-> Hnone]. split; [reflexivity|].
      intros item [->|Hin]%elem_of_cons; [exact Hx | by apply Hnone].
Qed.

(** What [_effective_prompt_components] returns. *)
Lemma effective_components_Ok a profile merged a' :
  Main._effective_prompt_components env a = (Py.Ok (profile, merged), a') ->
  merged = Main.load_prompt_components env
  /\ (forall item, item ∈ Main.load_prompt_components env ->
        Storage.get_prompt_overrides (Storage.id profile) (Main.store a')
          !! Prompts.id item = None)
  /\ Storage.get_active_prompt_profile (Main._tenant_id env)
       (Main.uuid4 env (Main.tick a)) (Main.utc_now env (S (Main.tick a)))
       (Main.store a) = (Py.Ok profile, Main.store a').
Proof.
  unfold Main._effective_prompt_components. intros H.
  apply M_bind_Ok in H as (p & a1 & Hget & H).
  rewrite store_call_run in Hget.
  destruct (Storage.get_active_prompt_profile _ _ _ _) as [res db1] eqn:Hga.
  injection Hget as -> <-.
  apply M_bind_Ok in H as (a2 & a3 & Hg & H).
  unfold M_get in Hg. injection Hg as <- <-.
  apply M_bind_Ok in H as (k & a4 & Hm & H).
  apply M_lift_Ok in Hm as [Hm ->].
  apply M_ret_Ok in H as [[= <- <-] ->].
  apply merge_all_Ok in Hm as [-> Hnone].
  cbn [Main.store] in *. auto.
Qed.

Lemma effective_components_raise a profile db1 :
  Storage.get_active_prompt_profile (Main._tenant_id env)
    (Main.uuid4 env (Main.tick a)) (Main.utc_now env (S (Main.tick a)))
    (Main.store a) = (Py.Ok profile, db1) ->
  (exists item,
      item ∈ Main.load_prompt_components env
      /\ is_Some (Storage.get_prompt_overrides (Storage.id profile) db1
                    !! Prompts.id item)) ->
  exists a',
    Main._effective_prompt_components env a
    = (Py.Raise (Py.TypeError "__init__() missing required argument"), a')
    /\ Main.store a' = db1.
Proof.
  intros Hget Hov.
  unfold Main._effective_prompt_components, mbind, M_mbind, M_bind.
  rewrite store_call_run, Hget. unfold M_get, M_lift. cbn [Main.store].
  rewrite (merge_all_raises _ _ Hov). eauto.
Qed.

End EffectiveComponents.

(** X6.  Reading the active profile is idempotent: once
    [get_active_prompt_profile] has returned, every further call returns
    the same profile and leaves the database as it is.  The profile
    belongs to the tenant and is flagged active, and the first call left
    the overrides alone. *)
Theorem get_active_prompt_profile_idempotent
    (tenant uuid now uuid' now' : string) (db db' : Storage.ChatStore)
    (profile : Storage.StoredPromptProfile) :
  Storage.get_active_prompt_profile tenant uuid now db = (Py.Ok profile, db') ->
  Storage.get_active_prompt_profile tenant uuid' now' db' = (Py.Ok profile, db')
  /\ Storage.tenant_id profile = tenant
  /\ Storage.is_active profile = true
  /\ Storage.prompt_component_overrides db' = Storage.prompt_component_overrides db.
Proof.
  intros Hget.
  apply get_active_post in Hget as ((row & Hd & Hda) & (active & Hact & ->) & Hov).
  destruct (get_active_stable tenant uuid' now' db' row Hd Hda)
    as (active2 & Hact2 & Hget2).
  rewrite Hact in Hact2. injection Hact2 as <-.
  split; [exact Hget2|].
  apply List.find_some in Hact as [_ [Ht Ha]%andb_true_iff].
  apply String.eqb_eq in Ht. auto.
Qed.

Lemma get_active_prompt_profile_idempotent_witness :
  Storage.get_active_prompt_profile "default" "uuid-9" "t9"
    (snd (Storage.get_active_prompt_profile "default" "uuid-0" "t0"
            Storage.empty_store))
  = (Py.Ok {| Storage.id := "uuid-0"; Storage.tenant_id := "default";
              Storage.name := "Default"; Storage.is_default := true;
              Storage.is_active := true; Storage.updated_at := "t0" |},
     snd (Storage.get_active_prompt_profile "default" "uuid-0" "t0"
            Storage.empty_store)).
Proof.
  apply (get_active_prompt_profile_idempotent "default" "uuid-0" "t0" "uuid-9" "t9"
           Storage.empty_store).
  reflexivity.
Defined.

(** X7.  Whenever [_effective_prompt_components] returns, the components
    it returns are the default ones, unchanged, and none of them has an
    override in the active profile: an override never reaches the
    composed prompt, because a component that has one makes the function
    raise. *)
Theorem effective_prompt_components_are_defaults
    (env : Main.Env) (a a' : Main.App)
    (profile : Storage.StoredPromptProfile)
    (merged : list Prompts.PromptComponent) :
  Main._effective_prompt_components env a = (Py.Ok (profile, merged), a') ->
  merged = Main.load_prompt_components env
  /\ (forall item, item ∈ Main.load_prompt_components env ->
        Storage.get_prompt_overrides (Storage.id profile) (Main.store a')
          !! Prompts.id item = None)
  /\ Main.effective_prompt env a
     = (Py.Ok (Prompts.compose_system_prompt (Main.load_prompt_components env)), a').
Proof.
  intros H. destruct (effective_components_Ok env a profile merged a' H)
    as (-> & Hnone & _).
  split; [reflexivity|]. split; [exact Hnone|].
  unfold Main.effective_prompt. by rewrite (M_bind_run _ _ _ _ _ H).
Qed.

Lemma effective_prompt_components_are_defaults_witness :
  Main.effective_prompt
    (Examples.env 4096 Examples.two_components Examples.echo_backend)
    (Examples.app Examples.two_profiles)
  = (Py.Ok ("Be brief." +:+ Prompts.blank_line +:+ "Be kind."),
     snd (Main._effective_prompt_components
            (Examples.env 4096 Examples.two_components Examples.echo_backend)
            (Examples.app Examples.two_profiles))).
Proof.
  refine (proj2 (proj2 (effective_prompt_components_are_defaults
            (Examples.env 4096 Examples.two_components Examples.echo_backend)
            (Examples.app Examples.two_profiles) _
            (Storage.to_profile (Examples.profile_row "p-default" "Default" true true))
            Examples.two_components _))).
  reflexivity.
Defined.

Section UpdateComponent.

Variable env : Main.Env.

Lemma M_bind_Raise {W A B : Type} (m : M W A) (k : A -> M W B) (w w1 : W) e :
  m w = (Py.Raise e, w1) -> (m ≫= k) w = (Py.Raise e, w1).
Proof. intros H. unfold mbind, M_mbind, M_bind. by rewrite H. Qed.

Lemma upsert_shape profile_id component_id content enabled uuid now db u db' :
  Storage.upsert_prompt_override profile_id component_id content enabled uuid now db
  = (Py.Ok u, db') ->
  exists rows,
    db' = Storage.with_profiles
            (Storage.touch_profile profile_id now (Storage.prompt_profiles db))
            (Storage.with_overrides rows db).
Proof.
  unfold Storage.upsert_prompt_override.
  destruct (List.find _ _); [|destruct (existsb _ _)]; intros [= _ <-]; eauto.
Qed.

Lemma known_component component_id :
  existsb (String.eqb component_id)
          (map Prompts.id (Main.load_prompt_components env)) = true ->
  exists item, item ∈ Main.load_prompt_components env
               /\ Prompts.id item = component_id.
Proof.
  intros (i & Hin & Heq)%existsb_exists.
  apply String.eqb_eq in Heq. subst i.
  apply list_elem_of_In, list_elem_of_fmap in Hin as (item & -> & Hin). eauto.
Qed.

End UpdateComponent.

(** X8.  The endpoint that overrides a component never answers with a
    component.  For an id that is not a default component it raises the
    404 and changes nothing.  For a default component it raises
    [TypeError] after the override was written, so the row stays in the
    table, unless one of the fresh uuids was already taken and the insert
    raised [IntegrityError]. *)
Theorem update_prompt_component_never_succeeds
    (env : Main.Env) (component_id : string)
    (payload : Models.PromptComponentUpdateRequest) (a : Main.App) :
  match Main.update_prompt_component env component_id payload a with
  | (Py.Ok _, _) => False
  | (Py.Raise e, a') =>
      if existsb (String.eqb component_id)
                 (map Prompts.id (Main.load_prompt_components env))
      then (e = Py.TypeError "__init__() missing required argument"
            /\ exists row,
                 row ∈ Storage.prompt_component_overrides (Main.store a')
                 /\ Storage.ov_component_id row = component_id)
           \/ (exists msg, e = Py.IntegrityError msg)
      else e = Py.HTTPException 404 "Prompt component not found" /\ a' = a
  | (Py.OutOfFuel, _) => False
  end.
Proof.
  unfold Main.update_prompt_component.
  destruct (existsb _ _) eqn:Hknown; cbn [negb]; [|by split].
  destruct (known_component env _ Hknown) as (item & Hitem & Hid).
  destruct (Main.store_call env
              (Storage.get_active_prompt_profile (Main._tenant_id env)) a)
    as [res a1] eqn:H1.
  pose proof H1 as H1'. rewrite store_call_run in H1'.
  pose proof (get_active_outcome (Main._tenant_id env)
                (Main.uuid4 env (Main.tick a)) (Main.utc_now env (S (Main.tick a)))
                (Main.store a)) as Hout.
  destruct (Storage.get_active_prompt_profile _ _ _ _) as [res' db1] eqn:Hga.
  injection H1' as <- <-.
  destruct res' as [profile|e|].
  2:{ rewrite (M_bind_Raise _ _ _ _ _ H1). right. by destruct Hout. }
  2:{ destruct Hout. }
  rewrite (M_bind_run _ _ _ _ _ H1).
  match goal with
  | |- context [Main.store_call env ?method ≫= _] =>
      destruct (Main.store_call env method
                  {| Main.store := db1; Main._baseline_jobs := Main._baseline_jobs a;
                     Main.llm_calls := Main.llm_calls a;
                     Main.tick := S (S (Main.tick a)) |}) as [res2 a2] eqn:H2
  end.
  pose proof H2 as H2'. rewrite store_call_run in H2'.
  cbn [Main.store Main.tick Main._baseline_jobs Main.llm_calls] in H2'.
  match type of H2' with
  | context [Storage.upsert_prompt_override ?p ?c ?x ?y ?u ?n ?d] =>
      pose proof (upsert_outcome p c x y u n d) as Hup;
      destruct (Storage.upsert_prompt_override p c x y u n d) as [res3 db2] eqn:Hu
  end.
  injection H2' as <- <-.
  destruct res3 as [[]|e|].
  2:{ rewrite (M_bind_Raise _ _ _ _ _ H2). by right. }
  2:{ destruct Hup. }
  rewrite (M_bind_run _ _ _ _ _ H2).
  destruct Hup as (row & Hrow & Hkey).
  destruct (upsert_shape _ _ _ _ _ _ _ _ _ Hu) as (rows & Hshape).
  destruct (get_active_after_touch (Main._tenant_id env) _ _ _ _ _
              (Storage.id profile)
              (Main.utc_now env (S (S (S (Main.tick a))))) rows
              (Main.uuid4 env (S (S (S (S (Main.tick a))))))
              (Main.utc_now env (S (S (S (S (S (Main.tick a)))))))
              Hga)
    as (profile2 & Hget2 & Hid2).
  rewrite <- Hshape in Hget2.
  match goal with
  | |- context [Main._effective_prompt_components env ≫= ?k] =>
      destruct (effective_components_raise env
                  {| Main.store := db2; Main._baseline_jobs := Main._baseline_jobs a;
                     Main.llm_calls := Main.llm_calls a;
                     Main.tick := S (S (S (S (Main.tick a)))) |}
                  profile2 db2 Hget2) as (a3 & Hraise & Hstore)
  end.
  { exists item. split; [exact Hitem|]. rewrite Hid2, Hid.
    by apply (override_row_lookup _ _ _ row). }
  rewrite (M_bind_Raise _ _ _ _ _ Hraise). left. split; [reflexivity|].
  rewrite Hstore. exists row. split; [exact Hrow|].
  unfold Spec.override_of in Hkey.
  apply andb_true_iff in Hkey as [_ Hc]. by apply String.eqb_eq.
Qed.

(** ** Context settings, for every database *)

Section ContextSettingsTable.

(** [ensure_context_settings], in full. *)
Lemma ensure_context_settings_full tenant m r p now db :
  exists cs db',
    Storage.ensure_context_settings tenant m r p now db = (Py.Ok cs, db')
    /\ Storage.prompt_context_settings db' !! tenant = Some cs
    /\ (forall t, t <> tenant ->
          Storage.prompt_context_settings db' !! t
          = Storage.prompt_context_settings db !! t)
    /\ Storage.prompt_profiles db' = Storage.prompt_profiles db
    /\ Storage.prompt_component_overrides db' = Storage.prompt_component_overrides db
    /\ cs = match Storage.prompt_context_settings db !! tenant with
            | None =>
                {| Storage.cs_tenant_id := tenant;
                   Storage.max_context_tokens := m;
                   Storage.max_response_tokens := r;
                   Storage.compact_trigger_pct := p;
                   Storage.compact_instructions := Storage.default_compaction_instructions;
                   Storage.cs_updated_at := now |}
            | Some row =>
                if String.eqb (Py.strip (Storage.compact_instructions row)) "" then
                  {| Storage.cs_tenant_id := Storage.cs_tenant_id row;
                     Storage.max_context_tokens := Storage.max_context_tokens row;
                     Storage.max_response_tokens := Storage.max_response_tokens row;
                     Storage.compact_trigger_pct := Storage.compact_trigger_pct row;
                     Storage.compact_instructions := Storage.default_compaction_instructions;
                     Storage.cs_updated_at := now |}
                else row
            end.
Proof.
  unfold Storage.ensure_context_settings.
  destruct (Storage.prompt_context_settings db !! tenant) as [row|] eqn:Hrow.
  - destruct (String.eqb (Py.strip (Storage.compact_instructions row)) "") eqn:Hb.
    + eexists _, _. split; [reflexivity|]. cbn.
      split; [apply lookup_insert_eq|].
      split; [intros t Ht; by apply lookup_insert_ne|]. auto.
    + eexists _, _. split; [reflexivity|]. auto 10.
  - eexists _, _. split; [reflexivity|]. cbn.
    split; [apply lookup_insert_eq|].
    split; [intros t Ht; by apply lookup_insert_ne|]. auto.
Qed.

(** A row whose instructions are not blank is read as it is. *)
Lemma ensure_context_settings_existing tenant m r p now db row :
  Storage.prompt_context_settings db !! tenant = Some row ->
  Py.strip (Storage.compact_instructions row) <> "" ->
  Storage.ensure_context_settings tenant m r p now db = (Py.Ok row, db).
Proof.
  intros Hrow Hnb. unfold Storage.ensure_context_settings. rewrite Hrow.
  apply String.eqb_neq in Hnb. by rewrite Hnb.
Qed.

(** [update_context_settings], in full: [prev] is the row as the first
    [ensure_context_settings] leaves it. *)
Lemma update_context_settings_full tenant m r p i now db :
  exists prev db1 cs db',
    Storage.ensure_context_settings tenant 4096 512 (Py.float_lit 9 10) now db
    = (Py.Ok prev, db1)
    /\ Storage.update_context_settings tenant m r p i now db = (Py.Ok cs, db')
    /\ Storage.max_context_tokens cs = default (Storage.max_context_tokens prev) m
    /\ Storage.max_response_tokens cs = default (Storage.max_response_tokens prev) r
    /\ Storage.compact_trigger_pct cs = default (Storage.compact_trigger_pct prev) p
    /\ Storage.compact_instructions cs
       = (if String.eqb (Py.strip (default (Storage.compact_instructions prev) i)) ""
          then Storage.default_compaction_instructions
          else default (Storage.compact_instructions prev) i)
    /\ Storage.cs_updated_at cs = now
    /\ Storage.prompt_context_settings db' !! tenant = Some cs
    /\ (forall t, t <> tenant ->
          Storage.prompt_context_settings db' !! t
          = Storage.prompt_context_settings db !! t)
    /\ Storage.prompt_profiles db' = Storage.prompt_profiles db
    /\ Storage.prompt_component_overrides db' = Storage.prompt_component_overrides db.
Proof.
  destruct (ensure_context_settings_full tenant 4096 512 (Py.float_lit 9 10) now db)
    as (prev & db1 & He1 & Hl1 & Ho1 & Hp1 & Hv1 & _).
  enough (exists cs db',
    Storage.update_context_settings tenant m r p i now db = (Py.Ok cs, db')
    /\ Storage.max_context_tokens cs = default (Storage.max_context_tokens prev) m
    /\ Storage.max_response_tokens cs = default (Storage.max_response_tokens prev) r
    /\ Storage.compact_trigger_pct cs = default (Storage.compact_trigger_pct prev) p
    /\ Storage.compact_instructions cs
       = (if String.eqb (Py.strip (default (Storage.compact_instructions prev) i)) ""
          then Storage.default_compaction_instructions
          else default (Storage.compact_instructions prev) i)
    /\ Storage.cs_updated_at cs = now
    /\ Storage.prompt_context_settings db' !! tenant = Some cs
    /\ (forall t, t <> tenant ->
          Storage.prompt_context_settings db' !! t
          = Storage.prompt_context_settings db !! t)
    /\ Storage.prompt_profiles db' = Storage.prompt_profiles db
    /\ Storage.prompt_component_overrides db' = Storage.prompt_component_overrides db)
    as (cs & db' & Hall).
  { exists prev, db1, cs, db'. split; [exact He1 | exact Hall]. }
  unfold Storage.update_context_settings.
  rewrite (M_bind_run _ _ _ _ _ He1). cbv beta.
  unfold mbind, M_mbind, M_bind, M_modify. cbv beta iota.
  match goal with
  | |- context [Storage.ensure_context_settings _ _ _ _ _ ?d] => set (db2 := d)
  end.
  destruct (ensure_context_settings_full tenant 4096 512 (Py.float_lit 9 10) now db2)
    as (cs & db3 & He2 & Hl3 & Ho3 & Hp3 & Hv3 & Hcs).
  exists cs, db3. split; [exact He2|].
  assert (Hl2 : Storage.prompt_context_settings db2 !! tenant
                = Some {| Storage.cs_tenant_id := Storage.cs_tenant_id prev;
                          Storage.max_context_tokens :=
                            default (Storage.max_context_tokens prev) m;
                          Storage.max_response_tokens :=
                            default (Storage.max_response_tokens prev) r;
                          Storage.compact_trigger_pct :=
                            default (Storage.compact_trigger_pct prev) p;
                          Storage.compact_instructions :=
                            default (Storage.compact_instructions prev) i;
                          Storage.cs_updated_at := now |}).
  { subst db2. rewrite lookup_with_context_settings, lookup_alter_eq, Hl1.
    reflexivity. }
  rewrite Hl2 in Hcs. cbn [Storage.compact_instructions] in Hcs.
  assert (Ho2 : forall t, t <> tenant ->
            Storage.prompt_context_settings db2 !! t
            = Storage.prompt_context_settings db !! t).
  { intros t Ht. subst db2.
    rewrite lookup_with_context_settings, lookup_alter_ne by done. by apply Ho1. }
  destruct (String.eqb (Py.strip (default (Storage.compact_instructions prev) i)) "");
    subst cs; cbn;
    (repeat split; try reflexivity; try exact Hl3;
     try (intros t Ht; rewrite Ho3 by done; by apply Ho2);
     try (rewrite Hp3; subst db2; exact Hp1);
     try (rewrite Hv3; subst db2; exact Hv1)).
Qed.

End ContextSettingsTable.






(** ** The preparation of a chat turn, for every state *)

Section ChatPrepare.

Variable env : Main.Env.

Lemma merge_all_outcome overrides defaults :
  match mapM (Main.merge_component overrides) defaults with
  | Py.Ok merged => merged = defaults
  | Py.Raise e => e = Py.TypeError "__init__() missing required argument"
  | Py.OutOfFuel => False
  end.
Proof.
  induction defaults as [|x l IH]; [reflexivity|].
  rewrite mapM_result_cons.
  destruct (overrides !! Prompts.id x) as [o|] eqn:Hx.
  - rewrite merge_overridden_raises by eauto. reflexivity.
  - rewrite merge_not_overridden by exact Hx. cbn [Py.bind].
    destruct (mapM (Main.merge_component overrides) l); cbn [Py.bind];
      [by subst | exact IH | exact IH].
Qed.

(** The composed prompt of a turn is the one of the default components,
    or the composition raises. *)
Lemma effective_prompt_outcome a :
  match Main.effective_prompt env a with
  | (Py.Ok prompt, a') =>
      prompt = Prompts.compose_system_prompt (Main.load_prompt_components env)
      /\ Main._baseline_jobs a' = Main._baseline_jobs a
      /\ Main.llm_calls a' = Main.llm_calls a
  | (Py.Raise e, _) =>
      e = Py.TypeError "__init__() missing required argument"
      \/ exists msg, e = Py.IntegrityError msg
  | (Py.OutOfFuel, _) => False
  end.
Proof.
  unfold Main.effective_prompt, Main._effective_prompt_components,
    mbind, M_mbind, M_bind.
  rewrite store_call_run.
  pose proof (get_active_outcome (Main._tenant_id env)
                (Main.uuid4 env (Main.tick a)) (Main.utc_now env (S (Main.tick a)))
                (Main.store a)) as Hout.
  destruct (Storage.get_active_prompt_profile _ _ _ _) as [res db1].
  destruct res as [profile|e|]; [|right; by destruct Hout|exact Hout].
  unfold M_get, M_lift. cbn [Main.store].
  pose proof (merge_all_outcome
                (Storage.get_prompt_overrides (Storage.id profile) db1)
                (Main.load_prompt_components env)) as Hm.
  destruct (mapM _ _) as [merged|e|]; [|by left|exact Hm].
  subst merged. cbn. auto.
Qed.

Lemma compact_threshold_raise cs e :
  Main.compact_threshold cs = Py.Raise e ->
  (exists msg, e = Py.OverflowError msg) \/ (exists msg, e = Py.ValueError msg).
Proof.
  unfold Main.compact_threshold, Py.float_of_int, mbind, result_bind, Py.bind.
  destruct (binary_normalize _ _ _ _ _) as [s| | |s m e'];
    try (intros [= <-]; eauto; fail);
    (destruct (Py.fmul _ _); cbn; intros [= <-]; eauto).
Qed.

End ChatPrepare.

(** X12.  What a chat turn sends to the backend.  Whenever the
    preparation of a turn gets as far as the backend call, the first
    message is the system prompt composed from the default components,
    the context either has at most two messages or is estimated within
    the context window of the process settings, and a context that was
    within the window from the start, with no instruction message
    inserted, is sent whole.  Otherwise the preparation raises: with
    [TypeError] when a default component has an override, with
    [IntegrityError] when a fresh uuid is taken, or with the error of the
    threshold computation.  It never runs out of rounds, makes no backend
    call and leaves the job table alone. *)
Theorem chat_prepare_outcome
    (env : Main.Env) (history : list Storage.StoredMessage) (a : Main.App) :
  match Main.chat_prepare env history a with
  | (Py.Ok c, a') =>
      let prompt := Prompts.compose_system_prompt (Main.load_prompt_components env) in
      let window := Settings.ollama_context_window (Main.settings env) in
      Main.ctx_llm_messages c !! 0%nat = Some (Main.system_message prompt)
      /\ (Z.of_nat (length (Main.ctx_llm_messages c)) <= 2
          \/ Main.est_prompt_tokens_after c <= window)
      /\ Main.est_prompt_tokens_before c
         = Main._estimate_tokens_for_messages
             (Main.system_message prompt :: Main.history_messages history)
      /\ (Main.compaction_applied c = false ->
          Main.est_prompt_tokens_before c <= window ->
          Main.ctx_llm_messages c
          = Main.system_message prompt :: Main.history_messages history
          /\ Main.ctx_dropped_history_messages c = 0)
      /\ Main._baseline_jobs a' = Main._baseline_jobs a
      /\ Main.llm_calls a' = Main.llm_calls a
  | (Py.Raise e, _) =>
      e = Py.TypeError "__init__() missing required argument"
      \/ (exists msg, e = Py.IntegrityError msg)
      \/ (exists msg, e = Py.OverflowError msg)
      \/ (exists msg, e = Py.ValueError msg)
  | (Py.OutOfFuel, _) => False
  end.
Proof.
  unfold Main.chat_prepare.
  pose proof (effective_prompt_outcome env a) as Hep.
  destruct (Main.effective_prompt env a) as [res a1] eqn:He.
  destruct res as [prompt|e|]; [|rewrite (M_bind_Raise _ _ _ _ _ He); tauto|destruct Hep].
  destruct Hep as (-> & Hjobs1 & Hcalls1).
  rewrite (M_bind_run _ _ _ _ _ He).
  destruct (get_context_settings_spec env a1)
    as (cs & a2 & Hget & _ & Hmax & _ & Hjobs2 & Hcalls2).
  rewrite (M_bind_run _ _ _ _ _ Hget). unfold M_lift.
  set (prompt := Prompts.compose_system_prompt (Main.load_prompt_components env)).
  destruct (Main.compact_threshold cs) as [thr|e|] eqn:Hthr.
  - destruct (compact_context_unfold prompt history cs thr Hthr) as (st & Hwhile & ->).
    cbn [Main.ctx_llm_messages Main.est_prompt_tokens_after
         Main.est_prompt_tokens_before Main.compaction_applied
         Main.ctx_dropped_history_messages]. cbv zeta.
    pose proof Hwhile as Hloop. apply while_reaches in Hloop as [Hreach Hend].
    destruct (final_shape prompt history cs thr st Hreach) as (kept & Hl & _).
    rewrite <- Hmax.
    split; [by rewrite Hl|].
    split; [by apply compaction_cond_false in Hend|].
    split; [reflexivity|].
    split; [|split; congruence].
    intros Happ Hfit.
    assert (Hentry : Spec.loop_entry prompt history cs thr
                     = {| Main.llm_messages :=
                            Main.system_message prompt :: Main.history_messages history;
                          Main.dropped_history_messages := 0 |}).
    { unfold Spec.loop_entry.
      destruct (assemble_cases prompt history cs thr) as [(Ha & _)|(Ha & _)];
        rewrite Ha in Happ |- *; [discriminate | reflexivity]. }
    rewrite Hentry in Hwhile.
    assert (Hcond : Main.compaction_cond (Storage.max_context_tokens cs)
                      {| Main.llm_messages :=
                           Main.system_message prompt :: Main.history_messages history;
                         Main.dropped_history_messages := 0 |} = false).
    { apply compaction_cond_false. right. exact Hfit. }
    destruct (length _) as [|fuel] in Hwhile; cbn [Py.while] in Hwhile;
      rewrite Hcond in Hwhile; injection Hwhile as <-; split; reflexivity.
  - rewrite (compact_context_Raise _ _ _ _ Hthr).
    apply compact_threshold_raise in Hthr. tauto.
  - by apply compact_threshold_not_out_of_fuel in Hthr.
Qed.

(** ** The event log of a job and the benchmark payloads *)

Section EventLog.

Lemma append_bounded_spec (events : list string) (message : string) :
  Main.append_bounded events message
  = drop (S (length events) - 100) (events ++ [message])
  /\ length (Main.append_bounded events message) = Nat.min 100 (S (length events))
  /\ last (Main.append_bounded events message) = Some message.
Proof.
  unfold Main.append_bounded. rewrite length_app. cbn [length].
  replace (length events + 1)%nat with (S (length events)) by lia.
  destruct (100 <? S (length events))%nat eqn:Hlen.
  - apply Nat.ltb_lt in Hlen. split; [reflexivity|]. split.
    + rewrite length_drop, length_app. cbn [length]. lia.
    + rewrite drop_app_le by lia. apply last_snoc.
  - apply Nat.ltb_ge in Hlen.
    replace (S (length events) - 100)%nat with 0%nat by lia.
    split; [reflexivity|]. split; [rewrite length_app; cbn [length]; lia|].
    apply last_snoc.
Qed.

End EventLog.

(** X13.  The event log of a job is a window on its latest events.
    Appending an event to a job that is in the table succeeds; the log
    then ends with the new event, holds the latest entries of the old log
    in their order, and has at most 100 entries, whatever its length
    was; the counters and the status of the job and all other jobs are
    as before.  For a job that is not in the table the call raises
    [KeyError] and changes nothing. *)
Theorem append_baseline_event_keeps_latest_100
    (env : Main.Env) (job_id message : string) (a : Main.App) :
  match Main._baseline_jobs a !! job_id with
  | Some job =>
      exists a' job',
        Main._append_baseline_event env job_id message a = (Py.Ok tt, a')
        /\ Main._baseline_jobs a' !! job_id = Some job'
        /\ Main.events job'
           = drop (S (length (Main.events job)) - 100) (Main.events job ++ [message])
        /\ last (Main.events job') = Some message
        /\ length (Main.events job') = Nat.min 100 (S (length (Main.events job)))
        /\ (length (Main.events job') <= 100)%nat
        /\ Main.completed_calls job' = Main.completed_calls job
        /\ Main.total_calls job' = Main.total_calls job
        /\ Main.status job' = Main.status job
        /\ (forall other, other <> job_id ->
              Main._baseline_jobs a' !! other = Main._baseline_jobs a !! other)
  | None =>
      Main._append_baseline_event env job_id message a
      = (Py.Raise (Py.KeyError job_id), a)
  end.
Proof.
  destruct (Main._baseline_jobs a !! job_id) as [job|] eqn:Hjob.
  - rewrite (append_event_run env job_id message job a Hjob).
    destruct (append_bounded_spec (Main.events job) message) as (Hd & Hlen & Hlast).
    eexists _, _. split; [reflexivity|].
    cbn [Main._baseline_jobs]. split; [apply lookup_insert_eq|].
    cbn [Main.events Main.with_events Main.completed_calls Main.total_calls
         Main.status].
    split; [exact Hd|]. split; [exact Hlast|]. split; [exact Hlen|].
    split; [rewrite Hlen; lia|].
    repeat split. intros other Hne. by rewrite lookup_insert_ne.
  - unfold Main._append_baseline_event, Main.get_job, mbind, M_mbind, M_bind.
    by rewrite Hjob.
Qed.

Section Payload.

(** The payload is the shortest run of fragments whose estimate reaches
    the target. *)
Lemma build_payload_spec target fragment :
  4 <= Py.len fragment ->
  exists k : nat,
    Main.build_payload target fragment = Py.Ok (Spec.repeated fragment k)
    /\ target <= Main._estimate_tokens_for_text (Spec.repeated fragment k)
    /\ (k = 0%nat
        \/ Main._estimate_tokens_for_text (Spec.repeated fragment (Nat.pred k))
           < target)
    /\ (target <= 1 -> k = 0%nat).
Proof.
  intros Hfrag.
  destruct (Z.le_gt_cases target 1) as [Hsmall|Hbig].
  - exists 0%nat. cbn [Spec.repeated].
    assert (Hest : Main._estimate_tokens_for_text "" = 1) by reflexivity.
    unfold Main.build_payload.
    assert (Hc : (Main._estimate_tokens_for_text "" <? target) = false)
      by (apply Z.ltb_ge; lia).
    split; [destruct (Z.to_nat target); cbn [Py.while]; by rewrite Hc|].
    split; [lia|]. auto.
  - destruct (build_payload_total target fragment Hfrag) as (text & Hrun).
    pose proof Hrun as Hinv. unfold Main.build_payload in Hinv.
    apply (while_Ok_inv _ _
             (fun text => exists k : nat,
                text = Spec.repeated fragment k
                /\ (k = 0%nat
                    \/ Main._estimate_tokens_for_text
                         (Spec.repeated fragment (Nat.pred k)) < target)))
      in Hinv as [(k & -> & Hmin) Hend].
    + exists k. split; [exact Hrun|].
      split; [by apply Z.ltb_ge in Hend|]. split; [exact Hmin | lia].
    + intros s s' (k & -> & _) Hc [= <-]. exists (S k).
      split; [reflexivity|]. right. cbn [Nat.pred]. by apply Z.ltb_lt.
    + exists 0%nat. split; [reflexivity | by left].
Qed.

End Payload.

(** X14.  The payload that a benchmark case sends is a whole number of
    copies of its fragment, the least number whose token estimate is at
    least the target: with one copy less the estimate would be below the
    target, and for a target of at most one token the payload is empty.
    Both builders always return. *)
Theorem payload_is_least_run_of_fragments (target_tokens : Z) (seed : string) :
  (exists k : nat,
      let fragment :=
        seed +:+ ". Keep this coherent, factual, and concise. "
             +:+ "Include clear constraints, concrete details, and specific wording. " in
      Main._build_user_payload target_tokens seed = Py.Ok (Spec.repeated fragment k)
      /\ target_tokens <= Main._estimate_tokens_for_text (Spec.repeated fragment k)
      /\ (k = 0%nat
          \/ Main._estimate_tokens_for_text (Spec.repeated fragment (Nat.pred k))
             < target_tokens)
      /\ (target_tokens <= 1 -> k = 0%nat))
  /\ (exists k : nat,
        let fragment :=
          seed +:+ ". Preserve instruction fidelity, avoid hallucination, and remain concise. "
               +:+ "Use explicit constraints and deterministic formatting cues. " in
        Main._build_system_payload target_tokens seed = Py.Ok (Spec.repeated fragment k)
        /\ target_tokens <= Main._estimate_tokens_for_text (Spec.repeated fragment k)
        /\ (k = 0%nat
            \/ Main._estimate_tokens_for_text (Spec.repeated fragment (Nat.pred k))
               < target_tokens)
        /\ (target_tokens <= 1 -> k = 0%nat)).
Proof.
  split.
  - apply build_payload_spec. rewrite !len_app.
    pose proof (len_nonneg seed).
    assert (4 <= Py.len ". Keep this coherent, factual, and concise. ")
      by (vm_compute; discriminate).
    pose proof (len_nonneg
      "Include clear constraints, concrete details, and specific wording. ").
    lia.
  - apply build_payload_spec. rewrite !len_app.
    pose proof (len_nonneg seed).
    assert (4 <= Py.len ". Preserve instruction fidelity, avoid hallucination, and remain concise. ")
      by (vm_compute; discriminate).
    pose proof (len_nonneg
      "Use explicit constraints and deterministic formatting cues. ").
    lia.
Qed.

(** ** The history of a job over a whole run *)

Section JobHistory.

Variable env : Main.Env.
Variable job_id : string.

Local Abbreviation on_progress :=
  (Some (fun step inc => Main._baseline_progress env job_id step inc)).

Lemma job_evolves_refl a : Spec.job_evolves job_id a a.
Proof.
  split; [done|]. destruct (Main._baseline_jobs a !! job_id) as [job|]; [|done].
  exists job. split; [reflexivity | apply rtc_refl].
Qed.

Lemma job_evolves_same_jobs a a' :
  Main._baseline_jobs a' = Main._baseline_jobs a -> Spec.job_evolves job_id a a'.
Proof.
  intros He. split; [intros; by rewrite He|]. rewrite He.
  destruct (Main._baseline_jobs a !! job_id) as [job|]; [|done].
  exists job. split; [reflexivity | apply rtc_refl].
Qed.

Lemma job_evolves_trans a1 a2 a3 :
  Spec.job_evolves job_id a1 a2 -> Spec.job_evolves job_id a2 a3 ->
  Spec.job_evolves job_id a1 a3.
Proof.
  intros [Ho1 H1] [Ho2 H2]. split.
  - intros other Hne. by rewrite Ho2, Ho1.
  - destruct (Main._baseline_jobs a1 !! job_id) as [job|].
    + destruct H1 as (job2 & Hj2 & Hr12). rewrite Hj2 in H2.
      destruct H2 as (job3 & Hj3 & Hr23). exists job3.
      split; [exact Hj3 | by etrans].
    + by rewrite H1 in H2.
Qed.

(** One store into the entry of the job. *)
Lemma job_evolves_store a job job' :
  Main._baseline_jobs a !! job_id = Some job ->
  rtc Spec.job_update job job' ->
  forall a',
    Main._baseline_jobs a' = <[job_id := job']> (Main._baseline_jobs a) ->
    Spec.job_evolves job_id a a'.
Proof.
  intros Hjob Hr a' He. split.
  - intros other Hne. by rewrite He, lookup_insert_ne.
  - rewrite Hjob. exists job'. split; [|exact Hr]. by rewrite He, lookup_insert_eq.
Qed.

Lemma evolves_ret {A : Type} (x : A) : Spec.evolves job_id (mret x : M Main.App A).
Proof. intros a r a' [= _ <-]. apply job_evolves_refl. Qed.

Lemma evolves_lift {A : Type} (r : Py.result A) : Spec.evolves job_id (M_lift r).
Proof. intros a r' a' [= _ <-]. apply job_evolves_refl. Qed.

Lemma evolves_raise {A : Type} (e : Py.exn) :
  Spec.evolves job_id (M_raise e : M Main.App A).
Proof. intros a r' a' [= _ <-]. apply job_evolves_refl. Qed.

Lemma evolves_get : Spec.evolves job_id (M_get : M Main.App Main.App).
Proof. intros a r a' [= _ <-]. apply job_evolves_refl. Qed.

Lemma evolves_next {A : Type} (stream : nat -> A) :
  Spec.evolves job_id (Main.next stream).
Proof. intros a r a' [= _ <-]. by apply job_evolves_same_jobs. Qed.

Lemma evolves_get_job : Spec.evolves job_id (Main.get_job job_id).
Proof.
  intros a r a'. unfold Main.get_job.
  destruct (Main._baseline_jobs a !! job_id); intros [= _ <-];
    apply job_evolves_refl.
Qed.

Lemma evolves_llm_chat messages cap :
  Spec.evolves job_id (Main.llm_chat env messages cap).
Proof. intros a r a' [= _ <-]. by apply job_evolves_same_jobs. Qed.

Lemma evolves_store_call {A : Type}
    (method : string -> string -> M Storage.ChatStore A) :
  Spec.evolves job_id (Main.store_call env method).
Proof.
  intros a r a'. rewrite store_call_run.
  destruct (method _ _ _) as [res db]. intros [= _ <-].
  by apply job_evolves_same_jobs.
Qed.

Lemma evolves_bind {A B : Type} (m : M Main.App A) (k : A -> M Main.App B) :
  Spec.evolves job_id m -> (forall x, Spec.evolves job_id (k x)) ->
  Spec.evolves job_id (m ≫= k).
Proof.
  intros Hm Hk a r a'. unfold mbind, M_mbind, M_bind.
  destruct (m a) as [[x| |] a1] eqn:Hma.
  - intros Hka. eapply job_evolves_trans; [eapply Hm | eapply Hk]; eauto.
  - intros [= _ <-]. eapply Hm; eauto.
  - intros [= _ <-]. eapply Hm; eauto.
Qed.

Lemma evolves_for_each {S A : Type} (round : S -> A -> M Main.App S) (xs : list A) :
  (forall st x, Spec.evolves job_id (round st x)) ->
  forall st, Spec.evolves job_id (Main.for_each round xs st).
Proof.
  intros Hround. induction xs as [|x xs IH]; intros st; cbn [Main.for_each].
  - apply evolves_ret.
  - apply evolves_bind; [apply Hround | exact IH].
Qed.

Lemma evolves_get_context_settings :
  Spec.evolves job_id (Main._get_context_settings env).
Proof.
  intros a r a' Hrun.
  destruct (get_context_settings_spec env a) as (cs & a1 & Hrun' & _ & _ & _ & Hj & _).
  rewrite Hrun in Hrun'. injection Hrun' as _ ->.
  by apply job_evolves_same_jobs.
Qed.

Lemma evolves_append_event message :
  Spec.evolves job_id (Main._append_baseline_event env job_id message).
Proof.
  intros a r a'.
  destruct (Main._baseline_jobs a !! job_id) as [job|] eqn:Hjob.
  - rewrite (append_event_run env job_id message job a Hjob). intros [= _ <-].
    eapply (job_evolves_store a job); [exact Hjob | | reflexivity].
    apply rtc_once. constructor.
  - unfold Main._append_baseline_event, mbind, M_mbind, M_bind, Main.get_job.
    rewrite Hjob. intros [= _ <-]. apply job_evolves_refl.
Qed.

(** A progress callback, for a job that is in the table: the stores that
    it makes, one after the other. *)
Lemma baseline_progress_trace step inc job a :
  Main._baseline_jobs a !! job_id = Some job ->
  exists a' job',
    Main._baseline_progress env job_id step inc a = (Py.Ok tt, a')
    /\ Main._baseline_jobs a' = <[job_id := job']> (Main._baseline_jobs a)
    /\ rtc Spec.job_update job job'
    /\ Main.events job'
       = Main.append_bounded (Main.events job)
           ((if 0 <? inc then "Completed: " else "Running: ") +:+ step).
Proof.
  intros H. unfold Main._baseline_progress.
  rewrite (M_bind_run _ _ _ _ _ (get_job_run _ _ _ H)).
  unfold Main.set_job at 1, M_modify.
  erewrite M_bind_run by reflexivity.
  set (j1 := Main.with_progress step (Main.completed_calls job) job).
  destruct (0 <? inc) eqn:Hinc.
  - apply Z.ltb_lt in Hinc.
    set (j2 := Main.with_progress step
                 (Z.min (Main.total_calls job) (Main.completed_calls job + inc)) job).
    unfold Main.set_job at 1, M_modify.
    erewrite (M_bind_run (_ ≫= _)).
    2: { erewrite M_bind_run by reflexivity.
         apply append_event_run. cbn [Main._baseline_jobs Main.with_jobs].
         apply lookup_insert_eq. }
    erewrite M_bind_run.
    2: { apply get_job_run. cbn [Main._baseline_jobs]. apply lookup_insert_eq. }
    erewrite M_bind_run by reflexivity.
    unfold Main.set_job, M_modify.
    eexists _, _. split; [reflexivity|].
    cbn [Main._baseline_jobs Main.with_jobs Main.tick].
    split; [by rewrite !insert_insert_eq|].
    split; [|reflexivity].
    eapply rtc_l; [apply (Spec.update_step job step)|]. fold j1.
    eapply rtc_l; [apply (Spec.update_count j1 step inc Hinc)|].
    change (Main.with_progress step _ j1) with j2.
    eapply rtc_l; [apply Spec.update_event|].
    eapply rtc_l; [apply Spec.update_clock|]. apply rtc_refl.
  - erewrite M_bind_run.
    2: { apply append_event_run. cbn [Main._baseline_jobs Main.with_jobs].
         apply lookup_insert_eq. }
    erewrite M_bind_run.
    2: { apply get_job_run. cbn [Main._baseline_jobs]. apply lookup_insert_eq. }
    erewrite M_bind_run by reflexivity.
    unfold Main.set_job, M_modify.
    eexists _, _. split; [reflexivity|].
    cbn [Main._baseline_jobs Main.with_jobs Main.tick].
    split; [by rewrite !insert_insert_eq|].
    split; [|reflexivity].
    eapply rtc_l; [apply (Spec.update_step job step)|]. fold j1.
    eapply rtc_l; [apply Spec.update_event|].
    eapply rtc_l; [apply Spec.update_clock|]. apply rtc_refl.
Qed.

Lemma evolves_baseline_progress step inc :
  Spec.evolves job_id (Main._baseline_progress env job_id step inc).
Proof.
  intros a r a'.
  destruct (Main._baseline_jobs a !! job_id) as [job|] eqn:Hjob.
  - destruct (baseline_progress_trace step inc job a Hjob)
      as (a1 & job1 & Hrun & Hjobs & Hr & _).
    rewrite Hrun. intros [= _ <-].
    by apply (job_evolves_store a job job1).
  - unfold Main._baseline_progress, mbind, M_mbind, M_bind, Main.get_job.
    rewrite Hjob. intros [= _ <-]. apply job_evolves_refl.
Qed.

Lemma evolves_progress step inc :
  Spec.evolves job_id (Main.progress on_progress step inc).
Proof. apply evolves_baseline_progress. Qed.

Ltac evolves_step :=
  lazymatch goal with
  | |- Spec.evolves _ (mret _) => apply evolves_ret
  | |- Spec.evolves _ (M_lift _) => apply evolves_lift
  | |- Spec.evolves _ (M_raise _) => apply evolves_raise
  | |- Spec.evolves _ M_get => apply evolves_get
  | |- Spec.evolves _ (Main.next _) => apply evolves_next
  | |- Spec.evolves _ (Main.get_job _) => apply evolves_get_job
  | |- Spec.evolves _ (Main.llm_chat _ _ _) => apply evolves_llm_chat
  | |- Spec.evolves _ (Main.store_call _ _) => apply evolves_store_call
  | |- Spec.evolves _ (Main._append_baseline_event _ _ _) => apply evolves_append_event
  | |- Spec.evolves _ (Main._baseline_progress _ _ _ _) => apply evolves_baseline_progress
  | |- Spec.evolves _ (Main.progress _ _ _) => apply evolves_progress
  | |- Spec.evolves _ (Main._get_context_settings _) => apply evolves_get_context_settings
  | |- Spec.evolves _ (Main.for_each _ _ _) => apply evolves_for_each; intros ? ?
  | |- Spec.evolves _ (_ ≫= _) => apply evolves_bind; [|intros ?]
  | |- Spec.evolves _ (match ?x with _ => _ end) => destruct x
  end.

Lemma evolves_effective_prompt : Spec.evolves job_id (Main.effective_prompt env).
Proof.
  unfold Main.effective_prompt, Main._effective_prompt_components.
  repeat evolves_step.
Qed.

Lemma evolves_single_call_case case_id label messages user_payload cap :
  Spec.evolves job_id
    (Main.single_call_case env case_id label messages user_payload cap on_progress).
Proof. unfold Main.single_call_case. repeat evolves_step. Qed.

Lemma evolves_run_single_turn_case ep case_id label task input cap :
  Spec.evolves job_id
    (Main._run_single_turn_case env ep case_id label task input cap on_progress).
Proof.
  unfold Main._run_single_turn_case. repeat evolves_step.
  apply evolves_single_call_case.
Qed.

Lemma evolves_run_system_prompt_pressure_case ep case_id label st ut cap :
  Spec.evolves job_id
    (Main._run_system_prompt_pressure_case env ep case_id label st ut cap on_progress).
Proof.
  unfold Main._run_system_prompt_pressure_case. repeat evolves_step.
  apply evolves_single_call_case.
Qed.

Lemma evolves_run_multi_turn_case ep case_id label task targets cap :
  Spec.evolves job_id
    (Main._run_multi_turn_case env ep case_id label task targets cap on_progress).
Proof.
  unfold Main._run_multi_turn_case. repeat evolves_step.
  unfold Main.multi_turn_round. repeat evolves_step.
Qed.

Lemma evolves_execute_baseline enforce :
  Spec.evolves job_id (Main._execute_baseline env job_id enforce).
Proof.
  unfold Main._execute_baseline.
  repeat first
    [ apply evolves_effective_prompt
    | apply evolves_run_single_turn_case
    | apply evolves_run_multi_turn_case
    | evolves_step ].
  unfold Main.system_prompt_round.
  repeat first [ apply evolves_run_system_prompt_pressure_case | evolves_step ].
Qed.

(** What the stores of the progress callbacks leave as it was. *)
Lemma job_update_invariants job job' :
  rtc Spec.job_update job job' ->
  Main.status job' = Main.status job
  /\ Main.model job' = Main.model job
  /\ Main.total_calls job' = Main.total_calls job
  /\ Main.started_at job' = Main.started_at job
  /\ Main.completed_at job' = Main.completed_at job
  /\ Main.duration_ms job' = Main.duration_ms job
  /\ Main.error job' = Main.error job
  /\ Main.result job' = Main.result job
  /\ Main.enforce_max_response_tokens job' = Main.enforce_max_response_tokens job
  /\ ((length (Main.events job) <= 100)%nat -> (length (Main.events job') <= 100)%nat)
  /\ (0 <= Main.completed_calls job <= Main.total_calls job ->
      Main.completed_calls job <= Main.completed_calls job' <= Main.total_calls job).
Proof.
  induction 1 as [job|job j1 job' Hstep _ IH].
  - do 9 (split; [reflexivity|]). split; [auto | lia].
  - destruct IH as (Hs & Hm & Ht & Hst & Hc & Hd & He & Hr & Hf & Hev & Hcc).
    assert (Hone :
      Main.status j1 = Main.status job
      /\ Main.model j1 = Main.model job
      /\ Main.total_calls j1 = Main.total_calls job
      /\ Main.started_at j1 = Main.started_at job
      /\ Main.completed_at j1 = Main.completed_at job
      /\ Main.duration_ms j1 = Main.duration_ms job
      /\ Main.error j1 = Main.error job
      /\ Main.result j1 = Main.result job
      /\ Main.enforce_max_response_tokens j1 = Main.enforce_max_response_tokens job
      /\ ((length (Main.events job) <= 100)%nat -> (length (Main.events j1) <= 100)%nat)
      /\ (0 <= Main.completed_calls job <= Main.total_calls job ->
          Main.completed_calls job <= Main.completed_calls j1 <= Main.total_calls job)).
    { destruct Hstep as [j message now|j now|j step|j step inc Hinc]; cbn;
        do 9 (split; [reflexivity|]).
      - split; [|lia]. intros _.
        destruct (append_bounded_spec (Main.events j) message) as (_ & -> & _).
        lia.
      - split; [auto | lia].
      - split; [auto | lia].
      - split; [auto | lia]. }
    destruct Hone as (Hs1 & Hm1 & Ht1 & Hst1 & Hc1 & Hd1 & He1 & Hr1 & Hf1 & Hev1 & Hcc1).
    do 9 (split; [congruence|]).
    split; [auto|].
    intros Hb. destruct (Hcc1 Hb). rewrite Ht1 in Hcc. lia.
Qed.

End JobHistory.

(** ** The counter of a job over a run that returns *)

Section JobCount.

Variable env : Main.Env.
Variable job_id : string.

Local Abbreviation on_progress :=
  (Some (fun step inc => Main._baseline_progress env job_id step inc)).

Lemma advance_add total c k1 k2 :
  0 <= k1 -> 0 <= k2 ->
  Spec.advance total (Spec.advance total c k1) k2 = Spec.advance total c (k1 + k2).
Proof.
  unfold Spec.advance. intros H1 H2.
  destruct (k1 =? 0) eqn:E1, (k2 =? 0) eqn:E2, (k1 + k2 =? 0) eqn:E3;
    rewrite ?Z.eqb_eq, ?Z.eqb_neq in *; lia.
Qed.

Lemma advanced_same_jobs a a' :
  Main._baseline_jobs a' = Main._baseline_jobs a -> Spec.advanced job_id 0 a a'.
Proof.
  intros He job Hjob. exists job. rewrite He. split; [exact Hjob|].
  split; reflexivity.
Qed.

Lemma advanced_trans k1 k2 a1 a2 a3 :
  0 <= k1 -> 0 <= k2 ->
  Spec.advanced job_id k1 a1 a2 -> Spec.advanced job_id k2 a2 a3 ->
  Spec.advanced job_id (k1 + k2) a1 a3.
Proof.
  intros Hk1 Hk2 H12 H23 job Hjob.
  destruct (H12 job Hjob) as (job2 & Hj2 & Ht2 & Hc2).
  destruct (H23 job2 Hj2) as (job3 & Hj3 & Ht3 & Hc3).
  exists job3. split; [exact Hj3|]. split; [congruence|].
  rewrite Hc3, Ht2, Hc2. by apply advance_add.
Qed.

Lemma advanced_then k1 k2 a1 a2 a3 :
  Spec.advanced job_id k1 a1 a2 -> Spec.advanced job_id k2 a2 a3 ->
  0 <= k1 -> 0 <= k2 ->
  Spec.advanced job_id (k1 + k2) a1 a3.
Proof. intros H12 H23 Hk1 Hk2. by apply (advanced_trans k1 k2 a1 a2 a3). Qed.

Lemma advanced_before k a0 a a' :
  Main._baseline_jobs a = Main._baseline_jobs a0 ->
  Spec.advanced job_id k a a' -> Spec.advanced job_id k a0 a'.
Proof. intros He H job Hjob. apply H. by rewrite He. Qed.

Lemma advanced_after k a a' a1 :
  Main._baseline_jobs a1 = Main._baseline_jobs a' ->
  Spec.advanced job_id k a a' -> Spec.advanced job_id k a a1.
Proof.
  intros He H job Hjob. destruct (H job Hjob) as (job' & Hj & Hrest).
  exists job'. by rewrite He.
Qed.

Lemma has_job_before a0 a :
  Main._baseline_jobs a = Main._baseline_jobs a0 ->
  Spec.has_job job_id a -> Spec.has_job job_id a0.
Proof. unfold Spec.has_job. by intros ->. Qed.

(** A callback that returns has found the job and counted its
    increment. *)
Lemma progress_counts step inc a a' u :
  Main.progress on_progress step inc a = (Py.Ok u, a') ->
  0 <= inc ->
  Spec.has_job job_id a /\ Spec.advanced job_id inc a a'.
Proof.
  unfold Main.progress. intros H Hinc.
  destruct (Main._baseline_jobs a !! job_id) as [job|] eqn:Hjob.
  - destruct (baseline_progress_run env job_id step inc job a Hjob)
      as (a1 & job1 & Hrun & Hjob1 & Ht & Hcc & _).
    rewrite Hrun in H. injection H as _ <-.
    split; [by eexists|].
    intros job0 Hjob0. rewrite Hjob in Hjob0. injection Hjob0 as <-.
    exists job1. split; [exact Hjob1|]. split; [exact Ht|].
    rewrite Hcc. unfold Spec.advance.
    destruct (0 <? inc) eqn:E1, (inc =? 0) eqn:E2;
      rewrite ?Z.ltb_lt, ?Z.ltb_ge, ?Z.eqb_eq, ?Z.eqb_neq in *; try lia; reflexivity.
  - unfold Main._baseline_progress, mbind, M_mbind, M_bind, Main.get_job in H.
    rewrite Hjob in H. discriminate.
Qed.

Lemma llm_chat_jobs messages cap a a' r :
  Main.llm_chat env messages cap a = (r, a') ->
  Main._baseline_jobs a' = Main._baseline_jobs a.
Proof. unfold Main.llm_chat. intros [= _ <-]. reflexivity. Qed.

Lemma single_call_case_counts case_id label messages user_payload cap a a' c :
  Main.single_call_case env case_id label messages user_payload cap on_progress a
  = (Py.Ok c, a') ->
  Spec.has_job job_id a /\ Spec.advanced job_id 1 a a'.
Proof.
  unfold Main.single_call_case. intros H.
  inv_bind H as [completion latency_ms] a1 H1.
  apply llm_chat_jobs in H1.
  destruct (Main.token_counts completion messages) as [[pt ct] tt_].
  inv_bind H as ? a2 H2. apply progress_counts in H2 as [Hj Hadv]; [|lia].
  inv_bind H as avg a3 H3. apply M_lift_Ok in H3 as [_ ->].
  apply M_ret_Ok in H as [_ ->].
  split; [by apply (has_job_before a a1) | by apply (advanced_before 1 a a1)].
Qed.

Lemma run_single_turn_case_counts ep case_id label task input cap a a' c :
  Main._run_single_turn_case env ep case_id label task input cap on_progress a
  = (Py.Ok c, a') ->
  Spec.has_job job_id a /\ Spec.advanced job_id 1 a a'.
Proof.
  unfold Main._run_single_turn_case. intros H.
  inv_bind H as ? a1 H1. apply progress_counts in H1 as [Hj H1]; [|lia].
  inv_bind H as payload a2 H2. apply M_lift_Ok in H2 as [_ ->].
  apply single_call_case_counts in H as [_ H].
  split; [exact Hj|]. by apply (advanced_trans 0 1 a a1 a').
Qed.

Lemma run_system_prompt_pressure_case_counts ep case_id label st ut cap a a' c :
  Main._run_system_prompt_pressure_case env ep case_id label st ut cap
    on_progress a = (Py.Ok c, a') ->
  Spec.has_job job_id a /\ Spec.advanced job_id 1 a a'.
Proof.
  unfold Main._run_system_prompt_pressure_case. intros H.
  inv_bind H as ? a1 H1. apply progress_counts in H1 as [Hj H1]; [|lia].
  inv_bind H as sp a2 H2. apply M_lift_Ok in H2 as [_ ->].
  inv_bind H as up a3 H3. apply M_lift_Ok in H3 as [_ ->].
  apply single_call_case_counts in H as [_ H].
  split; [exact Hj|]. by apply (advanced_trans 0 1 a a1 a').
Qed.

Lemma multi_turn_round_counts label turns cap st idx target a a' st' :
  Main.multi_turn_round env label turns cap on_progress st (idx, target) a
  = (Py.Ok st', a') ->
  Spec.advanced job_id 1 a a'.
Proof.
  unfold Main.multi_turn_round. intros H.
  inv_bind H as ? a1 H1. apply progress_counts in H1 as [_ H1]; [|lia].
  inv_bind H as payload a2 H2. apply M_lift_Ok in H2 as [_ ->].
  inv_bind H as [completion latency_ms] a3 H3.
  apply llm_chat_jobs in H3.
  destruct (Main.token_counts completion _) as [[pt ct] tt_].
  inv_bind H as ? a4 H4. apply progress_counts in H4 as [_ H4]; [|lia].
  apply M_ret_Ok in H as [_ ->].
  apply (advanced_trans 0 1 a a1 a4); [lia | lia | exact H1|].
  by apply (advanced_before 1 a1 a3).
Qed.

Lemma multi_turn_rounds_counts label turns cap items : forall st a a' st',
  Main.for_each
    (Main.multi_turn_round env label turns cap on_progress) items st a
  = (Py.Ok st', a') ->
  Spec.advanced job_id (Z.of_nat (length items)) a a'.
Proof.
  induction items as [|[idx target] items IH]; intros st a a' st' H.
  - apply M_ret_Ok in H as [_ ->]. by apply advanced_same_jobs.
  - cbn [Main.for_each] in H. inv_bind H as st1 a1 Hx.
    apply multi_turn_round_counts in Hx. apply IH in H.
    replace (Z.of_nat (length ((idx, target) :: items)))
      with (1 + Z.of_nat (length items)) by (cbn [length]; lia).
    apply (advanced_trans 1 _ a a1 a'); [lia | lia | exact Hx | exact H].
Qed.

Lemma run_multi_turn_case_counts ep case_id label task targets cap a a' c :
  Main._run_multi_turn_case env ep case_id label task targets cap on_progress a
  = (Py.Ok c, a') ->
  Spec.advanced job_id (Z.of_nat (length targets)) a a'.
Proof.
  unfold Main._run_multi_turn_case. intros H.
  inv_bind H as st a1 Hx. apply multi_turn_rounds_counts in Hx.
  rewrite enumerate_length in Hx.
  inv_bind H as avg a2 Havg.
  assert (a2 = a1) as ->.
  { destruct (0 <? Z.of_nat (length targets)).
    - inv_bind Havg as total a3 H3. apply M_lift_Ok in H3 as [_ ->].
      inv_bind Havg as count a4 H4. apply M_lift_Ok in H4 as [_ ->].
      by apply M_ret_Ok in Havg as [_ ->].
    - by apply M_ret_Ok in Havg as [_ ->]. }
  apply M_ret_Ok in H as [_ ->]. exact Hx.
Qed.

Lemma system_prompt_rounds_counts ep cap items : forall acc a a' cases,
  Main.for_each (Main.system_prompt_round env ep cap on_progress) items acc a
  = (Py.Ok cases, a') ->
  Spec.advanced job_id (Z.of_nat (length items)) a a'.
Proof.
  induction items as [|[idx target] items IH]; intros acc a a' cases H.
  - apply M_ret_Ok in H as [_ ->]. by apply advanced_same_jobs.
  - cbn [Main.for_each] in H. inv_bind H as acc1 a1 Hx.
    unfold Main.system_prompt_round in Hx. inv_bind Hx as c a2 Hcase.
    apply run_system_prompt_pressure_case_counts in Hcase as [_ Hcase].
    apply M_ret_Ok in Hx as [_ ->]. apply IH in H.
    replace (Z.of_nat (length ((idx, target) :: items)))
      with (1 + Z.of_nat (length items)) by (cbn [length]; lia).
    apply (advanced_trans 1 _ a a2 a'); [lia | lia | exact Hcase | exact H].
Qed.

Lemma effective_prompt_jobs a a' r :
  Main.effective_prompt env a = (r, a') ->
  Main._baseline_jobs a' = Main._baseline_jobs a.
Proof.
  unfold Main.effective_prompt, Main._effective_prompt_components,
    mbind, M_mbind, M_bind.
  rewrite store_call_run.
  destruct (Storage.get_active_prompt_profile _ _ _ _) as [[p| |] db];
    try (intros [= _ <-]; reflexivity).
  unfold M_get, M_lift. cbn [Main.store].
  destruct (mapM _ _) as [merged| |]; intros [= _ <-]; reflexivity.
Qed.

Lemma get_context_settings_jobs a a' r :
  Main._get_context_settings env a = (r, a') ->
  Main._baseline_jobs a' = Main._baseline_jobs a.
Proof.
  destruct (get_context_settings_spec env a) as (cs & a1 & Hrun & _ & _ & _ & Hj & _).
  rewrite Hrun. intros [= _ <-]. exact Hj.
Qed.

Lemma next_jobs {A : Type} (stream : nat -> A) a a' r :
  Main.next stream a = (r, a') ->
  Main._baseline_jobs a' = Main._baseline_jobs a.
Proof. unfold Main.next. intros [= _ <-]. reflexivity. Qed.

(** A run that returns has found the job and counted 34 calls. *)
Lemma execute_baseline_counts enforce a a' r :
  Main._execute_baseline env job_id enforce a = (Py.Ok r, a') ->
  Spec.has_job job_id a /\ Spec.advanced job_id 34 a a'.
Proof.
  unfold Main._execute_baseline. intros H.
  inv_bind H as started_at a1 H1. apply next_jobs in H1.
  inv_bind H as ep a2 H2. apply effective_prompt_jobs in H2.
  inv_bind H as cs a3 H3. apply get_context_settings_jobs in H3.
  cbv zeta in H.
  assert (Hstart : Main._baseline_jobs a3 = Main._baseline_jobs a) by congruence.
  inv_bind H as qa_100 a4 H4.
  apply run_single_turn_case_counts in H4 as (Hjob & A4).
  inv_bind H as qa_250 a5 H5.
  apply run_single_turn_case_counts in H5 as (_ & A5).
  inv_bind H as qa_500 a6 H6.
  apply run_single_turn_case_counts in H6 as (_ & A6).
  inv_bind H as sum_200 a7 H7.
  apply run_single_turn_case_counts in H7 as (_ & A7).
  inv_bind H as sum_500 a8 H8.
  apply run_single_turn_case_counts in H8 as (_ & A8).
  inv_bind H as sum_1000 a9 H9.
  apply run_single_turn_case_counts in H9 as (_ & A9).
  inv_bind H as sum_2000 a10 H10.
  apply run_single_turn_case_counts in H10 as (_ & A10).
  inv_bind H as mt a11 H11.
  apply run_multi_turn_case_counts in H11.
  change (Z.of_nat (length Main.multi_turn_targets)) with 20 in H11.
  inv_bind H as extract_400 a12 H12.
  apply run_single_turn_case_counts in H12 as (_ & A12).
  inv_bind H as sys_cases a13 H13.
  apply system_prompt_rounds_counts in H13.
  rewrite enumerate_length in H13.
  change (Z.of_nat (length Main.system_prompt_targets)) with 6 in H13.
  inv_bind H as completed_at a14 H14. apply next_jobs in H14.
  inv_bind H as duration a15 H15. apply next_jobs in H15.
  apply M_ret_Ok in H as [_ ->].
  split; [by apply (has_job_before a a3)|].
  apply (advanced_before 34 a a3 a15 Hstart).
  apply (advanced_after 34 a3 a13 a15); [congruence|].
  pose proof (advanced_then _ _ _ _ _ A4 A5 ltac:(lia) ltac:(lia)) as B5.
  pose proof (advanced_then _ _ _ _ _ B5 A6 ltac:(lia) ltac:(lia)) as B6.
  pose proof (advanced_then _ _ _ _ _ B6 A7 ltac:(lia) ltac:(lia)) as B7.
  pose proof (advanced_then _ _ _ _ _ B7 A8 ltac:(lia) ltac:(lia)) as B8.
  pose proof (advanced_then _ _ _ _ _ B8 A9 ltac:(lia) ltac:(lia)) as B9.
  pose proof (advanced_then _ _ _ _ _ B9 A10 ltac:(lia) ltac:(lia)) as B10.
  pose proof (advanced_then _ _ _ _ _ B10 H11 ltac:(lia) ltac:(lia)) as B11.
  pose proof (advanced_then _ _ _ _ _ B11 A12 ltac:(lia) ltac:(lia)) as B12.
  pose proof (advanced_then _ _ _ _ _ B12 H13 ltac:(lia) ltac:(lia)) as B13.
  exact B13.
Qed.

End JobCount.

(** ** What a baseline run leaves in the job table *)

(** X15.  A baseline run touches one job only, and of that job only the
    progress.  However [_execute_baseline] ends, the entries of all other
    jobs are as they were; the job of the run keeps its status, model,
    total, start time, completion time, duration, error, result and
    response-cap flag, and an event log of at most 100 entries still has
    at most 100.  For a job id that is not in the table the run does not
    return a result and does not create an entry. *)
Theorem execute_baseline_touches_one_job
    (env : Main.Env) (job_id : string) (enforce : bool) (a a' : Main.App)
    (r : Py.result Models.BaselineRunResponse) :
  Main._execute_baseline env job_id enforce a = (r, a') ->
  (forall other, other <> job_id ->
     Main._baseline_jobs a' !! other = Main._baseline_jobs a !! other)
  /\ match Main._baseline_jobs a !! job_id with
     | Some job =>
         exists job',
           Main._baseline_jobs a' !! job_id = Some job'
           /\ Main.status job' = Main.status job
           /\ Main.model job' = Main.model job
           /\ Main.total_calls job' = Main.total_calls job
           /\ Main.started_at job' = Main.started_at job
           /\ Main.completed_at job' = Main.completed_at job
           /\ Main.duration_ms job' = Main.duration_ms job
           /\ Main.error job' = Main.error job
           /\ Main.result job' = Main.result job
           /\ Main.enforce_max_response_tokens job'
              = Main.enforce_max_response_tokens job
           /\ ((length (Main.events job) <= 100)%nat ->
               (length (Main.events job') <= 100)%nat)
     | None =>
         Main._baseline_jobs a' !! job_id = None /\ forall x, r <> Py.Ok x
     end.
Proof.
  intros H.
  destruct (evolves_execute_baseline env job_id enforce a r a' H) as [Ho Hj].
  split; [exact Ho|].
  destruct (Main._baseline_jobs a !! job_id) as [job|] eqn:Hjob.
  - destruct Hj as (job' & Hj' & Hr). exists job'. split; [exact Hj'|].
    apply job_update_invariants in Hr. tauto.
  - split; [exact Hj|]. intros x ->.
    apply execute_baseline_counts in H as [[job Hjob'] _]. congruence.
Qed.

Lemma execute_baseline_touches_one_job_witness :
  Main._baseline_jobs
    (snd (Main._execute_baseline
            (Examples.env 4096 Examples.two_components (Examples.failing_backend 4))
            "uuid-0" true
            (snd (Main.start_baseline
                    (Examples.env 4096 Examples.two_components
                                  (Examples.failing_backend 4))
                    {| Models.enforce_max_response_tokens := true |}
                    (Examples.app Examples.two_profiles)))))
    !! "uuid-1"
  = Main._baseline_jobs
      (snd (Main.start_baseline
              (Examples.env 4096 Examples.two_components
                            (Examples.failing_backend 4))
              {| Models.enforce_max_response_tokens := true |}
              (Examples.app Examples.two_profiles)))
      !! "uuid-1".
Proof.
  refine (proj1 (execute_baseline_touches_one_job _ "uuid-0" true _ _ _
                   (surjective_pairing _)) "uuid-1" _).
  discriminate.
Defined.

Section Outcomes.

Variable env : Main.Env.
Variable job_id : string.

(** The text that a failed run stores as its error. *)
Lemma error_text_not_empty exc :
  (let msg := Py.strip (Main.exn_str exc) in
   if Py.truthy msg then Main.exn_class_name exc +:+ ": " +:+ msg
   else Main.exn_class_name exc) <> "".
Proof.
  cbv zeta. destruct (Py.truthy _); destruct exc; discriminate.
Qed.

(** The handler of [_run_baseline_background], from the state in which
    the run raised. *)
Lemma background_handler_run exc a1 job1 :
  Main._baseline_jobs a1 !! job_id = Some job1 ->
  let error_ :=
    let msg := Py.strip (Main.exn_str exc) in
    if Py.truthy msg then Main.exn_class_name exc +:+ ": " +:+ msg
    else Main.exn_class_name exc in
  let failed :=
    Main.job_failed error_ (Main.utc_now env (Main.tick a1))
      (Main.utc_now env (S (Main.tick a1))) job1 in
  (job ← Main.get_job job_id;
   let msg := Py.strip (Main.exn_str exc) in
   let error_ := if Py.truthy msg
                 then Main.exn_class_name exc +:+ ": " +:+ msg
                 else Main.exn_class_name exc in
   completed_at_ ← Main.next (Main.utc_now env);
   updated_at_ ← Main.next (Main.utc_now env);
   _ ← Main.set_job job_id (Main.job_failed error_ completed_at_ updated_at_ job);
   Main._append_baseline_event env job_id ("Baseline failed: " +:+ error_)) a1
  = (Py.Ok tt,
     {| Main.store := Main.store a1;
        Main._baseline_jobs :=
          <[job_id := Main.with_events
                        (Main.append_bounded (Main.events job1)
                           ("Baseline failed: " +:+ error_))
                        (Main.utc_now env (S (S (Main.tick a1)))) failed]>
            (Main._baseline_jobs a1);
        Main.llm_calls := Main.llm_calls a1;
        Main.tick := S (S (S (Main.tick a1))) |}).
Proof.
  intros Hjob1. cbv zeta.
  rewrite (M_bind_run _ _ _ _ _ (get_job_run _ _ _ Hjob1)).
  erewrite M_bind_run by reflexivity.
  erewrite M_bind_run by reflexivity.
  unfold Main.set_job, M_modify.
  erewrite M_bind_run by reflexivity.
  erewrite append_event_run
    by (cbn [Main._baseline_jobs Main.with_jobs]; apply lookup_insert_eq).
  cbn [Main._baseline_jobs Main.with_jobs Main.store Main.llm_calls Main.tick
       Main.events Main.job_failed].
  by rewrite insert_insert_eq.
Qed.

End Outcomes.

(** X16.  A run that fails is recorded as failed.  When the run of a job
    raises, the background task itself returns normally; the job then has
    status ["failed"], its error is the class name of the exception,
    followed by the trimmed message when there is one, and is never
    empty, a completion time is set, and the last event reports the
    failure.  The result is still absent, the counter and the current
    step are those reached when the run raised, and no other job is
    touched. *)
Theorem failed_run_is_recorded
    (env : Main.Env) (job_id : string) (a a1 : Main.App) (job : Main.Job)
    (exc : Py.exn) :
  Main._baseline_jobs a !! job_id = Some job ->
  Main._execute_baseline env job_id (Main.enforce_max_response_tokens job) a
  = (Py.Raise exc, a1) ->
  let text :=
    let msg := Py.strip (Main.exn_str exc) in
    if Py.truthy msg then Main.exn_class_name exc +:+ ": " +:+ msg
    else Main.exn_class_name exc in
  exists a' job1 job',
    Main._run_baseline_background env job_id a = (Py.Ok tt, a')
    /\ Main._baseline_jobs a1 !! job_id = Some job1
    /\ Main._baseline_jobs a' !! job_id = Some job'
    /\ Main.status job' = "failed"
    /\ Main.error job' = Some text
    /\ text <> ""
    /\ is_Some (Main.completed_at job')
    /\ last (Main.events job') = Some ("Baseline failed: " +:+ text)
    /\ Main.result job' = Main.result job
    /\ Main.total_calls job' = Main.total_calls job
    /\ Main.completed_calls job' = Main.completed_calls job1
    /\ Main.current_step job' = Main.current_step job1
    /\ (0 <= Main.completed_calls job <= Main.total_calls job ->
        Main.completed_calls job <= Main.completed_calls job' <= Main.total_calls job)
    /\ (forall other, other <> job_id ->
          Main._baseline_jobs a' !! other = Main._baseline_jobs a !! other)
    /\ Main.llm_calls a' = Main.llm_calls a1
    /\ Main.store a' = Main.store a1.
Proof.
  intros Hjob Hexec text.
  destruct (evolves_execute_baseline env job_id _ a _ a1 Hexec) as [Ho Hj].
  rewrite Hjob in Hj. destruct Hj as (job1 & Hj1 & Hr).
  apply job_update_invariants in Hr
    as (_ & _ & Ht & _ & _ & _ & _ & Hres & _ & _ & Hcc).
  unfold Main._run_baseline_background, Main.try_except.
  rewrite (M_bind_run _ _ _ _ _ (get_job_run _ _ _ Hjob)).
  rewrite (M_bind_Raise _ _ _ _ _ Hexec).
  pose proof (background_handler_run env job_id exc a1 job1 Hj1) as Hh.
  cbv zeta in Hh. rewrite Hh. clear Hh. subst text.
  eexists _, job1, _. split; [reflexivity|].
  split; [exact Hj1|].
  cbn [Main._baseline_jobs]. split; [apply lookup_insert_eq|].
  cbn [Main.status Main.error Main.completed_at Main.events Main.result
       Main.total_calls Main.completed_calls Main.current_step
       Main.with_events Main.job_failed Main.llm_calls Main.store].
  split; [reflexivity|]. split; [reflexivity|].
  split; [apply error_text_not_empty|].
  split; [by eexists|].
  split; [apply append_bounded_spec|].
  split; [exact Hres|]. split; [exact Ht|].
  split; [reflexivity|]. split; [reflexivity|].
  split; [exact Hcc|].
  split; [|split; reflexivity].
  intros other Hne. rewrite lookup_insert_ne by done. by apply Ho.
Qed.

Lemma failed_run_is_recorded_witness :
  exists a' job',
    Main._run_baseline_background
      (Examples.env 4096 Examples.two_components (Examples.failing_backend 4))
      "uuid-0"
      (snd (Main.start_baseline
              (Examples.env 4096 Examples.two_components
                            (Examples.failing_backend 4))
              {| Models.enforce_max_response_tokens := true |}
              (Examples.app Examples.two_profiles)))
    = (Py.Ok tt, a')
    /\ Main._baseline_jobs a' !! "uuid-0" = Some job'
    /\ Main.status job' = "failed"
    /\ Main.error job' = Some "RuntimeError: Invalid Ollama response format"
    /\ Main.completed_calls job' = 4.
Proof.
  set (env0 := Examples.env 4096 Examples.two_components (Examples.failing_backend 4)).
  set (a0 := snd (Main.start_baseline env0
                    {| Models.enforce_max_response_tokens := true |}
                    (Examples.app Examples.two_profiles))).
  destruct (Main._baseline_jobs a0 !! "uuid-0") as [job|] eqn:Hjob;
    [|vm_compute in Hjob; discriminate].
  assert (Henf : Main.enforce_max_response_tokens job = true).
  { vm_compute in Hjob. injection Hjob as <-. reflexivity. }
  destruct (Main._execute_baseline env0 "uuid-0"
              (Main.enforce_max_response_tokens job) a0) as [[r|exc|] a1] eqn:He;
    [rewrite Henf in He; vm_compute in He; discriminate
    | | rewrite Henf in He; vm_compute in He; discriminate].
  destruct (failed_run_is_recorded env0 "uuid-0" a0 a1 job exc Hjob He)
    as (a' & job1 & job' & Hrun & Hj1 & Hj' & Hs & Herr & _ & _ & _ & _ & _
        & Hc & _).
  rewrite Henf in He. vm_compute in He. injection He as <- <-.
  exists a', job'. split; [exact Hrun|]. split; [exact Hj'|].
  split; [exact Hs|]. split; [rewrite Herr; reflexivity|].
  rewrite Hc. vm_compute in Hj1. injection Hj1 as <-. reflexivity.
Defined.

Section Completion.

Variable env : Main.Env.

Lemma M_bind_OutOfFuel {W A B : Type} (m : M W A) (k : A -> M W B) (w w1 : W) :
  m w = (Py.OutOfFuel, w1) -> (m ≫= k) w = (Py.OutOfFuel, w1).
Proof. intros H. unfold mbind, M_mbind, M_bind. by rewrite H. Qed.

(** [start_baseline], with the job that it puts in the table. *)
Lemma start_baseline_trace payload a :
  Main.start_baseline env payload a
  = (Py.Ok {| Models.start_job_id := Main.uuid4 env (Main.tick a);
              Models.start_status := "running" |},
     {| Main.store := Main.store a;
        Main._baseline_jobs :=
          <[Main.uuid4 env (Main.tick a) :=
              Main.with_events
                (Main.append_bounded ["Baseline run started"]
                   (if Models.enforce_max_response_tokens payload
                    then "Mode: enforcing max response tokens"
                    else "Mode: no max response token cap"))
                (Main.utc_now env (S (S (Main.tick a))))
                (Main.new_job env (Main.utc_now env (S (Main.tick a)))
                              "Baseline run started" payload)]>
            (Main._baseline_jobs a);
        Main.llm_calls := Main.llm_calls a;
        Main.tick := S (S (S (Main.tick a))) |}).
Proof.
  unfold Main.start_baseline.
  erewrite M_bind_run by reflexivity. cbv beta.
  erewrite M_bind_run by reflexivity.
  unfold Main.set_job at 1, M_modify.
  erewrite M_bind_run by reflexivity.
  destruct (Models.enforce_max_response_tokens payload) eqn:Hmode.
  all: erewrite M_bind_run;
    [|apply append_event_run; cbn [Main._baseline_jobs Main.with_jobs];
      apply lookup_insert_eq].
  all: cbn [Main._baseline_jobs Main.with_jobs Main.store Main.llm_calls Main.tick
            Main.events Main.new_job].
  all: by rewrite insert_insert_eq.
Qed.

(** The end of [_run_baseline_background] after a run that returned. *)
Lemma background_completion_run job_id result_ a1 job1 :
  Main._baseline_jobs a1 !! job_id = Some job1 ->
  (job ← Main.get_job job_id;
   completed_at_ ← Main.next (Main.utc_now env);
   updated_at_ ← Main.next (Main.utc_now env);
   _ ← Main.set_job job_id (Main.job_completed result_ completed_at_ updated_at_ job);
   Main._append_baseline_event env job_id "Baseline run completed") a1
  = (Py.Ok tt,
     {| Main.store := Main.store a1;
        Main._baseline_jobs :=
          <[job_id := Main.with_events
                        (Main.append_bounded (Main.events job1)
                                             "Baseline run completed")
                        (Main.utc_now env (S (S (Main.tick a1))))
                        (Main.job_completed result_
                           (Main.utc_now env (Main.tick a1))
                           (Main.utc_now env (S (Main.tick a1))) job1)]>
            (Main._baseline_jobs a1);
        Main.llm_calls := Main.llm_calls a1;
        Main.tick := S (S (S (Main.tick a1))) |}).
Proof.
  intros Hjob1.
  rewrite (M_bind_run _ _ _ _ _ (get_job_run _ _ _ Hjob1)).
  erewrite M_bind_run by reflexivity.
  erewrite M_bind_run by reflexivity.
  unfold Main.set_job, M_modify.
  erewrite M_bind_run by reflexivity.
  erewrite append_event_run
    by (cbn [Main._baseline_jobs Main.with_jobs]; apply lookup_insert_eq).
  cbn [Main._baseline_jobs Main.with_jobs Main.store Main.llm_calls Main.tick
       Main.events Main.job_completed].
  by rewrite insert_insert_eq.
Qed.

(** [run_baseline] unfolded around its run of the baseline. *)
Lemma run_baseline_trace payload a r a1 job1 :
  let job_id := "direct-" +:+ Main.uuid4 env (Main.tick a) in
  let job0 :=
    Main.with_events
      (Main.append_bounded ["Baseline run started (direct)"]
         (if Models.enforce_max_response_tokens payload
          then "Mode: enforcing max response tokens"
          else "Mode: no max response token cap"))
      (Main.utc_now env (S (S (Main.tick a))))
      (Main.new_job env (Main.utc_now env (S (Main.tick a)))
                    "Baseline run started (direct)" payload) in
  Main._execute_baseline env job_id (Models.enforce_max_response_tokens payload)
    {| Main.store := Main.store a;
       Main._baseline_jobs := <[job_id := job0]> (Main._baseline_jobs a);
       Main.llm_calls := Main.llm_calls a;
       Main.tick := S (S (S (Main.tick a))) |}
  = (r, a1) ->
  Main._baseline_jobs a1 !! job_id = Some job1 ->
  Main.run_baseline env payload a
  = match r with
    | Py.Ok response =>
        (Py.Ok response,
         {| Main.store := Main.store a1;
            Main._baseline_jobs :=
              <[job_id :=
                  {| Main.status := "completed";
                     Main.model := Main.model job1;
                     Main.total_calls := Main.total_calls job1;
                     Main.completed_calls := Main.completed_calls job1;
                     Main.current_step := Main.current_step job1;
                     Main.started_at := Main.started_at job1;
                     Main.updated_at := Main.utc_now env (S (Main.tick a1));
                     Main.completed_at := Some (Main.utc_now env (Main.tick a1));
                     Main.duration_ms := Some (Models.run_duration_ms response);
                     Main.events := Main.events job1;
                     Main.error := Main.error job1;
                     Main.result := Some response;
                     Main.enforce_max_response_tokens :=
                       Main.enforce_max_response_tokens job1 |}]>
                (Main._baseline_jobs a1);
            Main.llm_calls := Main.llm_calls a1;
            Main.tick := S (S (Main.tick a1)) |})
    | Py.Raise e => (Py.Raise e, a1)
    | Py.OutOfFuel => (Py.OutOfFuel, a1)
    end.
Proof.
  intros job_id job0 Hexec Hj1.
  unfold Main.run_baseline.
  erewrite M_bind_run by reflexivity. cbv beta zeta.
  erewrite M_bind_run by reflexivity.
  unfold Main.set_job at 1, M_modify.
  erewrite M_bind_run by reflexivity.
  subst job0.
  destruct (Models.enforce_max_response_tokens payload) eqn:Hmode.
  all: erewrite M_bind_run;
    [|apply append_event_run; cbn [Main._baseline_jobs Main.with_jobs];
      apply lookup_insert_eq].
  all: cbn [Main._baseline_jobs Main.with_jobs Main.store Main.llm_calls Main.tick
            Main.events Main.new_job].
  all: rewrite insert_insert_eq.
  all: destruct r as [response|e|];
    [|exact (M_bind_Raise _ _ _ _ _ Hexec)|exact (M_bind_OutOfFuel _ _ _ _ Hexec)].
  all: rewrite (M_bind_run _ _ _ _ _ Hexec).
  all: rewrite (M_bind_run _ _ _ _ _ (get_job_run _ _ _ Hj1)).
  all: erewrite M_bind_run by reflexivity.
  all: erewrite M_bind_run by reflexivity.
  all: unfold Main.set_job, M_modify.
  all: erewrite M_bind_run by reflexivity.
  all: reflexivity.
Qed.

End Completion.



(** X18.  The direct run.  [run_baseline] files its job under the key
    ["direct-<uuid>"] and touches no other job.  When it returns, the
    response has 34 calls, the backend was called 34 times, and the job
    is ["completed"] with all 34 calls counted, no error, the response as
    its result and the duration of the response.  When the run does not
    return, nothing catches the failure: the job stays in the table with
    status ["running"], no error text, no result and no completion
    time. *)
Theorem run_baseline_direct_outcome
    (env : Main.Env) (payload : Models.BaselineStartRequest) (a : Main.App) :
  let job_id := "direct-" +:+ Main.uuid4 env (Main.tick a) in
  let out := Main.run_baseline env payload a in
  (forall other, other <> job_id ->
     Main._baseline_jobs (snd out) !! other = Main._baseline_jobs a !! other)
  /\ exists job,
       Main._baseline_jobs (snd out) !! job_id = Some job
       /\ Main.total_calls job = 34
       /\ Main.error job = None
       /\ match fst out with
          | Py.Ok response =>
              Models.run_total_calls response = 34
              /\ Main.llm_calls (snd out) = (Main.llm_calls a + 34)%nat
              /\ Main.status job = "completed"
              /\ Main.completed_calls job = 34
              /\ Main.result job = Some response
              /\ Main.duration_ms job = Some (Models.run_duration_ms response)
              /\ Main.completed_at job <> None
          | _ =>
              Main.status job = "running"
              /\ Main.result job = None
              /\ Main.completed_at job = None
              /\ 0 <= Main.completed_calls job <= 34
          end.
Proof.
  intros job_id out. subst out.
  pose proof (run_baseline_trace env payload a) as Htrace.
  cbv zeta in Htrace. fold job_id in Htrace.
  match type of Htrace with
  | context [<[job_id := ?j]> _] => set (job0 := j) in *
  end.
  match type of Htrace with
  | context [Main._execute_baseline _ _ _ ?s] => set (a0 := s) in *
  end.
  assert (Hj0 : Main._baseline_jobs a0 !! job_id = Some job0)
    by apply lookup_insert_eq.
  destruct (Main._execute_baseline env job_id
              (Models.enforce_max_response_tokens payload) a0)
    as [r a1] eqn:Hexec.
  destruct (evolves_execute_baseline env job_id _ a0 _ a1 Hexec) as [Hothers Hev].
  rewrite Hj0 in Hev. destruct Hev as (job1 & Hj1 & Hr).
  apply job_update_invariants in Hr
    as (Hst & _ & Htot & _ & Hcomp & _ & Herr & Hres & _ & _ & Hcount).
  assert (Hc0 : Main.completed_calls job0 = 0) by reflexivity.
  assert (Ht0 : Main.total_calls job0 = 34) by reflexivity.
  assert (He0 : Main.error job0 = None) by reflexivity.
  rewrite Hc0, Ht0 in Hcount. rewrite Ht0 in Htot. rewrite He0 in Herr.
  assert (Hbounds : 0 <= Main.completed_calls job1 <= 34) by lia.
  assert (Hkeep : forall other, other <> job_id ->
            Main._baseline_jobs a1 !! other = Main._baseline_jobs a !! other).
  { intros other Hother. rewrite (Hothers other Hother).
    apply lookup_insert_ne. congruence. }
  rewrite (Htrace r a1 job1 eq_refl Hj1). clear Htrace.
  destruct r as [response|e|]; cbn [fst snd Main._baseline_jobs Main.llm_calls].
  - destruct (execute_baseline_Ok env job_id _ a0 a1 response Hexec)
      as (_ & Htotal & Hcalls & _).
    destruct (execute_baseline_counts env job_id _ a0 a1 response Hexec)
      as [_ Hadv].
    destruct (Hadv job0 Hj0) as (job1' & Hj1' & _ & Hc1).
    rewrite Hj1 in Hj1'. injection Hj1' as <-.
    split.
    { intros other Hother. rewrite lookup_insert_ne by congruence. auto. }
    eexists. split; [apply lookup_insert_eq|].
    cbn [Main.status Main.error Main.completed_at Main.result Main.total_calls
         Main.completed_calls Main.duration_ms].
    split; [exact Htot|].
    split; [exact Herr|].
    split; [exact Htotal|].
    split; [rewrite Hcalls; reflexivity|].
    split; [reflexivity|].
    split; [rewrite Hc1; reflexivity|].
    split; [reflexivity|]. split; [reflexivity | discriminate].
  - split; [exact Hkeep|]. exists job1. split; [exact Hj1|].
    split; [exact Htot|].
    split; [exact Herr|].
    split; [rewrite Hst; reflexivity|].
    split; [rewrite Hres; reflexivity|].
    split; [rewrite Hcomp; reflexivity | exact Hbounds].
  - split; [exact Hkeep|]. exists job1. split; [exact Hj1|].
    split; [exact Htot|].
    split; [exact Herr|].
    split; [rewrite Hst; reflexivity|].
    split; [rewrite Hres; reflexivity|].
    split; [rewrite Hcomp; reflexivity | exact Hbounds].
Qed.

(** ** The chat history *)

Section HistoryOrder.

Context {A : Type} (le : A -> A -> bool).

Lemma insert_by_snoc (x y : A) (s : list A) :
  le x y = true ->
  Storage.insert_by le x (s ++ [y]) = Storage.insert_by le x s ++ [y].
Proof.
  intros Hxy. induction s as [|z s IH]; cbn [Storage.insert_by app].
  - by rewrite Hxy.
  - destruct (le x z); [reflexivity|]. by rewrite IH.
Qed.

(** A row that no earlier row has to follow stays last. *)
Lemma order_by_snoc (l : list A) (y : A) :
  Forall (fun x => le x y = true) l ->
  Storage.order_by le (l ++ [y]) = Storage.order_by le l ++ [y].
Proof.
  unfold Storage.order_by. induction 1 as [|x l Hx _ IH]; [reflexivity|].
  cbn [app foldr]. rewrite IH. by apply insert_by_snoc.
Qed.

Lemma insert_by_perm (x : A) (l : list A) :
  Permutation (Storage.insert_by le x l) (x :: l).
Proof.
  induction l as [|y l IH]; cbn [Storage.insert_by]; [reflexivity|].
  destruct (le x y); [reflexivity|].
  rewrite IH. apply perm_swap.
Qed.

Lemma order_by_perm (l : list A) : Permutation (Storage.order_by le l) l.
Proof.
  unfold Storage.order_by. induction l as [|x l IH]; [reflexivity|].
  cbn [foldr]. rewrite insert_by_perm. by constructor.
Qed.

Lemma order_by_length (l : list A) :
  length (Storage.order_by le l) = length l.
Proof. apply Permutation_length, order_by_perm. Qed.

Hypothesis le_total : forall a b, le a b = true \/ le b a = true.

Lemma insert_by_sorted (x : A) (l : list A) :
  Sorted (fun a b => le a b = true) l ->
  Sorted (fun a b => le a b = true) (Storage.insert_by le x l).
Proof.
  induction 1 as [|y l Hl IH Hy]; cbn [Storage.insert_by].
  - repeat constructor.
  - destruct (le x y) eqn:Hxy.
    + constructor; [by constructor | by constructor].
    + constructor; [exact IH|].
      assert (Hyx : le y x = true) by (destruct (le_total x y); congruence).
      destruct Hy as [|z l Hyz]; cbn [Storage.insert_by].
      * by constructor.
      * destruct (le x z); by constructor.
Qed.

Lemma order_by_sorted (l : list A) :
  Sorted (fun a b => le a b = true) (Storage.order_by le l).
Proof.
  unfold Storage.order_by. induction l as [|x l IH]; [constructor|].
  cbn [foldr]. by apply insert_by_sorted.
Qed.

End HistoryOrder.

Section History.

Implicit Types (db : Storage.ConversationTables) (conversation_id : string).

Lemma existsb_eqb_elem_of {A : Type} (key : A -> string) (k : string) (l : list A) :
  existsb (fun r => String.eqb (key r) k) l = true <-> k ∈ map key l.
Proof.
  rewrite existsb_exists, list_elem_of_fmap. split.
  - intros (r & Hr & Hk). apply String.eqb_eq in Hk.
    exists r. split; [done | by apply list_elem_of_In].
  - intros (r & -> & Hr). exists r.
    split; [by apply list_elem_of_In | apply String.eqb_refl].
Qed.

Lemma find_update_conversation conversation_id other title now rows :
  List.find (fun r => String.eqb (Storage.cv_id r) other)
            (Storage.update_conversation conversation_id title now rows)
  = (fun r =>
       if String.eqb (Storage.cv_id r) conversation_id then
         {| Storage.cv_id := Storage.cv_id r;
            Storage.cv_title := default (Storage.cv_title r) title;
            Storage.cv_created_at := Storage.cv_created_at r;
            Storage.cv_updated_at := default (Storage.cv_updated_at r) now |}
       else r)
    <$> List.find (fun r => String.eqb (Storage.cv_id r) other) rows.
Proof.
  unfold Storage.update_conversation. apply find_map_stable.
  intros r. by destruct (String.eqb (Storage.cv_id r) conversation_id).
Qed.

Lemma ids_update_conversation conversation_id title now rows :
  map Storage.cv_id (Storage.update_conversation conversation_id title now rows)
  = map Storage.cv_id rows.
Proof.
  unfold Storage.update_conversation. rewrite map_map. apply map_ext.
  intros r. by destruct (String.eqb (Storage.cv_id r) conversation_id).
Qed.

Lemma ensure_conversation_ids conversation_id db db' :
  map Storage.cv_id (Storage.conversations db')
  = map Storage.cv_id (Storage.conversations db) ->
  Storage.ensure_conversation conversation_id db'
  = Storage.ensure_conversation conversation_id db.
Proof.
  intros Hids. unfold Storage.ensure_conversation.
  apply eq_true_iff_eq. by rewrite !existsb_eqb_elem_of, Hids.
Qed.

Lemma get_messages_same conversation_id db db' :
  Storage.messages db' = Storage.messages db ->
  Storage.get_messages conversation_id db'
  = Storage.get_messages conversation_id db.
Proof. unfold Storage.get_messages. by intros ->. Qed.

(** The messages of a conversation after one more row, stamped no earlier
    than the rows before it. *)
Lemma get_messages_snoc conversation_id (row : Storage.message_row) db :
  Spec.clock_after (Storage.mr_created_at row) db ->
  Storage.get_messages conversation_id
    (Storage.with_messages (Storage.messages db ++ [row]) db)
  = Storage.get_messages conversation_id db
    ++ (if String.eqb (Storage.mr_conversation_id row) conversation_id
        then [Storage.to_message row] else []).
Proof.
  intros Hclock. unfold Storage.get_messages.
  cbn [Storage.messages Storage.with_messages].
  rewrite List.filter_app. cbn [List.filter].
  destruct (String.eqb _ conversation_id); [|by rewrite !app_nil_r].
  rewrite order_by_snoc, map_app; [reflexivity|].
  apply List.Forall_forall. intros m Hm. apply filter_In in Hm as [Hm _].
  unfold Spec.clock_after in Hclock. rewrite List.Forall_forall in Hclock.
  specialize (Hclock m Hm). unfold String.ltb in Hclock. unfold String.leb.
  by destruct (String.compare _ _).
Qed.

End History.

(** X19.  A stored message is the last one read back.  When the clock is
    past the time of every stored message, [add_message] either stores the
    message, and then [get_messages] of its conversation returns the
    messages it returned before followed by the new one, the count of the
    conversation grows by one, the conversation, if it is stored, carries
    the time of the message as its update time and keeps its title, and
    the messages of every other conversation are as before; or the drawn
    id is taken, and then the call raises and stores nothing. *)
Theorem add_message_then_get_messages
    (conversation_id role content uuid now : string)
    (db : Storage.ConversationTables) :
  Spec.clock_after now db ->
  match Storage.add_message conversation_id role content uuid now db with
  | (Py.Ok message, db') =>
      message = {| Storage.msg_id := uuid; Storage.msg_role := role;
                   Storage.msg_content := content;
                   Storage.msg_created_at := now |}
      /\ Storage.get_messages conversation_id db'
         = Storage.get_messages conversation_id db ++ [message]
      /\ Storage.message_count conversation_id db'
         = Storage.message_count conversation_id db + 1
      /\ (forall other, other <> conversation_id ->
            Storage.get_messages other db' = Storage.get_messages other db)
      /\ (forall other,
            Storage.ensure_conversation other db'
            = Storage.ensure_conversation other db)
      /\ (forall title updated_at history,
            Storage.get_conversation_detail conversation_id db
            = Some (title, updated_at, history) ->
            Storage.get_conversation_detail conversation_id db'
            = Some (title, now, history ++ [message]))
  | (Py.Raise e, db') =>
      db' = db /\ uuid ∈ map Storage.mr_id (Storage.messages db)
  | (Py.OutOfFuel, _) => False
  end.
Proof.
  intros Hclock. unfold Storage.add_message.
  destruct (existsb _ (Storage.messages db)) eqn:Hid.
  { split; [reflexivity|]. by apply existsb_eqb_elem_of in Hid. }
  set (row := {| Storage.mr_id := uuid |}).
  pose proof (get_messages_snoc conversation_id row db Hclock) as Hown.
  cbn [Storage.mr_conversation_id row] in Hown.
  rewrite String.eqb_refl in Hown.
  split; [reflexivity|].
  split; [exact Hown|].
  split.
  { unfold Storage.message_count.
    cbn [Storage.messages Storage.with_messages Storage.with_conversations].
    rewrite List.filter_app, length_app. cbn [List.filter Storage.mr_conversation_id row].
    rewrite String.eqb_refl. cbn [length]. lia. }
  split.
  { intros other Hother.
    rewrite (get_messages_same other (Storage.with_messages
                                        (Storage.messages db ++ [row]) db))
      by reflexivity.
    rewrite (get_messages_snoc other row db Hclock).
    cbn [Storage.mr_conversation_id row].
    apply String.eqb_neq in Hother. rewrite String.eqb_sym in Hother.
    rewrite Hother. apply app_nil_r. }
  split.
  { intros other. apply ensure_conversation_ids.
    cbn [Storage.conversations Storage.with_conversations].
    apply ids_update_conversation. }
  intros title updated_at history. unfold Storage.get_conversation_detail.
  cbn [Storage.conversations Storage.with_conversations].
  rewrite find_update_conversation.
  destruct (List.find _ (Storage.conversations db)) as [convo|] eqn:Hfind;
    [|discriminate].
  apply find_some in Hfind as [_ Hconvo].
  intros [= <- <- <-]. cbn [fmap option_fmap option_map].
  rewrite Hconvo. cbn [Storage.cv_title Storage.cv_updated_at default].
  do 2 f_equal. exact Hown.
Qed.

Lemma add_message_then_get_messages_witness :
  Storage.get_messages "c1"
    (snd (Storage.add_message "c1" "user" "Again" "m3" "2024-01-01T00:00:03"
                              Examples.chat_tables))
  = [ {| Storage.msg_id := "m1"; Storage.msg_role := "user";
         Storage.msg_content := "Hello";
         Storage.msg_created_at := "2024-01-01T00:00:01" |};
      {| Storage.msg_id := "m2"; Storage.msg_role := "assistant";
         Storage.msg_content := "Hi";
         Storage.msg_created_at := "2024-01-01T00:00:02" |};
      {| Storage.msg_id := "m3"; Storage.msg_role := "user";
         Storage.msg_content := "Again";
         Storage.msg_created_at := "2024-01-01T00:00:03" |} ].
Proof.
  pose proof (add_message_then_get_messages
                "c1" "user" "Again" "m3" "2024-01-01T00:00:03"
                Examples.chat_tables) as H.
  destruct (Storage.add_message "c1" "user" "Again" "m3" "2024-01-01T00:00:03"
                                Examples.chat_tables) as [[message| |] db'] eqn:Hrun;
    try discriminate Hrun.
  destruct H as (-> & Hget & _); [repeat constructor|].
  cbn [snd]. rewrite Hget. reflexivity.
Defined.

Section Deletion.

Context {A : Type} (key : A -> string).

Lemma find_filter_other (k other : string) (l : list A) :
  other <> k ->
  List.find (fun r => String.eqb (key r) other)
            (List.filter (fun r => negb (String.eqb (key r) k)) l)
  = List.find (fun r => String.eqb (key r) other) l.
Proof.
  intros Hother. induction l as [|r l IH]; [reflexivity|].
  cbn [List.filter List.find].
  destruct (String.eqb_spec (key r) k) as [Hk|Hk]; cbn [negb List.find].
  - rewrite IH. destruct (String.eqb_spec (key r) other); congruence.
  - by rewrite IH.
Qed.

Lemma filter_filter_other (k other : string) (l : list A) :
  other <> k ->
  List.filter (fun r => String.eqb (key r) other)
              (List.filter (fun r => negb (String.eqb (key r) k)) l)
  = List.filter (fun r => String.eqb (key r) other) l.
Proof.
  intros Hother. rewrite filter_filter_andb. apply List.filter_ext.
  intros r. destruct (String.eqb_spec (key r) k) as [Hk|Hk]; [|reflexivity].
  destruct (String.eqb_spec (key r) other); [congruence | reflexivity].
Qed.

Lemma filter_filter_same (k : string) (l : list A) :
  List.filter (fun r => String.eqb (key r) k)
              (List.filter (fun r => negb (String.eqb (key r) k)) l)
  = [].
Proof.
  rewrite filter_filter_andb.
  induction l as [|r l IH]; [reflexivity|]. cbn [List.filter].
  by destruct (String.eqb (key r) k).
Qed.

Lemma existsb_filter_same (k : string) (l : list A) :
  existsb (fun r => String.eqb (key r) k)
          (List.filter (fun r => negb (String.eqb (key r) k)) l)
  = false.
Proof.
  induction l as [|r l IH]; [reflexivity|]. cbn [List.filter].
  destruct (String.eqb (key r) k) eqn:Hk; cbn [negb existsb]; [exact IH|].
  by rewrite Hk, IH.
Qed.

Lemma existsb_filter_other (k other : string) (l : list A) :
  other <> k ->
  existsb (fun r => String.eqb (key r) other)
          (List.filter (fun r => negb (String.eqb (key r) k)) l)
  = existsb (fun r => String.eqb (key r) other) l.
Proof.
  intros Hother. induction l as [|r l IH]; [reflexivity|].
  cbn [List.filter existsb].
  destruct (String.eqb_spec (key r) k) as [Hk|Hk]; cbn [negb existsb].
  - rewrite IH.
    destruct (String.eqb_spec (key r) other); [congruence | reflexivity].
  - by rewrite IH.
Qed.

Lemma existsb_find_none (k : string) (l : list A) :
  existsb (fun r => String.eqb (key r) k) l = false ->
  List.find (fun r => String.eqb (key r) k) l = None.
Proof.
  induction l as [|r l IH]; [reflexivity|]. cbn [existsb List.find].
  destruct (String.eqb (key r) k); [discriminate | exact IH].
Qed.

End Deletion.

(** X20.  Deleting a conversation.  The endpoint answers 404 for an id
    that is not stored and then changes nothing.  Otherwise the
    conversation, its messages and its measured exchanges are gone, every
    other conversation has its detail and its messages as before, the
    exchanges of other conversations are kept, and a second request for
    the same id answers 404. *)
Theorem delete_conversation_outcome
    (conversation_id : string) (db : Storage.ConversationTables) :
  match Main.delete_conversation conversation_id db with
  | (Py.Ok _, db') =>
      Storage.ensure_conversation conversation_id db = true
      /\ Storage.ensure_conversation conversation_id db' = false
      /\ Storage.get_conversation_detail conversation_id db' = None
      /\ Storage.get_messages conversation_id db' = []
      /\ (forall e, e ∈ Storage.performance_exchanges db' <->
                    e ∈ Storage.performance_exchanges db
                    /\ Storage.pe_conversation_id e <> conversation_id)
      /\ (forall other, other <> conversation_id ->
            Storage.ensure_conversation other db'
            = Storage.ensure_conversation other db
            /\ Storage.get_conversation_detail other db'
               = Storage.get_conversation_detail other db
            /\ Storage.get_messages other db' = Storage.get_messages other db)
      /\ Main.delete_conversation conversation_id db'
         = (Py.Raise (Py.HTTPException 404 "Conversation not found"), db')
  | (Py.Raise e, db') =>
      e = Py.HTTPException 404 "Conversation not found"
      /\ db' = db
      /\ Storage.ensure_conversation conversation_id db = false
  | (Py.OutOfFuel, _) => False
  end.
Proof.
  unfold Main.delete_conversation, Storage.delete_conversation,
    mbind, M_mbind, M_bind.
  fold (Storage.ensure_conversation conversation_id db).
  destruct (Storage.ensure_conversation conversation_id db) eqn:Hstored;
    cbn [negb]; [|done].
  set (db' := {| Storage.conversations := _ |}).
  assert (Hgone : Storage.ensure_conversation conversation_id db' = false)
    by apply existsb_filter_same.
  assert (Hothers : forall other, other <> conversation_id ->
            Storage.get_messages other db' = Storage.get_messages other db).
  { intros other Hother. unfold Storage.get_messages. cbn [Storage.messages db'].
    by rewrite (filter_filter_other Storage.mr_conversation_id). }
  split; [reflexivity|]. split; [exact Hgone|].
  split.
  { unfold Storage.get_conversation_detail.
    by rewrite (existsb_find_none Storage.cv_id _ _ Hgone). }
  split.
  { unfold Storage.get_messages. cbn [Storage.messages db'].
    by rewrite (filter_filter_same Storage.mr_conversation_id). }
  split.
  { intros e. cbn [Storage.performance_exchanges db'].
    rewrite !list_elem_of_In, filter_In, negb_true_iff, String.eqb_neq.
    reflexivity. }
  split.
  { intros other Hother. split; [|split; [|by apply Hothers]].
    - by apply (existsb_filter_other Storage.cv_id).
    - unfold Storage.get_conversation_detail. cbn [Storage.conversations db'].
      rewrite (find_filter_other Storage.cv_id) by done.
      by rewrite (Hothers other Hother). }
  fold (Storage.ensure_conversation conversation_id db').
  by rewrite Hgone.
Qed.

Section Titles.

Lemma slice_to_length (n : nat) (s : string) :
  (String.length (Py.slice_to n s) <= n)%nat.
Proof.
  unfold Py.slice_to. revert s.
  induction n as [|n IH]; intros [|c s]; cbn; try lia.
  specialize (IH s). lia.
Qed.

Lemma slice_to_short (n : nat) (s : string) :
  (String.length s <= n)%nat -> Py.slice_to n s = s.
Proof.
  unfold Py.slice_to. revert s.
  induction n as [|n IH]; intros [|c s] Hs; cbn in *; try reflexivity; try lia.
  rewrite IH; [reflexivity | lia].
Qed.

Lemma slice_to_truthy (n : nat) (s : string) :
  Py.truthy s = true -> Py.truthy (Py.slice_to (S n) s) = true.
Proof. by destruct s. Qed.

Lemma slice_to_chars (c : ascii) (n : nat) (s : string) :
  In c (list_ascii_of_string (Py.slice_to n s)) ->
  In c (list_ascii_of_string s).
Proof.
  unfold Py.slice_to. revert s.
  induction n as [|n IH]; intros [|d s]; cbn; try tauto.
  intros [Hd|Hc]; [by left | right; by apply IH].
Qed.

Lemma replace_char_absent (old new : ascii) (s : string) :
  new <> old ->
  ~ In old (list_ascii_of_string (Py.replace_char old new s)).
Proof.
  intros Hnew. induction s as [|c s IH]; cbn; [tauto|].
  intros [Hc|Hc]; [|by apply IH].
  destruct (Ascii.eqb_spec c old); congruence.
Qed.

Lemma replace_char_id (old new : ascii) (s : string) :
  ~ In old (list_ascii_of_string s) -> Py.replace_char old new s = s.
Proof.
  induction s as [|c s IH]; cbn; [reflexivity|].
  intros Hs. destruct (Ascii.eqb_spec c old) as [->|_]; [tauto|].
  rewrite IH; [reflexivity | tauto].
Qed.

Lemma truthy_not_empty (s : string) : Py.truthy s = true <-> s <> "".
Proof. destruct s; cbn; split; congruence. Qed.

(** The title that a first message gives. *)
Lemma title_of_message_bounds (text : string) :
  Spec.title_of_message text <> ""
  /\ (String.length (Spec.title_of_message text) <= 48)%nat
  /\ ~ In (ascii_of_nat 10) (list_ascii_of_string (Spec.title_of_message text))
  /\ (Py.strip text = "" -> Spec.title_of_message text = "New Conversation")
  /\ (Py.strip text <> "" ->
      (String.length (Py.strip text) <= 48)%nat ->
      ~ In (ascii_of_nat 10) (list_ascii_of_string (Py.strip text)) ->
      Spec.title_of_message text = Py.strip text).
Proof.
  unfold Spec.title_of_message, Py.or_else.
  set (cut := Py.slice_to 48 _).
  assert (Hlen : (String.length cut <= 48)%nat) by apply slice_to_length.
  assert (Hnl : ~ In (ascii_of_nat 10) (list_ascii_of_string cut)).
  { intros Hin. apply slice_to_chars in Hin.
    by apply replace_char_absent in Hin. }
  split.
  { destruct (Py.truthy cut) eqn:Hcut; [by apply truthy_not_empty | done]. }
  split.
  { destruct (Py.truthy cut); [exact Hlen | cbn; lia]. }
  split.
  { destruct (Py.truthy cut); [exact Hnl|].
    cbn. intros H. repeat destruct H as [H|H]; try discriminate H. exact H. }
  split.
  { intros Hblank. subst cut. by rewrite Hblank. }
  intros Hfilled Hshort Hline. subst cut.
  rewrite replace_char_id, slice_to_short by assumption.
  apply truthy_not_empty in Hfilled. by rewrite Hfilled.
Qed.

Lemma title_of_update_conversation conversation_id other title now rows db :
  Spec.title_of other
    (Storage.with_conversations
       (Storage.update_conversation conversation_id title now rows) db)
  = (fun old => if String.eqb other conversation_id
                then default old title else old)
    <$> Spec.title_of other (Storage.with_conversations rows db).
Proof.
  unfold Spec.title_of. cbn [Storage.conversations Storage.with_conversations].
  rewrite find_update_conversation.
  destruct (List.find _ rows) as [r|] eqn:Hfind; [|reflexivity].
  apply find_some in Hfind as [_ Hr]. apply String.eqb_eq in Hr. subst other.
  cbn [fmap option_fmap option_map]. by destruct (String.eqb _ _).
Qed.

End Titles.

(** X21.  Titles that come from text are bounded.  When the conversation
    has more than one message, [maybe_set_title_from_message] changes
    nothing; otherwise the stored conversation gets a title that is not
    empty, has at most 48 characters and no line feed: the stripped
    message if that is such a text, and ["New Conversation"] for a blank
    message.  [update_conversation_title] changes nothing for a blank
    title, not even the update time; otherwise the title becomes the
    stripped text cut to 96 characters, which is not empty.  Neither
    touches the title of another conversation or any message. *)
Theorem titles_from_text_are_bounded
    (conversation_id text now : string) (db : Storage.ConversationTables) :
  match Storage.maybe_set_title_from_message conversation_id text db with
  | (Py.Ok _, db') =>
      Storage.messages db' = Storage.messages db
      /\ (forall other, other <> conversation_id ->
            Spec.title_of other db' = Spec.title_of other db)
      /\ if 1 <? Storage.message_count conversation_id db then db' = db
         else
           exists title,
             Spec.title_of conversation_id db'
             = (fun _ => title) <$> Spec.title_of conversation_id db
             /\ title <> ""
             /\ (String.length title <= 48)%nat
             /\ ~ In (ascii_of_nat 10) (list_ascii_of_string title)
             /\ (Py.strip text = "" -> title = "New Conversation")
             /\ (Py.strip text <> "" ->
                 (String.length (Py.strip text) <= 48)%nat ->
                 ~ In (ascii_of_nat 10) (list_ascii_of_string (Py.strip text)) ->
                 title = Py.strip text)
  | _ => False
  end
  /\ match Storage.update_conversation_title conversation_id text now db with
     | (Py.Ok _, db') =>
         Storage.messages db' = Storage.messages db
         /\ (forall other, other <> conversation_id ->
               Spec.title_of other db' = Spec.title_of other db)
         /\ if Py.truthy (Py.strip text) then
              exists title,
                Spec.title_of conversation_id db'
                = (fun _ => title) <$> Spec.title_of conversation_id db
                /\ title <> ""
                /\ (String.length title <= 96)%nat
                /\ String.prefix title (Py.strip text) = true
                /\ ((String.length (Py.strip text) <= 96)%nat ->
                    title = Py.strip text)
            else db' = db
     | _ => False
     end.
Proof.
  assert (Hsame : Storage.with_conversations (Storage.conversations db) db = db)
    by by destruct db.
  assert (Hothers : forall title stamp other,
            other <> conversation_id ->
            Spec.title_of other
              (Storage.with_conversations
                 (Storage.update_conversation conversation_id title stamp
                                              (Storage.conversations db)) db)
            = Spec.title_of other db).
  { intros title stamp other Hother. rewrite title_of_update_conversation, Hsame.
    apply String.eqb_neq in Hother. rewrite Hother.
    by destruct (Spec.title_of other db). }
  assert (Hown : forall title stamp,
            Spec.title_of conversation_id
              (Storage.with_conversations
                 (Storage.update_conversation conversation_id (Some title) stamp
                                              (Storage.conversations db)) db)
            = (fun _ => title) <$> Spec.title_of conversation_id db).
  { intros title stamp. rewrite title_of_update_conversation, Hsame.
    by rewrite String.eqb_refl. }
  split.
  - unfold Storage.maybe_set_title_from_message.
    destruct (1 <? Storage.message_count conversation_id db); [done|].
    split; [reflexivity|]. split; [by apply Hothers|].
    exists (Spec.title_of_message text).
    split; [apply Hown | apply title_of_message_bounds].
  - unfold Storage.update_conversation_title. cbv zeta.
    destruct (Py.truthy (Py.strip text)) eqn:Hfilled; cbn [negb]; [|done].
    split; [reflexivity|]. split; [by apply Hothers|].
    exists (Py.slice_to 96 (Py.strip text)).
    split; [apply Hown|].
    split; [by apply truthy_not_empty, slice_to_truthy|].
    split; [apply slice_to_length|].
    split; [|apply slice_to_short].
    apply String.prefix_correct. unfold Py.slice_to.
    generalize (Py.strip text) as s. intros s. generalize 96%nat as n.
    intros n. revert s.
    induction n as [|n IH]; intros [|c s]; cbn; try reflexivity.
    by rewrite IH.
Qed.

Section HistoryInvariant.

Implicit Types (db : Storage.ConversationTables).

(** A change that keeps the ids of the conversations and of the messages,
    and the conversation of each message. *)
Lemma tables_wf_same_keys db db' :
  map Storage.cv_id (Storage.conversations db')
  = map Storage.cv_id (Storage.conversations db) ->
  map Storage.mr_id (Storage.messages db')
  = map Storage.mr_id (Storage.messages db) ->
  map Storage.mr_conversation_id (Storage.messages db')
  = map Storage.mr_conversation_id (Storage.messages db) ->
  (forall r, r ∈ Storage.conversations db' -> Storage.cv_title r <> "") ->
  Spec.tables_wf db -> Spec.tables_wf db'.
Proof.
  intros Hids Hmids Hrefs Htitles (Hc & Hm & Href & _).
  split; [by rewrite Hids|]. split; [by rewrite Hmids|].
  split; [|exact Htitles].
  intros m Hm'. rewrite (ensure_conversation_ids _ db db' Hids).
  assert (Hin : Storage.mr_conversation_id m
                ∈ map Storage.mr_conversation_id (Storage.messages db'))
    by (apply list_elem_of_fmap; eauto).
  rewrite Hrefs in Hin. apply list_elem_of_fmap in Hin as (m0 & -> & Hm0).
  by apply Href.
Qed.

Lemma tables_wf_update_conversation conversation_id title now db :
  (forall text, title = Some text -> text <> "") ->
  Spec.tables_wf db ->
  Spec.tables_wf
    (Storage.with_conversations
       (Storage.update_conversation conversation_id title now
                                    (Storage.conversations db)) db).
Proof.
  intros Htitle Hwf. apply (tables_wf_same_keys db); try reflexivity;
    [apply ids_update_conversation | | exact Hwf].
  destruct Hwf as (_ & _ & _ & Htitles).
  cbn [Storage.conversations Storage.with_conversations].
  unfold Storage.update_conversation.
  intros r (r0 & -> & Hr0)%list_elem_of_fmap. specialize (Htitles r0 Hr0).
  destruct (String.eqb _ _); [|exact Htitles].
  cbn [Storage.cv_title]. destruct title as [text|]; cbn [default]; auto.
Qed.

Lemma keeps_wf_create_conversation title uuid now :
  Spec.keeps_tables_wf (Storage.create_conversation title uuid now).
Proof.
  intros db r db' Hrun (Hc & Hm & Href & Htitles).
  unfold Storage.create_conversation in Hrun.
  destruct (existsb _ (Storage.conversations db)) eqn:Hid;
    injection Hrun as <- <-; [done|].
  assert (Hfresh : uuid ∉ map Storage.cv_id (Storage.conversations db)).
  { intros Hin. apply existsb_eqb_elem_of in Hin. congruence. }
  split; [|split; [exact Hm|split]].
  - cbn [Storage.conversations Storage.with_conversations].
    rewrite map_app. apply NoDup_app. split; [exact Hc|].
    split; [|apply NoDup_singleton].
    intros id Hid' ->%list_elem_of_singleton. by apply Hfresh.
  - intros m Hm'. specialize (Href m Hm').
    unfold Storage.ensure_conversation in *.
    cbn [Storage.conversations Storage.with_conversations].
    rewrite existsb_app, Href. reflexivity.
  - cbn [Storage.conversations Storage.with_conversations].
    intros r [Hr| ->%list_elem_of_singleton]%elem_of_app; [by apply Htitles|].
    cbn [Storage.cv_title]. unfold Py.or_else.
    destruct (Py.truthy _) eqn:Ht; [by apply truthy_not_empty | done].
Qed.

Lemma keeps_wf_maybe_set_title conversation_id text :
  Spec.keeps_tables_wf
    (Storage.maybe_set_title_from_message conversation_id text).
Proof.
  intros db r db' Hrun Hwf. unfold Storage.maybe_set_title_from_message in Hrun.
  destruct (1 <? _); injection Hrun as <- <-; [exact Hwf|].
  apply tables_wf_update_conversation; [|exact Hwf].
  intros t [= <-]. apply (title_of_message_bounds text).
Qed.

Lemma keeps_wf_update_title conversation_id text now :
  Spec.keeps_tables_wf
    (Storage.update_conversation_title conversation_id text now).
Proof.
  intros db r db' Hrun Hwf. unfold Storage.update_conversation_title in Hrun.
  cbv zeta in Hrun.
  destruct (Py.truthy (Py.strip text)) eqn:Hfilled; cbn [negb] in Hrun;
    injection Hrun as <- <-; [|exact Hwf].
  apply tables_wf_update_conversation; [|exact Hwf].
  intros t [= <-]. by apply truthy_not_empty, slice_to_truthy.
Qed.

Lemma keeps_wf_add_message conversation_id role content uuid now db r db' :
  Storage.add_message conversation_id role content uuid now db = (r, db') ->
  Storage.ensure_conversation conversation_id db = true ->
  Spec.tables_wf db -> Spec.tables_wf db'.
Proof.
  intros Hrun Hstored Hwf. unfold Storage.add_message in Hrun.
  destruct (existsb _ (Storage.messages db)) eqn:Hid;
    injection Hrun as <- <-; [exact Hwf|].
  assert (Hfresh : uuid ∉ map Storage.mr_id (Storage.messages db)).
  { intros Hin. apply existsb_eqb_elem_of in Hin. congruence. }
  set (row := {| Storage.mr_id := uuid |}).
  assert (Hstep : Spec.tables_wf
                    (Storage.with_messages (Storage.messages db ++ [row]) db)).
  { destruct Hwf as (Hc & Hm & Href & Htitles).
    split; [exact Hc|]. split; [|split; [|exact Htitles]].
    - cbn [Storage.messages Storage.with_messages].
      rewrite map_app. apply NoDup_app. split; [exact Hm|].
      split; [|apply NoDup_singleton].
      intros id Hid' ->%list_elem_of_singleton. by apply Hfresh.
    - cbn [Storage.messages Storage.with_messages].
      intros m [Hm'| ->%list_elem_of_singleton]%elem_of_app.
      + exact (Href m Hm').
      + exact Hstored. }
  apply (tables_wf_update_conversation conversation_id None (Some now)) in Hstep;
    [exact Hstep | discriminate].
Qed.

Lemma elem_of_map_filter {A B : Type} (key : A -> B) (p : A -> bool)
    (l : list A) (x : B) :
  x ∈ map key (List.filter p l) -> x ∈ map key l.
Proof.
  intros (r & -> & Hr)%list_elem_of_fmap. apply list_elem_of_fmap.
  exists r. split; [reflexivity|].
  apply list_elem_of_In. apply list_elem_of_In, filter_In in Hr. tauto.
Qed.

Lemma NoDup_map_filter {A B : Type} (key : A -> B) (p : A -> bool) (l : list A) :
  NoDup (map key l) -> NoDup (map key (List.filter p l)).
Proof.
  induction l as [|r l IH]; [done|]. cbn [map List.filter].
  intros [Hr Hl]%NoDup_cons. destruct (p r); [|by apply IH].
  cbn [map]. apply NoDup_cons. split; [|by apply IH].
  intros Hin. by apply Hr, (elem_of_map_filter key p).
Qed.

Lemma keeps_wf_delete_conversation conversation_id :
  Spec.keeps_tables_wf (Storage.delete_conversation conversation_id).
Proof.
  intros db r db' Hrun (Hc & Hm & Href & Htitles).
  unfold Storage.delete_conversation in Hrun.
  destruct (negb _); injection Hrun as <- <-; [done|].
  split; [|split; [|split]]; cbn [Storage.conversations Storage.messages].
  - by apply NoDup_map_filter.
  - by apply NoDup_map_filter.
  - intros m [Hm' Hkept]%list_elem_of_In%filter_In.
    apply negb_true_iff, String.eqb_neq in Hkept.
    unfold Storage.ensure_conversation. cbn [Storage.conversations].
    rewrite (existsb_filter_other Storage.cv_id) by done.
    by apply Href, list_elem_of_In.
  - intros r [Hr _]%list_elem_of_In%filter_In.
    by apply Htitles, list_elem_of_In.
Qed.

Lemma keeps_wf_add_performance_exchange exchange uuid now :
  Spec.keeps_tables_wf (Storage.add_performance_exchange exchange uuid now).
Proof.
  intros db r db' Hrun Hwf. unfold Storage.add_performance_exchange in Hrun.
  destruct (existsb _ _); injection Hrun as <- <-; exact Hwf.
Qed.

End HistoryInvariant.

(** X22.  The chat history stays well formed.  SQLite does not enforce
    the foreign keys of these tables, yet the methods keep what the schema
    intends, however they end: the ids of conversations and of messages
    stay unique, no stored conversation has an empty title, and every
    message belongs to a stored conversation.  This holds for
    [create_conversation], the two methods that set a title,
    [delete_conversation], [add_performance_exchange], and for
    [add_message] when its conversation is stored. *)
Theorem history_methods_keep_tables_wf
    (conversation_id role text uuid now : string) (title : option string)
    (exchange : Storage.StoredPerformanceExchange) :
  Spec.keeps_tables_wf (Storage.create_conversation title uuid now)
  /\ Spec.keeps_tables_wf
       (Storage.maybe_set_title_from_message conversation_id text)
  /\ Spec.keeps_tables_wf
       (Storage.update_conversation_title conversation_id text now)
  /\ Spec.keeps_tables_wf (Storage.delete_conversation conversation_id)
  /\ Spec.keeps_tables_wf (Storage.add_performance_exchange exchange uuid now)
  /\ forall db,
       Storage.ensure_conversation conversation_id db = true ->
       Spec.tables_wf db ->
       Spec.tables_wf
         (snd (Storage.add_message conversation_id role text uuid now db)).
Proof.
  split; [apply keeps_wf_create_conversation|].
  split; [apply keeps_wf_maybe_set_title|].
  split; [apply keeps_wf_update_title|].
  split; [apply keeps_wf_delete_conversation|].
  split; [apply keeps_wf_add_performance_exchange|].
  intros db Hstored Hwf.
  destruct (Storage.add_message conversation_id role text uuid now db)
    as [r db'] eqn:Hrun.
  exact (keeps_wf_add_message _ _ _ _ _ _ _ _ Hrun Hstored Hwf).
Qed.

Lemma history_methods_keep_tables_wf_witness :
  Spec.tables_wf Examples.chat_tables
  /\ Spec.tables_wf
       (snd (Storage.add_message "c1" "user" "Again" "m3" "2024-01-01T00:00:03"
                                 Examples.chat_tables))
  /\ Spec.tables_wf
       (snd (Storage.delete_conversation "c1" Examples.chat_tables)).
Proof.
  assert (Hwf : Spec.tables_wf Examples.chat_tables).
  { split; [|split; [|split]]; cbn.
    - apply NoDup_singleton.
    - apply NoDup_cons. split; [|apply NoDup_singleton].
      by intros [=]%list_elem_of_singleton.
    - intros m [->|[->|[]%elem_of_nil]%elem_of_cons]%elem_of_cons; reflexivity.
    - intros r [->|[]%elem_of_nil]%elem_of_cons. discriminate. }
  destruct (history_methods_keep_tables_wf
              "c1" "user" "Again" "m3" "2024-01-01T00:00:03" None
              (Examples.exchange "e1" "2024-01-01T00:00:02"))
    as (_ & _ & _ & Hdelete & _ & Hadd).
  split; [exact Hwf|]. split; [by apply Hadd|].
  exact (Hdelete _ _ _ (surjective_pairing _) Hwf).
Defined.

Section ChatOpen.

Variables (message message_uuid message_now : string).

Local Abbreviation stored_message :=
  {| Storage.msg_id := message_uuid; Storage.msg_role := "user";
     Storage.msg_content := message; Storage.msg_created_at := message_now |}.

Lemma message_count_same conversation_id (db db' : Storage.ConversationTables) :
  Storage.messages db' = Storage.messages db ->
  Storage.message_count conversation_id db'
  = Storage.message_count conversation_id db.
Proof. unfold Storage.message_count. by intros ->. Qed.

Lemma title_of_same conversation_id (db db' : Storage.ConversationTables) :
  Storage.conversations db' = Storage.conversations db ->
  Spec.title_of conversation_id db' = Spec.title_of conversation_id db.
Proof. unfold Spec.title_of. by intros ->. Qed.

(** The turn from tables [db1] in which the conversation is stored. *)
Lemma chat_turn_outcome conversation_id (db1 : Storage.ConversationTables) :
  Storage.ensure_conversation conversation_id db1 = true ->
  Spec.clock_after message_now db1 ->
  Spec.tables_wf db1 ->
  match (user_message ← Storage.add_message conversation_id "user" message
                          message_uuid message_now;
         _ ← Storage.maybe_set_title_from_message conversation_id message;
         mret (conversation_id, user_message)) db1 with
  | (Py.Ok (id, stored), db') =>
      id = conversation_id
      /\ stored = stored_message
      /\ Storage.ensure_conversation conversation_id db' = true
      /\ Storage.get_messages conversation_id db'
         = Storage.get_messages conversation_id db1 ++ [stored]
      /\ (forall other, other <> conversation_id ->
            Storage.get_messages other db' = Storage.get_messages other db1)
      /\ Spec.tables_wf db'
      /\ Spec.title_of conversation_id db'
         = (if Storage.message_count conversation_id db1 =? 0
            then (fun _ => Spec.title_of_message message)
                 <$> Spec.title_of conversation_id db1
            else Spec.title_of conversation_id db1)
  | (Py.Raise e, db') =>
      db' = db1
      /\ e = Py.IntegrityError "UNIQUE constraint failed: messages.id"
      /\ message_uuid ∈ map Storage.mr_id (Storage.messages db1)
  | (Py.OutOfFuel, _) => False
  end.
Proof.
  intros Hstored Hclock Hwf1.
  destruct (Storage.add_message conversation_id "user" message message_uuid
                                message_now db1) as [r db2] eqn:Hadd.
  pose proof (keeps_wf_add_message _ _ _ _ _ _ _ _ Hadd Hstored Hwf1) as Hwf2.
  pose proof Hadd as Hshape. unfold Storage.add_message in Hshape.
  destruct (existsb _ (Storage.messages db1)) eqn:Hid;
    injection Hshape as <- Hdb2.
  { rewrite (M_bind_Raise _ _ _ _ _ Hadd). subst db2.
    split; [reflexivity|]. split; [reflexivity|].
    by apply existsb_eqb_elem_of. }
  rewrite (M_bind_run _ _ _ _ _ Hadd). clear Hadd.
  set (row := {| Storage.mr_id := message_uuid |}) in Hdb2.
  assert (Hmessages2 : Storage.messages db2 = Storage.messages db1 ++ [row])
    by by subst db2.
  assert (Hids2 : map Storage.cv_id (Storage.conversations db2)
                  = map Storage.cv_id (Storage.conversations db1))
    by (subst db2; apply ids_update_conversation).
  assert (Htitle2 : Spec.title_of conversation_id db2
                    = Spec.title_of conversation_id db1).
  { subst db2. rewrite title_of_update_conversation.
    cbn [default]. rewrite String.eqb_refl.
    rewrite (title_of_same conversation_id db1) by reflexivity.
    by destruct (Spec.title_of conversation_id db1). }
  assert (Hcount2 : Storage.message_count conversation_id db2
                    = Storage.message_count conversation_id db1 + 1).
  { unfold Storage.message_count. rewrite Hmessages2, List.filter_app, length_app.
    cbn [List.filter Storage.mr_conversation_id row].
    rewrite String.eqb_refl. cbn [length]. lia. }
  destruct (Storage.maybe_set_title_from_message conversation_id message db2)
    as [r3 db3] eqn:Hset.
  pose proof (keeps_wf_maybe_set_title _ _ _ _ _ Hset Hwf2) as Hwf3.
  pose proof Hset as Hshape. unfold Storage.maybe_set_title_from_message in Hshape.
  assert (Hr3 : r3 = Py.Ok tt) by (destruct (1 <? _); congruence).
  subst r3. rewrite (M_bind_run _ _ _ _ _ Hset).
  assert (Hmessages3 : Storage.messages db3 = Storage.messages db1 ++ [row])
    by (destruct (1 <? _); injection Hshape as <-; exact Hmessages2).
  assert (Hids3 : map Storage.cv_id (Storage.conversations db3)
                  = map Storage.cv_id (Storage.conversations db1)).
  { destruct (1 <? _); injection Hshape as <-; [exact Hids2|].
    cbn [Storage.conversations Storage.with_conversations].
    by rewrite ids_update_conversation. }
  assert (Hhistory : forall other,
            Storage.get_messages other db3
            = Storage.get_messages other db1
              ++ (if String.eqb conversation_id other
                  then [stored_message] else [])).
  { intros other.
    rewrite (get_messages_same other (Storage.with_messages
                                        (Storage.messages db1 ++ [row]) db1))
      by exact Hmessages3.
    exact (get_messages_snoc other row db1 Hclock). }
  split; [reflexivity|]. split; [reflexivity|].
  split; [by rewrite (ensure_conversation_ids _ db1 db3 Hids3)|].
  split; [by rewrite Hhistory, String.eqb_refl|].
  split.
  { intros other Hother. rewrite Hhistory.
    apply not_eq_sym, String.eqb_neq in Hother. rewrite Hother.
    apply app_nil_r. }
  split; [exact Hwf3|].
  rewrite Hcount2 in Hshape.
  assert (Hnat : 0 <= Storage.message_count conversation_id db1)
    by (unfold Storage.message_count; lia).
  destruct (Z.eqb_spec (Storage.message_count conversation_id db1) 0) as [H0|H0].
  - rewrite H0 in Hshape. cbn in Hshape. injection Hshape as <-.
    rewrite title_of_update_conversation. cbn [default].
    rewrite String.eqb_refl.
    rewrite (title_of_same conversation_id db2) by reflexivity.
    by rewrite Htitle2.
  - destruct (Z.ltb_spec 1 (Storage.message_count conversation_id db1 + 1));
      [|lia].
    injection Hshape as <-. exact Htitle2.
Qed.

End ChatOpen.

(** X23.  The opening of a chat turn.  On well-formed tables and with a
    clock past the time of every stored message, [chat] with the id of a
    stored conversation appends the user message to the history of that
    conversation; with no id, or an empty one, it creates a conversation
    whose history is this one message and whose title comes from it.  The
    other conversations keep their messages and the tables stay well
    formed.  An id that is not stored is answered with 404 and nothing is
    stored; when a drawn id is taken the store raises, no message is
    stored, and the tables stay well formed. *)
Theorem chat_open_outcome
    (conversation_id : option string)
    (message conversation_uuid conversation_now message_uuid message_now : string)
    (db : Storage.ConversationTables) :
  Spec.tables_wf db ->
  Spec.clock_after message_now db ->
  match Main.chat_open conversation_id message conversation_uuid
                       conversation_now message_uuid message_now db with
  | (Py.Ok (id, stored), db') =>
      stored = {| Storage.msg_id := message_uuid; Storage.msg_role := "user";
                  Storage.msg_content := message;
                  Storage.msg_created_at := message_now |}
      /\ Storage.ensure_conversation id db' = true
      /\ Storage.get_messages id db' = Storage.get_messages id db ++ [stored]
      /\ (forall other, other <> id ->
            Storage.get_messages other db' = Storage.get_messages other db)
      /\ Spec.tables_wf db'
      /\ if Py.truthy (default "" conversation_id)
         then conversation_id = Some id
              /\ Storage.ensure_conversation id db = true
         else id = conversation_uuid
              /\ Storage.ensure_conversation id db = false
              /\ Storage.get_messages id db' = [stored]
              /\ Spec.title_of id db' = Some (Spec.title_of_message message)
  | (Py.Raise e, db') =>
      Storage.messages db' = Storage.messages db
      /\ Spec.tables_wf db'
      /\ (e = Py.HTTPException 404 "Conversation not found"
          /\ db' = db
          /\ Storage.ensure_conversation (default "" conversation_id) db = false
          \/ e = Py.IntegrityError "UNIQUE constraint failed: conversations.id"
             /\ db' = db
             /\ conversation_uuid ∈ map Storage.cv_id (Storage.conversations db)
          \/ e = Py.IntegrityError "UNIQUE constraint failed: messages.id"
             /\ message_uuid ∈ map Storage.mr_id (Storage.messages db))
  | (Py.OutOfFuel, _) => False
  end.
Proof.
  intros Hwf Hclock. unfold Main.chat_open.
  destruct (Py.truthy (default "" conversation_id)) eqn:Hgiven.
  - (* the conversation of the request *)
    assert (Hid : conversation_id = Some (default "" conversation_id))
      by (destruct conversation_id; [reflexivity | discriminate]).
    set (id := default "" conversation_id) in *.
    destruct (Storage.ensure_conversation id db) eqn:Hstored.
    + pose proof (chat_turn_outcome message message_uuid message_now id db
                    Hstored Hclock Hwf) as Hturn.
      erewrite M_bind_run
        by (unfold mbind, M_mbind, M_bind, M_get; rewrite Hstored; reflexivity).
      cbv beta. revert Hturn.
      match goal with
      | |- match ?run with _ => _ end -> _ =>
          destruct run as [[[id' stored]|e|] db']; intros Hturn; [| |done]
      end.
      * destruct Hturn as (-> & Hs & He & Hown & Hothers & Hwf' & _).
        by repeat (split; [assumption|]).
      * destruct Hturn as (-> & -> & Hin).
        split; [reflexivity|]. split; [exact Hwf|]. right. right. by split.
    + erewrite M_bind_Raise
        by (unfold mbind, M_mbind, M_bind, M_get; rewrite Hstored; reflexivity).
      split; [reflexivity|]. split; [exact Hwf|]. left. by repeat split.
  - (* a new conversation *)
    destruct (Storage.create_conversation None conversation_uuid
                                          conversation_now db)
      as [r db1] eqn:Hcreate.
    pose proof (keeps_wf_create_conversation _ _ _ _ _ _ Hcreate Hwf) as Hwf1.
    pose proof Hcreate as Hshape. unfold Storage.create_conversation in Hshape.
    destruct (existsb _ (Storage.conversations db)) eqn:Htaken;
      injection Hshape as <- Hdb1.
    { erewrite M_bind_Raise
        by (erewrite M_bind_Raise by exact Hcreate; reflexivity).
      subst db1. split; [reflexivity|]. split; [exact Hwf|]. right. left.
      split; [reflexivity|]. split; [reflexivity|].
      by apply existsb_eqb_elem_of. }
    erewrite M_bind_run
      by (erewrite M_bind_run by exact Hcreate; reflexivity).
    cbn [fst].
    assert (Hmessages1 : Storage.messages db1 = Storage.messages db)
      by by subst db1.
    assert (Hstored1 : Storage.ensure_conversation conversation_uuid db1 = true).
    { subst db1. unfold Storage.ensure_conversation.
      cbn [Storage.conversations Storage.with_conversations].
      rewrite existsb_app. cbn [existsb Storage.cv_id].
      rewrite String.eqb_refl. apply orb_true_iff. right. reflexivity. }
    assert (Hclock1 : Spec.clock_after message_now db1)
      by (unfold Spec.clock_after; by rewrite Hmessages1).
    assert (Hnone : List.filter
                      (fun m => String.eqb (Storage.mr_conversation_id m)
                                           conversation_uuid)
                      (Storage.messages db) = []).
    { destruct Hwf as (_ & _ & Href & _).
      destruct (List.filter _ _) as [|m l] eqn:Hfilter; [reflexivity|].
      assert (Hm : In m (List.filter
                           (fun m => String.eqb (Storage.mr_conversation_id m)
                                                conversation_uuid)
                           (Storage.messages db)))
        by (rewrite Hfilter; by left).
      apply filter_In in Hm as [Hm Hconv]. apply String.eqb_eq in Hconv.
      apply list_elem_of_In, Href in Hm. rewrite Hconv in Hm.
      unfold Storage.ensure_conversation in Hm. congruence. }
    pose proof (chat_turn_outcome message message_uuid message_now
                  conversation_uuid db1 Hstored1 Hclock1 Hwf1) as Hturn.
    cbv beta. revert Hturn.
    match goal with
    | |- match ?run with _ => _ end -> _ =>
        destruct run as [[[id' stored]|e|] db']; intros Hturn; [| |done]
    end.
    + destruct Hturn as (-> & Hs & He & Hown & Hothers & Hwf' & Htitle).
      assert (Hbefore : Storage.get_messages conversation_uuid db = []).
      { unfold Storage.get_messages. by rewrite Hnone. }
      rewrite (get_messages_same _ db db1 Hmessages1) in Hown.
      split; [exact Hs|]. split; [exact He|]. split; [exact Hown|].
      split.
      { intros other Hother. rewrite (Hothers other Hother).
        by apply get_messages_same. }
      split; [exact Hwf'|]. split; [reflexivity|].
      split; [exact Htaken|].
      split; [by rewrite Hown, Hbefore|].
      rewrite Htitle.
      rewrite (message_count_same _ db db1 Hmessages1).
      unfold Storage.message_count. rewrite Hnone. cbn [length Z.of_nat Z.eqb].
      subst db1. unfold Spec.title_of.
      cbn [Storage.conversations Storage.with_conversations].
      rewrite find_app.
      rewrite (existsb_find_none Storage.cv_id _ _ Htaken).
      cbn [List.find Storage.cv_id]. by rewrite String.eqb_refl.
    + destruct Hturn as (-> & -> & Hin). rewrite Hmessages1 in Hin.
      split; [exact Hmessages1|]. split; [exact Hwf1|]. right. right.
      by split.
Qed.

Lemma chat_open_outcome_witness :
  exists stored db',
    Main.chat_open None "  Plan a trip  " "c2" "2024-01-02T00:00:00"
                   "m3" "2024-01-02T00:00:00" Examples.chat_tables
    = (Py.Ok ("c2", stored), db')
    /\ Storage.get_messages "c2" db' = [stored]
    /\ Spec.title_of "c2" db' = Some "Plan a trip".
Proof.
  pose proof (chat_open_outcome
                None "  Plan a trip  " "c2" "2024-01-02T00:00:00"
                "m3" "2024-01-02T00:00:00" Examples.chat_tables) as H.
  destruct (Main.chat_open None "  Plan a trip  " "c2" "2024-01-02T00:00:00"
                           "m3" "2024-01-02T00:00:00" Examples.chat_tables)
    as [[[id stored]| |] db'] eqn:Hrun; try discriminate Hrun.
  destruct H as (_ & _ & _ & _ & _ & Hnew).
  - split; [|split; [|split]]; cbn.
    + apply NoDup_singleton.
    + apply NoDup_cons. split; [|apply NoDup_singleton].
      by intros [=]%list_elem_of_singleton.
    + intros m [->|[->|[]%elem_of_nil]%elem_of_cons]%elem_of_cons; reflexivity.
    + intros r [->|[]%elem_of_nil]%elem_of_cons. discriminate.
  - repeat constructor.
  - cbn in Hnew. destruct Hnew as (-> & _ & Hhistory & Htitle).
    exists stored, db'. split; [reflexivity|]. split; [exact Hhistory|].
    exact Htitle.
Defined.

Section RecentRows.

Lemma Sorted_take {A : Type} (R : A -> A -> Prop) (n : nat) (l : list A) :
  Sorted R l -> Sorted R (take n l).
Proof.
  intros Hl. revert n.
  induction Hl as [|x l Hl IH Hx]; intros [|n]; cbn [take firstn];
    try constructor.
  - apply IH.
  - destruct Hx as [|y l Hxy]; destruct n; cbn [take firstn]; by constructor.
Qed.

Lemma Sorted_map {A B : Type} (f : A -> B) (R : A -> A -> Prop)
    (R' : B -> B -> Prop) (l : list A) :
  (forall a b, R a b -> R' (f a) (f b)) ->
  Sorted R l -> Sorted R' (map f l).
Proof.
  intros Hf. induction 1 as [|x l Hl IH Hx]; cbn [map]; constructor.
  - exact IH.
  - destruct Hx; cbn [map]; constructor. by apply Hf.
Qed.

End RecentRows.

(** X24.  The recent exchanges.  For every requested limit, also one
    that is negative, zero or too large for SQLite, the endpoint returns
    rows and does not raise: as many as there are stored exchanges, but
    at most the limit clamped to 1..50, the newest first, each the image
    of a stored exchange, and none with compaction metrics. *)
Theorem recent_performance_outcome
    (limit : Z) (db : Storage.ConversationTables) :
  exists rows,
    Main.recent_performance limit db = Py.Ok rows
    /\ length rows
       = Nat.min (Z.to_nat (Z.max 1 (Z.min limit 50)))
                 (length (Storage.performance_exchanges db))
    /\ (length rows <= 50)%nat
    /\ (Storage.performance_exchanges db <> [] -> rows <> [])
    /\ Sorted (fun a b => String.leb (Models.px_created_at b)
                                     (Models.px_created_at a) = true) rows
    /\ forall row, row ∈ rows ->
         Models.context_compaction (Models.metrics row) = None
         /\ exists e, e ∈ Storage.performance_exchanges db
                      /\ row = Main.to_performance_exchange e.
Proof.
  unfold Main.recent_performance, Storage.list_recent_performance_exchanges.
  cbv zeta.
  set (safe_limit := Z.max 1 (Z.min limit 50)).
  assert (Hsafe : 1 <= safe_limit <= 50) by lia.
  destruct (Z.ltb_spec safe_limit (- 2 ^ 63)) as [Hlow|_]; [lia|].
  destruct (Z.leb_spec (2 ^ 63) safe_limit) as [Hhigh|_]; [lia|].
  destruct (Z.ltb_spec safe_limit 0) as [Hneg|_]; [lia|].
  cbn [orb mbind result_bind Py.bind mret result_ret].
  set (sorted := Storage.order_by _ (Storage.performance_exchanges db)).
  assert (Hlength : length (take (Z.to_nat safe_limit) sorted)
                    = Nat.min (Z.to_nat safe_limit)
                              (length (Storage.performance_exchanges db))).
  { rewrite length_take. subst sorted. by rewrite order_by_length. }
  eexists. split; [reflexivity|].
  rewrite length_map.
  split; [exact Hlength|]. split; [lia|].
  split.
  { intros Hstored Hrows. apply map_eq_nil in Hrows.
    apply (f_equal length) in Hrows. rewrite Hlength in Hrows.
    destruct (Storage.performance_exchanges db); [done|]. cbn in Hrows. lia. }
  split.
  { apply (Sorted_map _ (fun a b => String.leb (Storage.pe_created_at b)
                                               (Storage.pe_created_at a) = true));
      [auto|].
    apply Sorted_take. subst sorted.
    apply (order_by_sorted
             (fun a b => String.leb (Storage.pe_created_at b)
                                    (Storage.pe_created_at a))).
    intros a b. apply String.leb_total. }
  intros row (e & -> & He)%list_elem_of_fmap. split; [reflexivity|].
  exists e. split; [|reflexivity].
  assert (Hsorted : e ∈ sorted).
  { rewrite <- (take_drop (Z.to_nat safe_limit) sorted).
    apply elem_of_app. by left. }
  subst sorted. by rewrite order_by_perm in Hsorted.
Qed.

(** ** The listing and the creation of prompt profiles *)

Section PromptListing.

Variable env : Main.Env.

Lemma lstrip_length (s : string) :
  (String.length (Py.lstrip s) <= String.length s)%nat.
Proof.
  induction s as [|c s IH]; cbn [Py.lstrip String.length]; [lia|].
  destruct (Py.isspace c); cbn [String.length]; lia.
Qed.

Lemma rstrip_length (s : string) :
  (String.length (Py.rstrip s) <= String.length s)%nat.
Proof.
  induction s as [|c s IH]; cbn [Py.rstrip String.length]; [lia|].
  destruct (Py.rstrip s) as [|d r].
  - destruct (Py.isspace c); cbn [String.length]; lia.
  - cbn [String.length] in *. lia.
Qed.

Lemma strip_length (s : string) :
  (String.length (Py.strip s) <= String.length s)%nat.
Proof.
  unfold Py.strip. pose proof (rstrip_length (Py.lstrip s)).
  pose proof (lstrip_length s). lia.
Qed.

End PromptListing.

(** X25.  The listed components are never custom.  When the endpoint
    that lists the prompt components answers, it lists the default
    components, in their order and with their contents and flags, and
    marks none of them as custom; when a default component has an
    override in the active profile it raises instead of listing it. *)
Theorem listed_components_are_never_custom (env : Main.Env) (a : Main.App) :
  match Main.get_prompt_components env a with
  | (Py.Ok items, a') =>
      map Models.pc_id items = map Prompts.id (Main.load_prompt_components env)
      /\ map Models.pc_content items
         = map Prompts.content (Main.load_prompt_components env)
      /\ map Models.pc_order items
         = map Prompts.order (Main.load_prompt_components env)
      /\ map Models.pc_enabled items
         = map Prompts.enabled (Main.load_prompt_components env)
      /\ Forall (fun item => Models.pc_is_custom item = false) items
      /\ Main._baseline_jobs a' = Main._baseline_jobs a
  | (Py.Raise e, _) =>
      e = Py.TypeError "__init__() missing required argument"
      \/ exists msg, e = Py.IntegrityError msg
  | (Py.OutOfFuel, _) => False
  end.
Proof.
  pose proof (effective_prompt_outcome env a) as Hout.
  unfold Main.effective_prompt in Hout. unfold Main.get_prompt_components.
  destruct (Main._effective_prompt_components env a)
    as [[[profile merged]|e|] a'] eqn:Heff.
  - rewrite (M_bind_run _ _ _ _ _ Heff) in Hout.
    rewrite (M_bind_run _ _ _ _ _ Heff).
    destruct (effective_components_Ok env a profile merged a' Heff)
      as (-> & Hnone & _).
    cbn in Hout. destruct Hout as (_ & Hjobs & _).
    unfold mbind, M_mbind, M_bind, M_get, mret, M_mret, M_ret.
    rewrite !map_map. cbn [Models.pc_id Models.pc_content Models.pc_order
                           Models.pc_enabled].
    do 4 (split; [reflexivity|]). split; [|exact Hjobs].
    apply Forall_forall. intros item (c & -> & Hc)%list_elem_of_fmap.
    cbn [Models.pc_is_custom]. by rewrite (Hnone c Hc).
  - rewrite (M_bind_Raise _ _ _ _ _ Heff) in Hout.
    by rewrite (M_bind_Raise _ _ _ _ _ Heff).
  - rewrite (M_bind_OutOfFuel _ _ _ _ Heff) in Hout. done.
Qed.

(** X26.  Creating a prompt profile.  The endpoint rejects a name of no
    or of more than 64 characters and then changes nothing.  Otherwise
    it appends one row for the tenant, neither active nor default, under
    a fresh id and with the stripped name, which has at most 64
    characters and is empty when the name was blank; the rows that were
    there are kept as they are.  When the drawn id is taken the insert
    raises and the table is unchanged. *)
Theorem create_prompt_profile_outcome
    (env : Main.Env) (name : string) (a : Main.App) :
  match Main.create_prompt_profile env name a with
  | (Py.Ok response, a') =>
      1 <= Py.len name <= 64
      /\ Models.pp_name response = Py.strip name
      /\ Py.len (Models.pp_name response) <= 64
      /\ Models.pp_is_active response = false
      /\ Models.pp_is_default response = false
      /\ (Models.pp_id response
          ∉ map Storage.pr_id (Storage.prompt_profiles (Main.store a)))
      /\ Storage.prompt_profiles (Main.store a')
         = Storage.prompt_profiles (Main.store a)
           ++ [ {| Storage.pr_id := Models.pp_id response;
                   Storage.pr_tenant_id := Main._tenant_id env;
                   Storage.pr_name := Py.strip name;
                   Storage.pr_is_default := false;
                   Storage.pr_is_active := false;
                   Storage.pr_created_at := Main.utc_now env (S (Main.tick a));
                   Storage.pr_updated_at := Main.utc_now env (S (Main.tick a)) |} ]
      /\ Storage.prompt_component_overrides (Main.store a')
         = Storage.prompt_component_overrides (Main.store a)
  | (Py.Raise e, a') =>
      Main.store a' = Main.store a
      /\ ((e = Py.RequestValidationError "name"
           /\ (Py.len name < 1 \/ 64 < Py.len name) /\ a' = a)
          \/ (e = Py.IntegrityError "UNIQUE constraint failed: prompt_profiles.id"
              /\ 1 <= Py.len name <= 64
              /\ Main.uuid4 env (Main.tick a)
                 ∈ map Storage.pr_id (Storage.prompt_profiles (Main.store a))))
  | (Py.OutOfFuel, _) => False
  end.
Proof.
  unfold Main.create_prompt_profile, Models.PromptProfileCreateRequest_validate.
  destruct (Z.ltb_spec (Py.len name) 1) as [Hshort|Hshort]; cbn [orb].
  { erewrite M_bind_Raise by reflexivity.
    split; [reflexivity|]. left. auto. }
  destruct (Z.ltb_spec 64 (Py.len name)) as [Hlong|Hlong].
  { erewrite M_bind_Raise by reflexivity.
    split; [reflexivity|]. left. auto. }
  erewrite M_bind_run by reflexivity.
  unfold mbind, M_mbind, M_bind. rewrite store_call_run.
  unfold Storage.create_prompt_profile, Storage.insert_profile.
  cbn [Storage.pr_id].
  destruct (existsb _ (Storage.prompt_profiles (Main.store a))) eqn:Htaken.
  { cbn [Main.store]. split; [reflexivity|]. right.
    split; [reflexivity|]. split; [lia|].
    apply existsb_exists in Htaken as (row & Hrow & Hid).
    apply String.eqb_eq in Hid. rewrite <- Hid.
    apply list_elem_of_fmap. exists row.
    split; [reflexivity | by apply list_elem_of_In]. }
  cbn [mret M_mret M_ret Models.pp_name Models.pp_id Models.pp_is_active
       Models.pp_is_default Storage.id Storage.name Storage.is_active
       Storage.is_default Main.store Storage.prompt_profiles
       Storage.with_profiles Storage.prompt_component_overrides].
  split; [lia|]. split; [reflexivity|].
  split.
  { pose proof (strip_length name). unfold Py.len in *. lia. }
  do 2 (split; [reflexivity|]).
  split; [|split; reflexivity].
  intros (row & Hid & Hrow)%list_elem_of_fmap.
  assert (Hex : existsb (fun r' => String.eqb (Storage.pr_id r')
                                     (Main.uuid4 env (Main.tick a)))
                        (Storage.prompt_profiles (Main.store a)) = true).
  { apply existsb_exists. exists row.
    split; [by apply list_elem_of_In | by apply String.eqb_eq]. }
  congruence.
Qed.
